(** * Witness-testimony prep demo: usage limits, ledger, classification and
      LLM-response parsing, verified over a shallow embedding of the
      TypeScript sources.

    Conventions of the embedding.
    - A JavaScript string is the list of its UTF-16 code units ([jsstring]).
      String literals of the sources are written [js "..."].
    - A JavaScript number is an exact decimal [m * 10^e] or [NaN]
      ([number]).  Sums and products are exact: the rounding and the range
      of IEEE doubles are not modelled there, so the model and the engine
      agree on decimals of at most 15 significant digits inside the double
      range.  The quotient printed in the file-size messages is the
      decimal the engine prints for the double ([Num.ofDyadic]).
    - An instant is a time value, the number of milliseconds since the
      epoch ([Z]); an invalid date has none.  [UsageStorage] reads the
      clock at each [new Date()] and takes the time zone and the date
      formats of the engine from a [Host].  The components are followed in
      a browser of the [plain] host whose clock stands still while a
      callback runs ([Usage]).
    - [localStorage] is a record with one field per key family; its reads
      and writes succeed.
    - A [try]/[catch] is an [option] (or a two-constructor result) matched at
      the place of the [catch]; an exception that leaves a function is the
      [Throw] of its [result]. *)

From Stdlib Require Import ZArith NArith Ascii String Lia Bool.
From Stdlib Require Import DecimalString.
From Stdlib Require DecimalN DecimalFacts.
From stdpp Require Import gmap list.

Local Open Scope Z_scope.
#[local] Set Warnings "-register-all".

(* ===================================================================== *)
(** ** Strings as sequences of UTF-16 code units                          *)
(* ===================================================================== *)

Module Str.

Definition jsstring := list N.

(** The literal [s] of the sources (ASCII). *)
Definition js (s : string) : jsstring :=
  List.map N_of_ascii (list_ascii_of_string s).

Definition eqb (a b : jsstring) : bool :=
  if decide (a = b) then true else false.

(** [WhiteSpace] and [LineTerminator] of ECMAScript: what [trim()] strips
    and what [\s] matches. *)
Definition isSpace (c : N) : bool :=
  ((9 <=? c) && (c <=? 13) || (c =? 32) || (c =? 160) || (c =? 5760)
   || (8192 <=? c) && (c <=? 8202) || (c =? 8232) || (c =? 8233)
   || (c =? 8239) || (c =? 8287) || (c =? 12288) || (c =? 65279))%N.

Fixpoint dropWhile (p : N -> bool) (s : jsstring) : jsstring :=
  match s with
  | [] => []
  | c :: r => if p c then dropWhile p r else s
  end.

Definition trimStart (s : jsstring) : jsstring := dropWhile isSpace s.
Definition trimEnd (s : jsstring) : jsstring :=
  rev (dropWhile isSpace (rev s)).
(** [s.trim()] *)
Definition trim (s : jsstring) : jsstring := trimEnd (trimStart s).

(** ASCII letters only: [toLowerCase] on the code units below 128.  Code
    units from 128 on are left as they are. *)
Definition lowerChar (c : N) : N :=
  if ((65 <=? c) && (c <=? 90))%N then (c + 32)%N else c.
Definition toLowerCase (s : jsstring) : jsstring := List.map lowerChar s.

Fixpoint startsWith (p s : jsstring) : bool :=
  match p, s with
  | [], _ => true
  | a :: p', b :: s' => (a =? b)%N && startsWith p' s'
  | _ :: _, [] => false
  end.

(** Case-insensitive prefix test, as a literal under the [i] flag. *)
Definition startsWithCI (p s : jsstring) : bool :=
  startsWith (toLowerCase p) (toLowerCase (take (length p) s)).

(** [s.includes(p)] *)
Fixpoint includes (s p : jsstring) : bool :=
  startsWith p s ||
  match s with
  | [] => false
  | _ :: r => includes r p
  end.

(** [s.indexOf(c)] for a one-character [c]; [None] is [-1]. *)
Fixpoint indexOf (c : N) (s : jsstring) : option nat :=
  match s with
  | [] => None
  | d :: r => if (d =? c)%N then Some O else S <$> indexOf c r
  end.

(** [s.lastIndexOf(c)] for a one-character [c]; [None] is [-1]. *)
Fixpoint lastIndexOf (c : N) (s : jsstring) : option nat :=
  match s with
  | [] => None
  | d :: r =>
      match lastIndexOf c r with
      | Some i => Some (S i)
      | None => if (d =? c)%N then Some O else None
      end
  end.

(** [s.substring(a, b)] for [a <= b]. *)
Definition substring (a b : nat) (s : jsstring) : jsstring :=
  take (b - a) (drop a s).

Definition isDigit (c : N) : bool := ((48 <=? c) && (c <=? 57))%N.

(** [items.join(sep)] *)
Fixpoint join (sep : jsstring) (items : list jsstring) : jsstring :=
  match items with
  | [] => []
  | [x] => x
  | x :: r => x ++ sep ++ join sep r
  end.

End Str.
Export Str.

(* ===================================================================== *)
(** ** Numbers                                                            *)
(* ===================================================================== *)

Module Num.

(** [Dec m e] is [m * 10^e]; [mkDec] keeps [m] free of trailing zeros, so
    that equal numbers are equal terms. *)
Inductive number := Dec (m e : Z) | NaN.

Fixpoint strip10 (fuel : nat) (m e : Z) : Z * Z :=
  match fuel with
  | O => (m, e)
  | S f => if (m mod 10 =? 0) then strip10 f (m / 10) (e + 1) else (m, e)
  end.

Definition mkDec (m e : Z) : number :=
  if m =? 0 then Dec 0 0
  else let '(m', e') := strip10 (Z.to_nat (Z.log2 (Z.abs m)) + 1) m e in
       Dec m' e'.

Definition ofZ (z : Z) : number := mkDec z 0.

Definition add (a b : number) : number :=
  match a, b with
  | Dec m1 e1, Dec m2 e2 =>
      let e := Z.min e1 e2 in
      mkDec (m1 * 10 ^ (e1 - e) + m2 * 10 ^ (e2 - e)) e
  | _, _ => NaN
  end.

Definition mul (a b : number) : number :=
  match a, b with
  | Dec m1 e1, Dec m2 e2 => mkDec (m1 * m2) (e1 + e2)
  | _, _ => NaN
  end.

(** [a / 1000] *)
Definition div1000 (a : number) : number :=
  match a with
  | Dec m e => mkDec m (e - 3)
  | NaN => NaN
  end.

(** [a > b]; any comparison with [NaN] is false. *)
Definition gtb (a b : number) : bool :=
  match a, b with
  | Dec m1 e1, Dec m2 e2 =>
      let e := Z.min e1 e2 in
      m2 * 10 ^ (e2 - e) <? m1 * 10 ^ (e1 - e)
  | _, _ => false
  end.

Definition isZero (a : number) : bool :=
  match a with
  | Dec m _ => m =? 0
  | NaN => false
  end.

Definition digitsOf (m : Z) : jsstring :=
  js (NilZero.string_of_uint (N.to_uint (Z.to_N (Z.abs m)))).

Definition zeros (n : Z) : jsstring := repeat 48%N (Z.to_nat n).

(** [Number::toString] of ECMAScript, radix 10. *)
Definition toString (a : number) : jsstring :=
  match a with
  | NaN => js "NaN"
  | Dec m e =>
      if m =? 0 then js "0"
      else
        let s := digitsOf m in
        let k := Z.of_nat (length s) in
        let n := k + e in
        let body :=
          if (k <=? n) && (n <=? 21) then s ++ zeros (n - k)
          else if (0 <? n) && (n <=? 21) then
            take (Z.to_nat n) s ++ js "." ++ drop (Z.to_nat n) s
          else if (-6 <? n) && (n <=? 0) then js "0." ++ zeros (- n) ++ s
          else
            let ex := n - 1 in
            let sign := if 0 <=? ex then js "+" else js "-" in
            let mant := if k =? 1 then s
                        else take 1 s ++ js "." ++ drop 1 s in
            mant ++ js "e" ++ sign ++ digitsOf ex
        in
        if m <? 0 then js "-" ++ body else body
  end.

(** *** The decimal of a double *)

(** The integer [a] rounded to 53 significant bits, ties to the even
    mantissa: the double nearest to [a]. *)
Definition round53 (a : Z) : Z :=
  let n := Z.abs a in
  let l := Z.log2 n + 1 in
  if l <=? 53 then a
  else
    let sh := l - 53 in
    let q := n / 2 ^ sh in
    let r := n mod 2 ^ sh in
    let half := 2 ^ (sh - 1) in
    let q' := if (half <? r) || ((r =? half) && Z.odd q) then q + 1
              else q in
    Z.sgn a * (q' * 2 ^ sh).

(** The decimal exponent [n] of [V / 2^D]: [10^(n-1) <= V / 2^D < 10^n];
    the search starts at [n] and goes down. *)
Fixpoint decimalExponent (fuel : nat) (n V D : Z) : Z :=
  match fuel with
  | O => n
  | S f =>
      let below := if 0 <=? n - 1 then 10 ^ (n - 1) * 2 ^ D <=? V
                   else 2 ^ D <=? V * 10 ^ (1 - n) in
      if below then n else decimalExponent f (n - 1) V D
  end.

(** With [d] digits and then more: the decimal nearest to [V / 2^D] whose
    last digit is at [10^(n - d)], if it reads back as the double, that is
    if it lies within [low / 2^D] below and [up / 2^D] above (at the very
    bound when [even]). *)
Fixpoint shortestFrom (fuel : nat) (d n V D low up : Z) (even : bool)
  : Z * Z :=
  let p := n - d in
  let T := if 0 <=? p then 1 else 10 ^ (- p) in
  let U := if 0 <=? p then 10 ^ p * 2 ^ D else 2 ^ D in
  let s1 := V * T / U in
  let s2 := s1 + 1 in
  let inside s :=
    let C := s * U in
    ((((V - low) * T <? C) && (C <? (V + up) * T))
     || (even && ((C =? (V - low) * T) || (C =? (V + up) * T)))) in
  let d1 := V * T - s1 * U in
  let d2 := s2 * U - V * T in
  let pick :=
    if inside s1 && inside s2 then
      if d1 <? d2 then Some s1
      else if d2 <? d1 then Some s2
      else Some (if Z.even s1 then s1 else s2)
    else if inside s1 then Some s1
    else if inside s2 then Some s2
    else None in
  match pick, fuel with
  | Some s, _ => (s, p)
  | None, O => (s1, p)
  | None, S f => shortestFrom f (d + 1) n V D low up even
  end.

(** The number the engine holds for [a / 2^k] ([a] an integer of at most
    1024 bits, [0 <= k]), as the decimal [Number::toString] prints: the one
    of fewest digits that reads back as that double, the nearest to it
    among those, the even one of two. *)
Definition ofDyadic (a k : Z) : number :=
  let n := Z.abs (round53 a) in
  if n =? 0 then Dec 0 0
  else
    let l := Z.log2 n + 1 in
    let M := if l <=? 53 then n * 2 ^ (53 - l) else n / 2 ^ (l - 53) in
    let E := l - 53 - k in
    let D := Z.max 0 (2 - E) in
    let V := M * 2 ^ (E + D) in
    let up := 2 ^ (E - 1 + D) in
    let low := if M =? 2 ^ 52 then 2 ^ (E - 2 + D) else up in
    let n10 := decimalExponent 700 (Z.log2 (V / 2 ^ D + 1) + 1) V D in
    let '(s, p) := shortestFrom 17 1 n10 V D low up (Z.even M) in
    mkDec (if a <? 0 then - s else s) p.

Fixpoint span (p : N -> bool) (s : jsstring) : jsstring * jsstring :=
  match s with
  | [] => ([], [])
  | c :: r => if p c then let '(a, b) := span p r in (c :: a, b)
              else ([], s)
  end.

Definition digitsVal (ds : jsstring) : Z :=
  fold_left (fun a c => 10 * a + (Z.of_N c - 48)) ds 0.

(** The number denoted by a lexeme of the JSON grammar: an optional
    minus sign, an integer part (a single 0, or digits not starting with
    0), an optional fraction (a dot and one digit or more), an optional
    exponent (e or E, an optional sign, one digit or more).  [None] when
    the lexeme is not of that form. *)
Definition ofLexeme (s : jsstring) : option number :=
  let '(neg, s1) := match s with
                    | 45%N :: r => (true, r)
                    | _ => (false, s)
                    end in
  let '(ip, s2) := span isDigit s1 in
  match ip with
  | [] => None
  | d :: ip' =>
      if (d =? 48)%N && negb (bool_decide (ip' = [])) then None
      else
        let '(fp, s3) := match s2 with
                         | 46%N :: r => let '(f, r') := span isDigit r in
                                        (Some f, r')
                         | _ => (None, s2)
                         end in
        match fp with
        | Some [] => None
        | _ =>
            let frac := default [] fp in
            let ex :=
              match s3 with
              | [] => Some 0
              | c :: r =>
                  if (c =? 101)%N || (c =? 69)%N then
                    let '(eneg, r1) :=
                      match r with
                      | 45%N :: r' => (true, r')
                      | 43%N :: r' => (false, r')
                      | _ => (false, r)
                      end in
                    let '(ed, r2) := span isDigit r1 in
                    match ed, r2 with
                    | _ :: _, [] =>
                        Some (if eneg then - digitsVal ed else digitsVal ed)
                    | _, _ => None
                    end
                  else None
              end in
            match ex with
            | None => None
            | Some x =>
                let m := digitsVal (ip ++ frac) in
                Some (mkDec (if neg then - m else m)
                            (x - Z.of_nat (length frac)))
            end
        end
  end.

End Num.
Export Num.

(* ===================================================================== *)
(** ** JavaScript values and JSON                                         *)
(* ===================================================================== *)

Module Json.

(** The values [JSON.parse] can return, and [undefined].  An object is the
    list of its properties in insertion order, without duplicate keys. *)
Inductive value :=
| VUndefined
| VNull
| VBool (b : bool)
| VNum (n : number)
| VStr (s : jsstring)
| VArr (items : list value)
| VObj (fields : list (jsstring * value)).

(** [String(v)] *)
Fixpoint ToString (v : value) : jsstring :=
  match v with
  | VUndefined => js "undefined"
  | VNull => js "null"
  | VBool true => js "true"
  | VBool false => js "false"
  | VNum n => Num.toString n
  | VStr s => s
  | VArr items =>
      join (js ",")
        (List.map (fun x => match x with
                            | VUndefined | VNull => []
                            | _ => ToString x
                            end) items)
  | VObj _ => js "[object Object]"
  end.

(** [ToBoolean]: what [v || d] and [v ? a : b] test. *)
Definition truthy (v : value) : bool :=
  match v with
  | VUndefined | VNull => false
  | VBool b => b
  | VNum NaN => false
  | VNum n => negb (Num.isZero n)
  | VStr s => negb (bool_decide (s = []))
  | VArr _ | VObj _ => true
  end.

(** [a || b] *)
Definition or_else (a b : value) : value := if truthy a then a else b.

Fixpoint lookup_field (k : jsstring) (fs : list (jsstring * value))
  : option value :=
  match fs with
  | [] => None
  | (k', v) :: r => if Str.eqb k k' then Some v else lookup_field k r
  end.

(** [v.k] for a property name [k] that no prototype defines: [None] is the
    [TypeError] of reading a property of [null] or [undefined]. *)
Definition prop (v : value) (k : jsstring) : option value :=
  match v with
  | VUndefined | VNull => None
  | VObj fs => Some (default VUndefined (lookup_field k fs))
  | _ => Some VUndefined
  end.

(** [Array.isArray(v)] *)
Definition isArray (v : value) : bool :=
  match v with VArr _ => true | _ => false end.

(** Assignment of a property: the key keeps its place when present. *)
Fixpoint set_field (k : jsstring) (v : value) (fs : list (jsstring * value))
  : list (jsstring * value) :=
  match fs with
  | [] => [(k, v)]
  | (k', v') :: r => if Str.eqb k k' then (k, v) :: r
                     else (k', v') :: set_field k v r
  end.

(** *** Lexer: a state machine over the code units *)

Inductive token :=
| TLBrace | TRBrace | TLBrack | TRBrack | TColon | TComma
| TString (s : jsstring) | TNumber (n : number)
| TTrue | TFalse | TNull.

(** Accumulators hold the characters read so far, last one first. *)
Inductive lstate :=
| LDefault
| LStr (acc : jsstring)
| LEsc (acc : jsstring)
| LUni (acc : jsstring) (hex : list N)
| LNum (acc : jsstring)
| LWord (acc : jsstring).

(** The four characters JSON allows between tokens. *)
Definition isJsonSpace (c : N) : bool :=
  ((c =? 9) || (c =? 10) || (c =? 13) || (c =? 32))%N.

Definition isNumChar (c : N) : bool :=
  (isDigit c || (c =? 45) || (c =? 43) || (c =? 46) || (c =? 101)
   || (c =? 69))%N.

Definition isLower (c : N) : bool := ((97 <=? c) && (c <=? 122))%N.

Definition hexVal (c : N) : option N :=
  if isDigit c then Some (c - 48)%N
  else if ((97 <=? c) && (c <=? 102))%N then Some (c - 87)%N
  else if ((65 <=? c) && (c <=? 70))%N then Some (c - 55)%N
  else None.

Definition wordToken (w : jsstring) : option token :=
  if Str.eqb w (js "true") then Some TTrue
  else if Str.eqb w (js "false") then Some TFalse
  else if Str.eqb w (js "null") then Some TNull
  else None.

(** A character read between tokens. *)
Definition default_step (out : list token) (c : N)
  : option (lstate * list token) :=
  if isJsonSpace c then Some (LDefault, out)
  else if (c =? 123)%N then Some (LDefault, TLBrace :: out)
  else if (c =? 125)%N then Some (LDefault, TRBrace :: out)
  else if (c =? 91)%N then Some (LDefault, TLBrack :: out)
  else if (c =? 93)%N then Some (LDefault, TRBrack :: out)
  else if (c =? 58)%N then Some (LDefault, TColon :: out)
  else if (c =? 44)%N then Some (LDefault, TComma :: out)
  else if (c =? 34)%N then Some (LStr [], out)
  else if (c =? 45)%N || isDigit c then Some (LNum [c], out)
  else if isLower c then Some (LWord [c], out)
  else None.

Definition lex_step (st : lstate) (out : list token) (c : N)
  : option (lstate * list token) :=
  match st with
  | LDefault => default_step out c
  | LStr acc =>
      if (c =? 34)%N then Some (LDefault, TString (rev acc) :: out)
      else if (c =? 92)%N then Some (LEsc acc, out)
      else if (c <? 32)%N then None
      else Some (LStr (c :: acc), out)
  | LEsc acc =>
      if (c =? 34)%N || (c =? 92)%N || (c =? 47)%N
      then Some (LStr (c :: acc), out)
      else if (c =? 98)%N then Some (LStr (8%N :: acc), out)
      else if (c =? 102)%N then Some (LStr (12%N :: acc), out)
      else if (c =? 110)%N then Some (LStr (10%N :: acc), out)
      else if (c =? 114)%N then Some (LStr (13%N :: acc), out)
      else if (c =? 116)%N then Some (LStr (9%N :: acc), out)
      else if (c =? 117)%N then Some (LUni acc [], out)
      else None
  | LUni acc hex =>
      match hexVal c with
      | None => None
      | Some h =>
          match hex with
          | [a; b; d] =>
              Some (LStr ((((a * 16 + b) * 16 + d) * 16 + h)%N :: acc), out)
          | _ => Some (LUni acc (hex ++ [h]), out)
          end
      end
  | LNum acc =>
      if isNumChar c then Some (LNum (c :: acc), out)
      else match Num.ofLexeme (rev acc) with
           | Some n => default_step (TNumber n :: out) c
           | None => None
           end
  | LWord acc =>
      if isLower c then Some (LWord (c :: acc), out)
      else match wordToken (rev acc) with
           | Some t => default_step (t :: out) c
           | None => None
           end
  end.

(** End of input. *)
Definition lex_finish (st : lstate) (out : list token)
  : option (list token) :=
  match st with
  | LDefault => Some (rev out)
  | LNum acc => (fun n => rev (TNumber n :: out)) <$> Num.ofLexeme (rev acc)
  | LWord acc => (fun t => rev (t :: out)) <$> wordToken (rev acc)
  | LStr _ | LEsc _ | LUni _ _ => None
  end.

Fixpoint lex_run (st : lstate) (out : list token) (s : jsstring)
  : option (lstate * list token) :=
  match s with
  | [] => Some (st, out)
  | c :: r =>
      match lex_step st out c with
      | Some (st', out') => lex_run st' out' r
      | None => None
      end
  end.

Definition lex (s : jsstring) : option (list token) :=
  match lex_run LDefault [] s with
  | Some (st, out) => lex_finish st out
  | None => None
  end.

(** *** Parser: recursive descent over the tokens *)

Fixpoint parse_value (fuel : nat) (ts : list token)
  : option (value * list token) :=
  match fuel with
  | O => None
  | S f =>
      match ts with
      | TNull :: r => Some (VNull, r)
      | TTrue :: r => Some (VBool true, r)
      | TFalse :: r => Some (VBool false, r)
      | TNumber n :: r => Some (VNum n, r)
      | TString s :: r => Some (VStr s, r)
      | TLBrack :: TRBrack :: r => Some (VArr [], r)
      | TLBrack :: r => parse_elements f [] r
      | TLBrace :: TRBrace :: r => Some (VObj [], r)
      | TLBrace :: r => parse_members f [] r
      | _ => None
      end
  end
with parse_elements (fuel : nat) (acc : list value) (ts : list token)
  : option (value * list token) :=
  match fuel with
  | O => None
  | S f =>
      match parse_value f ts with
      | Some (v, TComma :: r) => parse_elements f (v :: acc) r
      | Some (v, TRBrack :: r) => Some (VArr (rev (v :: acc)), r)
      | _ => None
      end
  end
with parse_members (fuel : nat) (acc : list (jsstring * value))
       (ts : list token) : option (value * list token) :=
  match fuel with
  | O => None
  | S f =>
      match ts with
      | TString k :: TColon :: r =>
          match parse_value f r with
          | Some (v, TComma :: r') => parse_members f (set_field k v acc) r'
          | Some (v, TRBrace :: r') => Some (VObj (set_field k v acc), r')
          | _ => None
          end
      | _ => None
      end
  end.

(** [JSON.parse(s)]; [None] is the [SyntaxError].  Every recursive call
    consumes a token every second step, so the fuel is never the reason
    for [None] (lemma [parse_fuel_enough]). *)
Definition parse (s : jsstring) : option value :=
  match lex s with
  | Some ts =>
      match parse_value (2 * length ts + 2) ts with
      | Some (v, []) => Some v
      | _ => None
      end
  | None => None
  end.

End Json.
Export Json.

(* ===================================================================== *)
(** ** lib/demo-limits/config.ts                                          *)
(* ===================================================================== *)

Module Config.

Record DemoLimits := {
  sessionHours : Z;
  sessionPriceLimit : number;
  pricePerThousandChars : number;
  maxDocumentsPerSession : Z;
  maxFileSize : Z
}.

(** The environment at process start.  A field is [None] when the variable
    is unset, empty, or not a number: the cases in which [parseEnvInt] and
    [parseEnvFloat] return the default. *)
Record Env := {
  DEMO_SESSION_HOURS : option Z;
  DEMO_SESSION_PRICE_LIMIT : option number;
  DEMO_MAX_DOCUMENTS_PER_SESSION : option Z;
  DEMO_MAX_FILE_SIZE : option Z
}.

Definition DEMO_LIMITS (env : Env) : DemoLimits := {|
  sessionHours := default 24 (DEMO_SESSION_HOURS env);
  sessionPriceLimit := default (Dec 5 0) (DEMO_SESSION_PRICE_LIMIT env);
  pricePerThousandChars := Dec 5 (-4);
  maxDocumentsPerSession :=
    default 20 (DEMO_MAX_DOCUMENTS_PER_SESSION env);
  maxFileSize := default (10 * 1024 * 1024) (DEMO_MAX_FILE_SIZE env)
|}.

(** The limits [l] with another session price limit. *)
Definition withPriceLimit (p : number) (l : DemoLimits) : DemoLimits := {|
  sessionHours := sessionHours l;
  sessionPriceLimit := p;
  pricePerThousandChars := pricePerThousandChars l;
  maxDocumentsPerSession := maxDocumentsPerSession l;
  maxFileSize := maxFileSize l
|}.

Definition noEnv : Env := {|
  DEMO_SESSION_HOURS := None;
  DEMO_SESSION_PRICE_LIMIT := None;
  DEMO_MAX_DOCUMENTS_PER_SESSION := None;
  DEMO_MAX_FILE_SIZE := None
|}.

End Config.
Export Config.

(* ===================================================================== *)
(** ** app/api/testimony/generate-questions/route.ts                      *)
(* ===================================================================== *)

Module GenerateQuestions.

(** *** parseJSONResponse *)

(** [Array.isArray(parsed)] after a [JSON.parse] that may have thrown. *)
Definition asArray (parsed : option value) : option (list value) :=
  match parsed with
  | Some (VArr items) => Some items
  | _ => None
  end.

(** [cleaned.replace(/^\uFEFF/, '')] *)
Definition stripBOM (s : jsstring) : jsstring :=
  match s with
  | 65279%N :: r => r
  | _ => s
  end.

(** The opening fence: three backticks, [json] in any case or nothing,
    then the longest run of white space.  The trailing optional newline of
    the expression never has anything left to match. *)
Definition stripOpeningFence (s : jsstring) : jsstring :=
  if startsWith (js "```") s then
    let r := drop 3 s in
    let r := if startsWithCI (js "json") r then drop 4 r else r in
    dropWhile isSpace r
  else s.

(** Does the closing-fence expression (an optional newline, three
    backticks, white space up to the end of the input) match at the head
    of [s]? *)
Definition closingFenceHere (s : jsstring) : bool :=
  (startsWith (10%N :: js "```") s && forallb isSpace (drop 4 s))
  || (startsWith (js "```") s && forallb isSpace (drop 3 s)).

(** [replace] removes the leftmost match, which runs to the end. *)
Fixpoint stripClosingFence (s : jsstring) : jsstring :=
  match s with
  | [] => []
  | c :: r => if closingFenceHere s then [] else c :: stripClosingFence r
  end.

Definition cleanAndParse (content : jsstring) : option value :=
  let cleaned := trim content in
  let cleaned := stripBOM cleaned in
  let cleaned := stripOpeningFence cleaned in
  let cleaned := stripClosingFence cleaned in
  let cleaned := trim cleaned in
  Json.parse cleaned.

(** Strategy 3.  After an opening brace, [lastClose r] is the length of
    the longest prefix of [r] that ends with a closing brace, white space
    and a closing bracket: the greedy middle of the expression gives back
    as little as it must. *)
Fixpoint lastClose (r : jsstring) : option nat :=
  match r with
  | [] => None
  | c :: r' =>
      match lastClose r' with
      | Some n => Some (S n)
      | None =>
          if (c =? 125)%N then
            match dropWhile isSpace r' with
            | 93%N :: t => Some (length r - length t)%nat
            | _ => None
            end
          else None
      end
  end.

Definition arrayMatchHere (s : jsstring) : option jsstring :=
  match s with
  | 91%N :: r =>
      match dropWhile isSpace r with
      | 123%N :: r2 =>
          (fun n => take (length s - length r2 + n)%nat s) <$> lastClose r2
      | _ => None
      end
  | _ => None
  end.

(** [content.match(...)]: the leftmost position where the expression
    matches. *)
Fixpoint arrayMatch (s : jsstring) : option jsstring :=
  match arrayMatchHere s with
  | Some m => Some m
  | None =>
      match s with
      | [] => None
      | _ :: r => arrayMatch r
      end
  end.

Definition extractAndParse (content : jsstring) : option value :=
  match arrayMatch content with
  | Some m => Json.parse m
  | None => None
  end.

Definition sliceAndParse (content : jsstring) : option value :=
  match indexOf 91%N content, lastIndexOf 93%N content with
  | Some firstBracket, Some lastBracket =>
      if (firstBracket <? lastBracket)%nat then
        Json.parse (substring firstBracket (lastBracket + 1) content)
      else None
  | _, _ => None
  end.

(** The four strategies in order; [None] is [null]. *)
Definition parseJSONResponse (content : jsstring) : option (list value) :=
  match asArray (Json.parse content) with
  | Some a => Some a
  | None =>
  match asArray (cleanAndParse content) with
  | Some a => Some a
  | None =>
  match asArray (extractAndParse content) with
  | Some a => Some a
  | None => asArray (sliceAndParse content)
  end end end.

(** *** The questions *)

Record CrossExamQuestion := {
  id : jsstring;
  question : jsstring;
  category : jsstring;
  difficulty : jsstring;
  suggestedApproach : option jsstring;
  weakPoint : option jsstring;
  followUpQuestions : option (list jsstring);
  documentReference : option jsstring
}.

Definition validCategories : list jsstring :=
  [js "timeline"; js "credibility"; js "inconsistency"; js "foundation";
   js "impeachment"; js "general"].

Definition validDifficulties : list jsstring :=
  [js "easy"; js "medium"; js "hard"].

Definition validateCategory (category : jsstring) : jsstring :=
  if existsb (Str.eqb category) validCategories then category
  else js "general".

Definition validateDifficulty (difficulty : jsstring) : jsstring :=
  if existsb (Str.eqb difficulty) validDifficulties then difficulty
  else js "medium".

(** A document of the request body. *)
Record RequestDocument := {
  doc_name : jsstring;
  doc_content : jsstring     (* [''] when absent *)
}.

(** The request body; a field that is absent reads as the empty string or
    the empty list, which the handler treats alike. *)
Record RequestBody := {
  witnessName : jsstring;
  caseName : jsstring;
  documents : list RequestDocument
}.

(** What [NextResponse.json] is given.  A property the object literal does
    not have is [None] (or [VUndefined]). *)
Record ResponseData := {
  r_error : option jsstring;
  r_limitReached : value;
  r_questions : option (list CrossExamQuestion);
  r_cost : option number;
  r_charsProcessed : option Z;
  r_usedFallback : option bool
}.

Record Response := {
  status : Z;
  data : ResponseData
}.

(** [response.ok] *)
Definition ok (r : Response) : bool :=
  (200 <=? status r) && (status r <=? 299).

Definition errorResponse (msg : string) (code : Z) : Response := {|
  status := code;
  data := {| r_error := Some (js msg); r_limitReached := VUndefined;
             r_questions := None; r_cost := None;
             r_charsProcessed := None; r_usedFallback := None |}
|}.

(** The outcome of [await chatCompletion(...)] followed by
    [response.choices?.[0]?.message?.content || '']: the call throws, or
    there is a content string, empty when the response has none. *)
Inductive Completion :=
| Throws
| Content (content : jsstring).

Section Handler.

Variable limits : DemoLimits.
(** The prompt text, a function of the witness name. *)
Variable getQuestionGenerationPrompt : jsstring -> jsstring.
(** The remote endpoint, as a function of the two messages sent. *)
Variable chatCompletion : jsstring -> jsstring -> Completion.
(** The identifiers [uuidv4()] returns, in the order of the calls. *)
Variable uuidv4 : nat -> jsstring.

Definition fallback (i : jsstring) (q c d a w : string)
    (f : list string) (r : jsstring) : CrossExamQuestion := {|
  id := i; question := js q; category := js c; difficulty := js d;
  suggestedApproach := Some (js a); weakPoint := Some (js w);
  followUpQuestions := Some (List.map js f);
  documentReference := Some r
|}.

(** The static set; [n] identifiers have been drawn before. *)
Definition generateFallbackQuestions (n : nat) (witness : jsstring)
    (docs : list RequestDocument) : list CrossExamQuestion :=
  let joined := join (js ", ") (List.map doc_name docs) in
  let docNames :=
    if bool_decide (joined = []) then js "the documents" else joined in
  [
  fallback (uuidv4 (n + 0))
    "You've reviewed documents related to this case. Can you tell us exactly when you first became aware of the events described?"
    "timeline" "medium"
    "Be specific about dates and times. If uncertain, say so."
    "Timeline inconsistencies"
    ["What were you doing at that time?"%string;
     "Who else was present?"%string]
    (docNames);
  fallback (uuidv4 (n + 1))
    "Looking at the documents you've reviewed, can you identify any statements that you now believe may have been inaccurate?"
    "credibility" "hard"
    "If there are inaccuracies, acknowledge them. Honesty builds credibility."
    "Prior inconsistent statements"
    ["Why didn't you correct this earlier?"%string;
     "What other statements might need revision?"%string]
    (docNames);
  fallback (uuidv4 (n + 2))
    "You mentioned specific details in your statement. How can you be so certain about these details after all this time?"
    "credibility" "medium"
    "Explain what makes certain memories stand out."
    "Memory reliability"
    ["Did you take notes at the time?"%string;
     "Have you discussed these events with anyone?"%string]
    (docNames);
  fallback (uuidv4 (n + 3))
    "Based on the documents in this case, there appear to be gaps in the timeline. Can you explain what happened during these periods?"
    "timeline" "medium"
    "If you don't know, say so. Don't speculate."
    "Incomplete knowledge"
    ["Were you present during this time?"%string;
     "Who might have information about this period?"%string]
    (docNames);
  fallback (uuidv4 (n + 4))
    "The documents suggest a particular sequence of events. Do you agree with that sequence, or do you recall it differently?"
    "inconsistency" "hard"
    "If you disagree, explain specifically what you recall differently and why."
    "Contradicting documentary evidence"
    ["What specifically do you recall differently?"%string;
     "Why should your memory be trusted over the documents?"%string]
    (docNames);
  fallback (uuidv4 (n + 5))
    "Were you under any stress or distraction at the time of the events described in these documents?"
    "foundation" "medium"
    "Acknowledge any factors that might have affected your perception."
    "Impaired observation"
    ["How might that have affected what you observed?"%string;
     "Were you taking any medications?"%string]
    (docNames);
  fallback (uuidv4 (n + 6))
    "Can you explain your role in the events documented in the case materials?"
    "foundation" "easy"
    "Clearly explain your involvement and the basis for your knowledge."
    "Limited firsthand knowledge"
    ["Were you directly involved?"%string;
     "How do you have knowledge of what you're testifying about?"%string]
    (docNames);
  fallback (uuidv4 (n + 7))
    "The documents reference specific communications. Did you keep copies of all relevant communications?"
    "foundation" "medium"
    "Explain your document retention practices honestly."
    "Missing evidence"
    ["Why didn't you keep copies?"%string;
     "What happened to those communications?"%string]
    (docNames);
  fallback (uuidv4 (n + 8))
    "Is there anything in these documents that you believe is false or misleading?"
    "inconsistency" "hard"
    "If you believe something is false, explain specifically what and why."
    "Challenging documentary evidence"
    ["How do you know it's false?"%string;
     "Do you have evidence to support your claim?"%string]
    (docNames);
  fallback (uuidv4 (n + 9))
    "Who else was present that could corroborate your account?"
    "foundation" "medium"
    "Identify other witnesses who can support your testimony."
    "Lack of corroboration"
    ["Have you spoken with them about this case?"%string;
     "Would they agree with your version?"%string]
    (docNames);
  fallback (uuidv4 (n + 10))
    "How soon after the events did you first document your recollection?"
    "timeline" "medium"
    "Explain when and how you recorded your memories."
    "Delayed documentation affects reliability"
    ["Why did you wait?"%string;
     "What prompted you to finally document it?"%string]
    (docNames);
  fallback (uuidv4 (n + 11))
    "Have you reviewed these documents with anyone before today's testimony?"
    "credibility" "easy"
    "Be honest about document review. It's normal to prepare."
    "Potential for coached testimony"
    ["Who did you review them with?"%string;
     "Did anyone point out specific things you should remember?"%string]
    (docNames);
  fallback (uuidv4 (n + 12))
    "Is there any information relevant to this case that is NOT contained in these documents?"
    "foundation" "hard"
    "Disclose any relevant information not in the documents."
    "Incomplete documentary record"
    ["Why wasn't that documented?"%string;
     "Who else knows about this?"%string]
    (docNames);
  fallback (uuidv4 (n + 13))
    "Looking at the specific details in the documents, how do you explain any discrepancies between what's written and what you're testifying to today?"
    "inconsistency" "hard"
    "Address discrepancies directly."
    "Documentary contradictions"
    ["Which version is correct?"%string;
     "Were you truthful then or now?"%string]
    (docNames);
  fallback (uuidv4 (n + 14))
    "Were you consulted before any of the actions described in the documents occurred?"
    "foundation" "medium"
    "Be clear about your level of involvement."
    "Limited involvement or knowledge"
    ["Did you have any input?"%string;
     "Did you express any objections?"%string]
    (docNames);
  fallback (uuidv4 (n + 15))
    "How did you prepare for your testimony today?"
    "general" "easy"
    "Be honest about preparation. It's normal to review documents with counsel."
    "May suggest coaching"
    ["Who did you meet with to prepare?"%string;
     "How many times did you meet?"%string]
    (js "General Cross-Examination");
  fallback (uuidv4 (n + 16))
    "Are you being compensated in any way for your testimony, or do you have any financial interest in the outcome?"
    "general" "easy"
    "Answer directly."
    "Potential bias"
    ["How much are you being paid?"%string;
     "Does compensation depend on the outcome?"%string]
    (js "General Cross-Examination");
  fallback (uuidv4 (n + 17))
    "What is your relationship to the parties in this case?"
    "general" "easy"
    "Describe relationships factually without editorializing."
    "Potential bias based on relationships"
    ["How long have you known them?"%string;
     "Have you had any conflicts with them?"%string]
    (js "General Cross-Examination");
  fallback (uuidv4 (n + 18))
    "How would you describe your memory in general? Is there anything about your testimony today that you're not completely certain about?"
    "general" "medium"
    "Be honest about your memory capabilities."
    "Self-assessment of reliability"
    ["What specifically are you uncertain about?"%string;
     "Have you forgotten important details before?"%string]
    (js "General Cross-Examination");
  fallback (uuidv4 (n + 19))
    "Have you ever given testimony that was later found to be inaccurate or that you needed to correct?"
    "general" "hard"
    "Answer honestly. If yes, explain the circumstances."
    "Prior credibility issues"
    ["What were the circumstances?"%string;
     "How did you discover the inaccuracy?"%string]
    (js "General Cross-Examination")
  ].

(** [q.k] once [q] is known not to be [null]. *)
Definition field (q : value) (k : string) : value :=
  default VUndefined (prop q (js k)).

(** The body of [questionsData.slice(0, 20).map(...)] for one element;
    [None] is the [TypeError] of reading a property of [null]. *)
Definition toQuestion (i : jsstring) (q : value)
  : option CrossExamQuestion :=
  match prop q (js "question") with
  | None => None
  | Some qQuestion =>
      let opt v := if truthy v then Some (ToString v) else None in
      Some {|
        id := i;
        question :=
          ToString (or_else qQuestion (VStr (js "Question not available")));
        category :=
          validateCategory
            (ToString (or_else (field q "category") (VStr (js "general"))));
        difficulty :=
          validateDifficulty
            (ToString (or_else (field q "difficulty") (VStr (js "medium"))));
        suggestedApproach := opt (field q "suggestedApproach");
        weakPoint := opt (field q "weakPoint");
        followUpQuestions :=
          match field q "followUpQuestions" with
          | VArr fs => Some (List.map ToString fs)
          | _ => None
          end;
        documentReference := opt (field q "documentReference")
      |}
  end.

(** [map] over the slice, drawing one identifier per element; the
    result is [None] as soon as one element throws.  The first component
    counts the identifiers drawn. *)
Fixpoint mapQuestions (n : nat) (qs : list value)
  : nat * option (list CrossExamQuestion) :=
  match qs with
  | [] => (n, Some [])
  | q :: r =>
      match toQuestion (uuidv4 n) q with
      | None => (S n, None)
      | Some x =>
          let '(n', rest) := mapQuestions (S n) r in
          (n', cons x <$> rest)
      end
  end.

Definition documentContext (docs : list RequestDocument) : jsstring :=
  join [10%N; 10%N]
    (List.map
       (fun d =>
          let content :=
            if bool_decide (doc_content d = [])
            then js "[Content not available]" else doc_content d in
          js "=== DOCUMENT: " ++ doc_name d ++ js " ===" ++ [10%N]
          ++ content ++ [10%N] ++ js "=== END DOCUMENT ===")
       docs).

Definition userPromptOf (body : RequestBody) : jsstring :=
  js "Case: " ++ caseName body ++ [10%N]
  ++ js "Witness Name: " ++ witnessName body ++ [10%N; 10%N]
  ++ js "DOCUMENTS TO ANALYZE:" ++ [10%N]
  ++ documentContext (documents body) ++ [10%N; 10%N]
  ++ js "Generate exactly 20 cross-examination questions for the witness "
  ++ witnessName body ++ js "." ++ [10%N]
  ++ js "Return ONLY a valid JSON array. No markdown formatting.".

(** What the inner [try] leaves in
    [(questions, usedFallback, cost, charsProcessed)], and the number
    of identifiers drawn. *)
Definition generate (systemPrompt userPrompt : jsstring)
  : nat * (list CrossExamQuestion * bool * number * Z) :=
  match chatCompletion systemPrompt userPrompt with
  | Throws => (O, ([], true, Dec 0 0, 0))
  | Content content =>
      let charsProcessed :=
        Z.of_nat (length (systemPrompt ++ userPrompt ++ content)) in
      let cost :=
        Num.mul (Num.div1000 (Num.ofZ charsProcessed))
                (pricePerThousandChars limits) in
      if bool_decide (content = []) then
        (O, ([], false, cost, charsProcessed))
      else
        match parseJSONResponse content with
        | Some (q :: qs) =>
            match mapQuestions O (take 20 (q :: qs)) with
            | (n, Some questions) =>
                (n, (questions, false, cost, charsProcessed))
            | (n, None) => (n, ([], true, cost, charsProcessed))
            end
        | _ => (O, ([], false, cost, charsProcessed))
        end
  end.

(** [POST]; the request is [None] when its body is not JSON, the one
    way into the outer [catch]. *)
Definition POST (request : option RequestBody) : Response :=
  match request with
  | None => errorResponse "Failed to generate questions" 500
  | Some body =>
      if bool_decide (witnessName body = [])
         || bool_decide (caseName body = [])
      then errorResponse "witnessName and caseName are required" 400
      else if bool_decide (documents body = [])
      then errorResponse
             "No documents provided. Please upload case materials first."
             400
      else
        let systemPrompt :=
          getQuestionGenerationPrompt (witnessName body) in
        let '(n, (questions, usedFallback, cost, charsProcessed)) :=
          generate systemPrompt (userPromptOf body) in
        let '(questions, usedFallback) :=
          if bool_decide (questions = [])
          then (generateFallbackQuestions n (witnessName body)
                  (documents body), true)
          else (questions, usedFallback) in
        {| status := 200;
           data := {| r_error := None; r_limitReached := VUndefined;
                      r_questions := Some questions;
                      r_cost := Some cost;
                      r_charsProcessed := Some charsProcessed;
                      r_usedFallback := Some usedFallback |} |}
  end.

End Handler.

End GenerateQuestions.

(** *** Fenced texts *)

(** Only white space. *)
Definition blank (s : jsstring) : bool := forallb isSpace s.

(** The info string of an opening fence that strategy 2 knows: nothing, or
    [json] in any case. *)
Definition jsonTag (tag : jsstring) : bool :=
  bool_decide (tag = []) || Str.eqb (toLowerCase tag) (js "json").

(** The text [J] in Markdown code fences: three backticks, the info string
    [tag] and white space [ws1] before it, white space [ws2] and three
    backticks after it, and white space [pre] and [post] around. *)
Definition wrapped (pre tag ws1 J ws2 post : jsstring) : jsstring :=
  pre ++ js "```" ++ tag ++ ws1 ++ J ++ ws2 ++ js "```" ++ post.

(** The text [J] between a [```json] line and a closing [```] line. *)
Definition fenced (J : jsstring) : jsstring :=
  wrapped [] (js "json") [10%N] J [10%N] [].


(** *** Exceptions *)

Inductive exn := TypeError | RangeError.

(** What a call that can throw gives. *)
Inductive result (A : Type) := Ok (a : A) | Throw (e : exn).
Arguments Ok {A} a.
Arguments Throw {A} e.

(* ===================================================================== *)
(** ** JSON.stringify, Date                                               *)
(* ===================================================================== *)

Module Builtins.

Definition hexDigit (n : N) : N :=
  if (n <? 10)%N then (48 + n)%N else (87 + n)%N.

(** [QuoteJSONString]: the characters of a string between the quotes. *)
Fixpoint quoteChars (s : jsstring) : jsstring :=
  match s with
  | [] => []
  | c :: r =>
      if (c =? 34)%N then js "\" ++ [34%N] ++ quoteChars r
      else if (c =? 92)%N then js "\\" ++ quoteChars r
      else if (c =? 8)%N then js "\b" ++ quoteChars r
      else if (c =? 12)%N then js "\f" ++ quoteChars r
      else if (c =? 10)%N then js "\n" ++ quoteChars r
      else if (c =? 13)%N then js "\r" ++ quoteChars r
      else if (c =? 9)%N then js "\t" ++ quoteChars r
      else if (c <? 32)%N then
        js "\u00" ++ [hexDigit (c / 16); hexDigit (c mod 16)] ++ quoteChars r
      else c :: quoteChars r
  end.

Definition quote (s : jsstring) : jsstring :=
  [34%N] ++ quoteChars s ++ [34%N].

(** [JSON.stringify(v)] without indentation.  [undefined] is left out of an
    object and is [null] in an array; [NaN] is [null].  Keys that look like
    array indices are not moved to the front, and a lone surrogate is not
    escaped. *)
Fixpoint stringify (v : value) : jsstring :=
  match v with
  | VUndefined => js "undefined"
  | VNull => js "null"
  | VBool true => js "true"
  | VBool false => js "false"
  | VNum NaN => js "null"
  | VNum n => Num.toString n
  | VStr s => quote s
  | VArr items =>
      js "[" ++ join (js ",")
                  (List.map (fun x => match x with
                                      | VUndefined => js "null"
                                      | _ => stringify x
                                      end) items)
      ++ js "]"
  | VObj fields =>
      js "{" ++ join (js ",")
                  ((fix members (fs : list (jsstring * value)) :=
                      match fs with
                      | [] => []
                      | (_, VUndefined) :: r => members r
                      | (k, x) :: r =>
                          (quote k ++ js ":" ++ stringify x) :: members r
                      end) fields)
      ++ js "}"
  end.

(** *** Instants and their ISO form *)

Definition msPerDay : Z := 86400000.

(** Day number since the epoch to (year, month, day), proleptic Gregorian
    calendar. *)
Definition civilFromDays (days : Z) : Z * Z * Z :=
  let z := days + 719468 in
  let era := z / 146097 in
  let doe := z - era * 146097 in
  let yoe := (doe - doe / 1460 + doe / 36524 - doe / 146096) / 365 in
  let y := yoe + era * 400 in
  let doy := doe - (365 * yoe + yoe / 4 - yoe / 100) in
  let mp := (5 * doy + 2) / 153 in
  let d := doy - (153 * mp + 2) / 5 + 1 in
  let m := if mp <? 10 then mp + 3 else mp - 9 in
  (if m <=? 2 then y + 1 else y, m, d).

Definition daysFromCivil (y m d : Z) : Z :=
  let y := if m <=? 2 then y - 1 else y in
  let era := y / 400 in
  let yoe := y - era * 400 in
  let mp := if 2 <? m then m - 3 else m + 9 in
  let doy := (153 * mp + 2) / 5 + d - 1 in
  let doe := yoe * 365 + yoe / 4 - yoe / 100 + doy in
  era * 146097 + doe - 719468.

Definition pad (width : nat) (n : Z) : jsstring :=
  let s := Num.digitsOf n in
  repeat 48%N (width - length s) ++ s.

(** [new Date(t).toISOString()] for an instant inside the range of
    [Date]. *)
Definition toISOString (t : Z) : jsstring :=
  let days := t / msPerDay in
  let rest := t mod msPerDay in
  let '(y, m, d) := civilFromDays days in
  let year :=
    if (0 <=? y) && (y <=? 9999) then pad 4 y
    else (if y <? 0 then js "-" else js "+") ++ pad 6 y in
  year ++ js "-" ++ pad 2 m ++ js "-" ++ pad 2 d ++ js "T"
  ++ pad 2 (rest / 3600000) ++ js ":" ++ pad 2 (rest / 60000 mod 60)
  ++ js ":" ++ pad 2 (rest / 1000 mod 60) ++ js "." ++ pad 3 (rest mod 1000)
  ++ js "Z".

Definition digitsOnly (s : jsstring) : option Z :=
  if forallb isDigit s && negb (bool_decide (s = []))
  then Some (Num.digitsVal s) else None.

Definition daysInMonth (y m : Z) : Z :=
  if m =? 2 then
    if ((y mod 4 =? 0) && negb (y mod 100 =? 0)) || (y mod 400 =? 0)
    then 29 else 28
  else if (m =? 4) || (m =? 6) || (m =? 9) || (m =? 11) then 30 else 31.

(** The greatest time value of a [Date]. *)
Definition maxTime : Z := 8640000000000000.

(** [TimeClip(t)]; [None] is [NaN], the time value of an invalid date. *)
Definition TimeClip (t : Z) : option Z :=
  if Z.abs t <=? maxTime then Some t else None.

(** What the engine and the time zone of the machine decide. *)
Record Host := {
  (** [LocalTZA(t, true)]: the offset of local time, in milliseconds, at
      the instant [t] *)
  offsetAt : Z -> Z;
  (** [LocalTZA(t, false)]: the offset at the local time [t] *)
  offsetAtLocal : Z -> Z;
  (** [Date.parse] of a string that [isoInstant] below does not read: the
      formats of the engine's own, and the instances of the Date Time
      String Format on which engines differ (a day past the end of its
      month, the hour 24, a fraction of other than three digits) *)
  parseOther : jsstring -> option Z
}.

(** [LocalTime(t)] and [UTC(t)] *)
Definition LocalTime (host : Host) (t : Z) : Z := t + offsetAt host t.
Definition UTC (host : Host) (t : Z) : Z := t - offsetAtLocal host t.

(** An engine in a zone without offset that reads no format of its own. *)
Definition plain : Host :=
  {| offsetAt := fun _ => 0; offsetAtLocal := fun _ => 0;
     parseOther := fun _ => None |}.

(** *** The Date Time String Format *)

(** [n] digits at the head of [s]: their value, and what follows. *)
Definition digits (n : nat) (s : jsstring) : option (Z * jsstring) :=
  if (length (take n s) =? n)%nat then
    match digitsOnly (take n s) with
    | Some v => Some (v, drop n s)
    | None => None
    end
  else None.

(** The character [c] at the head of [s]: what follows it. *)
Definition after (c : N) (s : jsstring) : option jsstring :=
  match s with
  | c' :: r => if (c' =? c)%N then Some r else None
  | [] => None
  end.

(** [YYYY], or a sign and [YYYYYY]; year 0 has no minus sign. *)
Definition isoYear (s : jsstring) : option (Z * jsstring) :=
  match s with
  | [] => None
  | c :: r =>
      if (c =? 43)%N then digits 6 r
      else if (c =? 45)%N then
        match digits 6 r with
        | Some (y, r') => if y =? 0 then None else Some (- y, r')
        | None => None
        end
      else digits 4 s
  end.

(** [-NN] if a hyphen comes next. *)
Definition isoField (s : jsstring) : option (option Z * jsstring) :=
  match s with
  | c :: r =>
      if (c =? 45)%N then
        match digits 2 r with
        | Some (v, r') => Some (Some v, r')
        | None => None
        end
      else Some (None, s)
  | [] => Some (None, s)
  end.

(** [YYYY], [YYYY-MM] or [YYYY-MM-DD]: the day number. *)
Definition isoDate (s : jsstring) : option (Z * jsstring) :=
  match isoYear s with
  | None => None
  | Some (y, s) =>
      match isoField s with
      | None => None
      | Some (None, s) => Some (daysFromCivil y 1 1, s)
      | Some (Some m, s) =>
          if (1 <=? m) && (m <=? 12) then
            match isoField s with
            | None => None
            | Some (d, s) =>
                let d := default 1 d in
                if (1 <=? d) && (d <=? daysInMonth y m)
                then Some (daysFromCivil y m d, s) else None
            end
          else None
      end
  end.

(** Nothing, [:ss] or [:ss.sss]: the milliseconds. *)
Definition isoSeconds (s : jsstring) : option (Z * jsstring) :=
  match s with
  | c :: r =>
      if (c =? 58)%N then
        match digits 2 r with
        | Some (sec, r) =>
            if sec <=? 59 then
              match r with
              | c' :: r' =>
                  if (c' =? 46)%N then
                    match digits 3 r' with
                    | Some (ms, r') => Some (sec * 1000 + ms, r')
                    | None => None
                    end
                  else Some (sec * 1000, r)
              | [] => Some (sec * 1000, r)
              end
            else None
        | None => None
        end
      else Some (0, s)
  | [] => Some (0, s)
  end.

(** The end of the string: nothing (local time, [Some None]), [Z], or a
    sign and [HH:mm] (the offset in milliseconds). *)
Definition isoOffset (s : jsstring) : option (option Z) :=
  match s with
  | [] => Some None
  | c :: r =>
      if (c =? 90)%N then
        if bool_decide (r = []) then Some (Some 0) else None
      else if (c =? 43)%N || (c =? 45)%N then
        match digits 2 r with
        | Some (h, r) =>
            match after 58 r with
            | Some r =>
                match digits 2 r with
                | Some (n, r) =>
                    if bool_decide (r = []) && (h <=? 23) && (n <=? 59)
                    then
                      let o := h * 3600000 + n * 60000 in
                      Some (Some (if (c =? 45)%N then - o else o))
                    else None
                | None => None
                end
            | None => None
            end
        | None => None
        end
      else None
  end.

(** The time value of a string of the Date Time String Format, [Some None]
    when it is outside the range of [Date]; [None] when the string is not
    read as an instance of the format.  Without offset, a date is in UTC
    and a date with a time in local time. *)
Definition isoInstant (host : Host) (s : jsstring) : option (option Z) :=
  match isoDate s with
  | None => None
  | Some (day, s) =>
      match s with
      | [] => Some (TimeClip (day * msPerDay))
      | c :: r =>
          if (c =? 84)%N then
            match digits 2 r with
            | Some (h, r) =>
                match after 58 r with
                | Some r =>
                    match digits 2 r with
                    | Some (n, r) =>
                        match isoSeconds r with
                        | Some (ms, r) =>
                            match isoOffset r with
                            | Some o =>
                                if (h <=? 23) && (n <=? 59) then
                                  let t := day * msPerDay + h * 3600000
                                           + n * 60000 + ms in
                                  Some (TimeClip
                                          (match o with
                                           | Some offset => t - offset
                                           | None => UTC host t
                                           end))
                                else None
                            | None => None
                            end
                        | None => None
                        end
                    | None => None
                    end
                | None => None
                end
            | None => None
            end
          else None
      end
  end.

(** [Date.parse(s)]; [None] is [NaN]. *)
Definition Date_parse (host : Host) (s : jsstring) : option Z :=
  match isoInstant host s with
  | Some tv => tv
  | None => parseOther host s
  end.

(** [Date.parse(s)] on the [plain] engine. *)
Definition parseDate (s : jsstring) : option Z := Date_parse plain s.

(** [ToString(v)] throws a [TypeError] where it meets an object with an own
    property [toString], which in a value of [JSON.parse] is never a
    function: at [v] itself, or in an array that [Array.prototype.join]
    walks. *)
Fixpoint noText (v : value) : bool :=
  match v with
  | VObj fs =>
      match lookup_field (js "toString") fs with
      | Some _ => true
      | None => false
      end
  | VArr items => existsb noText items
  | _ => false
  end.

(** [new Date(s)] for a string: the time value of the date, [None] for an
    invalid date. *)
Definition dateOfString (host : Host) (s : jsstring) : option Z :=
  match Date_parse host s with
  | Some tv => TimeClip tv
  | None => None
  end.

(** [new Date(v)] for a value of [JSON.parse] or [undefined]: the time
    value of the date, [None] for an invalid date, or the [TypeError] of
    [ToPrimitive]. *)
Definition newDate (host : Host) (v : value) : result (option Z) :=
  match v with
  | VUndefined => Ok None
  | VNull => Ok (Some 0)
  | VBool b => Ok (Some (if b then 1 else 0))
  | VNum NaN => Ok None
  | VNum (Dec m e) =>
      let t := if 0 <=? e then m * 10 ^ e else Z.quot m (10 ^ (- e)) in
      Ok (TimeClip t)
  | VStr s => Ok (dateOfString host s)
  | VArr _ | VObj _ =>
      if noText v then Throw TypeError
      else Ok (dateOfString host (ToString v))
  end.


(** *** The hours of a date *)

Definition Day (t : Z) : Z := t / msPerDay.
Definition HourFromTime (t : Z) : Z := t / 3600000 mod 24.
Definition MinFromTime (t : Z) : Z := t / 60000 mod 60.
Definition SecFromTime (t : Z) : Z := t / 1000 mod 60.
Definition msFromTime (t : Z) : Z := t mod 1000.

Definition MakeTime (hour min sec ms : Z) : Z :=
  hour * 3600000 + min * 60000 + sec * 1000 + ms.

Definition MakeDate (day time : Z) : Z := day * msPerDay + time.

(** [d.getHours()] for a date of time value [tv] *)
Definition getHours (host : Host) (tv : Z) : Z :=
  HourFromTime (LocalTime host tv).

(** [d.setHours(hour)]: the new time value of [d], [None] when the date
    has become invalid. *)
Definition setHours (host : Host) (hour : Z) (tv : Z) : option Z :=
  let t := LocalTime host tv in
  TimeClip (UTC host (MakeDate (Day t)
                        (MakeTime hour (MinFromTime t) (SecFromTime t)
                           (msFromTime t)))).

(** [d.toISOString()] for a date of time value [tv]: the [RangeError] is
    that of an invalid date. *)
Definition Date_toISOString (tv : option Z) : result jsstring :=
  match tv with
  | Some t => Ok (toISOString t)
  | None => Throw RangeError
  end.

(** [a + b] *)
Definition plus (a b : value) : value :=
  let prim v := match v with
                | VArr _ | VObj _ => VStr (ToString v)
                | _ => v
                end in
  let toNumber v := match v with
                    | VNull => Dec 0 0
                    | VBool true => Dec 1 0
                    | VBool false => Dec 0 0
                    | VNum n => n
                    | _ => NaN
                    end in
  match prim a, prim b with
  | VStr s, pb => VStr (s ++ ToString pb)
  | pa, VStr s => VStr (ToString pa ++ s)
  | pa, pb => VNum (Num.add (toNumber pa) (toNumber pb))
  end.

(** The own enumerable properties [{...v}] copies. *)
Definition spread (v : value) : list (jsstring * value) :=
  match v with
  | VObj fs => fs
  | VArr items =>
      imap (fun i x => (Num.digitsOf (Z.of_nat i), x)) items
  | VStr s =>
      imap (fun i c => (Num.digitsOf (Z.of_nat i), VStr [c])) s
  | _ => []
  end.

End Builtins.
Export Builtins.

(* ===================================================================== *)
(** ** Deposition tool: document classification                           *)
(* ===================================================================== *)

Module Classify.

(** [DepositionDocument['type']] *)
Inductive DocumentType :=
| transcript | prior_testimony | exhibit | case_file | other.

(** Does the expression (the letters e and x, an optional hyphen or
    underscore, one digit or more; case-insensitive) match at the head of
    [s]? *)
Definition exhibitNumberHere (s : jsstring) : bool :=
  startsWithCI (js "ex") s &&
  match drop 2 s with
  | c :: d :: _ =>
      (((c =? 45) || (c =? 95))%N && isDigit d) || isDigit c
  | [c] => isDigit c
  | [] => false
  end.

(** [.test(s)]: a match at some position. *)
Fixpoint exhibitNumber (s : jsstring) : bool :=
  exhibitNumberHere s ||
  match s with
  | [] => false
  | _ :: r => exhibitNumber r
  end.

(** [content] is [None] when the argument is left out. *)
Definition detectDocumentType (filename : jsstring)
    (content : option jsstring) : DocumentType :=
  let lowerName := toLowerCase filename in
  let lowerContent := toLowerCase (default [] content) in
  if includes lowerName (js "transcript")
     || includes lowerName (js "deposition")
     || includes lowerContent (js "q:") || includes lowerContent (js "a:")
  then transcript
  else if includes lowerName (js "testimony")
          || includes lowerName (js "statement")
          || includes lowerContent (js "sworn")
          || includes lowerContent (js "under oath")
  then prior_testimony
  else if includes lowerName (js "exhibit") || exhibitNumber lowerName
  then exhibit
  else if includes lowerName (js "complaint")
          || includes lowerName (js "motion")
          || includes lowerName (js "brief")
          || includes lowerName (js "filing")
  then case_file
  else other.

(** *** The rule list the classification is specified by *)

(** One heuristic rule: the type it assigns, the keywords looked for in the
    lower-cased file name, a pattern on that name, and the keywords looked
    for in the lower-cased content. *)
Record Rule := {
  assigns : DocumentType;
  nameKeywords : list jsstring;
  namePattern : jsstring -> bool;
  contentKeywords : list jsstring
}.

(** File-name match first, then content match. *)
Definition ruleMatches (r : Rule) (name content : jsstring) : bool :=
  existsb (includes name) (nameKeywords r) || namePattern r name
  || existsb (includes content) (contentKeywords r).

(** The first rule that matches wins; [other] when none does. *)
Fixpoint firstMatch (rules : list Rule) (name content : jsstring)
  : DocumentType :=
  match rules with
  | [] => other
  | r :: rest =>
      if ruleMatches r name content then assigns r
      else firstMatch rest name content
  end.

(** The rules in their order of precedence. *)
Definition rules : list Rule := [
  {| assigns := transcript;
     nameKeywords := [js "transcript"; js "deposition"];
     namePattern := fun _ => false;
     contentKeywords := [js "q:"; js "a:"] |};
  {| assigns := prior_testimony;
     nameKeywords := [js "testimony"; js "statement"];
     namePattern := fun _ => false;
     contentKeywords := [js "sworn"; js "under oath"] |};
  {| assigns := exhibit;
     nameKeywords := [js "exhibit"];
     namePattern := exhibitNumber;
     contentKeywords := [] |};
  {| assigns := case_file;
     nameKeywords := [js "complaint"; js "motion"; js "brief"; js "filing"];
     namePattern := fun _ => false;
     contentKeywords := [] |}
].

Definition classify (filename : jsstring) (content : option jsstring)
  : DocumentType :=
  firstMatch rules (toLowerCase filename) (toLowerCase (default [] content)).

End Classify.

(* ===================================================================== *)
(** ** Sessions and the browser store                                     *)
(* ===================================================================== *)

Module Types.

Inductive Status := processing | ready | failed.

(** Modelled from the spec: [Document] of lib/types/testimony.ts, which is
    not among the sources; the fields are those the testimony component
    writes. *)
Record Document := {
  id : jsstring;
  name : jsstring;
  type : jsstring;
  size : Z;
  uploadedAt : jsstring;
  status : Status;
  content : option jsstring
}.

(** Modelled from the spec: [PracticeSession] of lib/types/testimony.ts
    (identifier, subject name, case name, creation timestamp, ordered
    documents, generated questions). *)
Record PracticeSession := {
  sessionId : jsstring;
  witnessName : jsstring;
  caseName : jsstring;
  createdAt : jsstring;
  documents : list Document;
  questions : list GenerateQuestions.CrossExamQuestion
}.

(** Modelled from the spec: [DepositionDocument] of
    lib/types/deposition.ts; the fields are those the deposition component
    writes. *)
Record DepositionDocument := {
  d_id : jsstring;
  d_name : jsstring;
  d_type : Classify.DocumentType;
  d_fileType : jsstring;
  d_size : Z;
  d_uploadedAt : jsstring;
  d_content : jsstring;
  d_status : Status;
  d_pageCount : Z;
  d_source : jsstring
}.

(** Modelled from the spec: [DepositionSession] of lib/types/deposition.ts.
    Questions, gaps, contradictions, analysis and outline are kept as the
    JSON values they arrive as. *)
Record DepositionSession := {
  dep_id : jsstring;
  deponentName : jsstring;
  dep_caseName : jsstring;
  caseNumber : option jsstring;
  dep_createdAt : jsstring;
  dep_documents : list DepositionDocument;
  dep_questions : list value;
  gaps : list value;
  contradictions : list value;
  analysis : option value;
  outline : option value
}.

(** [localStorage], one field per key family: the usage ledger under
    [wtp_session_stats_v2], one record per testimony session id, one per
    deposition session id, and [wtp_current_deposition_session].  A session
    record stands for its serialised form. *)
Record LocalStorage := {
  stats : option jsstring;
  sessions : gmap jsstring PracticeSession;
  depositions : gmap jsstring DepositionSession;
  currentDeposition : option jsstring
}.

Definition setStats (blob : jsstring) (ls : LocalStorage) : LocalStorage :=
  {| stats := Some blob; sessions := sessions ls;
     depositions := depositions ls;
     currentDeposition := currentDeposition ls |}.

Definition setSessions (m : gmap jsstring PracticeSession)
    (ls : LocalStorage) : LocalStorage :=
  {| stats := stats ls; sessions := m; depositions := depositions ls;
     currentDeposition := currentDeposition ls |}.

Definition setDepositions (m : gmap jsstring DepositionSession)
    (ls : LocalStorage) : LocalStorage :=
  {| stats := stats ls; sessions := sessions ls; depositions := m;
     currentDeposition := currentDeposition ls |}.

Definition setCurrentDeposition (c : option jsstring) (ls : LocalStorage)
  : LocalStorage :=
  {| stats := stats ls; sessions := sessions ls;
     depositions := depositions ls; currentDeposition := c |}.

End Types.
Export Types.

(* ===================================================================== *)
(** ** lib/storage/usage-storage.ts, as the components reach it           *)
(* ===================================================================== *)

(** The ledger in a browser of the [plain] host, whose clock stands still
    while a callback runs and whose session hours keep the reset instant
    inside the range of [Date].  The functions for every host, clock and
    configuration are in [UsageStorage] below; lemma
    [getSessionStats_steady] relates the two. *)
Module Usage.

Record SessionStats := {
  documentsUploaded : number;
  totalStorageUsed : number;
  sessionPrice : number;
  sessionStartAt : jsstring;
  sessionResetAt : jsstring
}.

(** The object literal of a [SessionStats]. *)
Definition statsValue (s : SessionStats) : value :=
  VObj [(js "documentsUploaded", VNum (documentsUploaded s));
        (js "totalStorageUsed", VNum (totalStorageUsed s));
        (js "sessionPrice", VNum (sessionPrice s));
        (js "sessionStartAt", VStr (sessionStartAt s));
        (js "sessionResetAt", VStr (sessionResetAt s))].

Definition msPerHour : Z := 3600000.

(** [setHours(getHours() + sessionHours)] where the zone has no offset and
    the date stays valid. *)
Definition getSessionResetTime (now sessionHours : Z) : jsstring :=
  toISOString (now + sessionHours * msPerHour).

(** The record both [defaultStats] and [resetStats] are. *)
Definition freshStats (limits : DemoLimits) (now : Z) : SessionStats := {|
  documentsUploaded := Dec 0 0;
  totalStorageUsed := Dec 0 0;
  sessionPrice := Dec 0 0;
  sessionStartAt := toISOString now;
  sessionResetAt := getSessionResetTime now (sessionHours limits)
|}.

Section Ledger.

Variable limits : DemoLimits.
(** [typeof window !== 'undefined'] *)
Variable window : bool.
(** The clock, read once per call. *)
Variable now : Z.

(** The value returned and the store left. *)
Definition getSessionStats (ls : LocalStorage) : value * LocalStorage :=
  let defaultStats := statsValue (freshStats limits now) in
  if negb window then (defaultStats, ls)
  else
    match stats ls with
    | None | Some [] => (defaultStats, setStats (stringify defaultStats) ls)
    | Some stored =>
        match Json.parse stored with
        | None => (defaultStats, ls)
        | Some parsed =>
            match prop parsed (js "sessionResetAt") with
            | None => (defaultStats, ls)
            | Some resetAt =>
                match newDate plain resetAt with
                | Throw _ => (defaultStats, ls)
                | Ok (Some r) =>
                    if r <=? now then
                      let resetStats := statsValue (freshStats limits now) in
                      (resetStats, setStats (stringify resetStats) ls)
                    else (parsed, ls)
                | Ok None => (parsed, ls)
                end
            end
        end
    end.

Definition updateSessionStats (updates : list (jsstring * value))
    (ls : LocalStorage) : LocalStorage :=
  if negb window then ls
  else
    let '(current, ls) := getSessionStats ls in
    let updated :=
      fold_left (fun fs kv => set_field kv.1 kv.2 fs) updates
        (spread current) in
    setStats (stringify (VObj updated)) ls.

Definition field (v : value) (k : string) : value :=
  default VUndefined (prop v (js k)).

Definition incrementDocumentsUploaded (ls : LocalStorage) : LocalStorage :=
  let '(stats, ls) := getSessionStats ls in
  updateSessionStats
    [(js "documentsUploaded",
      plus (field stats "documentsUploaded") (VNum (Dec 1 0)))] ls.

Definition incrementSessionPrice (price : number) (ls : LocalStorage)
  : LocalStorage :=
  let '(stats, ls) := getSessionStats ls in
  updateSessionStats
    [(js "sessionPrice", plus (field stats "sessionPrice") (VNum price))] ls.

Definition calculateCost (charCount : Z) : number :=
  Num.mul (Num.div1000 (Num.ofZ charCount)) (pricePerThousandChars limits).

End Ledger.

(** A value with the five properties of a [SessionStats], of their
    types. *)
Definition isSessionStats (v : value) : bool :=
  match v with
  | VObj _ =>
      match prop v (js "documentsUploaded"), prop v (js "totalStorageUsed"),
            prop v (js "sessionPrice"), prop v (js "sessionStartAt"),
            prop v (js "sessionResetAt") with
      | Some (VNum _), Some (VNum _), Some (VNum _), Some (VStr _),
        Some (VStr _) => true
      | _, _, _, _, _ => false
      end
  | _ => false
  end.

End Usage.

(* ===================================================================== *)
(** ** lib/storage/usage-storage.ts                                       *)
(* ===================================================================== *)

Module UsageStorage.

Import Usage.

(** The record [defaultStats] and [resetStats] are, with its two dates. *)
Definition zeroed (startAt resetAt : jsstring) : SessionStats := {|
  documentsUploaded := Dec 0 0;
  totalStorageUsed := Dec 0 0;
  sessionPrice := Dec 0 0;
  sessionStartAt := startAt;
  sessionResetAt := resetAt
|}.

(** The [n]-th and later readings of a clock. *)
Definition later (n : nat) (clock : nat -> Z) : nat -> Z :=
  fun i => clock (n + i)%nat.

Section Ledger.

Variable host : Host.
Variable limits : DemoLimits.
(** [typeof window !== 'undefined'] *)
Variable window : bool.
(** What the clock reads at the first, second, ... [new Date()] that a
    call may reach; a reading is the time value of a valid date. *)
Variable clock : nat -> Z.

(** [getSessionResetTime(sessionHours)], [t] being what its [new Date()]
    reads. *)
Definition getSessionResetTime (t : Z) (sessionHours : Z)
  : result jsstring :=
  let resetTime := setHours host (getHours host t + sessionHours) t in
  Date_toISOString resetTime.

(** [getSessionStats()]: the value returned or the exception thrown, and
    the store left.  The clock is read for [defaultStats] (twice), for
    [now], and for the reset time of [resetStats]. *)
Definition getSessionStats (ls : LocalStorage)
  : result value * LocalStorage :=
  match getSessionResetTime (clock 1) (sessionHours limits) with
  | Throw e => (Throw e, ls)
  | Ok resetAt0 =>
      let defaultStats :=
        statsValue (zeroed (toISOString (clock 0)) resetAt0) in
      if negb window then (Ok defaultStats, ls)
      else
        match stats ls with
        | None | Some [] =>
            (Ok defaultStats, setStats (stringify defaultStats) ls)
        | Some stored =>
            match Json.parse stored with
            | None => (Ok defaultStats, ls)
            | Some parsed =>
                let now := clock 2 in
                match prop parsed (js "sessionResetAt") with
                | None => (Ok defaultStats, ls)
                | Some resetAt =>
                    match newDate host resetAt with
                    | Throw _ => (Ok defaultStats, ls)
                    | Ok (Some r) =>
                        if r <=? now then
                          match getSessionResetTime (clock 3)
                                  (sessionHours limits) with
                          | Throw _ => (Ok defaultStats, ls)
                          | Ok resetAt1 =>
                              let resetStats :=
                                statsValue
                                  (zeroed (toISOString now) resetAt1) in
                              (Ok resetStats,
                               setStats (stringify resetStats) ls)
                          end
                        else (Ok parsed, ls)
                    | Ok None => (Ok parsed, ls)
                    end
                end
            end
        end
  end.

Definition updateSessionStats (updates : list (jsstring * value))
    (ls : LocalStorage) : result unit * LocalStorage :=
  if negb window then (Ok tt, ls)
  else
    match getSessionStats ls with
    | (Throw e, ls) => (Throw e, ls)
    | (Ok current, ls) =>
        let updated :=
          fold_left (fun fs kv => set_field kv.1 kv.2 fs) updates
            (spread current) in
        (Ok tt, setStats (stringify (VObj updated)) ls)
    end.

End Ledger.

Section Counters.

Variable host : Host.
Variable limits : DemoLimits.
Variable window : bool.
Variable clock : nat -> Z.

(** The second read of the stats, in [updateSessionStats], sees the clock
    after the four readings of the first. *)
Definition incrementDocumentsUploaded (ls : LocalStorage)
  : result unit * LocalStorage :=
  match getSessionStats host limits window clock ls with
  | (Throw e, ls) => (Throw e, ls)
  | (Ok stats, ls) =>
      updateSessionStats host limits window (later 4 clock)
        [(js "documentsUploaded",
          plus (field stats "documentsUploaded") (VNum (Dec 1 0)))] ls
  end.

Definition incrementSessionPrice (price : number) (ls : LocalStorage)
  : result unit * LocalStorage :=
  match getSessionStats host limits window clock ls with
  | (Throw e, ls) => (Throw e, ls)
  | (Ok stats, ls) =>
      updateSessionStats host limits window (later 4 clock)
        [(js "sessionPrice",
          plus (field stats "sessionPrice") (VNum price))] ls
  end.

Definition updateTotalStorageUsed (bytes : number) (ls : LocalStorage)
  : result unit * LocalStorage :=
  updateSessionStats host limits window clock
    [(js "totalStorageUsed", VNum bytes)] ls.

End Counters.

End UsageStorage.

(* ===================================================================== *)
(** ** Session stores                                                     *)
(* ===================================================================== *)

Module SessionStorage.

(** Modelled from the spec: [getSession] of lib/storage/session-storage.ts,
    which is not among the sources ([get(id) -> Session|null]). *)
Definition getSession (id : jsstring) (ls : LocalStorage)
  : option PracticeSession :=
  sessions ls !! id.

(** Modelled from the spec: [updateSession] ([update(id, partial) ->
    Session|null]; a mutator returns [null] when the id is unknown and
    rewrites the whole record otherwise).  The partial object is the
    function that overwrites its fields. *)
Definition updateSession (id : jsstring)
    (partial : PracticeSession -> PracticeSession) (ls : LocalStorage)
  : option PracticeSession * LocalStorage :=
  match sessions ls !! id with
  | None => (None, ls)
  | Some s =>
      let s' := partial s in
      (Some s', setSessions (<[id := s']> (sessions ls)) ls)
  end.

Definition withDocuments (docs : list Document) (s : PracticeSession)
  : PracticeSession :=
  {| sessionId := sessionId s; witnessName := witnessName s;
     caseName := caseName s; createdAt := createdAt s;
     documents := docs; questions := questions s |}.

Definition withQuestions (qs : list GenerateQuestions.CrossExamQuestion)
    (s : PracticeSession) : PracticeSession :=
  {| sessionId := sessionId s; witnessName := witnessName s;
     caseName := caseName s; createdAt := createdAt s;
     documents := documents s; questions := qs |}.

(** Modelled from the spec: [addDocument] ([addDocument(id, doc) ->
    Session|null]; documents are added in order). *)
Definition addDocument (id : jsstring) (doc : Document) (ls : LocalStorage)
  : option PracticeSession * LocalStorage :=
  updateSession id (fun s => withDocuments (documents s ++ [doc]) s) ls.

(** Modelled from the spec: [setQuestions] ([setQuestions(id,
    questions)]). *)
Definition setQuestions (id : jsstring)
    (qs : list GenerateQuestions.CrossExamQuestion) (ls : LocalStorage)
  : option PracticeSession * LocalStorage :=
  updateSession id (withQuestions qs) ls.

(** Modelled from the spec: [createSession] ([create(subjectName,
    caseName) -> Session]); [id] is the fresh identifier. *)
Definition createSession (id : jsstring) (now : Z)
    (witness case : jsstring) (ls : LocalStorage)
  : PracticeSession * LocalStorage :=
  let s := {| sessionId := id; witnessName := witness; caseName := case;
              createdAt := toISOString now; documents := [];
              questions := [] |} in
  (s, setSessions (<[id := s]> (sessions ls)) ls).

(** Modelled from the spec: [deleteSession] ([delete(id)]). *)
Definition deleteSession (id : jsstring) (ls : LocalStorage)
  : LocalStorage :=
  setSessions (delete id (sessions ls)) ls.

End SessionStorage.

Module DepositionStorage.

(** Modelled from the spec: [getDepositionSession] of
    lib/storage/deposition-storage.ts, which is not among the sources. *)
Definition getDepositionSession (id : jsstring) (ls : LocalStorage)
  : option DepositionSession :=
  depositions ls !! id.

(** Modelled from the spec: [updateDepositionSession]; [null] when the id
    is unknown, the whole record rewritten otherwise. *)
Definition updateDepositionSession (id : jsstring)
    (partial : DepositionSession -> DepositionSession) (ls : LocalStorage)
  : option DepositionSession * LocalStorage :=
  match depositions ls !! id with
  | None => (None, ls)
  | Some s =>
      let s' := partial s in
      (Some s', setDepositions (<[id := s']> (depositions ls)) ls)
  end.

Definition withDocuments (docs : list DepositionDocument)
    (s : DepositionSession) : DepositionSession :=
  {| dep_id := dep_id s; deponentName := deponentName s;
     dep_caseName := dep_caseName s; caseNumber := caseNumber s;
     dep_createdAt := dep_createdAt s; dep_documents := docs;
     dep_questions := dep_questions s; gaps := gaps s;
     contradictions := contradictions s; analysis := analysis s;
     outline := outline s |}.

Definition withQuestions (qs : list value) (s : DepositionSession)
  : DepositionSession :=
  {| dep_id := dep_id s; deponentName := deponentName s;
     dep_caseName := dep_caseName s; caseNumber := caseNumber s;
     dep_createdAt := dep_createdAt s; dep_documents := dep_documents s;
     dep_questions := qs; gaps := gaps s;
     contradictions := contradictions s; analysis := analysis s;
     outline := outline s |}.

Definition withAnalysis (g c : list value) (a : value)
    (s : DepositionSession) : DepositionSession :=
  {| dep_id := dep_id s; deponentName := deponentName s;
     dep_caseName := dep_caseName s; caseNumber := caseNumber s;
     dep_createdAt := dep_createdAt s; dep_documents := dep_documents s;
     dep_questions := dep_questions s; gaps := g;
     contradictions := c; analysis := Some a;
     outline := outline s |}.

(** Modelled from the spec: [addDepositionDocument]. *)
Definition addDepositionDocument (id : jsstring) (doc : DepositionDocument)
    (ls : LocalStorage) : option DepositionSession * LocalStorage :=
  updateDepositionSession id
    (fun s => withDocuments (dep_documents s ++ [doc]) s) ls.

(** Modelled from the spec: [setDepositionQuestions]. *)
Definition setDepositionQuestions (id : jsstring) (qs : list value)
    (ls : LocalStorage) : option DepositionSession * LocalStorage :=
  updateDepositionSession id (withQuestions qs) ls.

(** Modelled from the spec: [setAnalysisResults] ([setAnalysis(id, gaps,
    contradictions, analysisSummary)]). *)
Definition setAnalysisResults (id : jsstring) (g c : list value) (a : value)
    (ls : LocalStorage) : option DepositionSession * LocalStorage :=
  updateDepositionSession id (withAnalysis g c a) ls.

(** Modelled from the spec: [createDepositionSession]. *)
Definition createDepositionSession (id : jsstring) (now : Z)
    (deponent case : jsstring) (number : option jsstring)
    (ls : LocalStorage) : DepositionSession * LocalStorage :=
  let s := {| dep_id := id; deponentName := deponent; dep_caseName := case;
              caseNumber := number; dep_createdAt := toISOString now;
              dep_documents := []; dep_questions := []; gaps := [];
              contradictions := []; analysis := None; outline := None |} in
  (s, setDepositions (<[id := s]> (depositions ls)) ls).

End DepositionStorage.

(* ===================================================================== *)
(** ** Files, lib/document-processor.ts, app/api/testimony/ocr/route.ts   *)
(* ===================================================================== *)

Module Files.

(** What reading a file gives: its text, or the message of the error. *)
Inductive Read :=
| ReadOk (text : jsstring)
| ReadError (message : jsstring).

(** A [File] of the browser, with what its readers will answer:
    [fileText] for [file.text()] and [FileReader.readAsText], [pdfPages]
    for the page texts PDF.js yields, [None] when it throws. *)
Record File := {
  fileName : jsstring;
  fileType : jsstring;
  fileSize : Z;
  fileText : Read;
  pdfPages : option (list jsstring)
}.

Definition endsWith (s suffix : jsstring) : bool :=
  startsWith (rev suffix) (rev s).

Definition scannedMessage : jsstring :=
  js "This PDF appears to be a scanned document or image-based. Please upload a PDF with selectable text, or use a text file (.txt, .docx).".

Definition extractTextFromPDF (file : File) : Read * Z :=
  match pdfPages file with
  | None =>
      (ReadError (js "Failed to extract text from PDF. Please ensure the file is a valid PDF with selectable text, or upload a text file instead."), 0)
  | Some pages =>
      let pageCount := Z.of_nat (length pages) in
      let textParts :=
        List.filter (fun p => negb (bool_decide (p = [])))
                    (List.map trim pages) in
      let fullText := join [10%N; 10%N] textParts in
      if (Z.of_nat (length (trim fullText)) <? 50) && (0 <? pageCount)
      then (ReadError scannedMessage, 0)
      else (ReadOk fullText, pageCount)
  end.

(** [processDocument(file)]: the text and the page count, or the message
    of the error thrown. *)
Definition processDocument (file : File) : Read * Z :=
  let mimeType := fileType file in
  let lowered := toLowerCase (fileName file) in
  if Str.eqb mimeType (js "text/plain") || endsWith lowered (js ".txt")
  then (fileText file, 1)
  else if Str.eqb mimeType (js "application/pdf")
          || endsWith lowered (js ".pdf")
  then extractTextFromPDF file
  else (ReadError (js "Unsupported file type: " ++ mimeType
                   ++ js ". Only PDF and text files are supported."), 0).

End Files.
Export Files.

Module Ocr.

Record ResponseData := {
  o_error : option jsstring;
  o_text : option jsstring;
  o_pageCount : option Z;
  o_cost : option number;
  o_charsProcessed : option Z
}.

Record Response := {
  status : Z;
  data : ResponseData
}.

Definition ok (r : Response) : bool :=
  (200 <=? status r) && (status r <=? 299).

(** [POST] of the route, on a body whose [text] is a string. *)
Definition POST (limits : DemoLimits) (text : jsstring) (pageCount : Z)
  : Response :=
  if bool_decide (text = []) then
    {| status := 400;
       data := {| o_error := Some (js "No text provided"); o_text := None;
                  o_pageCount := None; o_cost := None;
                  o_charsProcessed := None |} |}
  else
    {| status := 200;
       data := {| o_error := None; o_text := Some text;
                  o_pageCount :=
                    Some (if pageCount =? 0 then 1 else pageCount);
                  o_cost :=
                    Some (Usage.calculateCost limits
                            (Z.of_nat (length text)));
                  o_charsProcessed := Some (Z.of_nat (length text)) |} |}.

End Ocr.

(* ===================================================================== *)
(** ** components/testimony/TestimonyPrepTool.tsx                         *)
(* ===================================================================== *)

Inductive LimitType := priceLimit | documentLimit.

(** [maxFileSize / (1024 * 1024)] as the template literal prints it. *)
Definition megabytes (limits : DemoLimits) : jsstring :=
  Num.toString (Num.ofDyadic (maxFileSize limits) 20).

Definition fileTooLarge (limits : DemoLimits) (file : File) : jsstring :=
  js "File " ++ [34%N] ++ fileName file ++ [34%N] ++ js " exceeds "
  ++ megabytes limits ++ js "MB limit".

Module Testimony.

Inductive AppStep := setup | documents | questions | practice | review.

(** The state of the component: one field per [useState], and [shown], the
    messages given to [showError], latest first.  The timer that clears
    [error] after ten seconds is not modelled. *)
Record State := {
  session : option PracticeSession;
  currentStep : AppStep;
  witnessNameInput : jsstring;
  caseNameInput : jsstring;
  isCreatingSession : bool;
  isUploadingDocument : bool;
  isGeneratingQuestions : bool;
  isSubmittingResponse : bool;
  error : option jsstring;
  limitReached : option LimitType;
  priceUsed : value;
  documentsUsed : value;
  currentQuestionIndex : Z;
  witnessResponse : jsstring;
  lastAIResponse : option value;
  showFeedback : bool;
  isRecording : bool;
  sessionStartTime : option Z;
  questionStartTime : option Z;
  elapsedTime : Z;
  shown : list jsstring
}.

Definition setSession (x : option PracticeSession) (s : State) : State :=
  {| session := x; currentStep := currentStep s;
     witnessNameInput := witnessNameInput s;
     caseNameInput := caseNameInput s;
     isCreatingSession := isCreatingSession s;
     isUploadingDocument := isUploadingDocument s;
     isGeneratingQuestions := isGeneratingQuestions s;
     isSubmittingResponse := isSubmittingResponse s; error := error s;
     limitReached := limitReached s; priceUsed := priceUsed s;
     documentsUsed := documentsUsed s;
     currentQuestionIndex := currentQuestionIndex s;
     witnessResponse := witnessResponse s;
     lastAIResponse := lastAIResponse s; showFeedback := showFeedback s;
     isRecording := isRecording s; sessionStartTime := sessionStartTime s;
     questionStartTime := questionStartTime s; elapsedTime := elapsedTime s;
     shown := shown s |}.

Definition setCurrentStep (x : AppStep) (s : State) : State :=
  {| session := session s; currentStep := x;
     witnessNameInput := witnessNameInput s;
     caseNameInput := caseNameInput s;
     isCreatingSession := isCreatingSession s;
     isUploadingDocument := isUploadingDocument s;
     isGeneratingQuestions := isGeneratingQuestions s;
     isSubmittingResponse := isSubmittingResponse s; error := error s;
     limitReached := limitReached s; priceUsed := priceUsed s;
     documentsUsed := documentsUsed s;
     currentQuestionIndex := currentQuestionIndex s;
     witnessResponse := witnessResponse s;
     lastAIResponse := lastAIResponse s; showFeedback := showFeedback s;
     isRecording := isRecording s; sessionStartTime := sessionStartTime s;
     questionStartTime := questionStartTime s; elapsedTime := elapsedTime s;
     shown := shown s |}.

Definition setWitnessNameInput (x : jsstring) (s : State) : State :=
  {| session := session s; currentStep := currentStep s;
     witnessNameInput := x; caseNameInput := caseNameInput s;
     isCreatingSession := isCreatingSession s;
     isUploadingDocument := isUploadingDocument s;
     isGeneratingQuestions := isGeneratingQuestions s;
     isSubmittingResponse := isSubmittingResponse s; error := error s;
     limitReached := limitReached s; priceUsed := priceUsed s;
     documentsUsed := documentsUsed s;
     currentQuestionIndex := currentQuestionIndex s;
     witnessResponse := witnessResponse s;
     lastAIResponse := lastAIResponse s; showFeedback := showFeedback s;
     isRecording := isRecording s; sessionStartTime := sessionStartTime s;
     questionStartTime := questionStartTime s; elapsedTime := elapsedTime s;
     shown := shown s |}.

Definition setCaseNameInput (x : jsstring) (s : State) : State :=
  {| session := session s; currentStep := currentStep s;
     witnessNameInput := witnessNameInput s; caseNameInput := x;
     isCreatingSession := isCreatingSession s;
     isUploadingDocument := isUploadingDocument s;
     isGeneratingQuestions := isGeneratingQuestions s;
     isSubmittingResponse := isSubmittingResponse s; error := error s;
     limitReached := limitReached s; priceUsed := priceUsed s;
     documentsUsed := documentsUsed s;
     currentQuestionIndex := currentQuestionIndex s;
     witnessResponse := witnessResponse s;
     lastAIResponse := lastAIResponse s; showFeedback := showFeedback s;
     isRecording := isRecording s; sessionStartTime := sessionStartTime s;
     questionStartTime := questionStartTime s; elapsedTime := elapsedTime s;
     shown := shown s |}.

Definition setIsCreatingSession (x : bool) (s : State) : State :=
  {| session := session s; currentStep := currentStep s;
     witnessNameInput := witnessNameInput s;
     caseNameInput := caseNameInput s; isCreatingSession := x;
     isUploadingDocument := isUploadingDocument s;
     isGeneratingQuestions := isGeneratingQuestions s;
     isSubmittingResponse := isSubmittingResponse s; error := error s;
     limitReached := limitReached s; priceUsed := priceUsed s;
     documentsUsed := documentsUsed s;
     currentQuestionIndex := currentQuestionIndex s;
     witnessResponse := witnessResponse s;
     lastAIResponse := lastAIResponse s; showFeedback := showFeedback s;
     isRecording := isRecording s; sessionStartTime := sessionStartTime s;
     questionStartTime := questionStartTime s; elapsedTime := elapsedTime s;
     shown := shown s |}.

Definition setIsUploadingDocument (x : bool) (s : State) : State :=
  {| session := session s; currentStep := currentStep s;
     witnessNameInput := witnessNameInput s;
     caseNameInput := caseNameInput s;
     isCreatingSession := isCreatingSession s; isUploadingDocument := x;
     isGeneratingQuestions := isGeneratingQuestions s;
     isSubmittingResponse := isSubmittingResponse s; error := error s;
     limitReached := limitReached s; priceUsed := priceUsed s;
     documentsUsed := documentsUsed s;
     currentQuestionIndex := currentQuestionIndex s;
     witnessResponse := witnessResponse s;
     lastAIResponse := lastAIResponse s; showFeedback := showFeedback s;
     isRecording := isRecording s; sessionStartTime := sessionStartTime s;
     questionStartTime := questionStartTime s; elapsedTime := elapsedTime s;
     shown := shown s |}.

Definition setIsGeneratingQuestions (x : bool) (s : State) : State :=
  {| session := session s; currentStep := currentStep s;
     witnessNameInput := witnessNameInput s;
     caseNameInput := caseNameInput s;
     isCreatingSession := isCreatingSession s;
     isUploadingDocument := isUploadingDocument s;
     isGeneratingQuestions := x;
     isSubmittingResponse := isSubmittingResponse s; error := error s;
     limitReached := limitReached s; priceUsed := priceUsed s;
     documentsUsed := documentsUsed s;
     currentQuestionIndex := currentQuestionIndex s;
     witnessResponse := witnessResponse s;
     lastAIResponse := lastAIResponse s; showFeedback := showFeedback s;
     isRecording := isRecording s; sessionStartTime := sessionStartTime s;
     questionStartTime := questionStartTime s; elapsedTime := elapsedTime s;
     shown := shown s |}.

Definition setIsSubmittingResponse (x : bool) (s : State) : State :=
  {| session := session s; currentStep := currentStep s;
     witnessNameInput := witnessNameInput s;
     caseNameInput := caseNameInput s;
     isCreatingSession := isCreatingSession s;
     isUploadingDocument := isUploadingDocument s;
     isGeneratingQuestions := isGeneratingQuestions s;
     isSubmittingResponse := x; error := error s;
     limitReached := limitReached s; priceUsed := priceUsed s;
     documentsUsed := documentsUsed s;
     currentQuestionIndex := currentQuestionIndex s;
     witnessResponse := witnessResponse s;
     lastAIResponse := lastAIResponse s; showFeedback := showFeedback s;
     isRecording := isRecording s; sessionStartTime := sessionStartTime s;
     questionStartTime := questionStartTime s; elapsedTime := elapsedTime s;
     shown := shown s |}.

Definition setError (x : option jsstring) (s : State) : State :=
  {| session := session s; currentStep := currentStep s;
     witnessNameInput := witnessNameInput s;
     caseNameInput := caseNameInput s;
     isCreatingSession := isCreatingSession s;
     isUploadingDocument := isUploadingDocument s;
     isGeneratingQuestions := isGeneratingQuestions s;
     isSubmittingResponse := isSubmittingResponse s; error := x;
     limitReached := limitReached s; priceUsed := priceUsed s;
     documentsUsed := documentsUsed s;
     currentQuestionIndex := currentQuestionIndex s;
     witnessResponse := witnessResponse s;
     lastAIResponse := lastAIResponse s; showFeedback := showFeedback s;
     isRecording := isRecording s; sessionStartTime := sessionStartTime s;
     questionStartTime := questionStartTime s; elapsedTime := elapsedTime s;
     shown := shown s |}.

Definition setLimitReached (x : option LimitType) (s : State) : State :=
  {| session := session s; currentStep := currentStep s;
     witnessNameInput := witnessNameInput s;
     caseNameInput := caseNameInput s;
     isCreatingSession := isCreatingSession s;
     isUploadingDocument := isUploadingDocument s;
     isGeneratingQuestions := isGeneratingQuestions s;
     isSubmittingResponse := isSubmittingResponse s; error := error s;
     limitReached := x; priceUsed := priceUsed s;
     documentsUsed := documentsUsed s;
     currentQuestionIndex := currentQuestionIndex s;
     witnessResponse := witnessResponse s;
     lastAIResponse := lastAIResponse s; showFeedback := showFeedback s;
     isRecording := isRecording s; sessionStartTime := sessionStartTime s;
     questionStartTime := questionStartTime s; elapsedTime := elapsedTime s;
     shown := shown s |}.

Definition setPriceUsed (x : value) (s : State) : State :=
  {| session := session s; currentStep := currentStep s;
     witnessNameInput := witnessNameInput s;
     caseNameInput := caseNameInput s;
     isCreatingSession := isCreatingSession s;
     isUploadingDocument := isUploadingDocument s;
     isGeneratingQuestions := isGeneratingQuestions s;
     isSubmittingResponse := isSubmittingResponse s; error := error s;
     limitReached := limitReached s; priceUsed := x;
     documentsUsed := documentsUsed s;
     currentQuestionIndex := currentQuestionIndex s;
     witnessResponse := witnessResponse s;
     lastAIResponse := lastAIResponse s; showFeedback := showFeedback s;
     isRecording := isRecording s; sessionStartTime := sessionStartTime s;
     questionStartTime := questionStartTime s; elapsedTime := elapsedTime s;
     shown := shown s |}.

Definition setDocumentsUsed (x : value) (s : State) : State :=
  {| session := session s; currentStep := currentStep s;
     witnessNameInput := witnessNameInput s;
     caseNameInput := caseNameInput s;
     isCreatingSession := isCreatingSession s;
     isUploadingDocument := isUploadingDocument s;
     isGeneratingQuestions := isGeneratingQuestions s;
     isSubmittingResponse := isSubmittingResponse s; error := error s;
     limitReached := limitReached s; priceUsed := priceUsed s;
     documentsUsed := x; currentQuestionIndex := currentQuestionIndex s;
     witnessResponse := witnessResponse s;
     lastAIResponse := lastAIResponse s; showFeedback := showFeedback s;
     isRecording := isRecording s; sessionStartTime := sessionStartTime s;
     questionStartTime := questionStartTime s; elapsedTime := elapsedTime s;
     shown := shown s |}.

Definition setCurrentQuestionIndex (x : Z) (s : State) : State :=
  {| session := session s; currentStep := currentStep s;
     witnessNameInput := witnessNameInput s;
     caseNameInput := caseNameInput s;
     isCreatingSession := isCreatingSession s;
     isUploadingDocument := isUploadingDocument s;
     isGeneratingQuestions := isGeneratingQuestions s;
     isSubmittingResponse := isSubmittingResponse s; error := error s;
     limitReached := limitReached s; priceUsed := priceUsed s;
     documentsUsed := documentsUsed s; currentQuestionIndex := x;
     witnessResponse := witnessResponse s;
     lastAIResponse := lastAIResponse s; showFeedback := showFeedback s;
     isRecording := isRecording s; sessionStartTime := sessionStartTime s;
     questionStartTime := questionStartTime s; elapsedTime := elapsedTime s;
     shown := shown s |}.

Definition setWitnessResponse (x : jsstring) (s : State) : State :=
  {| session := session s; currentStep := currentStep s;
     witnessNameInput := witnessNameInput s;
     caseNameInput := caseNameInput s;
     isCreatingSession := isCreatingSession s;
     isUploadingDocument := isUploadingDocument s;
     isGeneratingQuestions := isGeneratingQuestions s;
     isSubmittingResponse := isSubmittingResponse s; error := error s;
     limitReached := limitReached s; priceUsed := priceUsed s;
     documentsUsed := documentsUsed s;
     currentQuestionIndex := currentQuestionIndex s; witnessResponse := x;
     lastAIResponse := lastAIResponse s; showFeedback := showFeedback s;
     isRecording := isRecording s; sessionStartTime := sessionStartTime s;
     questionStartTime := questionStartTime s; elapsedTime := elapsedTime s;
     shown := shown s |}.

Definition setLastAIResponse (x : option value) (s : State) : State :=
  {| session := session s; currentStep := currentStep s;
     witnessNameInput := witnessNameInput s;
     caseNameInput := caseNameInput s;
     isCreatingSession := isCreatingSession s;
     isUploadingDocument := isUploadingDocument s;
     isGeneratingQuestions := isGeneratingQuestions s;
     isSubmittingResponse := isSubmittingResponse s; error := error s;
     limitReached := limitReached s; priceUsed := priceUsed s;
     documentsUsed := documentsUsed s;
     currentQuestionIndex := currentQuestionIndex s;
     witnessResponse := witnessResponse s; lastAIResponse := x;
     showFeedback := showFeedback s; isRecording := isRecording s;
     sessionStartTime := sessionStartTime s;
     questionStartTime := questionStartTime s; elapsedTime := elapsedTime s;
     shown := shown s |}.

Definition setShowFeedback (x : bool) (s : State) : State :=
  {| session := session s; currentStep := currentStep s;
     witnessNameInput := witnessNameInput s;
     caseNameInput := caseNameInput s;
     isCreatingSession := isCreatingSession s;
     isUploadingDocument := isUploadingDocument s;
     isGeneratingQuestions := isGeneratingQuestions s;
     isSubmittingResponse := isSubmittingResponse s; error := error s;
     limitReached := limitReached s; priceUsed := priceUsed s;
     documentsUsed := documentsUsed s;
     currentQuestionIndex := currentQuestionIndex s;
     witnessResponse := witnessResponse s;
     lastAIResponse := lastAIResponse s; showFeedback := x;
     isRecording := isRecording s; sessionStartTime := sessionStartTime s;
     questionStartTime := questionStartTime s; elapsedTime := elapsedTime s;
     shown := shown s |}.

Definition setIsRecording (x : bool) (s : State) : State :=
  {| session := session s; currentStep := currentStep s;
     witnessNameInput := witnessNameInput s;
     caseNameInput := caseNameInput s;
     isCreatingSession := isCreatingSession s;
     isUploadingDocument := isUploadingDocument s;
     isGeneratingQuestions := isGeneratingQuestions s;
     isSubmittingResponse := isSubmittingResponse s; error := error s;
     limitReached := limitReached s; priceUsed := priceUsed s;
     documentsUsed := documentsUsed s;
     currentQuestionIndex := currentQuestionIndex s;
     witnessResponse := witnessResponse s;
     lastAIResponse := lastAIResponse s; showFeedback := showFeedback s;
     isRecording := x; sessionStartTime := sessionStartTime s;
     questionStartTime := questionStartTime s; elapsedTime := elapsedTime s;
     shown := shown s |}.

Definition setSessionStartTime (x : option Z) (s : State) : State :=
  {| session := session s; currentStep := currentStep s;
     witnessNameInput := witnessNameInput s;
     caseNameInput := caseNameInput s;
     isCreatingSession := isCreatingSession s;
     isUploadingDocument := isUploadingDocument s;
     isGeneratingQuestions := isGeneratingQuestions s;
     isSubmittingResponse := isSubmittingResponse s; error := error s;
     limitReached := limitReached s; priceUsed := priceUsed s;
     documentsUsed := documentsUsed s;
     currentQuestionIndex := currentQuestionIndex s;
     witnessResponse := witnessResponse s;
     lastAIResponse := lastAIResponse s; showFeedback := showFeedback s;
     isRecording := isRecording s; sessionStartTime := x;
     questionStartTime := questionStartTime s; elapsedTime := elapsedTime s;
     shown := shown s |}.

Definition setQuestionStartTime (x : option Z) (s : State) : State :=
  {| session := session s; currentStep := currentStep s;
     witnessNameInput := witnessNameInput s;
     caseNameInput := caseNameInput s;
     isCreatingSession := isCreatingSession s;
     isUploadingDocument := isUploadingDocument s;
     isGeneratingQuestions := isGeneratingQuestions s;
     isSubmittingResponse := isSubmittingResponse s; error := error s;
     limitReached := limitReached s; priceUsed := priceUsed s;
     documentsUsed := documentsUsed s;
     currentQuestionIndex := currentQuestionIndex s;
     witnessResponse := witnessResponse s;
     lastAIResponse := lastAIResponse s; showFeedback := showFeedback s;
     isRecording := isRecording s; sessionStartTime := sessionStartTime s;
     questionStartTime := x; elapsedTime := elapsedTime s;
     shown := shown s |}.

Definition setElapsedTime (x : Z) (s : State) : State :=
  {| session := session s; currentStep := currentStep s;
     witnessNameInput := witnessNameInput s;
     caseNameInput := caseNameInput s;
     isCreatingSession := isCreatingSession s;
     isUploadingDocument := isUploadingDocument s;
     isGeneratingQuestions := isGeneratingQuestions s;
     isSubmittingResponse := isSubmittingResponse s; error := error s;
     limitReached := limitReached s; priceUsed := priceUsed s;
     documentsUsed := documentsUsed s;
     currentQuestionIndex := currentQuestionIndex s;
     witnessResponse := witnessResponse s;
     lastAIResponse := lastAIResponse s; showFeedback := showFeedback s;
     isRecording := isRecording s; sessionStartTime := sessionStartTime s;
     questionStartTime := questionStartTime s; elapsedTime := x;
     shown := shown s |}.

Definition setShown (x : list jsstring) (s : State) : State :=
  {| session := session s; currentStep := currentStep s;
     witnessNameInput := witnessNameInput s;
     caseNameInput := caseNameInput s;
     isCreatingSession := isCreatingSession s;
     isUploadingDocument := isUploadingDocument s;
     isGeneratingQuestions := isGeneratingQuestions s;
     isSubmittingResponse := isSubmittingResponse s; error := error s;
     limitReached := limitReached s; priceUsed := priceUsed s;
     documentsUsed := documentsUsed s;
     currentQuestionIndex := currentQuestionIndex s;
     witnessResponse := witnessResponse s;
     lastAIResponse := lastAIResponse s; showFeedback := showFeedback s;
     isRecording := isRecording s; sessionStartTime := sessionStartTime s;
     questionStartTime := questionStartTime s; elapsedTime := elapsedTime s;
     shown := x |}.

Definition showError (message : jsstring) (s : State) : State :=
  setShown (message :: shown s) (setError (Some message) s).

Section Component.

Variable limits : DemoLimits.
(** The clock; it does not advance while a handler runs. *)
Variable now : Z.
(** The prompt text and the remote endpoint of the generate-questions
    route. *)
Variable getQuestionGenerationPrompt : jsstring -> jsstring.
Variable chatCompletion :
  jsstring -> jsstring -> GenerateQuestions.Completion.
(** The identifiers [uuidv4()] returns in the browser and on the server. *)
Variable uuidv4 : nat -> jsstring.
Variable serverUuidv4 : nat -> jsstring.

Definition getSessionStats := Usage.getSessionStats limits true now.
Definition incrementSessionPrice := Usage.incrementSessionPrice limits true now.

Definition resetToSetup (st : State) (ls : LocalStorage)
  : State * LocalStorage :=
  let ls := match session st with
            | Some s => SessionStorage.deleteSession (sessionId s) ls
            | None => ls
            end in
  let '(stats, ls) := getSessionStats ls in
  ({| session := None;
      currentStep := setup;
      witnessNameInput := [];
      caseNameInput := [];
      isCreatingSession := isCreatingSession st;
      isUploadingDocument := isUploadingDocument st;
      isGeneratingQuestions := isGeneratingQuestions st;
      isSubmittingResponse := isSubmittingResponse st;
      error := None;
      limitReached := None;
      priceUsed := Usage.field stats "sessionPrice";
      documentsUsed := Usage.field stats "documentsUploaded";
      currentQuestionIndex := 0;
      witnessResponse := [];
      lastAIResponse := None;
      showFeedback := false;
      isRecording := isRecording st;
      sessionStartTime := sessionStartTime st;
      questionStartTime := questionStartTime st;
      elapsedTime := elapsedTime st;
      shown := shown st |}, ls).

Definition adopt (updated : option PracticeSession) (st : State) : State :=
  match updated with
  | Some u => setSession (Some u) st
  | None => st
  end.

(** [documents.map(d => d.id === docId ? {...d, ...} : d)] followed by
    [updateSession] and [setSession], when [getSession] finds the
    session. *)
Definition markDocument (sid docId : jsstring)
    (change : Document -> Document) (st : State) (ls : LocalStorage)
  : State * LocalStorage :=
  match SessionStorage.getSession sid ls with
  | Some currentSession =>
      let updatedDocs :=
        List.map (fun d => if Str.eqb (id d) docId then change d else d)
                 (Types.documents currentSession) in
      let '(updated, ls) :=
        SessionStorage.updateSession sid
          (SessionStorage.withDocuments updatedDocs) ls in
      (adopt updated st, ls)
  | None => (st, ls)
  end.

Definition withContent (text : jsstring) (d : Document) : Document :=
  {| id := id d; name := name d; type := type d; size := size d;
     uploadedAt := uploadedAt d; status := ready; content := Some text |}.

Definition withError (d : Document) : Document :=
  {| id := id d; name := name d; type := type d; size := size d;
     uploadedAt := uploadedAt d; status := failed; content := content d |}.

(** The body of the [try]: the state and store it leaves, or the message
    of the error thrown. *)
Definition processAndStore (sid docId : jsstring) (file : File)
    (st : State) (ls : LocalStorage)
  : (State * LocalStorage) + jsstring :=
  match processDocument file with
  | (ReadError message, _) => inr message
  | (ReadOk text, pageCount) =>
      let response := Ocr.POST limits text pageCount in
      if negb (Ocr.ok response) then
        inr (default (js "Failed to process document")
               (Ocr.o_error (Ocr.data response)))
      else
        let '(st, ls) :=
          match Ocr.o_cost (Ocr.data response) with
          | Some cost =>
              if truthy (VNum cost)
              then (setPriceUsed (plus (priceUsed st) (VNum cost)) st,
                    incrementSessionPrice cost ls)
              else (st, ls)
          | None => (st, ls)
          end in
        inl (markDocument sid docId (withContent text) st ls)
  end.

(** One turn of the loop for a file that passes the size test, [docId]
    being the identifier drawn for it. *)
Definition uploadFile (captured : PracticeSession) (docId : jsstring)
    (file : File) (st : State) (ls : LocalStorage) : State * LocalStorage :=
  let doc := {| id := docId; name := fileName file;
                type := if bool_decide (fileType file = [])
                        then js "unknown" else fileType file;
                size := fileSize file; uploadedAt := toISOString now;
                status := processing; content := None |} in
  let '(updated, ls) :=
    SessionStorage.addDocument (sessionId captured) doc ls in
  let st := adopt updated st in
  match processAndStore (sessionId captured) docId file st ls with
  | inl done => done
  | inr message =>
      markDocument (sessionId captured) docId withError
        (showError (fileName file ++ js ": " ++ message) st) ls
  end.

(** The loop over the files; [i] counts the identifiers drawn so far: a
    file over the size limit draws none. *)
Fixpoint uploadLoop (captured : PracticeSession) (i : nat)
    (files : list File) (st : State) (ls : LocalStorage)
  : State * LocalStorage :=
  match files with
  | [] => (st, ls)
  | file :: rest =>
      if maxFileSize limits <? fileSize file then
        uploadLoop captured i rest
          (showError (fileTooLarge limits file) st) ls
      else
        let docId := uuidv4 i in
        let '(st, ls) := uploadFile captured docId file st ls in
        uploadLoop captured (S i) rest st ls
  end.

(** [handleFileUpload(files)].  The callback reads the [session] of the
    render that created it: [session st] at the call, whatever
    [setSession] is given while the loop runs. *)
Definition handleFileUpload (files : option (list File)) (st : State)
    (ls : LocalStorage) : State * LocalStorage :=
  match files, session st with
  | Some files, Some captured =>
      if maxDocumentsPerSession limits
         <=? Z.of_nat (length (Types.documents captured))
      then (setLimitReached (Some documentLimit) st, ls)
      else
        let st := setError None (setIsUploadingDocument true st) in
        let '(st, ls) := uploadLoop captured 0 files st ls in
        (setIsUploadingDocument false st, ls)
  | _, _ => (st, ls)
  end.

Definition requestOf (s : PracticeSession) : GenerateQuestions.RequestBody :=
  {| GenerateQuestions.witnessName := witnessName s;
     GenerateQuestions.caseName := caseName s;
     GenerateQuestions.documents :=
       List.map (fun d =>
                   {| GenerateQuestions.doc_name := name d;
                      GenerateQuestions.doc_content :=
                        default [] (content d) |})
                (Types.documents s) |}.

(** [handleGenerateQuestions()]; [fetch] reaches the route and brings its
    response back. *)
Definition handleGenerateQuestions (st : State) (ls : LocalStorage)
  : State * LocalStorage :=
  match session st with
  | None => (st, ls)
  | Some captured =>
      if bool_decide (Types.documents captured = []) then (st, ls)
      else
        let st := setError None (setIsGeneratingQuestions true st) in
        let response :=
          GenerateQuestions.POST limits getQuestionGenerationPrompt
            chatCompletion serverUuidv4 (Some (requestOf captured)) in
        let data := GenerateQuestions.data response in
        let '(st, ls) :=
          if negb (GenerateQuestions.ok response) then
            if truthy (GenerateQuestions.r_limitReached data)
            then (setLimitReached (Some priceLimit) st, ls)
            else (showError
                    (js "Failed to generate questions. Please try again.")
                    st, ls)
          else
            let '(st, ls) :=
              match GenerateQuestions.r_cost data with
              | Some cost =>
                  if truthy (VNum cost)
                  then (setPriceUsed (plus (priceUsed st) (VNum cost)) st,
                        incrementSessionPrice cost ls)
                  else (st, ls)
              | None => (st, ls)
              end in
            match GenerateQuestions.r_questions data with
            | Some (q :: qs) =>
                let '(updated, ls) :=
                  SessionStorage.setQuestions (sessionId captured)
                    (q :: qs) ls in
                (match updated with
                 | Some u => setCurrentStep questions (setSession (Some u) st)
                 | None => st
                 end, ls)
            | _ =>
                (showError (js "No questions generated. Please try again.")
                   st, ls)
            end
        in
        (setIsGeneratingQuestions false st, ls)
  end.

End Component.

End Testimony.

(* ===================================================================== *)
(** ** components/deposition/DepositionPrepTool.tsx                       *)
(* ===================================================================== *)

Module Deposition.

Inductive AppStep := setup | documents | analysis | questions | outline.

(** The state of the component: one field per [useState], and [shown], the
    messages given to [showError], latest first.  The timer that clears
    [error] after ten seconds is not modelled. *)
Record State := {
  session : option DepositionSession;
  currentStep : AppStep;
  deponentNameInput : jsstring;
  caseNameInput : jsstring;
  caseNumberInput : jsstring;
  isCreatingSession : bool;
  isUploadingDocument : bool;
  isGeneratingQuestions : bool;
  isOrganizingOutline : bool;
  error : option jsstring;
  limitReached : option LimitType;
  priceUsed : value;
  documentsUsed : value;
  expandedQuestions : list jsstring;
  selectedTopic : option jsstring;
  selectedPriority : option jsstring;
  shown : list jsstring
}.

Definition setSession (x : option DepositionSession) (s : State) : State :=
  {| session := x; currentStep := currentStep s;
     deponentNameInput := deponentNameInput s;
     caseNameInput := caseNameInput s; caseNumberInput := caseNumberInput s;
     isCreatingSession := isCreatingSession s;
     isUploadingDocument := isUploadingDocument s;
     isGeneratingQuestions := isGeneratingQuestions s;
     isOrganizingOutline := isOrganizingOutline s; error := error s;
     limitReached := limitReached s; priceUsed := priceUsed s;
     documentsUsed := documentsUsed s;
     expandedQuestions := expandedQuestions s;
     selectedTopic := selectedTopic s;
     selectedPriority := selectedPriority s; shown := shown s |}.

Definition setCurrentStep (x : AppStep) (s : State) : State :=
  {| session := session s; currentStep := x;
     deponentNameInput := deponentNameInput s;
     caseNameInput := caseNameInput s; caseNumberInput := caseNumberInput s;
     isCreatingSession := isCreatingSession s;
     isUploadingDocument := isUploadingDocument s;
     isGeneratingQuestions := isGeneratingQuestions s;
     isOrganizingOutline := isOrganizingOutline s; error := error s;
     limitReached := limitReached s; priceUsed := priceUsed s;
     documentsUsed := documentsUsed s;
     expandedQuestions := expandedQuestions s;
     selectedTopic := selectedTopic s;
     selectedPriority := selectedPriority s; shown := shown s |}.

Definition setDeponentNameInput (x : jsstring) (s : State) : State :=
  {| session := session s; currentStep := currentStep s;
     deponentNameInput := x; caseNameInput := caseNameInput s;
     caseNumberInput := caseNumberInput s;
     isCreatingSession := isCreatingSession s;
     isUploadingDocument := isUploadingDocument s;
     isGeneratingQuestions := isGeneratingQuestions s;
     isOrganizingOutline := isOrganizingOutline s; error := error s;
     limitReached := limitReached s; priceUsed := priceUsed s;
     documentsUsed := documentsUsed s;
     expandedQuestions := expandedQuestions s;
     selectedTopic := selectedTopic s;
     selectedPriority := selectedPriority s; shown := shown s |}.

Definition setCaseNameInput (x : jsstring) (s : State) : State :=
  {| session := session s; currentStep := currentStep s;
     deponentNameInput := deponentNameInput s; caseNameInput := x;
     caseNumberInput := caseNumberInput s;
     isCreatingSession := isCreatingSession s;
     isUploadingDocument := isUploadingDocument s;
     isGeneratingQuestions := isGeneratingQuestions s;
     isOrganizingOutline := isOrganizingOutline s; error := error s;
     limitReached := limitReached s; priceUsed := priceUsed s;
     documentsUsed := documentsUsed s;
     expandedQuestions := expandedQuestions s;
     selectedTopic := selectedTopic s;
     selectedPriority := selectedPriority s; shown := shown s |}.

Definition setCaseNumberInput (x : jsstring) (s : State) : State :=
  {| session := session s; currentStep := currentStep s;
     deponentNameInput := deponentNameInput s;
     caseNameInput := caseNameInput s; caseNumberInput := x;
     isCreatingSession := isCreatingSession s;
     isUploadingDocument := isUploadingDocument s;
     isGeneratingQuestions := isGeneratingQuestions s;
     isOrganizingOutline := isOrganizingOutline s; error := error s;
     limitReached := limitReached s; priceUsed := priceUsed s;
     documentsUsed := documentsUsed s;
     expandedQuestions := expandedQuestions s;
     selectedTopic := selectedTopic s;
     selectedPriority := selectedPriority s; shown := shown s |}.

Definition setIsCreatingSession (x : bool) (s : State) : State :=
  {| session := session s; currentStep := currentStep s;
     deponentNameInput := deponentNameInput s;
     caseNameInput := caseNameInput s; caseNumberInput := caseNumberInput s;
     isCreatingSession := x; isUploadingDocument := isUploadingDocument s;
     isGeneratingQuestions := isGeneratingQuestions s;
     isOrganizingOutline := isOrganizingOutline s; error := error s;
     limitReached := limitReached s; priceUsed := priceUsed s;
     documentsUsed := documentsUsed s;
     expandedQuestions := expandedQuestions s;
     selectedTopic := selectedTopic s;
     selectedPriority := selectedPriority s; shown := shown s |}.

Definition setIsUploadingDocument (x : bool) (s : State) : State :=
  {| session := session s; currentStep := currentStep s;
     deponentNameInput := deponentNameInput s;
     caseNameInput := caseNameInput s; caseNumberInput := caseNumberInput s;
     isCreatingSession := isCreatingSession s; isUploadingDocument := x;
     isGeneratingQuestions := isGeneratingQuestions s;
     isOrganizingOutline := isOrganizingOutline s; error := error s;
     limitReached := limitReached s; priceUsed := priceUsed s;
     documentsUsed := documentsUsed s;
     expandedQuestions := expandedQuestions s;
     selectedTopic := selectedTopic s;
     selectedPriority := selectedPriority s; shown := shown s |}.

Definition setIsGeneratingQuestions (x : bool) (s : State) : State :=
  {| session := session s; currentStep := currentStep s;
     deponentNameInput := deponentNameInput s;
     caseNameInput := caseNameInput s; caseNumberInput := caseNumberInput s;
     isCreatingSession := isCreatingSession s;
     isUploadingDocument := isUploadingDocument s;
     isGeneratingQuestions := x;
     isOrganizingOutline := isOrganizingOutline s; error := error s;
     limitReached := limitReached s; priceUsed := priceUsed s;
     documentsUsed := documentsUsed s;
     expandedQuestions := expandedQuestions s;
     selectedTopic := selectedTopic s;
     selectedPriority := selectedPriority s; shown := shown s |}.

Definition setIsOrganizingOutline (x : bool) (s : State) : State :=
  {| session := session s; currentStep := currentStep s;
     deponentNameInput := deponentNameInput s;
     caseNameInput := caseNameInput s; caseNumberInput := caseNumberInput s;
     isCreatingSession := isCreatingSession s;
     isUploadingDocument := isUploadingDocument s;
     isGeneratingQuestions := isGeneratingQuestions s;
     isOrganizingOutline := x; error := error s;
     limitReached := limitReached s; priceUsed := priceUsed s;
     documentsUsed := documentsUsed s;
     expandedQuestions := expandedQuestions s;
     selectedTopic := selectedTopic s;
     selectedPriority := selectedPriority s; shown := shown s |}.

Definition setError (x : option jsstring) (s : State) : State :=
  {| session := session s; currentStep := currentStep s;
     deponentNameInput := deponentNameInput s;
     caseNameInput := caseNameInput s; caseNumberInput := caseNumberInput s;
     isCreatingSession := isCreatingSession s;
     isUploadingDocument := isUploadingDocument s;
     isGeneratingQuestions := isGeneratingQuestions s;
     isOrganizingOutline := isOrganizingOutline s; error := x;
     limitReached := limitReached s; priceUsed := priceUsed s;
     documentsUsed := documentsUsed s;
     expandedQuestions := expandedQuestions s;
     selectedTopic := selectedTopic s;
     selectedPriority := selectedPriority s; shown := shown s |}.

Definition setLimitReached (x : option LimitType) (s : State) : State :=
  {| session := session s; currentStep := currentStep s;
     deponentNameInput := deponentNameInput s;
     caseNameInput := caseNameInput s; caseNumberInput := caseNumberInput s;
     isCreatingSession := isCreatingSession s;
     isUploadingDocument := isUploadingDocument s;
     isGeneratingQuestions := isGeneratingQuestions s;
     isOrganizingOutline := isOrganizingOutline s; error := error s;
     limitReached := x; priceUsed := priceUsed s;
     documentsUsed := documentsUsed s;
     expandedQuestions := expandedQuestions s;
     selectedTopic := selectedTopic s;
     selectedPriority := selectedPriority s; shown := shown s |}.

Definition setPriceUsed (x : value) (s : State) : State :=
  {| session := session s; currentStep := currentStep s;
     deponentNameInput := deponentNameInput s;
     caseNameInput := caseNameInput s; caseNumberInput := caseNumberInput s;
     isCreatingSession := isCreatingSession s;
     isUploadingDocument := isUploadingDocument s;
     isGeneratingQuestions := isGeneratingQuestions s;
     isOrganizingOutline := isOrganizingOutline s; error := error s;
     limitReached := limitReached s; priceUsed := x;
     documentsUsed := documentsUsed s;
     expandedQuestions := expandedQuestions s;
     selectedTopic := selectedTopic s;
     selectedPriority := selectedPriority s; shown := shown s |}.

Definition setDocumentsUsed (x : value) (s : State) : State :=
  {| session := session s; currentStep := currentStep s;
     deponentNameInput := deponentNameInput s;
     caseNameInput := caseNameInput s; caseNumberInput := caseNumberInput s;
     isCreatingSession := isCreatingSession s;
     isUploadingDocument := isUploadingDocument s;
     isGeneratingQuestions := isGeneratingQuestions s;
     isOrganizingOutline := isOrganizingOutline s; error := error s;
     limitReached := limitReached s; priceUsed := priceUsed s;
     documentsUsed := x; expandedQuestions := expandedQuestions s;
     selectedTopic := selectedTopic s;
     selectedPriority := selectedPriority s; shown := shown s |}.

Definition setExpandedQuestions (x : list jsstring) (s : State) : State :=
  {| session := session s; currentStep := currentStep s;
     deponentNameInput := deponentNameInput s;
     caseNameInput := caseNameInput s; caseNumberInput := caseNumberInput s;
     isCreatingSession := isCreatingSession s;
     isUploadingDocument := isUploadingDocument s;
     isGeneratingQuestions := isGeneratingQuestions s;
     isOrganizingOutline := isOrganizingOutline s; error := error s;
     limitReached := limitReached s; priceUsed := priceUsed s;
     documentsUsed := documentsUsed s; expandedQuestions := x;
     selectedTopic := selectedTopic s;
     selectedPriority := selectedPriority s; shown := shown s |}.

Definition setSelectedTopic (x : option jsstring) (s : State) : State :=
  {| session := session s; currentStep := currentStep s;
     deponentNameInput := deponentNameInput s;
     caseNameInput := caseNameInput s; caseNumberInput := caseNumberInput s;
     isCreatingSession := isCreatingSession s;
     isUploadingDocument := isUploadingDocument s;
     isGeneratingQuestions := isGeneratingQuestions s;
     isOrganizingOutline := isOrganizingOutline s; error := error s;
     limitReached := limitReached s; priceUsed := priceUsed s;
     documentsUsed := documentsUsed s;
     expandedQuestions := expandedQuestions s; selectedTopic := x;
     selectedPriority := selectedPriority s; shown := shown s |}.

Definition setSelectedPriority (x : option jsstring) (s : State) : State :=
  {| session := session s; currentStep := currentStep s;
     deponentNameInput := deponentNameInput s;
     caseNameInput := caseNameInput s; caseNumberInput := caseNumberInput s;
     isCreatingSession := isCreatingSession s;
     isUploadingDocument := isUploadingDocument s;
     isGeneratingQuestions := isGeneratingQuestions s;
     isOrganizingOutline := isOrganizingOutline s; error := error s;
     limitReached := limitReached s; priceUsed := priceUsed s;
     documentsUsed := documentsUsed s;
     expandedQuestions := expandedQuestions s;
     selectedTopic := selectedTopic s; selectedPriority := x;
     shown := shown s |}.

Definition setShown (x : list jsstring) (s : State) : State :=
  {| session := session s; currentStep := currentStep s;
     deponentNameInput := deponentNameInput s;
     caseNameInput := caseNameInput s; caseNumberInput := caseNumberInput s;
     isCreatingSession := isCreatingSession s;
     isUploadingDocument := isUploadingDocument s;
     isGeneratingQuestions := isGeneratingQuestions s;
     isOrganizingOutline := isOrganizingOutline s; error := error s;
     limitReached := limitReached s; priceUsed := priceUsed s;
     documentsUsed := documentsUsed s;
     expandedQuestions := expandedQuestions s;
     selectedTopic := selectedTopic s;
     selectedPriority := selectedPriority s; shown := x |}.

Definition showError (message : jsstring) (s : State) : State :=
  setShown (message :: shown s) (setError (Some message) s).

(** The response of the deposition generate-questions route as the
    component reads it; [None] or [VUndefined] for a property the body does
    not have. *)
Record Response := {
  status : Z;
  r_error : option jsstring;
  r_limitReached : value;
  r_cost : option number;
  r_questions : option (list value);
  r_gaps : option (list value);
  r_contradictions : option (list value);
  r_analysis : option value
}.

Definition ok (r : Response) : bool :=
  (200 <=? status r) && (status r <=? 299).

Section Component.

Variable limits : DemoLimits.
(** The clock; it does not advance while a handler runs. *)
Variable now : Z.
Variable uuidv4 : nat -> jsstring.

Definition getSessionStats := Usage.getSessionStats limits true now.
Definition incrementSessionPrice := Usage.incrementSessionPrice limits true now.

Definition resetToSetup (st : State) (ls : LocalStorage)
  : State * LocalStorage :=
  let '(stats, ls) := getSessionStats ls in
  ({| session := None;
      currentStep := setup;
      deponentNameInput := [];
      caseNameInput := [];
      caseNumberInput := [];
      isCreatingSession := isCreatingSession st;
      isUploadingDocument := isUploadingDocument st;
      isGeneratingQuestions := isGeneratingQuestions st;
      isOrganizingOutline := isOrganizingOutline st;
      error := None;
      limitReached := None;
      priceUsed := Usage.field stats "sessionPrice";
      documentsUsed := Usage.field stats "documentsUploaded";
      expandedQuestions := [];
      selectedTopic := None;
      selectedPriority := None;
      shown := shown st |},
   setCurrentDeposition None ls).

Definition maximum : jsstring :=
  Num.toString (Num.ofZ (maxDocumentsPerSession limits)).

(** The document limit as both checks of [handleFileUpload] test it. *)
Definition atDocumentLimit (s : DepositionSession) : bool :=
  maxDocumentsPerSession limits <=? Z.of_nat (length (dep_documents s)).

(** The loop over the files; [captured] is the [session] the callback was
    created with, and [i] counts the identifiers drawn so far: only a file
    that was read draws one. *)
Fixpoint uploadLoop (captured : DepositionSession) (i : nat)
    (files : list File) (st : State) (ls : LocalStorage)
  : State * LocalStorage :=
  match files with
  | [] => (st, ls)
  | file :: rest =>
      if atDocumentLimit captured then
        (showError (js "Demo limit reached: Maximum " ++ maximum
                    ++ js " documents") st, ls)
      else if maxFileSize limits <? fileSize file then
        uploadLoop captured i rest
          (showError (fileTooLarge limits file) st) ls
      else
        match fileText file with
        | ReadError _ =>
            uploadLoop captured i rest
              (showError (js "Failed to upload " ++ fileName file) st) ls
        | ReadOk text =>
            let newDoc := {|
              d_id := uuidv4 i;
              d_name := fileName file;
              d_type := Classify.detectDocumentType (fileName file)
                          (Some text);
              d_fileType := if bool_decide (fileType file = [])
                            then js "text/plain" else fileType file;
              d_size := fileSize file;
              d_uploadedAt := toISOString now;
              d_content := text;
              d_status := ready;
              d_pageCount := (Z.of_nat (length text) + 2999) / 3000;
              d_source := fileName file |} in
            let '(updated, ls) :=
              DepositionStorage.addDepositionDocument (dep_id captured)
                newDoc ls in
            let st :=
              match updated with
              | Some u =>
                  setSession (Some u)
                    (setDocumentsUsed
                       (plus (documentsUsed st) (VNum (Dec 1 0))) st)
              | None => st
              end in
            uploadLoop captured (S i) rest st ls
        end
  end.

(** [handleFileUpload(files)].  The callback reads the [session] of the
    render that created it: [session st] at the call, whatever
    [setSession] is given while the loop runs. *)
Definition handleFileUpload (files : option (list File)) (st : State)
    (ls : LocalStorage) : State * LocalStorage :=
  match files, session st with
  | Some files, Some captured =>
      if atDocumentLimit captured then
        (showError (js "Demo limit: Maximum " ++ maximum
                    ++ js " documents per session")
           (setLimitReached (Some documentLimit) st), ls)
      else
        let st := setError None (setIsUploadingDocument true st) in
        let '(st, ls) := uploadLoop captured 0 files st ls in
        (setIsUploadingDocument false st, ls)
  | _, _ => (st, ls)
  end.

Definition emptyAnalysis : value :=
  VObj [(js "keyThemes", VArr []); (js "timelineEvents", VArr []);
        (js "witnesses", VArr []); (js "keyExhibits", VArr [])].

(** [generateQuestions()], given what [fetch] brings back: the response of
    the route, or [None] when the request fails. *)
Definition generateQuestions (fetched : option Response) (st : State)
    (ls : LocalStorage) : State * LocalStorage :=
  match session st with
  | None => (st, ls)
  | Some captured =>
      if bool_decide (dep_documents captured = []) then (st, ls)
      else
        let st := setError None (setIsGeneratingQuestions true st) in
        let '(st, ls) :=
          match fetched with
          | None =>
              (showError
                 (js "Failed to generate questions. Please try again.") st,
               ls)
          | Some response =>
              if negb (ok response) then
                if truthy (r_limitReached response)
                then (setLimitReached (Some priceLimit) st, ls)
                else
                  (showError
                     (match r_error response with
                      | Some e => if bool_decide (e = [])
                                  then js "Failed to generate questions"
                                  else e
                      | None => js "Failed to generate questions"
                      end) st, ls)
              else
                let '(st, ls) :=
                  match r_cost response with
                  | Some cost =>
                      if truthy (VNum cost)
                      then (setPriceUsed
                              (plus (priceUsed st) (VNum cost)) st,
                            incrementSessionPrice cost ls)
                      else (st, ls)
                  | None => (st, ls)
                  end in
                let '(_, ls) :=
                  DepositionStorage.setDepositionQuestions (dep_id captured)
                    (default [] (r_questions response)) ls in
                let '(updated, ls) :=
                  DepositionStorage.setAnalysisResults (dep_id captured)
                    (default [] (r_gaps response))
                    (default [] (r_contradictions response))
                    (default emptyAnalysis (r_analysis response)) ls in
                (match updated with
                 | Some u => setCurrentStep analysis (setSession (Some u) st)
                 | None => st
                 end, ls)
          end in
        (setIsGeneratingQuestions false st, ls)
  end.

End Component.

End Deposition.

(* ===================================================================== *)
(** ** lib/demo-limits/ocr-limit-service.ts.bak                           *)
(* ===================================================================== *)

Module OCRLimitService.

Record LimitCheckResult := {
  allowed : bool;
  reason : option jsstring;
  currentUsage : option Z;
  limit : option Z;
  remainingUsage : option Z;
  suggestedAction : option jsstring
}.

(** [DEMO_LIMITS.ocr], which the configuration no longer declares. *)
Record OcrLimits := {
  maxFileSize : Z;
  maxDocumentsPerSession : Z;
  maxPagesPerDocument : Z;
  maxPagesPerDay : Z
}.

(** What [getOCRUsage()] returned. *)
Record OcrUsage := {
  sessionDocuments : Z;
  dailyPages : Z
}.

Definition allow : LimitCheckResult :=
  {| allowed := true; reason := None; currentUsage := None; limit := None;
     remainingUsage := None; suggestedAction := None |}.

(** [x.toFixed(digits)] for [x = bytes / (1024 * 1024)] below [10^21]: a
    minus sign when [x] is negative, and the decimal with that many
    fraction digits nearest to the double, the larger one in a tie. *)
Definition megabytesFixed (digits : nat) (bytes : Z) : jsstring :=
  let scale := 10 ^ Z.of_nat digits in
  let b := Z.abs (Num.round53 bytes) in
  let n := (2 * b * scale + 1048576) / (2 * 1048576) in
  let whole := Num.digitsOf (n / scale) in
  (if bytes <? 0 then js "-" else [])
  ++ (if bool_decide (digits = O) then whole
      else whole ++ js "." ++ pad digits (n mod scale)).

Section Service.

Variable limits : OcrLimits.
Variable usage : OcrUsage.
(** [UPGRADE_MESSAGES.ocrLimit.cta] *)
Variable cta : jsstring.

Definition checkFileSizeAllowed (fileSize : Z) : LimitCheckResult :=
  if maxFileSize limits <? fileSize then
    {| allowed := false;
       reason := Some (js "File size (" ++ megabytesFixed 2 fileSize
                       ++ js "MB) exceeds maximum of "
                       ++ megabytesFixed 0 (maxFileSize limits) ++ js "MB");
       currentUsage := Some fileSize;
       limit := Some (maxFileSize limits);
       remainingUsage := None;
       suggestedAction := Some cta |}
  else allow.

Definition checkDocumentUploadAllowed : LimitCheckResult :=
  if maxDocumentsPerSession limits <=? sessionDocuments usage then
    {| allowed := false;
       reason := Some (js "Session document limit of "
                       ++ Num.toString
                            (Num.ofZ (maxDocumentsPerSession limits))
                       ++ js " documents reached");
       currentUsage := Some (sessionDocuments usage);
       limit := Some (maxDocumentsPerSession limits);
       remainingUsage := None;
       suggestedAction := Some cta |}
  else
    {| allowed := true; reason := None;
       currentUsage := Some (sessionDocuments usage);
       limit := Some (maxDocumentsPerSession limits);
       remainingUsage :=
         Some (maxDocumentsPerSession limits - sessionDocuments usage);
       suggestedAction := None |}.

Definition checkPagesAllowed (pageCount : Z) : LimitCheckResult :=
  if maxPagesPerDocument limits <? pageCount then
    {| allowed := false;
       reason := Some (js "Document exceeds maximum of "
                       ++ Num.toString (Num.ofZ (maxPagesPerDocument limits))
                       ++ js " pages per document");
       currentUsage := Some pageCount;
       limit := Some (maxPagesPerDocument limits);
       remainingUsage := None;
       suggestedAction := Some cta |}
  else if maxPagesPerDay limits <? dailyPages usage + pageCount then
    {| allowed := false;
       reason := Some (js "Daily page limit of "
                       ++ Num.toString (Num.ofZ (maxPagesPerDay limits))
                       ++ js " pages would be exceeded");
       currentUsage := Some (dailyPages usage);
       limit := Some (maxPagesPerDay limits);
       remainingUsage := Some (maxPagesPerDay limits - dailyPages usage);
       suggestedAction := Some cta |}
  else
    {| allowed := true; reason := None;
       currentUsage := Some (dailyPages usage);
       limit := Some (maxPagesPerDay limits);
       remainingUsage := Some (maxPagesPerDay limits - dailyPages usage);
       suggestedAction := None |}.

Definition checkUploadAllowed (fileSize estimatedPages : Z)
  : LimitCheckResult :=
  let sizeCheck := checkFileSizeAllowed fileSize in
  if negb (allowed sizeCheck) then sizeCheck
  else
    let docCheck := checkDocumentUploadAllowed in
    if negb (allowed docCheck) then docCheck
    else
      let pageCheck := checkPagesAllowed estimatedPages in
      if negb (allowed pageCheck) then pageCheck
      else allow.

End Service.

End OCRLimitService.

(* ===================================================================== *)
(** ** Scenarios                                                          *)
(* ===================================================================== *)

Module Scenario.

Definition emptyStorage : LocalStorage :=
  {| stats := None; sessions := ∅; depositions := ∅;
     currentDeposition := None |}.

(** 2024-11-01T18:00:00.000Z *)
Definition t0 : Z := 1730484000000.

Definition textFile (n : string) (text : string) : File :=
  {| fileName := js n; fileType := js "text/plain";
     fileSize := Z.of_nat (length (js text)); fileText := ReadOk (js text);
     pdfPages := None |}.

Definition fileA : File := textFile "a.txt" "On 3 May the parties met.".
Definition fileB : File := textFile "b.txt" "The contract was signed in June.".

Definition ids (prefix : string) (i : nat) : jsstring :=
  js prefix ++ Num.digitsOf (Z.of_nat i).

(** The ledger as written by a browser that opened its window at [start]
    and has spent [price] since. *)
Definition ledger (price : number) (start : Z) : jsstring :=
  stringify
    (Usage.statsValue
       {| Usage.documentsUploaded := Dec 0 0;
          Usage.totalStorageUsed := Dec 0 0;
          Usage.sessionPrice := price;
          Usage.sessionStartAt := toISOString start;
          Usage.sessionResetAt := toISOString (start + 24 * Usage.msPerHour)
       |}).

Definition withLedger (blob : jsstring) : LocalStorage :=
  setStats blob emptyStorage.

Definition defaults : DemoLimits := DEMO_LIMITS noEnv.

(** The limits with [DEMO_MAX_DOCUMENTS_PER_SESSION=1]. *)
Definition oneDocument : DemoLimits :=
  DEMO_LIMITS {| DEMO_SESSION_HOURS := None;
                 DEMO_SESSION_PRICE_LIMIT := None;
                 DEMO_MAX_DOCUMENTS_PER_SESSION := Some 1;
                 DEMO_MAX_FILE_SIZE := None |}.

(** The limits with [DEMO_SESSION_PRICE_LIMIT=0.01]. *)
Definition oneCent : DemoLimits :=
  DEMO_LIMITS {| DEMO_SESSION_HOURS := None;
                 DEMO_SESSION_PRICE_LIMIT := Some (Dec 1 (-2));
                 DEMO_MAX_DOCUMENTS_PER_SESSION := None;
                 DEMO_MAX_FILE_SIZE := None |}.

(** The limits with [DEMO_SESSION_HOURS=-1]. *)
Definition negativeHours : DemoLimits :=
  DEMO_LIMITS {| DEMO_SESSION_HOURS := Some (-1);
                 DEMO_SESSION_PRICE_LIMIT := None;
                 DEMO_MAX_DOCUMENTS_PER_SESSION := None;
                 DEMO_MAX_FILE_SIZE := None |}.

(** The limits with [DEMO_SESSION_HOURS=9999999999]. *)
Definition endlessHours : DemoLimits :=
  DEMO_LIMITS {| DEMO_SESSION_HOURS := Some 9999999999;
                 DEMO_SESSION_PRICE_LIMIT := None;
                 DEMO_MAX_DOCUMENTS_PER_SESSION := None;
                 DEMO_MAX_FILE_SIZE := None |}.

(** 2024-11-03T06:00:00.000Z, when the clocks of New York went back from
    02:00 to 01:00. *)
Definition fallBack : Z := 1730613600000.

(** A host in the zone of New York in the autumn of 2024: four hours
    behind UTC until [fallBack], five hours from then on; a local time
    that occurs twice is taken at its first occurrence. *)
Definition newYork : Host := {|
  offsetAt := fun t =>
    if t <? fallBack then -4 * 3600000 else -5 * 3600000;
  offsetAtLocal := fun t =>
    if t <? fallBack - 4 * 3600000 then -4 * 3600000 else -5 * 3600000;
  parseOther := fun _ => None
|}.

(** A clock that reads [t] and one millisecond more at each reading. *)
Definition ticking (t : Z) : nat -> Z := fun i => t + Z.of_nat i.

(** The testimony component on its documents step, with [s] as session. *)
Definition testimonyAt (s : PracticeSession) : Testimony.State :=
  {| Testimony.session := Some s;
     Testimony.currentStep := Testimony.documents;
     Testimony.witnessNameInput := witnessName s;
     Testimony.caseNameInput := caseName s;
     Testimony.isCreatingSession := false;
     Testimony.isUploadingDocument := false;
     Testimony.isGeneratingQuestions := false;
     Testimony.isSubmittingResponse := false;
     Testimony.error := None;
     Testimony.limitReached := None;
     Testimony.priceUsed := VNum (Dec 0 0);
     Testimony.documentsUsed := VNum (Dec 0 0);
     Testimony.currentQuestionIndex := 0;
     Testimony.witnessResponse := [];
     Testimony.lastAIResponse := None;
     Testimony.showFeedback := false;
     Testimony.isRecording := false;
     Testimony.sessionStartTime := None;
     Testimony.questionStartTime := None;
     Testimony.elapsedTime := 0;
     Testimony.shown := [] |}.

(** The deposition component on its documents step, with [s] as
    session. *)
Definition depositionAt (s : DepositionSession) : Deposition.State :=
  {| Deposition.session := Some s;
     Deposition.currentStep := Deposition.documents;
     Deposition.deponentNameInput := deponentName s;
     Deposition.caseNameInput := dep_caseName s;
     Deposition.caseNumberInput := [];
     Deposition.isCreatingSession := false;
     Deposition.isUploadingDocument := false;
     Deposition.isGeneratingQuestions := false;
     Deposition.isOrganizingOutline := false;
     Deposition.error := None;
     Deposition.limitReached := None;
     Deposition.priceUsed := VNum (Dec 0 0);
     Deposition.documentsUsed := VNum (Dec 0 0);
     Deposition.expandedQuestions := [];
     Deposition.selectedTopic := None;
     Deposition.selectedPriority := None;
     Deposition.shown := [] |}.

(** A testimony session for Jane Doe in Doe v. Roe, created at [t0] in a
    browser whose ledger is [blob]. *)
Definition jane (blob : jsstring) : PracticeSession * LocalStorage :=
  SessionStorage.createSession (js "session-1") t0 (js "Jane Doe")
    (js "Doe v. Roe") (withLedger blob).

(** The same for the deposition tool. *)
Definition janeDeposed (blob : jsstring)
  : DepositionSession * LocalStorage :=
  let '(s, ls) :=
    DepositionStorage.createDepositionSession (js "deposition-1") t0
      (js "Jane Doe") (js "Doe v. Roe") None (withLedger blob) in
  (s, setCurrentDeposition (Some (dep_id s)) ls).

(** The session of [jane] once notes.txt has been uploaded and read. *)
Definition notes : Document :=
  {| id := js "doc-1"; name := js "notes.txt"; type := js "text/plain";
     size := 25; uploadedAt := toISOString t0; status := ready;
     content := Some (js "On 3 May the parties met.") |}.

Definition janeReady (blob : jsstring) : PracticeSession * LocalStorage :=
  let '(s, ls) := jane blob in
  let '(updated, ls) := SessionStorage.addDocument (sessionId s) notes ls in
  (default s updated, ls).

(** A stand-in for the prompt text. *)
Definition prompt (witness : jsstring) : jsstring :=
  js "Prepare cross-examination questions for " ++ witness.

(** A remote endpoint that answers with a fenced array of one empty
    object. *)
Definition remote (system user : jsstring) : GenerateQuestions.Completion :=
  GenerateQuestions.Content (fenced (js "[{}]")).

(** A file of one byte more than the default size limit. *)
Definition hugeFile : File :=
  {| fileName := js "huge.txt"; fileType := js "text/plain";
     fileSize := 10 * 1024 * 1024 + 1; fileText := ReadOk (js "x");
     pdfPages := None |}.

End Scenario.

(* ===================================================================== *)
(** ** Vocabulary of the statements                                       *)
(* ===================================================================== *)

(** A question whose category and difficulty are in the enumerations. *)
Definition wellTyped (q : GenerateQuestions.CrossExamQuestion) : Prop :=
  In (GenerateQuestions.category q) GenerateQuestions.validCategories
  /\ In (GenerateQuestions.difficulty q) GenerateQuestions.validDifficulties.

(** A request the handler does not refuse with status 400. *)
Definition validRequest (body : GenerateQuestions.RequestBody) : Prop :=
  GenerateQuestions.witnessName body <> []
  /\ GenerateQuestions.caseName body <> []
  /\ GenerateQuestions.documents body <> [].

(** The remote call failed: it threw, or its content is one that
    [parseJSONResponse] gives up on. *)
Definition remoteFailed (c : GenerateQuestions.Completion) : Prop :=
  c = GenerateQuestions.Throws
  \/ exists content, c = GenerateQuestions.Content content
       /\ GenerateQuestions.parseJSONResponse content = None.

(* ===================================================================== *)
(** ** lib/demo-limits/token-limit-service.ts                             *)
(* ===================================================================== *)

Module TokenLimitService.

Import OCRLimitService.

(** [DEMO_LIMITS.tokens], which the configuration no longer declares. *)
Record TokenLimits := {
  perRequest : Z;
  perSession : Z;
  perDayPerUser : Z
}.

(** What [getTokenUsage()] returned. *)
Record TokenUsage := {
  sessionTokens : Z;
  dailyTokens : Z
}.

(** [text.slice(0, stop)]: a negative [stop] counts from the end. *)
Definition slice0 (stop : Z) (text : jsstring) : jsstring :=
  take (Z.to_nat (if stop <? 0 then Z.of_nat (length text) + stop else stop))
       text.

Definition truncationMark : jsstring :=
  js "... [truncated due to demo limits]".

(** [Math.ceil(text.length / 4)] *)
Definition estimateTokens (text : jsstring) : Z :=
  (Z.of_nat (length text) + 3) / 4.

Definition truncateToLimit (text : jsstring) (maxTokens : Z) : jsstring :=
  let estimatedTokens := estimateTokens text in
  if estimatedTokens <=? maxTokens then text
  else
    let maxChars := maxTokens * 4 in
    slice0 maxChars text ++ truncationMark.

Section Service.

Variable limits : TokenLimits.
Variable usage : TokenUsage.
(** [UPGRADE_MESSAGES.tokenLimit.cta] *)
Variable cta : jsstring.
(** [n.toLocaleString()], which depends on the locale of the host. *)
Variable toLocaleString : Z -> jsstring.

Definition checkRequestAllowed (requestTokens : Z) : LimitCheckResult :=
  if perRequest limits <? requestTokens then
    {| allowed := false;
       reason := Some (js "Request exceeds maximum token limit of "
                       ++ toLocaleString (perRequest limits)
                       ++ js " tokens");
       currentUsage := Some requestTokens;
       limit := Some (perRequest limits);
       remainingUsage := None;
       suggestedAction := Some cta |}
  else
    let projectedSessionTokens := sessionTokens usage + requestTokens in
    if perSession limits <? projectedSessionTokens then
      {| allowed := false;
         reason := Some (js "Session token limit of "
                         ++ toLocaleString (perSession limits)
                         ++ js " tokens would be exceeded");
         currentUsage := Some (sessionTokens usage);
         limit := Some (perSession limits);
         remainingUsage := Some (perSession limits - sessionTokens usage);
         suggestedAction := Some cta |}
    else
      let projectedDailyTokens := dailyTokens usage + requestTokens in
      if perDayPerUser limits <? projectedDailyTokens then
        {| allowed := false;
           reason := Some (js "Daily token limit of "
                           ++ toLocaleString (perDayPerUser limits)
                           ++ js " tokens would be exceeded");
           currentUsage := Some (dailyTokens usage);
           limit := Some (perDayPerUser limits);
           remainingUsage := Some (perDayPerUser limits - dailyTokens usage);
           suggestedAction := Some cta |}
      else
        {| allowed := true; reason := None;
           currentUsage := Some (sessionTokens usage);
           limit := Some (perSession limits);
           remainingUsage := Some (perSession limits - sessionTokens usage);
           suggestedAction := None |}.

End Service.

End TokenLimitService.

(* ===================================================================== *)
(** ** lib/demo-limits/ocr-limit-service.ts.bak: page estimates           *)
(* ===================================================================== *)

Module OCRPages.

Import OCRLimitService.

(** [Math.max(1, Math.ceil(fileSize / bytesPerPage))] *)
Definition estimatePageCount (fileSize : Z) : Z :=
  let bytesPerPage := 100 * 1024 in
  Z.max 1 ((fileSize + bytesPerPage - 1) / bytesPerPage).

Definition getMaxAllowedPages (limits : OcrLimits) (usage : OcrUsage) : Z :=
  let remainingDaily := maxPagesPerDay limits - dailyPages usage in
  Z.min (maxPagesPerDocument limits) remainingDaily.

End OCRPages.

(* ===================================================================== *)
(** ** components/testimony/TestimonyPrepTool.tsx: the practice step      *)
(* ===================================================================== *)

Module TestimonyPractice.

Import Testimony.

(** [startPractice()], at the instant [now]. *)
Definition startPractice (now : Z) (st : State) : State :=
  setError None
    (setQuestionStartTime (Some now)
       (setSessionStartTime (Some now)
          (setCurrentQuestionIndex 0 (setCurrentStep practice st)))).

(** [nextQuestion()], at the instant [now]. *)
Definition nextQuestion (now : Z) (st : State) : State :=
  match session st with
  | None => st
  | Some s =>
      if currentQuestionIndex st <? Z.of_nat (length (Types.questions s)) - 1
      then
        setQuestionStartTime (Some now)
          (setShowFeedback false
             (setLastAIResponse None
                (setWitnessResponse []
                   (setCurrentQuestionIndex (currentQuestionIndex st + 1)
                      st))))
      else setCurrentStep review st
  end.

Definition toggleRecording (st : State) : State :=
  setIsRecording (negb (isRecording st)) st.

(** [s.padStart(2, '0')] *)
Definition padStart2 (s : jsstring) : jsstring :=
  repeat 48%N (2 - length s) ++ s.

(** [formatTime(seconds)] for a whole number of seconds. *)
Definition formatTime (seconds : Z) : jsstring :=
  let mins := seconds / 60 in
  let secs := Z.rem seconds 60 in
  Num.toString (Num.ofZ mins) ++ js ":"
  ++ padStart2 (Num.toString (Num.ofZ secs)).

(** [session.questions[currentQuestionIndex]] *)
Definition currentQuestion (st : State)
  : option GenerateQuestions.CrossExamQuestion :=
  match session st with
  | Some s =>
      if currentQuestionIndex st <? 0 then None
      else Types.questions s !! Z.to_nat (currentQuestionIndex st)
  | None => None
  end.

End TestimonyPractice.

(* ===================================================================== *)
(** ** app/api/testimony/practice/route.ts                                *)
(* ===================================================================== *)

Module Practice.

(** [questionDetails] of the request body; an absent field reads as the
    empty string, which the handler treats alike. *)
Record QuestionDetails := {
  qd_suggestedApproach : jsstring;
  qd_weakPoint : jsstring;
  qd_documentReference : jsstring
}.

(** The request body, its fields read as in
    [GenerateQuestions.RequestBody]. *)
Record RequestBody := {
  witnessName : jsstring;
  caseName : jsstring;
  question : jsstring;
  questionDetails : QuestionDetails;
  witnessResponse : jsstring;
  documents : list GenerateQuestions.RequestDocument
}.

Record ResponseData := {
  r_error : option jsstring;
  r_aiResponse : option value;
  r_cost : option number;
  r_charsProcessed : option Z
}.

Record Response := {
  status : Z;
  data : ResponseData
}.

Definition errorResponse (msg : string) (code : Z) : Response := {|
  status := code;
  data := {| r_error := Some (js msg); r_aiResponse := None;
             r_cost := None; r_charsProcessed := None |}
|}.

(** The object literal of an [aiResponse]. *)
Definition aiResponseOf (followUp feedback : jsstring) : value :=
  VObj [(js "followUp", VStr followUp);
        (js "feedback", VStr feedback);
        (js "weaknessIdentified", VStr []);
        (js "suggestedImprovement", VStr [])].

Definition defaultResponse : value :=
  aiResponseOf (js "Can you elaborate on that answer?")
    (js "Your response was received. Consider being more specific in your answers.").

(** [a || b] on strings *)
Definition orString (a : jsstring) (b : string) : jsstring :=
  if bool_decide (a = []) then js b else a.

Definition documentContext (docs : list GenerateQuestions.RequestDocument)
  : jsstring :=
  join [10%N; 10%N]
    (List.map
       (fun d =>
          let c := GenerateQuestions.doc_content d in
          let content :=
            if bool_decide (c = []) then js "[Content not available]"
            else take 2000 c
                 ++ (if (2000 <? length c)%nat then js "... [truncated]"
                     else []) in
          js "=== " ++ GenerateQuestions.doc_name d ++ js " ===" ++ [10%N]
          ++ content)
       docs).

(** One optional line of the prompt. *)
Definition detail (label : string) (text : jsstring) : jsstring :=
  if bool_decide (text = []) then [] else js label ++ text.

Definition userPromptOf (body : RequestBody) : jsstring :=
  js "Case: " ++ orString (caseName body) "Unknown Case" ++ [10%N]
  ++ js "Witness: " ++ orString (witnessName body) "Unknown Witness"
  ++ [10%N; 10%N]
  ++ js "CASE DOCUMENTS:" ++ [10%N]
  ++ orString (documentContext (documents body)) "No documents provided"
  ++ [10%N; 10%N]
  ++ js "CROSS-EXAMINATION CONTEXT:" ++ [10%N]
  ++ js "Question Asked: " ++ [34%N] ++ question body ++ [34%N] ++ [10%N]
  ++ detail "Suggested Approach: "
       (qd_suggestedApproach (questionDetails body)) ++ [10%N]
  ++ detail "Known Weak Point: " (qd_weakPoint (questionDetails body))
  ++ [10%N]
  ++ detail "Document Reference: "
       (qd_documentReference (questionDetails body)) ++ [10%N; 10%N]
  ++ js "WITNESS RESPONSE: " ++ [34%N] ++ witnessResponse body ++ [34%N]
  ++ [10%N; 10%N]
  ++ js "Analyze this response in the context of the case documents. Provide a follow-up question and feedback.".

(** [content.match(...)] for the expression that takes an opening brace,
    anything, and a closing brace: from the first opening brace to the last
    closing brace after it. *)
Definition jsonMatch (content : jsstring) : option jsstring :=
  match indexOf 123%N content, lastIndexOf 125%N content with
  | Some first, Some last =>
      if (first <? last)%nat
      then Some (substring first (last + 1) content)
      else None
  | _, _ => None
  end.

(** What the inner [try] leaves in [aiResponse]. *)
Definition readResponse (content : jsstring) : value :=
  let parsed :=
    match jsonMatch content with
    | Some m => Json.parse m
    | None => Json.parse content
    end in
  match parsed with
  | Some v => v
  | None => aiResponseOf (js "Can you elaborate on that answer?") content
  end.

Section Handler.

Variable limits : DemoLimits.
(** The text of the system prompt. *)
Variable AI_EXAMINER_PROMPT : jsstring.
Variable chatCompletion : jsstring -> jsstring -> GenerateQuestions.Completion.

(** [POST]; the request is [None] when its body is not JSON. *)
Definition POST (request : option RequestBody) : Response :=
  match request with
  | None => errorResponse "Failed to process practice response" 500
  | Some body =>
      if bool_decide (question body = [])
         || bool_decide (witnessResponse body = [])
      then errorResponse "question and witnessResponse are required" 400
      else
        let userPrompt := userPromptOf body in
        let '(aiResponse, cost, charsProcessed) :=
          match chatCompletion AI_EXAMINER_PROMPT userPrompt with
          | GenerateQuestions.Throws => (defaultResponse, Dec 0 0, 0)
          | GenerateQuestions.Content content =>
              let charsProcessed :=
                Z.of_nat (length (AI_EXAMINER_PROMPT ++ userPrompt
                                  ++ content)) in
              let cost :=
                Num.mul (Num.div1000 (Num.ofZ charsProcessed))
                        (pricePerThousandChars limits) in
              (if bool_decide (content = []) then defaultResponse
               else readResponse content, cost, charsProcessed)
          end in
        {| status := 200;
           data := {| r_error := None; r_aiResponse := Some aiResponse;
                      r_cost := Some cost;
                      r_charsProcessed := Some charsProcessed |} |}
  end.

End Handler.

End Practice.

(* ===================================================================== *)
(** ** Vocabulary of the further statements                               *)
(* ===================================================================== *)

(** The text of an array that opens, white space apart, with the brace of
    its first element and closes with the brace of its last one. *)
Definition objectArray (wsA mid wsB : jsstring) : jsstring :=
  91%N :: wsA ++ 123%N :: mid ++ 125%N :: wsB ++ [93%N].

(** A text between braces. *)
Definition braced (mid : jsstring) : jsstring := 123%N :: mid ++ [125%N].

(** Requests and generators the witnesses are stated on. *)
Module Examples.

Definition body : GenerateQuestions.RequestBody :=
  {| GenerateQuestions.witnessName := js "Jane Doe";
     GenerateQuestions.caseName := js "Doe v. Roe";
     GenerateQuestions.documents :=
       [{| GenerateQuestions.doc_name := js "notes.txt";
           GenerateQuestions.doc_content :=
             js "On 3 May the parties met." |}] |}.

(** A generator of identifiers that never repeats: the [i]-th identifier
    is [i] letters. *)
Definition letters (i : nat) : jsstring := repeat 97%N i.

(** A remote endpoint that answers [content] whatever it is sent. *)
Definition answers (content : jsstring) (system user : jsstring)
  : GenerateQuestions.Completion :=
  GenerateQuestions.Content content.

Definition practiceBody : Practice.RequestBody :=
  {| Practice.witnessName := js "Jane Doe";
     Practice.caseName := js "Doe v. Roe";
     Practice.question := js "Where were you on 3 May?";
     Practice.questionDetails :=
       {| Practice.qd_suggestedApproach := [];
          Practice.qd_weakPoint := [];
          Practice.qd_documentReference := js "notes.txt" |};
     Practice.witnessResponse := js "At the office.";
     Practice.documents := GenerateQuestions.documents body |}.

End Examples.

(** No document of the stored testimony session [sid] is still being
    processed. *)
Definition settled (ls : LocalStorage) (sid : jsstring) : Prop :=
  forall s, sessions ls !! sid = Some s ->
    Forall (fun d => status d <> processing) (Types.documents s).

(** The files of a batch that are within the size limit. *)
Definition accepted (limits : DemoLimits) (files : list File) : list File :=
  List.filter (fun f => negb (maxFileSize limits <? fileSize f)) files.

(** [documents.map(d => d.id === docId ? change(d) : d)], as the upload
    of the testimony tool writes it twice. *)
Definition markDocuments (docId : jsstring) (change : Document -> Document)
    (docs : list Document) : list Document :=
  List.map (fun d => if Str.eqb (id d) docId then change d else d) docs.

(** The document the upload of the testimony tool stores for a file
    before it reads it. *)
Definition processingDocument (now : Z) (docId : jsstring) (file : File)
  : Document :=
  {| id := docId; name := fileName file;
     type := if bool_decide (fileType file = [])
             then js "unknown" else fileType file;
     size := fileSize file; uploadedAt := toISOString now;
     status := processing; content := None |}.

(* ===================================================================== *)
(** ** lib/storage/usage-storage.ts: identifiers, display, clearing       *)
(* ===================================================================== *)

Module UsageDisplay.




(** [calculateTimeRemaining(resetAt)], [now] being what its [new Date()]
    reads; a string that is not a date makes every number of the result
    [NaN]. *)
Definition calculateTimeRemaining (host : Host) (now : Z)
    (resetAt : jsstring) : jsstring :=
  match dateOfString host resetAt with
  | None => js "NaNh NaNm"
  | Some reset =>
      let diff := reset - now in
      if diff <=? 0 then js "0h 0m"
      else
        let hours := diff / (1000 * 60 * 60) in
        let minutes := Z.rem diff (1000 * 60 * 60) / (1000 * 60) in
        Num.toString (Num.ofZ hours) ++ js "h "
        ++ Num.toString (Num.ofZ minutes) ++ js "m"
  end.

(** [localStorage.removeItem(STATS_KEY)] *)
Definition removeStats (ls : LocalStorage) : LocalStorage :=
  {| stats := None; sessions := sessions ls;
     depositions := depositions ls;
     currentDeposition := currentDeposition ls |}.

Definition clearAllUsage (window : bool) (ls : LocalStorage)
  : LocalStorage :=
  if negb window then ls else removeStats ls.

End UsageDisplay.

(** The value of a digit string read after the digits of [a]. *)
Definition digitsFrom (a : Z) (ds : jsstring) : Z :=
  fold_left (fun a c => 10 * a + (Z.of_N c - 48)) ds a.

(** A number in the form [mkDec] gives: not [NaN], zero as [Dec 0 0], no
    trailing zero in the digits otherwise. *)
Definition normal (n : number) : bool :=
  match n with
  | Dec m e => if m =? 0 then e =? 0 else negb (m mod 10 =? 0)
  | NaN => false
  end.

(** Session stats whose three numbers are normal. *)
Definition normalStats (s : Usage.SessionStats) : bool :=
  normal (Usage.documentsUploaded s) && normal (Usage.totalStorageUsed s)
  && normal (Usage.sessionPrice s).

(** The stored text of session stats. *)
Definition ledgerOf (s : Usage.SessionStats) : jsstring :=
  stringify (Usage.statsValue s).


Definition withDocumentsUploaded (n : number) (s : Usage.SessionStats)
  : Usage.SessionStats :=
  {| Usage.documentsUploaded := n;
     Usage.totalStorageUsed := Usage.totalStorageUsed s;
     Usage.sessionPrice := Usage.sessionPrice s;
     Usage.sessionStartAt := Usage.sessionStartAt s;
     Usage.sessionResetAt := Usage.sessionResetAt s |}.

Definition withTotalStorageUsed (n : number) (s : Usage.SessionStats)
  : Usage.SessionStats :=
  {| Usage.documentsUploaded := Usage.documentsUploaded s;
     Usage.totalStorageUsed := n;
     Usage.sessionPrice := Usage.sessionPrice s;
     Usage.sessionStartAt := Usage.sessionStartAt s;
     Usage.sessionResetAt := Usage.sessionResetAt s |}.

(** The default stats can be built at the clock reading [t]: their reset
    instant is in the range of dates. *)
Definition defaultBuilt (host : Host) (limits : DemoLimits) (t : Z) : Prop :=
  exists resetAt,
    UsageStorage.getSessionResetTime host t (sessionHours limits)
    = Ok resetAt.

(** Calls made one after the other, each with its argument; an exception
    ends the sequence. *)
Fixpoint sequence {A : Type}
    (call : A -> LocalStorage -> result unit * LocalStorage)
    (args : list A) (ls : LocalStorage) : result unit * LocalStorage :=
  match args with
  | [] => (Ok tt, ls)
  | a :: rest =>
      match call a ls with
      | (Ok _, ls) => sequence call rest ls
      | (Throw e, ls) => (Throw e, ls)
      end
  end.

(** A read of the stats by the clock [clock] finds the ledger live, [r]
    being its reset instant: the default stats are built, and the instant
    read for [now] is before [r]. *)
Definition findsLive (host : Host) (limits : DemoLimits)
    (clock : nat -> Z) (r : Z) : Prop :=
  defaultBuilt host limits (clock 1%nat) /\ clock 2%nat < r.

(* ===================================================================== *)
(** * Properties                                                          *)
(* ===================================================================== *)

(** ** Strings *)

Section StringFacts.

Lemma isSpace_cases c :
  isSpace c = true -> (9 <= c <= 13 \/ c = 32 \/ 160 <= c)%N.
Proof.
  unfold isSpace.
  rewrite !orb_true_iff, !andb_true_iff, !N.leb_le, !N.eqb_eq. lia.
Qed.

Lemma dropWhile_idem p s : dropWhile p (dropWhile p s) = dropWhile p s.
Proof.
  induction s as [|c r IH]; simpl; [reflexivity|].
  destruct (p c) eqn:E; [exact IH|]. simpl. now rewrite E.
Qed.

Lemma dropWhile_app p s t :
  dropWhile p s <> [] -> dropWhile p (s ++ t) = dropWhile p s ++ t.
Proof.
  induction s as [|c r IH]; simpl; [congruence|].
  destruct (p c); [exact IH | reflexivity].
Qed.

Lemma trimEnd_snoc s d : isSpace d = false -> trimEnd (s ++ [d]) = s ++ [d].
Proof.
  intros Hd. unfold trimEnd. rewrite rev_app_distr. simpl. rewrite Hd.
  change (d :: rev s) with ([d] ++ rev s).
  rewrite rev_app_distr, rev_involutive. reflexivity.
Qed.

Lemma trimEnd_snoc_space s c : isSpace c = true -> trimEnd (s ++ [c]) = trimEnd s.
Proof.
  intros Hc. unfold trimEnd. rewrite rev_app_distr. simpl. now rewrite Hc.
Qed.

Lemma eqb_eq a b : Str.eqb a b = true <-> a = b.
Proof. unfold Str.eqb. destruct (decide (a = b)); split; congruence. Qed.

End StringFacts.

(** ** The JSON lexer ignores white space around the text *)

Section LexerFacts.

Ltac bool_to_prop :=
  repeat match goal with
  | H : _ || _ = true |- _ => apply orb_true_iff in H
  | H : _ && _ = true |- _ => apply andb_true_iff in H
  | H : _ || _ = false |- _ => apply orb_false_iff in H
  | H : _ && _ = false |- _ => apply andb_false_iff in H
  | H : (_ =? _)%N = true |- _ => apply N.eqb_eq in H
  | H : (_ =? _)%N = false |- _ => apply N.eqb_neq in H
  | H : (_ <=? _)%N = true |- _ => apply N.leb_le in H
  | H : (_ <=? _)%N = false |- _ => apply N.leb_gt in H
  | H : (_ <? _)%N = true |- _ => apply N.ltb_lt in H
  | H : (_ <? _)%N = false |- _ => apply N.ltb_ge in H
  | H : _ /\ _ |- _ => destruct H
  | H : _ \/ _ |- _ => destruct H
  end.

(** Between tokens, a white-space character is skipped or refused. *)
Lemma default_step_space out c r :
  isSpace c = true -> default_step out c = Some r -> r = (LDefault, out).
Proof.
  intros Hc%isSpace_cases. unfold default_step, isJsonSpace, isDigit, isLower.
  repeat (match goal with
          | |- context [if ?b then _ else _] => destruct b eqn:?
          end; try congruence);
    bool_to_prop; intros; try congruence; lia.
Qed.

(** A white-space character read last changes nothing of a successful
    lexing. *)
Lemma lex_step_space_finish st out c st' out' toks :
  isSpace c = true ->
  lex_step st out c = Some (st', out') ->
  lex_finish st' out' = Some toks ->
  lex_finish st out = Some toks.
Proof.
  intros Hc Hstep Hfin. pose proof (isSpace_cases _ Hc) as Hr.
  destruct st as [|acc|acc|acc hex|acc|acc]; simpl in Hstep.
  - apply default_step_space in Hstep; [|exact Hc].
    inversion Hstep; subst. exact Hfin.
  - repeat (match type of Hstep with
            | context [if ?b then _ else _] => destruct b eqn:?
            end; try congruence);
      inversion Hstep; subst; try discriminate Hfin; bool_to_prop; lia.
  - repeat (match type of Hstep with
            | context [if ?b then _ else _] => destruct b eqn:?
            end; try congruence);
      inversion Hstep; subst; try discriminate Hfin; bool_to_prop; lia.
  - unfold hexVal, isDigit in Hstep.
    repeat (match type of Hstep with
            | context [if ?b then _ else _] => destruct b eqn:?
            end; try congruence); bool_to_prop; lia.
  - destruct (isNumChar c) eqn:En.
    + unfold isNumChar, isDigit in En. bool_to_prop; lia.
    + destruct (ofLexeme (rev acc)) as [n|] eqn:El; [|discriminate].
      apply default_step_space in Hstep; [|exact Hc].
      inversion Hstep; subst. simpl in *. rewrite El. exact Hfin.
  - destruct (isLower c) eqn:En.
    + unfold isLower in En. bool_to_prop; lia.
    + destruct (wordToken (rev acc)) as [t|] eqn:El; [|discriminate].
      apply default_step_space in Hstep; [|exact Hc].
      inversion Hstep; subst. simpl in *. rewrite El. exact Hfin.
Qed.

Lemma lex_run_snoc s : forall st out c,
  lex_run st out (s ++ [c]) =
  match lex_run st out s with
  | Some (st1, out1) => lex_step st1 out1 c
  | None => None
  end.
Proof.
  induction s as [|d r IH]; intros st out c; simpl.
  - destruct (lex_step st out c) as [[? ?]|]; reflexivity.
  - destruct (lex_step st out d) as [[st1 out1]|]; [apply IH | reflexivity].
Qed.

Lemma lex_snoc_space s c toks :
  isSpace c = true -> lex (s ++ [c]) = Some toks -> lex s = Some toks.
Proof.
  intros Hc. unfold lex. rewrite lex_run_snoc.
  destruct (lex_run LDefault [] s) as [[st1 out1]|]; [|discriminate].
  destruct (lex_step st1 out1 c) as [[st2 out2]|] eqn:Hs; [|discriminate].
  intros Hf. eapply lex_step_space_finish; eauto.
Qed.

Lemma lex_trimEnd s : forall toks,
  lex s = Some toks -> lex (trimEnd s) = Some toks.
Proof.
  induction s as [|c r IH] using rev_ind; intros toks H; [exact H|].
  destruct (isSpace c) eqn:Hc.
  - rewrite trimEnd_snoc_space by exact Hc.
    apply IH. eapply lex_snoc_space; eauto.
  - rewrite trimEnd_snoc by exact Hc. exact H.
Qed.

Lemma lex_trimStart s : forall toks,
  lex s = Some toks -> lex (trimStart s) = Some toks.
Proof.
  induction s as [|c r IH]; intros toks H; [exact H|].
  unfold trimStart. simpl. destruct (isSpace c) eqn:Hc; [|exact H].
  apply IH. unfold lex in *. simpl in H.
  destruct (default_step [] c) as [p|] eqn:Hd; [|discriminate].
  apply default_step_space in Hd; [|exact Hc]. subst p. exact H.
Qed.

Lemma lex_trim s toks : lex s = Some toks -> lex (trim s) = Some toks.
Proof. intros H. unfold trim. now apply lex_trimEnd, lex_trimStart. Qed.

(** [JSON.parse] gives the same value on the trimmed text. *)
Lemma parse_trim s v : Json.parse s = Some v -> Json.parse (trim s) = Some v.
Proof.
  unfold Json.parse. destruct (lex s) as [ts|] eqn:Hl; [|discriminate].
  rewrite (lex_trim _ _ Hl). trivial.
Qed.

(** A text that parses has a character that is not white space. *)
Lemma parse_not_blank s v : Json.parse s = Some v -> trimStart s <> [].
Proof.
  intros H E. unfold Json.parse in H.
  destruct (lex s) as [ts|] eqn:Hl; [|discriminate].
  apply lex_trimStart in Hl. rewrite E in Hl. inversion Hl; subst.
  discriminate H.
Qed.

End LexerFacts.

(** ** The fuel of the JSON parser is never what makes it fail *)

Section FuelFacts.

Lemma parse_fuel f :
  (forall ts v r, parse_value f ts = Some (v, r) ->
     (length r < length ts)%nat
     /\ forall f', (2 * (length ts - length r) - 1 <= f')%nat ->
          parse_value f' ts = Some (v, r))
  /\ (forall acc ts v r, parse_elements f acc ts = Some (v, r) ->
        (length r < length ts)%nat
        /\ forall f', (2 * (length ts - length r) <= f')%nat ->
             parse_elements f' acc ts = Some (v, r))
  /\ (forall acc ts v r, parse_members f acc ts = Some (v, r) ->
        (length r < length ts)%nat
        /\ forall f', (2 * (length ts - length r) <= f')%nat ->
             parse_members f' acc ts = Some (v, r)).
Proof.
  induction f as [|f (IHv & IHe & IHm)];
    [repeat split; intros; discriminate|].
  split; [|split].
  - intros ts v r H. simpl in H.
    destruct ts as [|t ts]; [discriminate|].
    destruct t; try discriminate;
      try (injection H as <- <-; split; [simpl; lia|];
           intros [|f'] Hf'; [simpl in Hf'; lia | reflexivity]).
    + (* object *)
      destruct ts as [|t ts]; [destruct f; discriminate|].
      assert (Hcases :
        (t = TRBrace /\ v = VObj [] /\ r = ts)
        \/ (t <> TRBrace /\ parse_members f [] (t :: ts) = Some (v, r))).
      { destruct t; try (right; split; [discriminate | exact H]).
        left. simpl in H. injection H as <- <-. auto. }
      destruct Hcases as [(-> & -> & ->) | (Ht & He)].
      * split; [simpl; lia|].
        intros [|f'] Hf'; [simpl in Hf'; lia | reflexivity].
      * destruct (IHm _ _ _ _ He) as [Hl Hfuel]. split; [simpl in *; lia|].
        intros [|f'] Hf'; [simpl in *; lia|].
        assert (parse_members f' [] (t :: ts) = Some (v, r)) as E
          by (apply Hfuel; simpl in *; lia).
        simpl. destruct t; try exact E. congruence.
    + (* array *)
      destruct ts as [|t ts]; [destruct f as [|[|f0]]; discriminate|].
      assert (Hcases :
        (t = TRBrack /\ v = VArr [] /\ r = ts)
        \/ (t <> TRBrack /\ parse_elements f [] (t :: ts) = Some (v, r))).
      { destruct t; try (right; split; [discriminate | exact H]).
        left. simpl in H. injection H as <- <-. auto. }
      destruct Hcases as [(-> & -> & ->) | (Ht & He)].
      * split; [simpl; lia|].
        intros [|f'] Hf'; [simpl in Hf'; lia | reflexivity].
      * destruct (IHe _ _ _ _ He) as [Hl Hfuel]. split; [simpl in *; lia|].
        intros [|f'] Hf'; [simpl in *; lia|].
        assert (parse_elements f' [] (t :: ts) = Some (v, r)) as E
          by (apply Hfuel; simpl in *; lia).
        simpl. destruct t; try exact E. congruence.
  - intros acc ts v r H. simpl in H.
    destruct (parse_value f ts) as [[x rest]|] eqn:Hv; [|discriminate].
    destruct (IHv _ _ _ Hv) as [Hl Hfuel].
    destruct rest as [|t rest]; [discriminate|].
    destruct t; try discriminate.
    + injection H as <- <-. split; [simpl in *; lia|].
      intros [|f'] Hf'; [simpl in *; lia|]. simpl.
      rewrite (Hfuel f') by (simpl in *; lia). reflexivity.
    + destruct (IHe _ _ _ _ H) as [Hl' Hfuel']. split; [simpl in *; lia|].
      intros [|f'] Hf'; [simpl in *; lia|]. simpl.
      rewrite (Hfuel f') by (simpl in *; lia).
      apply Hfuel'. simpl in *. lia.
  - intros acc ts v r H. simpl in H.
    destruct ts as [|[] [|[] ts]]; try discriminate.
    destruct (parse_value f ts) as [[x rest]|] eqn:Hv; [|discriminate].
    destruct (IHv _ _ _ Hv) as [Hl Hfuel].
    destruct rest as [|t rest]; [discriminate|].
    destruct t; try discriminate.
    + injection H as <- <-. split; [simpl in *; lia|].
      intros [|f'] Hf'; [simpl in *; lia|]. simpl.
      rewrite (Hfuel f') by (simpl in *; lia). reflexivity.
    + destruct (IHm _ _ _ _ H) as [Hl' Hfuel']. split; [simpl in *; lia|].
      intros [|f'] Hf'; [simpl in *; lia|]. simpl.
      rewrite (Hfuel f') by (simpl in *; lia).
      apply Hfuel'. simpl in *. lia.
Qed.

(** Whatever fuel lets the parser turn all the tokens into a value, the
    fuel [Json.parse] gives does too. *)
Lemma parse_fuel_enough f ts v :
  parse_value f ts = Some (v, []) ->
  parse_value (2 * length ts + 2) ts = Some (v, []).
Proof.
  intros H. destruct (parse_fuel f) as (Hv & _ & _).
  destruct (Hv _ _ _ H) as [_ Hfuel]. apply Hfuel. simpl. lia.
Qed.

End FuelFacts.

(** ** parseJSONResponse on a fenced array (C8) *)

Section FenceFacts.

Import GenerateQuestions.

Lemma dropWhile_blank_app w s :
  blank w = true -> dropWhile isSpace (w ++ s) = dropWhile isSpace s.
Proof.
  unfold blank. induction w as [|c w IH]; simpl; [reflexivity|].
  intros [Hc Hw]%andb_true_iff. rewrite Hc. auto.
Qed.

Lemma blank_rev w : blank w = true -> blank (rev w) = true.
Proof.
  unfold blank. rewrite !forallb_forall. intros H x Hx. apply H.
  now apply in_rev.
Qed.

Lemma trimEnd_app_blank s w : blank w = true -> trimEnd (s ++ w) = trimEnd s.
Proof.
  intros Hw. unfold trimEnd. rewrite rev_app_distr.
  now rewrite dropWhile_blank_app by now apply blank_rev.
Qed.

Lemma trim_app_blank s w : blank w = true -> trim (s ++ w) = trim s.
Proof.
  intros Hw. unfold trim, trimStart.
  destruct (dropWhile isSpace s) as [|c r] eqn:E.
  - assert (Hs : dropWhile isSpace (s ++ w) = dropWhile isSpace w).
    { clear Hw. induction s as [|d s IH]; simpl in *; [reflexivity|].
      destruct (isSpace d); [auto | discriminate]. }
    rewrite Hs. rewrite <- (app_nil_r w) at 1.
    now rewrite dropWhile_blank_app.
  - rewrite dropWhile_app by congruence. rewrite E.
    now apply trimEnd_app_blank.
Qed.

Lemma trim_blank_app w s : blank w = true -> trim (w ++ s) = trim s.
Proof.
  intros Hw. unfold trim, trimStart. now rewrite dropWhile_blank_app.
Qed.

Lemma trim_trimStart s : trim (trimStart s) = trim s.
Proof. unfold trim, trimStart. now rewrite dropWhile_idem. Qed.

Lemma not_all_space_before_backtick n s :
  (n <= length s)%nat -> forallb isSpace (drop n (s ++ [96%N])) = false.
Proof.
  intros Hn. rewrite drop_app_le by exact Hn.
  rewrite forallb_app. simpl. apply andb_false_r.
Qed.

(** Two characters or more before the closing backticks: the closing-fence
    expression does not match here, its white space would have to run over
    a backtick. *)
Lemma closingFenceHere_inside c d Y :
  closingFenceHere (c :: d :: Y ++ js "```") = false.
Proof.
  unfold closingFenceHere.
  replace (c :: d :: Y ++ js "```")
    with ((c :: d :: Y ++ [96%N; 96%N]) ++ [96%N])
    by (simpl; rewrite <- app_assoc; reflexivity).
  rewrite !not_all_space_before_backtick
    by (simpl; rewrite length_app; simpl; lia).
  now rewrite !andb_false_r.
Qed.

(** The second [replace] removes the closing backticks and at most the
    newline before them. *)
Lemma stripClosingFence_backticks Y :
  exists w, blank w = true /\ Y = stripClosingFence (Y ++ js "```") ++ w.
Proof.
  induction Y as [|c [|d Y] IH].
  - exists []. split; reflexivity.
  - destruct (N.eqb_spec c 10) as [->|Hc].
    + exists [10%N]. split; reflexivity.
    + exists []. split; [reflexivity|].
      change ([c] ++ js "```") with [c; 96%N; 96%N; 96%N].
      cbn [stripClosingFence]. unfold closingFenceHere at 1.
      cbn [startsWith drop forallb]. apply N.eqb_neq in Hc.
      rewrite N.eqb_sym in Hc. rewrite Hc.
      cbn. rewrite andb_false_r. reflexivity.
  - destruct IH as (w & Hw & HY). exists w. split; [exact Hw|].
    change ((c :: d :: Y) ++ js "```") with (c :: (d :: Y) ++ js "```").
    cbn [stripClosingFence].
    change (c :: (d :: Y) ++ js "```") with (c :: d :: Y ++ js "```").
    rewrite closingFenceHere_inside.
    change ((c :: ?x) ++ w) with (c :: x ++ w). simpl. f_equal. exact HY.
Qed.

(** No JSON text begins with the letter j, in either case. *)
Lemma word_from_j_fails s : forall acc out,
  last acc = Some 106%N ->
  match lex_run (LWord acc) out s with
  | Some (st, out') => lex_finish st out'
  | None => None
  end = None.
Proof.
  assert (Hword : forall acc, last acc = Some 106%N ->
                    wordToken (rev acc) = None).
  { intros acc Hl. destruct acc as [|c acc] using rev_ind; [discriminate|].
    rewrite last_snoc in Hl. injection Hl as ->.
    rewrite rev_app_distr. reflexivity. }
  induction s as [|c s IH]; intros acc out Hl; simpl.
  - now rewrite Hword.
  - destruct (isLower c).
    + apply IH. destruct acc; [discriminate | exact Hl].
    + now rewrite Hword.
Qed.

Lemma parse_not_from_j c s v :
  Json.parse (c :: s) = Some v -> lowerChar c <> 106%N.
Proof.
  unfold Json.parse, lex. intros H Hc. simpl in H.
  assert (c = 106%N \/ c = 74%N) as [-> | ->].
  { unfold lowerChar in Hc.
    destruct ((65 <=? c)%N && (c <=? 90)%N); lia. }
  - change (default_step [] 106%N) with (Some (LWord [106%N], @nil token)) in H.
    cbv iota beta in H.
    rewrite (word_from_j_fails s [106%N] [] eq_refl) in H. discriminate H.
  - discriminate H.
Qed.

(** A fence without info string: [json] is not read off the text. *)
Lemma no_tag_read ws1 J rest v :
  blank ws1 = true -> Json.parse J = Some v ->
  startsWithCI (js "json") (ws1 ++ J ++ rest) = false.
Proof.
  intros Hw HJ.
  assert (Hhead : forall c r, ws1 ++ J ++ rest = c :: r ->
                    lowerChar c <> 106%N).
  { intros c r E. destruct ws1 as [|d ws1].
    - destruct J as [|d J]; [discriminate HJ|].
      injection E as <- _. eapply parse_not_from_j; eauto.
    - injection E as <- _. unfold blank in Hw. simpl in Hw.
      apply andb_true_iff in Hw as [Hd%isSpace_cases _].
      unfold lowerChar. destruct ((65 <=? d)%N && (d <=? 90)%N) eqn:E;
        [apply andb_true_iff in E as [?%N.leb_le ?%N.leb_le]|]; lia. }
  unfold startsWithCI.
  change (toLowerCase (js "json")) with [106%N; 115%N; 111%N; 110%N].
  change (length (js "json")) with 4%nat.
  destruct (ws1 ++ J ++ rest) as [|c r]; [reflexivity|].
  specialize (Hhead c r eq_refl).
  cbn [take toLowerCase List.map startsWith].
  destruct (N.eqb_spec 106 (lowerChar c)); [congruence | reflexivity].
Qed.

Lemma stripOpeningFence_wrapped tag ws1 J rest v :
  jsonTag tag = true -> blank ws1 = true -> Json.parse J = Some v ->
  stripOpeningFence (js "```" ++ tag ++ ws1 ++ J ++ rest)
  = trimStart J ++ rest.
Proof.
  intros Htag Hw HJ. unfold stripOpeningFence.
  change (startsWith (js "```") (js "```" ++ ?x)) with true. cbv iota.
  change (drop 3 (js "```" ++ ?x)) with x.
  assert (Hrest : dropWhile isSpace (ws1 ++ J ++ rest) = trimStart J ++ rest).
  { rewrite dropWhile_blank_app by exact Hw.
    apply dropWhile_app. eapply parse_not_blank; eauto. }
  unfold jsonTag in Htag. apply orb_true_iff in Htag as [Ht | Ht].
  - apply bool_decide_eq_true in Ht. subst tag. cbn [app].
    rewrite (no_tag_read _ _ _ _ Hw HJ). exact Hrest.
  - apply eqb_eq in Ht.
    assert (Hlen : length tag = 4%nat)
      by (rewrite <- (length_map lowerChar); unfold toLowerCase in Ht;
          rewrite Ht; reflexivity).
    assert (Hci : startsWithCI (js "json") (tag ++ ws1 ++ J ++ rest) = true).
    { unfold startsWithCI. change (length (js "json")) with 4%nat.
      rewrite take_app_length' by (symmetry; exact Hlen).
      rewrite Ht. reflexivity. }
    rewrite Hci, drop_app_length' by (symmetry; exact Hlen). exact Hrest.
Qed.

Lemma trim_core pre core post mid :
  blank pre = true -> blank post = true ->
  core = 96%N :: mid ++ [96%N] ->
  trim (pre ++ core ++ post) = core.
Proof.
  intros Hpre Hpost ->. rewrite trim_blank_app by exact Hpre.
  rewrite trim_app_blank by exact Hpost.
  unfold trim. change (trimStart (96%N :: mid ++ [96%N]))
    with (96%N :: mid ++ [96%N]).
  change (96%N :: mid ++ [96%N]) with ((96%N :: mid) ++ [96%N]).
  now apply trimEnd_snoc.
Qed.

(** A fenced text is not JSON: strategy 1 fails on it. *)
Lemma parse_backtick pre rest :
  blank pre = true -> Json.parse (pre ++ 96%N :: rest) = None.
Proof.
  intros Hpre. unfold Json.parse, lex.
  enough (lex_run LDefault [] (pre ++ 96%N :: rest) = None) as -> by reflexivity.
  induction pre as [|c pre IH]; [reflexivity|].
  unfold blank in Hpre. simpl in Hpre.
  apply andb_true_iff in Hpre as [Hc Hpre]. simpl.
  destruct (default_step [] c) as [p|] eqn:Hd; [|reflexivity].
  apply default_step_space in Hd; [|exact Hc]. subst p. now apply IH.
Qed.

Lemma cleanAndParse_wrapped pre tag ws1 J ws2 post v :
  blank pre = true -> jsonTag tag = true -> blank ws1 = true ->
  blank ws2 = true -> blank post = true ->
  Json.parse J = Some v ->
  cleanAndParse (wrapped pre tag ws1 J ws2 post) = Some v.
Proof.
  intros Hpre Htag Hw1 Hw2 Hpost HJ. unfold cleanAndParse, wrapped.
  set (core := js "```" ++ tag ++ ws1 ++ J ++ ws2 ++ js "```").
  replace (pre ++ js "```" ++ tag ++ ws1 ++ J ++ ws2 ++ js "```" ++ post)
    with (pre ++ core ++ post)
    by (unfold core; now rewrite <- !app_assoc).
  rewrite (trim_core pre core post
             ([96%N; 96%N] ++ tag ++ ws1 ++ J ++ ws2 ++ [96%N; 96%N]))
    by (try assumption; unfold core; simpl; now rewrite <- !app_assoc).
  change (stripBOM core) with core. unfold core.
  rewrite (stripOpeningFence_wrapped _ _ _ _ _ Htag Hw1 HJ).
  rewrite app_assoc.
  destruct (stripClosingFence_backticks (trimStart J ++ ws2))
    as (w & Hw & HY).
  set (R := stripClosingFence ((trimStart J ++ ws2) ++ js "```")) in *.
  rewrite <- (trim_app_blank R w Hw), <- HY.
  rewrite trim_app_blank by exact Hw2. rewrite trim_trimStart.
  now apply parse_trim.
Qed.

End FenceFacts.

(** C8.  For every text [J] that strict [JSON.parse] turns into an array,
    the second strategy of [parseJSONResponse] (trim, strip the fences,
    trim, parse) applied to [J] wrapped in Markdown code fences recovers
    that same array, and it is what [parseJSONResponse] returns for the
    wrapped text.  The opening fence is three backticks, [json] in any case
    or nothing, and any white space; the closing fence is any white space
    and three backticks; white space may surround the fences. *)
Theorem fenced_array_recovered
    (pre tag ws1 J ws2 post : jsstring) (items : list value) :
  blank pre = true -> jsonTag tag = true -> blank ws1 = true ->
  blank ws2 = true -> blank post = true ->
  Json.parse J = Some (VArr items) ->
  GenerateQuestions.asArray
    (GenerateQuestions.cleanAndParse (wrapped pre tag ws1 J ws2 post))
  = GenerateQuestions.asArray (Json.parse J)
  /\ GenerateQuestions.parseJSONResponse (wrapped pre tag ws1 J ws2 post)
     = Some items.
Proof.
  intros Hpre Htag Hw1 Hw2 Hpost HJ.
  pose proof (cleanAndParse_wrapped _ _ _ _ _ _ _ Hpre Htag Hw1 Hw2 Hpost HJ)
    as Hc.
  split.
  - rewrite Hc, HJ. reflexivity.
  - unfold GenerateQuestions.parseJSONResponse.
    rewrite Hc.
    change (wrapped pre tag ws1 J ws2 post)
      with (pre ++ 96%N :: [96%N; 96%N] ++ tag ++ ws1 ++ J ++ ws2
                    ++ js "```" ++ post).
    rewrite (parse_backtick pre _ Hpre). reflexivity.
Qed.

Lemma fenced_array_recovered_witness :
  Json.parse (js "[1, 2]") = Some (VArr [VNum (Dec 1 0); VNum (Dec 2 0)])
  /\ GenerateQuestions.parseJSONResponse (fenced (js "[1, 2]"))
     = Some [VNum (Dec 1 0); VNum (Dec 2 0)].
Proof.
  split; [reflexivity|].
  apply (fenced_array_recovered [] (js "json") [10%N] (js "[1, 2]")
           [10%N] []); reflexivity.
Defined.

(** ** The testimony generate-questions route (C7, C10) *)

Section RouteFacts.

Import GenerateQuestions.

Lemma validateCategory_spec c :
  In (validateCategory c) validCategories
  /\ (In c validCategories -> validateCategory c = c)
  /\ (~ In c validCategories -> validateCategory c = js "general").
Proof.
  unfold validateCategory.
  destruct (existsb (Str.eqb c) validCategories) eqn:E.
  - apply existsb_exists in E as (x & Hx & ->%eqb_eq). tauto.
  - repeat split.
    + unfold validCategories. simpl. tauto.
    + intros Hc. assert (existsb (Str.eqb c) validCategories = true) as E'
        by (apply existsb_exists; exists c; split; [exact Hc | now apply eqb_eq]).
      congruence.
Qed.

Lemma validateDifficulty_spec d :
  In (validateDifficulty d) validDifficulties
  /\ (In d validDifficulties -> validateDifficulty d = d)
  /\ (~ In d validDifficulties -> validateDifficulty d = js "medium").
Proof.
  unfold validateDifficulty.
  destruct (existsb (Str.eqb d) validDifficulties) eqn:E.
  - apply existsb_exists in E as (x & Hx & ->%eqb_eq). tauto.
  - repeat split.
    + unfold validDifficulties. simpl. tauto.
    + intros Hc. assert (existsb (Str.eqb d) validDifficulties = true) as E'
        by (apply existsb_exists; exists d; split; [exact Hc | now apply eqb_eq]).
      congruence.
Qed.

Lemma toQuestion_wellTyped i v q : toQuestion i v = Some q -> wellTyped q.
Proof.
  unfold toQuestion. destruct (prop v (js "question")); [|discriminate].
  intros [= <-]. split; simpl.
  - apply validateCategory_spec.
  - apply validateDifficulty_spec.
Qed.

Lemma mapQuestions_wellTyped uuidv4 vs : forall n n' qs,
  mapQuestions uuidv4 n vs = (n', Some qs) ->
  length qs = length vs /\ Forall wellTyped qs.
Proof.
  induction vs as [|v vs IH]; simpl; intros n n' qs H.
  - inversion H; subst. split; [reflexivity | constructor].
  - destruct (toQuestion (uuidv4 n) v) as [q|] eqn:Hq; [|discriminate].
    destruct (mapQuestions uuidv4 (S n) vs) as [m [rest|]] eqn:Hm;
      simpl in H; [|discriminate].
    inversion H; subst. destruct (IH _ _ _ Hm) as [Hl Hf].
    split; [simpl; congruence|].
    constructor; [eapply toQuestion_wellTyped; eauto | exact Hf].
Qed.

Lemma fallback_wellTyped uuidv4 n w docs :
  length (generateFallbackQuestions uuidv4 n w docs) = 20%nat
  /\ Forall wellTyped (generateFallbackQuestions uuidv4 n w docs).
Proof.
  split; [reflexivity|].
  unfold generateFallbackQuestions.
  repeat (constructor;
          [split; simpl; unfold validCategories, validDifficulties; simpl; tauto|]).
  constructor.
Qed.

Lemma generate_wellTyped limits chatCompletion uuidv4 sys usr :
  let questions := (generate limits chatCompletion uuidv4 sys usr).2.1.1.1 in
  (length questions <= 20)%nat /\ Forall wellTyped questions.
Proof.
  unfold generate.
  destruct (chatCompletion sys usr) as [|content];
    [split; [simpl; lia | constructor]|].
  destruct (bool_decide (content = []));
    [split; [simpl; lia | constructor]|].
  destruct (parseJSONResponse content) as [[|v vs]|];
    try (split; [simpl; lia | constructor]).
  destruct (mapQuestions uuidv4 0 (take 20 (v :: vs))) as [m [out|]] eqn:Hm;
    [|split; [simpl; lia | constructor]].
  apply mapQuestions_wellTyped in Hm as [Hl Hf].
  split; [|exact Hf]. cbn [fst snd]. rewrite Hl, length_take. lia.
Qed.

End RouteFacts.

(** ** The price limit (C1) *)

Section PriceFacts.

(** No response of the testimony generate-questions route carries
    [limitReached]. *)
Lemma POST_without_limitReached limits prompt chat uuidv4 request :
  GenerateQuestions.r_limitReached
    (GenerateQuestions.data
       (GenerateQuestions.POST limits prompt chat uuidv4 request))
  = VUndefined.
Proof.
  unfold GenerateQuestions.POST.
  destruct request as [body|]; [|reflexivity].
  destruct (_ || _); [reflexivity|].
  destruct (bool_decide _); [reflexivity|].
  destruct (GenerateQuestions.generate _ _ _ _ _)
    as [n [[[questions used] cost] chars]].
  destruct (bool_decide _); reflexivity.
Qed.

(** The route does not read the price limit. *)
Lemma POST_ignores_price_limit limits p prompt chat uuidv4 request :
  GenerateQuestions.POST (withPriceLimit p limits) prompt chat uuidv4 request
  = GenerateQuestions.POST limits prompt chat uuidv4 request.
Proof. reflexivity. Qed.

(** The testimony component never raises the price limit when it asks for
    questions. *)
Lemma handleGenerateQuestions_keeps_limit
    limits now prompt chat uuidv4 st ls :
  Testimony.limitReached
    (Testimony.handleGenerateQuestions limits now prompt chat uuidv4 st ls).1
  = Testimony.limitReached st.
Proof.
  unfold Testimony.handleGenerateQuestions.
  destruct (Testimony.session st) as [s|]; [|reflexivity].
  destruct (bool_decide _); [reflexivity|].
  rewrite POST_without_limitReached.
  set (response := GenerateQuestions.POST _ _ _ _ _).
  destruct (negb (GenerateQuestions.ok response)); [reflexivity|].
  destruct (GenerateQuestions.r_cost (GenerateQuestions.data response))
    as [cost|]; [destruct (truthy (VNum cost))|];
    (destruct (GenerateQuestions.r_questions (GenerateQuestions.data response))
       as [[|q qs]|]; [reflexivity| |reflexivity];
     match goal with
     | |- context [SessionStorage.setQuestions ?i ?q ?l] =>
         destruct (SessionStorage.setQuestions i q l) as [[u|] l']
     end; reflexivity).
Qed.

(** The deposition component raises the price limit only on a response that
    is not OK and carries [limitReached]. *)
Lemma generateQuestions_raises_limit_on_flag
    limits now fetched st ls :
  Deposition.limitReached
    (Deposition.generateQuestions limits now fetched st ls).1
  = Some priceLimit ->
  Deposition.limitReached st = Some priceLimit
  \/ exists response, fetched = Some response
       /\ Deposition.ok response = false
       /\ truthy (Deposition.r_limitReached response) = true.
Proof.
  unfold Deposition.generateQuestions.
  destruct (Deposition.session st) as [s|]; [|auto].
  destruct (bool_decide _); [auto|].
  destruct fetched as [response|]; [|cbn; auto].
  destruct (Deposition.ok response) eqn:Hok; cbn [negb].
  - destruct (Deposition.r_cost response) as [cost|];
      [destruct (truthy (VNum cost))|];
      repeat match goal with
             | |- context [DepositionStorage.setDepositionQuestions ?i ?q ?l] =>
                 destruct (DepositionStorage.setDepositionQuestions i q l)
                   as [? ?]
             | |- context [DepositionStorage.setAnalysisResults ?i ?a ?b ?c ?l] =>
                 destruct (DepositionStorage.setAnalysisResults i a b c l)
                   as [[?|] ?]
             end; cbn; auto.
  - destruct (truthy (Deposition.r_limitReached response)) eqn:Ht;
      cbn; eauto.
Qed.

End PriceFacts.

Section FallbackFacts.

Import GenerateQuestions.

(** The response to a valid request when the remote call failed. *)
Lemma POST_on_failure limits prompt chat uuidv4 body :
  validRequest body ->
  remoteFailed (chat (prompt (witnessName body)) (userPromptOf body)) ->
  exists cost chars,
    POST limits prompt chat uuidv4 (Some body)
    = {| status := 200;
         data := {| r_error := None; r_limitReached := VUndefined;
                    r_questions :=
                      Some (generateFallbackQuestions uuidv4 0
                              (witnessName body) (documents body));
                    r_cost := Some cost;
                    r_charsProcessed := Some chars;
                    r_usedFallback := Some true |} |}.
Proof.
  intros (Hw & Hc & Hd) Hfail. unfold POST.
  rewrite !bool_decide_eq_false_2 by assumption. simpl orb. cbv iota.
  unfold generate.
  destruct Hfail as [-> | (content & -> & Hp)].
  - cbn. eauto.
  - rewrite Hp. destruct (bool_decide (content = [])); cbn; eauto.
Qed.

Lemma getSessionStats_sessions limits window now ls :
  sessions (Usage.getSessionStats limits window now ls).2 = sessions ls.
Proof.
  unfold Usage.getSessionStats.
  repeat match goal with
         | |- context [match ?x with _ => _ end] => destruct x
         end; reflexivity.
Qed.

Lemma incrementSessionPrice_sessions limits window now price ls :
  sessions (Usage.incrementSessionPrice limits window now price ls)
  = sessions ls.
Proof.
  unfold Usage.incrementSessionPrice, Usage.updateSessionStats.
  pose proof (getSessionStats_sessions limits window now ls) as H1.
  destruct (Usage.getSessionStats limits window now ls) as [v1 l1].
  cbn [snd] in H1. destruct window; cbn [negb]; [|exact H1].
  pose proof (getSessionStats_sessions limits true now l1) as H2.
  destruct (Usage.getSessionStats limits true now l1) as [v2 l2].
  cbn [snd] in H2. cbn [setStats sessions]. congruence.
Qed.

End FallbackFacts.

(** C7.  In the testimony tool, when the remote call throws or returns a
    content that no parse strategy turns into an array, the
    generate-questions handler answers a valid request with status 200, no
    error, the static fallback set, which has exactly 20 questions, and
    [usedFallback = true]; and the component that sent the request shows no
    error: it stores the fallback set and moves to the questions step. *)
Theorem remote_failure_falls_back
    (limits : DemoLimits) (prompt : jsstring -> jsstring)
    (chatCompletion : jsstring -> jsstring -> GenerateQuestions.Completion)
    (uuidv4 : nat -> jsstring) (body : GenerateQuestions.RequestBody) :
  validRequest body ->
  remoteFailed (chatCompletion (prompt (GenerateQuestions.witnessName body))
                               (GenerateQuestions.userPromptOf body)) ->
  let r := GenerateQuestions.POST limits prompt chatCompletion uuidv4
             (Some body) in
  let fallbackSet :=
    GenerateQuestions.generateFallbackQuestions uuidv4 0
      (GenerateQuestions.witnessName body)
      (GenerateQuestions.documents body) in
  GenerateQuestions.status r = 200
  /\ GenerateQuestions.ok r = true
  /\ GenerateQuestions.r_error (GenerateQuestions.data r) = None
  /\ GenerateQuestions.r_questions (GenerateQuestions.data r)
     = Some fallbackSet
  /\ length fallbackSet = 20%nat
  /\ GenerateQuestions.r_usedFallback (GenerateQuestions.data r) = Some true
  /\ (forall now st ls s,
        Testimony.requestOf s = body ->
        Testimony.session st = Some s ->
        let after :=
          Testimony.handleGenerateQuestions limits now prompt
            chatCompletion uuidv4 st ls in
        Testimony.error after.1 = None
        /\ Testimony.shown after.1 = Testimony.shown st
        /\ Testimony.limitReached after.1 = Testimony.limitReached st
        /\ (is_Some (sessions ls !! sessionId s) ->
            Testimony.currentStep after.1 = Testimony.questions
            /\ (Types.questions <$> Testimony.session after.1)
               = Some fallbackSet
            /\ (Types.questions <$> sessions after.2 !! sessionId s)
               = Some fallbackSet)).
Proof.
  intros Hvalid Hfail. cbv zeta.
  destruct (POST_on_failure limits prompt chatCompletion uuidv4 body
              Hvalid Hfail) as (cost & chars & HP).
  rewrite HP. cbn [GenerateQuestions.status GenerateQuestions.data
                   GenerateQuestions.r_error GenerateQuestions.r_questions
                   GenerateQuestions.r_usedFallback].
  repeat (split; [reflexivity|]).
  intros now st ls s <- Hs.
  split; [|split; [|split]];
    [| | apply handleGenerateQuestions_keeps_limit |].
  all: unfold Testimony.handleGenerateQuestions; rewrite Hs.
  all: destruct Hvalid as (_ & _ & Hdocs).
  all: assert (Hne : Types.documents s <> [])
         by (intros E; apply Hdocs; cbn; now rewrite E).
  all: rewrite (bool_decide_eq_false_2 _ Hne), HP.
  all: unfold GenerateQuestions.ok.
  all: cbn [GenerateQuestions.status
            GenerateQuestions.data GenerateQuestions.r_limitReached
            GenerateQuestions.r_cost GenerateQuestions.r_questions].
  all: change ((200 <=? 200) && (200 <=? 299)) with true; cbn [negb].
  all: unfold Testimony.incrementSessionPrice.
  all: set (fb := GenerateQuestions.generateFallbackQuestions _ _ _ _).
  all: assert (Hfb : exists q qs, fb = q :: qs) by (do 2 eexists; reflexivity).
  all: destruct Hfb as (q & qs & Hfb); rewrite Hfb.
  all: unfold SessionStorage.setQuestions, SessionStorage.updateSession.
  - destruct (truthy (VNum cost));
      match goal with
      | |- context [sessions ?l !! ?i] => destruct (sessions l !! i)
      end; reflexivity.
  - destruct (truthy (VNum cost));
      match goal with
      | |- context [sessions ?l !! ?i] => destruct (sessions l !! i)
      end; reflexivity.
  - intros [stored Hstored].
    destruct (truthy (VNum cost));
      rewrite ?incrementSessionPrice_sessions, Hstored;
      cbn [fst snd Testimony.currentStep Testimony.session
           Testimony.setIsGeneratingQuestions Testimony.setCurrentStep
           Testimony.setSession fmap option_fmap option_map Types.questions
           SessionStorage.withQuestions setSessions sessions];
      rewrite lookup_insert_eq; repeat split; reflexivity.
Qed.

Lemma remote_failure_falls_back_witness :
  let body := {|
    GenerateQuestions.witnessName := js "Jane Doe";
    GenerateQuestions.caseName := js "Doe v. Roe";
    GenerateQuestions.documents :=
      [{| GenerateQuestions.doc_name := js "notes.txt";
          GenerateQuestions.doc_content := js "On 3 May the parties met." |}]
  |} in
  let r := GenerateQuestions.POST (DEMO_LIMITS noEnv) (fun w => w)
             (fun _ _ => GenerateQuestions.Throws) (fun _ => js "id")
             (Some body) in
  (length <$> GenerateQuestions.r_questions (GenerateQuestions.data r))
  = Some 20%nat
  /\ GenerateQuestions.r_usedFallback (GenerateQuestions.data r) = Some true.
Proof.
  cbv zeta.
  match goal with
  | |- context [GenerateQuestions.POST ?l ?p ?c ?u (Some ?b)] =>
      destruct (remote_failure_falls_back l p c u b)
        as (_ & _ & _ & Hq & Hl & Hu & _)
  end.
  - repeat split; discriminate.
  - left. reflexivity.
  - split; [rewrite Hq; reflexivity | exact Hu].
Defined.

(** C10.  Whatever the request and the remote answer, every question the
    testimony generate-questions handler returns has its category among
    timeline, credibility, inconsistency, foundation, impeachment, general
    and its difficulty among easy, medium, hard, and at most 20 questions
    are returned; [validateCategory] and [validateDifficulty] keep a value
    of the enumeration and turn any other string into general and medium. *)
Theorem returned_questions_well_typed
    (limits : DemoLimits) (prompt : jsstring -> jsstring)
    (chatCompletion : jsstring -> jsstring -> GenerateQuestions.Completion)
    (uuidv4 : nat -> jsstring)
    (request : option GenerateQuestions.RequestBody)
    (qs : list GenerateQuestions.CrossExamQuestion) :
  GenerateQuestions.r_questions
    (GenerateQuestions.data
       (GenerateQuestions.POST limits prompt chatCompletion uuidv4 request))
  = Some qs ->
  (length qs <= 20)%nat
  /\ Forall (fun q =>
       In (GenerateQuestions.category q) GenerateQuestions.validCategories
       /\ In (GenerateQuestions.difficulty q)
             GenerateQuestions.validDifficulties) qs
  /\ (forall c,
        (In c GenerateQuestions.validCategories ->
         GenerateQuestions.validateCategory c = c)
        /\ (~ In c GenerateQuestions.validCategories ->
            GenerateQuestions.validateCategory c = js "general"))
  /\ (forall d,
        (In d GenerateQuestions.validDifficulties ->
         GenerateQuestions.validateDifficulty d = d)
        /\ (~ In d GenerateQuestions.validDifficulties ->
            GenerateQuestions.validateDifficulty d = js "medium")).
Proof.
  intros H.
  assert (Hspec : (length qs <= 20)%nat /\ Forall wellTyped qs).
  { unfold GenerateQuestions.POST in H.
    destruct request as [body|]; [|discriminate H].
    destruct (_ || _); [discriminate H|].
    destruct (bool_decide (GenerateQuestions.documents body = []));
      [discriminate H|].
    destruct (GenerateQuestions.generate _ _ _ _ _)
      as [n [[[questions used] cost] chars]] eqn:Hg.
    pose proof (generate_wellTyped limits chatCompletion uuidv4
                  (prompt (GenerateQuestions.witnessName body))
                  (GenerateQuestions.userPromptOf body)) as Hgen.
    rewrite Hg in Hgen. simpl in Hgen.
    destruct (bool_decide (questions = [])); simpl in H;
      inversion H; subst.
    - destruct (fallback_wellTyped uuidv4 n
                  (GenerateQuestions.witnessName body)
                  (GenerateQuestions.documents body)) as [Hl Hf].
      split; [rewrite Hl; lia | exact Hf].
    - exact Hgen. }
  destruct Hspec as [Hl Hf]. split; [exact Hl|]. split; [exact Hf|].
  split; intros x.
  - destruct (validateCategory_spec x) as (_ & ? & ?). tauto.
  - destruct (validateDifficulty_spec x) as (_ & ? & ?). tauto.
Qed.

Lemma returned_questions_well_typed_witness :
  let s := (Scenario.janeReady (Scenario.ledger (Dec 0 0) Scenario.t0)).1 in
  let r := GenerateQuestions.POST Scenario.defaults Scenario.prompt
             Scenario.remote (Scenario.ids "q")
             (Some (Testimony.requestOf s)) in
  exists q,
    GenerateQuestions.r_questions (GenerateQuestions.data r) = Some [q]
    /\ GenerateQuestions.category q = js "general"
    /\ In (GenerateQuestions.difficulty q)
          GenerateQuestions.validDifficulties.
Proof.
  cbv zeta.
  match goal with
  | |- context [GenerateQuestions.POST ?l ?p ?c ?u ?b] =>
      destruct (GenerateQuestions.r_questions
                  (GenerateQuestions.data (GenerateQuestions.POST l p c u b)))
        as [[|q [|q' qs]]|] eqn:E; try (vm_compute in E; discriminate E);
      destruct (returned_questions_well_typed l p c u b [q] E)
        as (_ & Hf & _)
  end.
  exists q. split; [reflexivity|].
  inversion Hf as [|? ? [_ Hd] _]; subst. split; [|exact Hd].
  vm_compute in E. injection E as <-. reflexivity.
Defined.

(** ** Document classification (C5) *)

(** C5.  [detectDocumentType] is the first-match classifier over the rule
    list in the order transcript, prior_testimony, exhibit, case_file, each
    rule looking for its keywords in the lower-cased file name and then in
    the lower-cased content, with [other] when no rule matches; being a
    function of (filename, content), it gives equal arguments equal
    types. *)
Theorem detectDocumentType_first_match
    (filename : jsstring) (content : option jsstring) :
  Classify.detectDocumentType filename content
  = Classify.classify filename content
  /\ List.map Classify.assigns Classify.rules
     = [Classify.transcript; Classify.prior_testimony; Classify.exhibit;
        Classify.case_file]
  /\ (forall filename' content',
        filename' = filename -> content' = content ->
        Classify.detectDocumentType filename' content'
        = Classify.detectDocumentType filename content).
Proof.
  split; [|split; [reflexivity | intros ? ? -> ->; reflexivity]].
  unfold Classify.detectDocumentType, Classify.classify, Classify.rules.
  cbn [Classify.firstMatch]. unfold Classify.ruleMatches.
  cbn [Classify.nameKeywords Classify.namePattern Classify.contentKeywords
       Classify.assigns existsb].
  repeat match goal with
         | |- context [Str.includes ?a ?b] =>
             let x := fresh "b" in
             generalize (Str.includes a b); intro x
         end.
  generalize (Classify.exhibitNumber (toLowerCase filename)); intro e.
  repeat match goal with b : bool |- _ => destruct b end; reflexivity.
Qed.

(* ===================================================================== *)
(** ** Numbers and their decimal text                                     *)
(* ===================================================================== *)


Section DigitFacts.

Lemma digitsFrom_app a ds es :
  digitsFrom a (ds ++ es) = digitsFrom (digitsFrom a ds) es.
Proof. unfold digitsFrom. apply fold_left_app. Qed.

Lemma digitsFrom_shift ds : forall a,
  digitsFrom a ds = a * 10 ^ Z.of_nat (length ds) + digitsFrom 0 ds.
Proof.
  induction ds as [|c r IH]; intros a.
  - simpl. lia.
  - change (digitsFrom a (c :: r)) with (digitsFrom (10 * a + (Z.of_N c - 48)) r).
    change (digitsFrom 0 (c :: r)) with (digitsFrom (10 * 0 + (Z.of_N c - 48)) r).
    rewrite (IH (10 * a + _)), (IH (10 * 0 + _)).
    replace (Z.of_nat (length (c :: r))) with (1 + Z.of_nat (length r))
      by (simpl length; lia).
    rewrite Z.pow_add_r by lia. lia.
Qed.

Lemma digitsVal_app ds es :
  digitsVal (ds ++ es)
  = digitsVal ds * 10 ^ Z.of_nat (length es) + digitsVal es.
Proof.
  change (digitsFrom 0 (ds ++ es)
          = digitsFrom 0 ds * 10 ^ Z.of_nat (length es) + digitsFrom 0 es).
  rewrite digitsFrom_app. apply digitsFrom_shift.
Qed.

Lemma isDigit_range c :
  isDigit c = true -> 0 <= Z.of_N c - 48 <= 9.
Proof.
  unfold isDigit. rewrite andb_true_iff, !N.leb_le. lia.
Qed.

Lemma digitsVal_range ds :
  forallb isDigit ds = true ->
  0 <= digitsVal ds < 10 ^ Z.of_nat (length ds).
Proof.
  induction ds as [|c r IH] using rev_ind; intros Hd.
  - simpl. unfold digitsVal. simpl. lia.
  - rewrite forallb_app in Hd. apply andb_true_iff in Hd as [Hr Hc].
    simpl in Hc. rewrite andb_true_r in Hc. apply isDigit_range in Hc.
    specialize (IH Hr). rewrite digitsVal_app, length_app.
    change (digitsVal [c]) with (10 * 0 + (Z.of_N c - 48)).
    simpl length. rewrite Nat2Z.inj_add, Z.pow_add_r by lia.
    change (10 ^ Z.of_nat 1) with 10. lia.
Qed.

Lemma digitsVal_zeros n : digitsVal (zeros n) = 0.
Proof.
  unfold zeros. induction (Z.to_nat n) as [|k IH]; [reflexivity|].
  change (repeat 48%N (S k)) with ([48%N] ++ repeat 48%N k).
  rewrite digitsVal_app, IH. reflexivity.
Qed.

Lemma zeros_length n : 0 <= n -> Z.of_nat (length (zeros n)) = n.
Proof. intros. unfold zeros. rewrite repeat_length. lia. Qed.

Lemma zeros_digits n : forallb isDigit (zeros n) = true.
Proof.
  unfold zeros. induction (Z.to_nat n) as [|k IH]; [reflexivity|].
  simpl. exact IH.
Qed.

(** A leading digit other than 0 makes the value as long as the text. *)
Lemma digitsVal_lower c r :
  isDigit c = true -> c <> 48%N -> forallb isDigit r = true ->
  10 ^ Z.of_nat (length r) <= digitsVal (c :: r).
Proof.
  intros Hc Hn Hr. change (c :: r) with ([c] ++ r).
  rewrite digitsVal_app.
  change (digitsVal [c]) with (10 * 0 + (Z.of_N c - 48)).
  pose proof (isDigit_range _ Hc). pose proof (digitsVal_range _ Hr).
  assert (0 < 10 ^ Z.of_nat (length r)) by (apply Z.pow_pos_nonneg; lia).
  assert (1 <= Z.of_N c - 48) by lia. nia.
Qed.

Lemma js_cons a s : js (String a s) = N_of_ascii a :: js s.
Proof. reflexivity. Qed.

Lemma of_uint_acc_digits d : forall acc,
  Z.pos (Pos.of_uint_acc d acc)
  = digitsFrom (Z.pos acc) (js (NilEmpty.string_of_uint d)).
Proof.
  induction d; intros acc; simpl NilEmpty.string_of_uint;
    [reflexivity| rewrite js_cons; simpl Pos.of_uint_acc; rewrite IHd;
                  unfold digitsFrom; simpl fold_left; f_equal; lia ..].
Qed.

Lemma of_uint_digits d :
  Z.of_N (Pos.of_uint d) = digitsFrom 0 (js (NilEmpty.string_of_uint d)).
Proof.
  induction d; simpl NilEmpty.string_of_uint;
    [reflexivity| rewrite js_cons; simpl Pos.of_uint ..].
  1: rewrite IHd; reflexivity.
  all: rewrite N2Z.inj_pos, of_uint_acc_digits; reflexivity.
Qed.

Lemma uint_digits d :
  forallb isDigit (js (NilEmpty.string_of_uint d)) = true.
Proof.
  induction d; simpl NilEmpty.string_of_uint;
    [reflexivity| rewrite js_cons; simpl; exact IHd ..].
Qed.

Lemma nzhead_head d :
  Decimal.nzhead d = Decimal.Nil
  \/ exists c r, js (NilEmpty.string_of_uint (Decimal.nzhead d)) = c :: r
                 /\ c <> 48%N.
Proof.
  induction d; simpl Decimal.nzhead; [left; reflexivity| exact IHd | ..].
  all: right; simpl NilEmpty.string_of_uint; rewrite js_cons;
    eexists _, _; split; [reflexivity | discriminate].
Qed.

Lemma zero_text d :
  js (NilZero.string_of_uint d)
  = match d with
    | Decimal.Nil => [48%N]
    | _ => js (NilEmpty.string_of_uint d)
    end.
Proof. destruct d; reflexivity. Qed.

Lemma digitsOf_digits m : forallb isDigit (digitsOf m) = true.
Proof.
  unfold digitsOf. rewrite zero_text.
  destruct (N.to_uint _); try reflexivity; apply uint_digits.
Qed.

Lemma digitsVal_digitsOf m : digitsVal (digitsOf m) = Z.abs m.
Proof.
  unfold digitsOf. rewrite zero_text.
  set (n := Z.to_N (Z.abs m)).
  assert (Hn : Z.of_N n = Z.abs m) by (unfold n; lia).
  transitivity (Z.of_N (N.of_uint (N.to_uint n)));
    [|rewrite DecimalN.Unsigned.of_to; exact Hn].
  unfold N.of_uint. rewrite of_uint_digits.
  destruct (N.to_uint n); reflexivity.
Qed.

Lemma digitsOf_head m :
  m <> 0 ->
  exists c r, digitsOf m = c :: r /\ isDigit c = true /\ c <> 48%N.
Proof.
  intros Hm. pose proof (digitsOf_digits m) as Hd.
  pose proof (digitsVal_digitsOf m) as Hv.
  unfold digitsOf in *. set (n := Z.to_N (Z.abs m)) in *.
  pose proof (DecimalN.Unsigned.to_of (N.to_uint n)) as Hu.
  rewrite DecimalN.Unsigned.of_to in Hu.
  unfold Decimal.unorm in Hu.
  destruct (nzhead_head (N.to_uint n)) as [E | (c & r & E & Hc)].
  - rewrite E in Hu. rewrite Hu in Hv. exfalso.
    change (0 = Z.abs m) in Hv. lia.
  - assert (Hz : Decimal.nzhead (N.to_uint n) = N.to_uint n).
    { destruct (Decimal.nzhead (N.to_uint n)); try (symmetry; exact Hu).
      discriminate E. }
    rewrite Hz in E. rewrite zero_text in Hd |- *.
    destruct (N.to_uint n) eqn:En; try discriminate E.
    all: rewrite E in Hd |- *; exists c, r; split; [reflexivity|];
      split; [|exact Hc]; simpl in Hd; apply andb_true_iff in Hd; tauto.
Qed.

Lemma digitsOf_nonempty m : digitsOf m <> [].
Proof.
  destruct (Z.eq_dec m 0) as [->|Hm]; [discriminate|].
  destruct (digitsOf_head m Hm) as (c & r & E & _). rewrite E. discriminate.
Qed.

(** The text of [m] has [w] digits at most when [m] is below [10^w]. *)
Lemma digitsOf_length m w :
  (0 < w)%nat -> Z.abs m < 10 ^ Z.of_nat w -> (length (digitsOf m) <= w)%nat.
Proof.
  intros Hw0 Hm. destruct (Z.eq_dec m 0) as [->|Hz].
  - simpl. lia.
  - destruct (digitsOf_head m Hz) as (c & r & E & Hc & Hn).
    pose proof (digitsOf_digits m) as Hd.
    pose proof (digitsVal_digitsOf m) as Hv. rewrite E in *.
    simpl in Hd. apply andb_true_iff in Hd as [_ Hr].
    pose proof (digitsVal_lower c r Hc Hn Hr) as Hl.
    rewrite Hv in Hl. simpl length.
    destruct (le_lt_dec (S (length r)) w) as [|Hw]; [assumption|].
    assert (10 ^ Z.of_nat w <= 10 ^ Z.of_nat (length r))
      by (apply Z.pow_le_mono_r; lia).
    lia.
Qed.

End DigitFacts.
Section LexemeFacts.

Lemma span_digits ds rest :
  forallb isDigit ds = true ->
  match rest with [] => True | c :: _ => isDigit c = false end ->
  Num.span isDigit (ds ++ rest) = (ds, rest).
Proof.
  intros Hd Hr. induction ds as [|c r IH].
  - destruct rest as [|c r]; [reflexivity|]. simpl. rewrite Hr. reflexivity.
  - simpl in Hd. apply andb_true_iff in Hd as [Hc Hd].
    simpl. rewrite Hc, (IH Hd). reflexivity.
Qed.

Lemma strip10_spec (j : nat) : forall f m e,
  m mod 10 <> 0 -> (j <= f)%nat ->
  Num.strip10 f (m * 10 ^ Z.of_nat j) e = (m, e + Z.of_nat j).
Proof.
  induction j as [|j IH]; intros f m e Hm Hf.
  - rewrite Z.mul_1_r, Z.add_0_r.
    destruct f; [reflexivity|]. simpl.
    destruct (Z.eqb_spec (m mod 10) 0); [contradiction | reflexivity].
  - destruct f as [|f]; [lia|].
    replace (m * 10 ^ Z.of_nat (S j)) with (m * 10 ^ Z.of_nat j * 10)
      by (rewrite Nat2Z.inj_succ, Z.pow_succ_r by lia; ring).
    simpl. rewrite Z.mod_mul by lia. simpl.
    rewrite Z.div_mul by lia. rewrite IH by (assumption || lia).
    f_equal. lia.
Qed.

Lemma mkDec_spec m e j :
  m mod 10 <> 0 -> 0 <= j -> mkDec (m * 10 ^ j) e = Dec m (e + j).
Proof.
  intros Hm Hj. unfold mkDec.
  assert (Hm0 : m <> 0) by (intros ->; apply Hm; reflexivity).
  assert (Hp : 0 < 10 ^ j) by (apply Z.pow_pos_nonneg; lia).
  destruct (Z.eqb_spec (m * 10 ^ j) 0) as [E|_]; [nia|].
  rewrite <- (Z2Nat.id j Hj) at 2.
  rewrite strip10_spec; [rewrite Z2Nat.id by lia; reflexivity | assumption |].
  assert (j <= Z.log2 (Z.abs (m * 10 ^ j))); [|lia].
  rewrite Z.abs_mul, (Z.abs_eq (10 ^ j)) by lia.
  transitivity (Z.log2 (2 ^ j)); [rewrite Z.log2_pow2; lia|].
  apply Z.log2_le_mono.
  assert (2 ^ j <= 10 ^ j) by (apply Z.pow_le_mono_l; lia).
  assert (1 <= Z.abs m) by lia. nia.
Qed.

Lemma strip_decompose m :
  m <> 0 -> exists m' j, 0 <= j /\ m = m' * 10 ^ j /\ m' mod 10 <> 0.
Proof.
  remember (Z.abs_nat m) as k eqn:Hk. revert m Hk.
  induction k as [k IH] using lt_wf_ind. intros m Hk Hm.
  destruct (Z.eq_dec (m mod 10) 0) as [E|E].
  - pose proof (Z.div_mod m 10 ltac:(lia)) as Hdm. rewrite E in Hdm.
    destruct (IH (Z.abs_nat (m / 10)) ltac:(lia) (m / 10) eq_refl
                ltac:(lia)) as (m' & j & Hj & Hmj & Hm').
    exists m', (j + 1). split; [lia|]. split; [|assumption].
    rewrite Z.pow_add_r by lia. lia.
  - exists m, 0. rewrite Z.mul_1_r. repeat split; [lia | assumption].
Qed.

Lemma normal_spec m e :
  normal (Dec m e) = true <-> (m = 0 -> e = 0) /\ (m <> 0 -> m mod 10 <> 0).
Proof.
  unfold normal. destruct (Z.eqb_spec m 0) as [->|Hm].
  - rewrite Z.eqb_eq. split; [intros ->; split; [reflexivity | contradiction]
                             | intros [H _]; auto].
  - rewrite negb_true_iff, Z.eqb_neq. split; [intros H; split; [contradiction
                                                               | auto]
                                             | intros [_ H]; auto].
Qed.

Lemma mkDec_normal m e : normal (mkDec m e) = true.
Proof.
  destruct (Z.eq_dec m 0) as [->|Hm]; [reflexivity|].
  destruct (strip_decompose m Hm) as (m' & j & Hj & -> & Hm').
  rewrite mkDec_spec by assumption. apply normal_spec.
  split; [|intros _; exact Hm'].
  intros ->. exfalso. apply Hm'. reflexivity.
Qed.

Lemma mkDec_id m e : normal (Dec m e) = true -> mkDec m e = Dec m e.
Proof.
  intros [H0 H1]%normal_spec. destruct (Z.eq_dec m 0) as [->|Hm].
  - rewrite (H0 eq_refl). reflexivity.
  - rewrite <- (Z.mul_1_r m) at 1. change 1 with (10 ^ 0).
    rewrite mkDec_spec by (auto || lia). f_equal. lia.
Qed.

End LexemeFacts.
Section LexemeForms.

Lemma digit_not_sign c :
  isDigit c = true ->
  (c =? 45)%N = false /\ (c =? 46)%N = false /\ (c =? 43)%N = false
  /\ (c =? 101)%N = false /\ (c =? 69)%N = false.
Proof.
  unfold isDigit. rewrite andb_true_iff, !N.leb_le, !N.eqb_neq. lia.
Qed.

Lemma minus_cases (s : jsstring) :
  match s with
  | 45%N :: r => (true, r)
  | _ => (false, s)
  end
  = match s with
    | [] => (false, s)
    | c :: r => if (c =? 45)%N then (true, r) else (false, s)
    end.
Proof.
  destruct s as [|c r]; [reflexivity|].
  destruct (N.eqb_spec c 45) as [->|Hc]; [reflexivity|].
  destruct c as [|p]; [reflexivity|].
  do 6 (destruct p as [p|p|]; try reflexivity). all: congruence.
Qed.

Lemma dot_cases (s : jsstring) :
  match s with
  | 46%N :: r => let '(f, r') := Num.span isDigit r in (Some f, r')
  | _ => (None, s)
  end
  = match s with
    | [] => (None, s)
    | c :: r => if (c =? 46)%N
                then let '(f, r') := Num.span isDigit r in (Some f, r')
                else (None, s)
    end.
Proof.
  destruct s as [|c r]; [reflexivity|].
  destruct (N.eqb_spec c 46) as [->|Hc]; [reflexivity|].
  destruct c as [|p]; [reflexivity|].
  do 6 (destruct p as [p|p|]; try reflexivity). all: congruence.
Qed.

Lemma sign_cases (s : jsstring) :
  match s with
  | 45%N :: r' => (true, r')
  | 43%N :: r' => (false, r')
  | _ => (false, s)
  end
  = match s with
    | [] => (false, s)
    | c :: r' => if (c =? 45)%N then (true, r')
                 else if (c =? 43)%N then (false, r') else (false, s)
    end.
Proof.
  destruct s as [|c r]; [reflexivity|].
  destruct (N.eqb_spec c 45) as [->|Hc]; [reflexivity|].
  destruct (N.eqb_spec c 43) as [->|Hd]; [reflexivity|].
  destruct c as [|p]; [reflexivity|].
  do 6 (destruct p as [p|p|]; try reflexivity). all: congruence.
Qed.

Lemma span_all ds :
  forallb isDigit ds = true -> Num.span isDigit ds = (ds, []).
Proof.
  intros H. pose proof (span_digits ds [] H I) as E.
  rewrite app_nil_r in E. exact E.
Qed.

(** The number [ofLexeme] reads from a text made of a sign, an integer
    part, a fraction and an exponent. *)
Lemma ofLexeme_form (neg : bool) d ip' (fp : option jsstring)
    (ex : option (bool * jsstring)) :
  forallb isDigit (d :: ip') = true ->
  (d = 48%N -> ip' = []) ->
  match fp with
  | Some f => f <> [] /\ forallb isDigit f = true
  | None => True
  end ->
  match ex with
  | Some (_, ed) => ed <> [] /\ forallb isDigit ed = true
  | None => True
  end ->
  Num.ofLexeme
    ((if neg then [45%N] else []) ++ (d :: ip')
     ++ match fp with Some f => 46%N :: f | None => [] end
     ++ match ex with
        | Some (eneg, ed) => 101%N :: (if eneg : bool then [45%N] else [43%N]) ++ ed
        | None => []
        end)
  = Some (mkDec (let m := digitsVal ((d :: ip') ++ default [] fp) in
                 if neg then - m else m)
                (match ex with
                 | Some (eneg, ed) =>
                     if eneg then - digitsVal ed else digitsVal ed
                 | None => 0
                 end - Z.of_nat (length (default [] fp)))).
Proof.
  intros Hip Hz Hfp Hex.
  assert (Hd : isDigit d = true)
    by (simpl in Hip; apply andb_true_iff in Hip; tauto).
  destruct (digit_not_sign d Hd) as (Hd45 & _).
  unfold Num.ofLexeme. rewrite minus_cases.
  set (tail := match fp with Some f => 46%N :: f | None => [] end ++ _).
  assert (Ht : match tail with [] => True | c :: _ => isDigit c = false end).
  { subst tail. destruct fp as [f|]; [reflexivity|].
    destruct ex as [[eneg ed]|]; reflexivity. }
  destruct neg; cbn [app]; rewrite ?N.eqb_refl, ?Hd45;
    change (d :: ip' ++ tail) with ((d :: ip') ++ tail);
    rewrite (span_digits _ _ Hip Ht).
  all: assert (Hlead : (d =? 48)%N && negb (bool_decide (ip' = [])) = false)
    by (destruct (N.eqb_spec d 48) as [E|E]; [|reflexivity];
        rewrite (Hz E); reflexivity).
  all: rewrite Hlead, dot_cases; subst tail.
  all: destruct fp as [[|f0 f]|]; [destruct Hfp as [[] _]; reflexivity| |].
  all: destruct ex as [[eneg ed]|]; cbn [app default].
  all: rewrite ?N.eqb_refl; change ((101 =? 46)%N) with false.
  all: try match goal with
       | |- context [Num.span isDigit (?a :: ?b ++ ?X)] =>
           change (a :: b ++ X) with ((a :: b) ++ X);
           rewrite (span_digits (a :: b) X);
           [| tauto | try destruct eneg; reflexivity]
       end.
  all: cbv beta iota zeta; rewrite ?N.eqb_refl; cbn [orb].
  all: rewrite ?sign_cases.
  all: try (destruct eneg; cbn [app]; rewrite ?N.eqb_refl;
            change ((43 =? 45)%N) with false; cbv beta iota zeta;
            rewrite (span_all ed) by tauto;
            destruct Hex as [Hne _]; (destruct ed; [contradiction|])).
  all: cbv beta iota zeta.
  all: reflexivity.
Qed.

Lemma mkDec_signed (neg : bool) m v j e0 e :
  m mod 10 <> 0 -> v = Z.abs m * 10 ^ j -> 0 <= j -> neg = (m <? 0) ->
  e0 + j = e -> mkDec (if neg then - v else v) e0 = Dec m e.
Proof.
  intros Hm -> Hj -> <-.
  replace (if m <? 0 then - (Z.abs m * 10 ^ j) else Z.abs m * 10 ^ j)
    with (m * 10 ^ j) by (destruct (Z.ltb_spec m 0); lia).
  apply mkDec_spec; assumption.
Qed.

(** [JSON.parse] reads the text [Number::toString] writes as the number
    written. *)
Lemma ofLexeme_toString m e :
  normal (Dec m e) = true ->
  Num.ofLexeme (Num.toString (Dec m e)) = Some (Dec m e).
Proof.
  intros [H0 H1]%normal_spec. destruct (Z.eq_dec m 0) as [->|Hm].
  { rewrite (H0 eq_refl). reflexivity. }
  specialize (H1 Hm). clear H0.
  destruct (digitsOf_head m Hm) as (c & r & Es & Hc & Hn).
  pose proof (digitsOf_digits m) as Hd.
  pose proof (digitsVal_digitsOf m) as Hv.
  unfold Num.toString. rewrite (proj2 (Z.eqb_neq m 0) Hm).
  rewrite Es in *. cbv zeta.
  set (k := Z.of_nat (length (c :: r))).
  assert (Hk : k = 1 + Z.of_nat (length r)) by (subst k; simpl length; lia).
  set (neg := m <? 0).
  assert (Hneg : forall b, (if neg then js "-" ++ b else b)
                           = (if neg then [45%N] else []) ++ b)
    by (intros; destruct neg; reflexivity).
  rewrite Hneg.
  assert (Hr : forallb isDigit r = true)
    by (simpl in Hd; apply andb_true_iff in Hd; tauto).
  assert (Hz : c = 48%N -> r = []) by (intros; contradiction).
  destruct ((k <=? k + e) && (k + e <=? 21)) eqn:CA;
    [|destruct ((0 <? k + e) && (k + e <=? 21)) eqn:CB;
      [|destruct ((-6 <? k + e) && (k + e <=? 0)) eqn:CC]].
  - apply andb_true_iff in CA as [Ca _]. apply Z.leb_le in Ca.
    pose proof (ofLexeme_form neg c (r ++ zeros (k + e - k)) None None) as F.
    cbn [app default length] in F. rewrite app_nil_r in F.
    cbn [app]. rewrite F; clear F; try exact I; try (intros; contradiction).
    + f_equal. apply mkDec_signed with (j := e);
        [assumption | | lia | reflexivity | lia].
      cbv zeta. change (c :: r ++ ?x) with ((c :: r) ++ x).
      rewrite digitsVal_app, digitsVal_zeros, zeros_length, Hv by lia.
      replace (k + e - k) with e by lia. lia.
    + simpl. rewrite forallb_app, Hr, zeros_digits. simpl in Hd.
      apply andb_true_iff in Hd as [-> _]. reflexivity.
  - apply andb_true_iff in CB as [Cb1 Cb2].
    apply Z.ltb_lt in Cb1. apply Z.leb_le in Cb2.
    apply andb_false_iff in CA. rewrite !Z.leb_gt in CA.
    destruct (Z.to_nat (k + e)) as [|p] eqn:Ep; [lia|].
    cbn [take drop].
    assert (Hp : (p < length r)%nat) by lia.
    pose proof (ofLexeme_form neg c (take p r) (Some (drop p r)) None) as F.
    change (js ".") with [46%N].
    cbn [app default] in F |- *. rewrite app_nil_r in F.
    rewrite F; clear F; try exact I; try (intros; contradiction).
    + f_equal. apply mkDec_signed with (j := 0);
        [assumption | | lia | reflexivity |].
      * cbv zeta.
        unfold Datatypes.id. rewrite take_drop, Hv. lia.
      * unfold Datatypes.id. rewrite length_drop. lia.
    + simpl. rewrite Hc. simpl.
      rewrite <- (take_drop p r), forallb_app in Hr.
      apply andb_true_iff in Hr. tauto.
    + split.
      * intros E. apply (f_equal length) in E. rewrite length_drop in E.
        simpl in E. lia.
      * rewrite <- (take_drop p r), forallb_app in Hr.
        apply andb_true_iff in Hr. tauto.
  - apply andb_true_iff in CC as [Cc1 Cc2].
    apply Z.ltb_lt in Cc1. apply Z.leb_le in Cc2.
    pose proof (ofLexeme_form neg 48 []
                  (Some (zeros (- (k + e)) ++ c :: r)) None) as F.
    change (js "0.") with [48%N; 46%N].
    cbn [app default] in F |- *. rewrite app_nil_r in F.
    unfold Datatypes.id in F.
    rewrite F; clear F; try exact I; try reflexivity.
    + f_equal. apply mkDec_signed with (j := 0);
        [assumption | | lia | reflexivity |].
      * cbv zeta. change (48%N :: ?x ++ ?y) with (([48%N] ++ x) ++ y).
        rewrite !digitsVal_app, digitsVal_zeros, Hv.
        change (digitsVal [48%N]) with 0. lia.
      * rewrite length_app, Nat2Z.inj_add, zeros_length by lia. lia.
    + split.
      * destruct (zeros _); discriminate.
      * rewrite forallb_app, zeros_digits. exact Hd.
  - set (ex := k + e - 1).
    assert (Hsg : (if 0 <=? ex then js "+" else js "-")
                  = (if negb (0 <=? ex) then [45%N] else [43%N]))
      by (destruct (0 <=? ex); reflexivity).
    rewrite Hsg. change (js "e") with [101%N]. change (js ".") with [46%N].
    assert (Hex : (if negb (0 <=? ex) then - digitsVal (digitsOf ex)
                   else digitsVal (digitsOf ex)) = ex)
      by (rewrite digitsVal_digitsOf; destruct (Z.leb_spec 0 ex); simpl; lia).
    pose proof (digitsOf_nonempty ex) as Hne.
    pose proof (digitsOf_digits ex) as Hde.
    destruct r as [|r0 r'].
    + replace (k =? 1) with true
        by (symmetry; apply Z.eqb_eq; simpl length in Hk; lia).
      pose proof (ofLexeme_form neg c [] None
                    (Some (negb (0 <=? ex), digitsOf ex))) as F.
      cbn [app default] in F |- *.
      refine (eq_trans (F _ _ _ _) _); clear F; try exact I; try tauto.
      f_equal. rewrite Hex. apply mkDec_signed with (j := 0);
        [assumption | | lia | reflexivity |].
      * cbv zeta. rewrite Hv. lia.
      * subst ex. simpl length in *. lia.
    + replace (k =? 1) with false
        by (symmetry; apply Z.eqb_neq; simpl length in Hk; lia).
      pose proof (ofLexeme_form neg c [] (Some (r0 :: r'))
                    (Some (negb (0 <=? ex), digitsOf ex))) as F.
      cbn [app default take drop] in F |- *. unfold Datatypes.id in F.
      refine (eq_trans (F _ _ _ _) _); clear F; try exact I; try tauto.
      * simpl. rewrite Hc. reflexivity.
      * split; [discriminate | exact Hr].
      * f_equal. rewrite Hex. apply mkDec_signed with (j := 0);
          [assumption | | lia | reflexivity |].
        -- cbv zeta. rewrite Hv. lia.
        -- subst ex. simpl length in *. lia.
Qed.

Lemma digits_numchars ds :
  forallb isDigit ds = true -> forallb isNumChar ds = true.
Proof.
  induction ds as [|c r IH]; [reflexivity|]. simpl.
  rewrite !andb_true_iff. intros [Hc Hr]. split; [|auto].
  unfold isNumChar. rewrite Hc. reflexivity.
Qed.

Lemma forallb_take_drop {A} (p : A -> bool) n l :
  forallb p l = true ->
  forallb p (take n l) = true /\ forallb p (drop n l) = true.
Proof.
  intros H. rewrite <- (take_drop n l), forallb_app in H.
  apply andb_true_iff in H. exact H.
Qed.

(** The text of a number is made of the characters the lexer takes for a
    number, and starts with a minus sign or a digit. *)
Lemma toString_numchars m e :
  forallb isNumChar (Num.toString (Dec m e)) = true
  /\ exists c r, Num.toString (Dec m e) = c :: r
                 /\ ((c =? 45)%N || isDigit c) = true.
Proof.
  unfold Num.toString. destruct (Z.eqb_spec m 0) as [->|Hm].
  { split; [reflexivity|]. eexists _, _. split; reflexivity. }
  destruct (digitsOf_head m Hm) as (c & r & Es & Hc & Hn).
  pose proof (digitsOf_digits m) as Hd. rewrite Es in *. cbv zeta.
  set (k := Z.of_nat (length (c :: r))).
  pose proof (digits_numchars _ Hd) as Hs.
  pose proof (digits_numchars _ (digitsOf_digits (k + e - 1))) as Hx.
  pose proof (digits_numchars _ (zeros_digits (k + e - k))) as Hz1.
  pose proof (digits_numchars _ (zeros_digits (- (k + e)))) as Hz2.
  assert (Hhead : ((c =? 45)%N || isDigit c) = true)
    by (rewrite Hc; apply orb_true_r).
  assert (Hbody : forall b : jsstring,
            forallb isNumChar b = true ->
            (exists c' r', b = c' :: r' /\ isDigit c' = true) ->
            forallb isNumChar (if m <? 0 then js "-" ++ b else b) = true
            /\ exists c0 r0, (if m <? 0 then js "-" ++ b else b) = c0 :: r0
                             /\ ((c0 =? 45)%N || isDigit c0) = true).
  { intros b Hb (c' & r' & -> & Hc'). destruct (m <? 0).
    - split; [simpl in Hb |- *; exact Hb|].
      eexists _, _. split; reflexivity.
    - split; [exact Hb|]. exists c', r'. split; [reflexivity|].
      rewrite Hc'. apply orb_true_r. }
  apply Hbody; clear Hbody.
  - repeat match goal with
           | |- context [if ?b then _ else _] => destruct b eqn:?
           end;
      rewrite ?forallb_app, ?Hs, ?Hx, ?Hz1, ?Hz2;
      rewrite ?(proj1 (forallb_take_drop isNumChar _ _ Hs)),
              ?(proj2 (forallb_take_drop isNumChar _ _ Hs)); reflexivity.
  - destruct ((k <=? k + e) && (k + e <=? 21)) eqn:CA;
      [eexists _, _; split; [reflexivity | exact Hc]|].
    destruct ((0 <? k + e) && (k + e <=? 21)) eqn:CB.
    { apply andb_true_iff in CB as [Cb _]. apply Z.ltb_lt in Cb.
      destruct (Z.to_nat (k + e)) eqn:En; [lia|].
      eexists _, _; split; [reflexivity | exact Hc]. }
    destruct ((-6 <? k + e) && (k + e <=? 0));
      [eexists _, _; split; reflexivity|].
    destruct (k =? 1); eexists _, _; split; (reflexivity || exact Hc).
Qed.

End LexemeForms.

(* ===================================================================== *)
(** ** The ledger text read back                                          *)
(* ===================================================================== *)

Section LedgerText.

Lemma lex_run_app a : forall st out b,
  lex_run st out (a ++ b)
  = match lex_run st out a with
    | Some (st', out') => lex_run st' out' b
    | None => None
    end.
Proof.
  induction a as [|c r IH]; intros st out b; [reflexivity|].
  simpl. destruct (lex_step st out c) as [[st' out']|]; [apply IH | reflexivity].
Qed.

Lemma lex_num_chars ds : forall acc out,
  forallb isNumChar ds = true ->
  lex_run (LNum acc) out ds = Some (LNum (rev ds ++ acc), out).
Proof.
  induction ds as [|c r IH]; intros acc out Hd; [reflexivity|].
  simpl in Hd. apply andb_true_iff in Hd as [Hc Hr].
  simpl. rewrite Hc, (IH _ _ Hr), <- app_assoc. reflexivity.
Qed.

Lemma default_step_number out c :
  ((c =? 45)%N || isDigit c) = true ->
  default_step out c = Some (LNum [c], out).
Proof.
  intros H. unfold default_step.
  assert (45 <= c <= 57)%N as Hr.
  { apply orb_true_iff in H as [H|H]; [apply N.eqb_eq in H; lia|].
    unfold isDigit in H. apply andb_true_iff in H as [H1 H2].
    apply N.leb_le in H1, H2. lia. }
  unfold isJsonSpace.
  repeat match goal with
         | |- context [(c =? ?k)%N] =>
             lazymatch k with
             | 45%N => fail
             | _ => replace (c =? k)%N with false
                      by (symmetry; apply N.eqb_neq; lia)
             end
         end.
  simpl. rewrite H. reflexivity.
Qed.

(** A number written by [JSON.stringify] and followed by a character that
    ends it is one token. *)
Lemma lex_number m e c rest out :
  normal (Dec m e) = true -> isNumChar c = false ->
  lex_run LDefault out (Num.toString (Dec m e) ++ c :: rest)
  = match default_step (TNumber (Dec m e) :: out) c with
    | Some (st', out') => lex_run st' out' rest
    | None => None
    end.
Proof.
  intros Hn Hc.
  destruct (toString_numchars m e) as (Hall & c0 & r0 & E & H0).
  pose proof (ofLexeme_toString m e Hn) as Hl. rewrite E in *.
  simpl in Hall. apply andb_true_iff in Hall as [_ Hr0].
  cbn [app lex_run lex_step]. rewrite (default_step_number _ _ H0).
  rewrite lex_run_app, (lex_num_chars _ _ _ Hr0).
  cbn [lex_run lex_step]. rewrite Hc, rev_app_distr, rev_involutive.
  cbn [rev app]. rewrite Hl. reflexivity.
Qed.

Lemma quoteChars_cons c r :
  quoteChars (c :: r) = quoteChars [c] ++ quoteChars r.
Proof.
  simpl.
  repeat match goal with
         | |- context [if ?b then _ else _] => destruct b
         end; rewrite ?app_nil_r; reflexivity.
Qed.

Lemma lex_char c acc out rest :
  lex_run (LStr acc) out (quoteChars [c] ++ rest)
  = lex_run (LStr (c :: acc)) out rest.
Proof.
  destruct (N.ltb_spec c 32) as [Hlt|Hge].
  - destruct c as [|p]; [reflexivity|].
    repeat match goal with
           | q : positive |- _ => destruct q as [q|q|]; try (exfalso; lia)
           end.
    all: reflexivity.
  - destruct (N.eqb_spec c 34) as [->|H34]; [reflexivity|].
    destruct (N.eqb_spec c 92) as [->|H92]; [reflexivity|].
    cbn [quoteChars].
    repeat match goal with
           | |- context [(c =? ?k)%N] =>
               replace (c =? k)%N with false
                 by (symmetry; apply N.eqb_neq; lia)
           end.
    replace (c <? 32)%N with false by (symmetry; apply N.ltb_ge; lia).
    cbn [app lex_run lex_step].
    repeat match goal with
           | |- context [(c =? ?k)%N] =>
               replace (c =? k)%N with false
                 by (symmetry; apply N.eqb_neq; lia)
           end.
    replace (c <? 32)%N with false by (symmetry; apply N.ltb_ge; lia).
    reflexivity.
Qed.

(** A string written by [JSON.stringify] is one token, the string. *)
Lemma lex_string s : forall acc out rest,
  lex_run (LStr acc) out (quoteChars s ++ 34%N :: rest)
  = lex_run LDefault (TString (rev acc ++ s) :: out) rest.
Proof.
  induction s as [|c r IH]; intros acc out rest.
  - simpl. rewrite app_nil_r. reflexivity.
  - rewrite quoteChars_cons, <- app_assoc, lex_char, IH.
    simpl rev. rewrite <- app_assoc. reflexivity.
Qed.

Lemma lex_quote s out rest :
  lex_run LDefault out (quote s ++ rest)
  = lex_run LDefault (TString s :: out) rest.
Proof.
  unfold quote. rewrite <- !app_assoc. cbn [app lex_run lex_step].
  change (default_step out 34) with (Some (LStr [], out)).
  cbv iota. apply (lex_string s [] out rest).
Qed.

Lemma ledgerOf_text s :
  normalStats s = true ->
  ledgerOf s
  = 123%N :: quote (js "documentsUploaded") ++ 58%N
    :: Num.toString (Usage.documentsUploaded s) ++ 44%N
    :: quote (js "totalStorageUsed") ++ 58%N
    :: Num.toString (Usage.totalStorageUsed s) ++ 44%N
    :: quote (js "sessionPrice") ++ 58%N
    :: Num.toString (Usage.sessionPrice s) ++ 44%N
    :: quote (js "sessionStartAt") ++ 58%N
    :: quote (Usage.sessionStartAt s) ++ 44%N
    :: quote (js "sessionResetAt") ++ 58%N
    :: quote (Usage.sessionResetAt s) ++ [125%N].
Proof.
  destruct s as [[m1 e1|] [m2 e2|] [m3 e3|] a b]; intros Hs;
    try discriminate Hs;
    try (unfold normalStats in Hs; cbn [Usage.documentsUploaded
           Usage.totalStorageUsed Usage.sessionPrice] in Hs;
         rewrite ?andb_false_r in Hs; discriminate Hs).
  change (ledgerOf _)
    with (js "{"
          ++ join (js ",")
               [quote (js "documentsUploaded") ++ js ":"
                ++ Num.toString (Dec m1 e1);
                quote (js "totalStorageUsed") ++ js ":"
                ++ Num.toString (Dec m2 e2);
                quote (js "sessionPrice") ++ js ":"
                ++ Num.toString (Dec m3 e3);
                quote (js "sessionStartAt") ++ js ":" ++ quote a;
                quote (js "sessionResetAt") ++ js ":" ++ quote b]
          ++ js "}").
  cbn [join Usage.documentsUploaded Usage.totalStorageUsed
       Usage.sessionPrice Usage.sessionStartAt Usage.sessionResetAt].
  change (js "{") with [123%N]. change (js ",") with [44%N].
  change (js ":") with [58%N]. change (js "}") with [125%N].
  rewrite <- !app_assoc. reflexivity.
Qed.

Lemma lex_lbrace out x :
  lex_run LDefault out (123%N :: x) = lex_run LDefault (TLBrace :: out) x.
Proof. reflexivity. Qed.

Lemma lex_colon out x :
  lex_run LDefault out (58%N :: x) = lex_run LDefault (TColon :: out) x.
Proof. reflexivity. Qed.

Lemma lex_comma out x :
  lex_run LDefault out (44%N :: x) = lex_run LDefault (TComma :: out) x.
Proof. reflexivity. Qed.

Lemma lex_number_comma m e rest out :
  normal (Dec m e) = true ->
  lex_run LDefault out (Num.toString (Dec m e) ++ 44%N :: rest)
  = lex_run LDefault (TComma :: TNumber (Dec m e) :: out) rest.
Proof.
  intros H. rewrite lex_number by (assumption || reflexivity). reflexivity.
Qed.

(** [JSON.parse] reads the text of session stats as the stats written. *)
Lemma parse_ledgerOf s :
  normalStats s = true -> Json.parse (ledgerOf s) = Some (Usage.statsValue s).
Proof.
  intros Hs. rewrite (ledgerOf_text s Hs).
  destruct s as [[m1 e1|] [m2 e2|] [m3 e3|] a b];
    try (unfold normalStats in Hs; cbn [Usage.documentsUploaded
           Usage.totalStorageUsed Usage.sessionPrice] in Hs;
         rewrite ?andb_false_r in Hs; discriminate Hs).
  apply andb_true_iff in Hs as [Hs H3]. apply andb_true_iff in Hs as [H1 H2].
  cbn [Usage.documentsUploaded Usage.totalStorageUsed
       Usage.sessionPrice Usage.sessionStartAt Usage.sessionResetAt] in *.
  unfold Json.parse, lex.
  rewrite lex_lbrace, lex_quote, lex_colon, lex_number_comma by assumption.
  rewrite lex_quote, lex_colon, lex_number_comma by assumption.
  rewrite lex_quote, lex_colon, lex_number_comma by assumption.
  rewrite lex_quote, lex_colon, lex_quote, lex_comma.
  rewrite lex_quote, lex_colon, lex_quote.
  vm_compute. reflexivity.
Qed.

Lemma ledgerOf_nonempty s : normalStats s = true -> ledgerOf s <> [].
Proof. intros Hs. rewrite (ledgerOf_text s Hs). discriminate. Qed.

End LedgerText.

(* ===================================================================== *)
(** ** Instants and their ISO text                                        *)
(* ===================================================================== *)

Section DateFacts.

Lemma yoe_facts doe yoe doy :
  0 <= doe <= 146096 ->
  yoe = (doe - doe / 1460 + doe / 36524 - doe / 146096) / 365 ->
  doy = doe - (365 * yoe + yoe / 4 - yoe / 100) ->
  0 <= yoe <= 399 /\ 0 <= doy <= 365
  /\ (doy = 365 ->
      (yoe + 1) mod 4 = 0
      /\ ((yoe + 1) mod 100 <> 0 \/ (yoe + 1) mod 400 = 0)).
Proof. intros H -> ->. Z.div_mod_to_equations. lia. Qed.

Lemma month_facts doy mp d :
  0 <= doy <= 365 ->
  mp = (5 * doy + 2) / 153 ->
  d = doy - (153 * mp + 2) / 5 + 1 ->
  0 <= mp <= 11 /\ 1 <= d
  /\ (mp = 11 -> d <= 28 \/ (doy = 365 /\ d = 29))
  /\ (mp = 1 \/ mp = 3 \/ mp = 6 \/ mp = 8 -> d <= 30)
  /\ d <= 31.
Proof. intros H -> ->. Z.div_mod_to_equations. lia. Qed.

(** The date of a day number is a date of the calendar, and
    [daysFromCivil] gives the day number back. *)
Lemma civil_facts days y m d :
  civilFromDays days = (y, m, d) ->
  daysFromCivil y m d = days /\ 1 <= m <= 12 /\ 1 <= d <= daysInMonth y m
  /\ (days + 719468) / 146097 * 400 <= y
     <= (days + 719468) / 146097 * 400 + 400.
Proof.
  unfold civilFromDays. cbv zeta.
  set (z := days + 719468). set (era := z / 146097).
  set (doe := z - era * 146097).
  set (yoe := (doe - doe / 1460 + doe / 36524 - doe / 146096) / 365).
  set (doy := doe - (365 * yoe + yoe / 4 - yoe / 100)).
  set (mp := (5 * doy + 2) / 153).
  set (dd := doy - (153 * mp + 2) / 5 + 1).
  intros E.
  assert (Hdoe : 0 <= doe <= 146096)
    by (subst doe era; Z.div_mod_to_equations; lia).
  destruct (yoe_facts doe yoe doy Hdoe eq_refl eq_refl) as (Hy & Hdy & Hleap).
  destruct (month_facts doy mp dd Hdy eq_refl eq_refl)
    as (Hmp & Hd1 & Hfeb & H30 & H31).
  assert (Edoy : doy = doe - (365 * yoe + yoe / 4 - yoe / 100))
    by reflexivity.
  assert (Edd : dd = doy - (153 * mp + 2) / 5 + 1) by reflexivity.
  assert (Edoe : doe = z - era * 146097) by reflexivity.
  assert (Ez : z = days + 719468) by reflexivity.
  clearbody dd mp doy yoe doe era z.
  injection E as Ey Em Ed. subst d.
  unfold daysFromCivil, daysInMonth. cbv zeta.
  destruct (Z.ltb_spec mp 10) as [C1|C1]; subst m y.
  - replace (mp + 3 <=? 2) with false by (symmetry; apply Z.leb_gt; lia).
    replace (2 <? mp + 3) with true by (symmetry; apply Z.ltb_lt; lia).
    replace (mp + 3 =? 2) with false by (symmetry; apply Z.eqb_neq; lia).
    replace (mp + 3 - 3) with mp by lia.
    assert (Hera : (yoe + era * 400) / 400 = era)
      by (Z.div_mod_to_equations; lia).
    rewrite Hera.
    split; [Z.div_mod_to_equations; lia|]. split; [lia|].
    split; [|lia]. split; [lia|].
    destruct ((mp + 3 =? 4) || (mp + 3 =? 6) || (mp + 3 =? 9)
              || (mp + 3 =? 11)) eqn:C; [|lia].
    rewrite !orb_true_iff, !Z.eqb_eq in C. lia.
  - replace (mp - 9 <=? 2) with true by (symmetry; apply Z.leb_le; lia).
    replace (2 <? mp - 9) with false by (symmetry; apply Z.ltb_ge; lia).
    replace (mp - 9 + 9) with mp by lia.
    replace (yoe + era * 400 + 1 - 1) with (yoe + era * 400) by lia.
    assert (Hera : (yoe + era * 400) / 400 = era)
      by (Z.div_mod_to_equations; lia).
    rewrite Hera.
    split; [Z.div_mod_to_equations; lia|]. split; [lia|].
    split; [|lia]. split; [lia|].
    replace ((mp - 9 =? 4) || (mp - 9 =? 6) || (mp - 9 =? 9)
             || (mp - 9 =? 11)) with false
      by (symmetry; rewrite !orb_false_iff, !Z.eqb_neq; lia).
    destruct (Z.eqb_spec (mp - 9) 2) as [C2|C2]; [|lia].
    assert (Emp : mp = 11) by lia.
    destruct (Hfeb Emp) as [Hd|[Hd ->]]; [destruct (_ || _); lia|].
    destruct (Hleap Hd) as [L4 L100].
    replace ((yoe + era * 400 + 1) mod 4) with ((yoe + 1) mod 4)
      by (Z.div_mod_to_equations; lia).
    replace ((yoe + era * 400 + 1) mod 100) with ((yoe + 1) mod 100)
      by (Z.div_mod_to_equations; lia).
    replace ((yoe + era * 400 + 1) mod 400) with ((yoe + 1) mod 400)
      by (Z.div_mod_to_equations; lia).
    rewrite L4. destruct L100 as [L|L].
    + replace ((yoe + 1) mod 100 =? 0) with false
        by (symmetry; apply Z.eqb_neq; exact L).
      simpl. lia.
    + rewrite L. rewrite orb_true_r. lia.
Qed.

Lemma digitsVal_repeat0 k ds :
  digitsVal (repeat 48%N k ++ ds) = digitsVal ds.
Proof.
  induction k as [|k IH]; [reflexivity|].
  change (repeat 48%N (S k) ++ ds) with ([48%N] ++ (repeat 48%N k ++ ds)).
  rewrite digitsVal_app, IH. change (digitsVal [48%N]) with 0. lia.
Qed.

Lemma repeat0_digits k : forallb isDigit (repeat 48%N k) = true.
Proof. induction k as [|k IH]; [reflexivity | exact IH]. Qed.

Lemma pad_length w n :
  (0 < w)%nat -> Z.abs n < 10 ^ Z.of_nat w -> length (pad w n) = w.
Proof.
  intros Hw Hn. unfold pad. rewrite length_app, repeat_length.
  pose proof (digitsOf_length n w Hw Hn). lia.
Qed.

Lemma digitsOnly_pad w n : digitsOnly (pad w n) = Some (Z.abs n).
Proof.
  unfold digitsOnly, pad.
  rewrite forallb_app, repeat0_digits, digitsOf_digits, digitsVal_repeat0,
    digitsVal_digitsOf.
  pose proof (digitsOf_nonempty n) as Hne.
  destruct (repeat 48%N _ ++ digitsOf n) eqn:E; [|reflexivity].
  apply app_eq_nil in E as [_ E]. contradiction.
Qed.

Lemma pad2 n :
  0 <= n < 100 ->
  exists a b, pad 2 n = [a; b] /\ digitsOnly [a; b] = Some n.
Proof.
  intros Hn. pose proof (pad_length 2 n ltac:(lia) ltac:(simpl; lia)) as Hl.
  pose proof (digitsOnly_pad 2 n) as Hd. rewrite Z.abs_eq in Hd by lia.
  destruct (pad 2 n) as [|a [|b [|]]]; try discriminate Hl.
  exists a, b. split; [reflexivity | exact Hd].
Qed.

Lemma pad3 n :
  0 <= n < 1000 ->
  exists a b c, pad 3 n = [a; b; c] /\ digitsOnly [a; b; c] = Some n.
Proof.
  intros Hn. pose proof (pad_length 3 n ltac:(lia) ltac:(simpl; lia)) as Hl.
  pose proof (digitsOnly_pad 3 n) as Hd. rewrite Z.abs_eq in Hd by lia.
  destruct (pad 3 n) as [|a [|b [|c [|]]]]; try discriminate Hl.
  exists a, b, c. split; [reflexivity | exact Hd].
Qed.

Lemma digits_pad w n rest :
  (0 < w)%nat -> 0 <= n < 10 ^ Z.of_nat w ->
  digits w (pad w n ++ rest) = Some (n, rest).
Proof.
  intros Hw Hn. unfold digits.
  pose proof (pad_length w n Hw ltac:(lia)) as Hl.
  rewrite take_app_length' by (symmetry; exact Hl).
  rewrite drop_app_length' by (symmetry; exact Hl).
  rewrite Hl, Nat.eqb_refl, digitsOnly_pad, Z.abs_eq by lia. reflexivity.
Qed.

Lemma pad_head_digit w n rest :
  (0 < w)%nat -> Z.abs n < 10 ^ Z.of_nat w ->
  exists a r, pad w n ++ rest = a :: r /\ isDigit a = true.
Proof.
  intros Hw Hn. pose proof (pad_length w n Hw Hn) as Hl.
  pose proof (digitsOnly_pad w n) as Hd. unfold digitsOnly in Hd.
  destruct (forallb isDigit (pad w n)) eqn:F; [|discriminate Hd].
  destruct (pad w n) as [|a r]; [simpl in Hl; lia|].
  exists a, (r ++ rest). split; [reflexivity|].
  simpl in F. apply andb_true_iff in F. tauto.
Qed.

(** The year [toISOString] writes is read back. *)
Lemma isoYear_written y rest :
  Z.abs y < 1000000 ->
  isoYear ((if (0 <=? y) && (y <=? 9999) then pad 4 y
            else (if y <? 0 then js "-" else js "+") ++ pad 6 y) ++ rest)
  = Some (y, rest).
Proof.
  intros Hy.
  destruct ((0 <=? y) && (y <=? 9999)) eqn:C4.
  - apply andb_true_iff in C4 as [C0 C9]. apply Z.leb_le in C0, C9.
    destruct (pad_head_digit 4 y rest ltac:(lia) ltac:(simpl; lia))
      as (a & r & E & Ha).
    destruct (digit_not_sign a Ha) as (H45 & _ & H43 & _).
    unfold isoYear. rewrite E, H43, H45, <- E.
    apply digits_pad; [lia | simpl; lia].
  - apply andb_false_iff in C4. rewrite Z.leb_gt, Z.leb_gt in C4.
    destruct (Z.ltb_spec y 0) as [Hneg|Hpos].
    + change ((js "-" ++ pad 6 y) ++ rest) with (45%N :: pad 6 y ++ rest).
      unfold isoYear. change ((45 =? 43)%N) with false.
      change ((45 =? 45)%N) with true. cbv iota.
      unfold digits.
      pose proof (pad_length 6 y ltac:(lia) ltac:(simpl; lia)) as Hl.
      rewrite take_app_length' by (symmetry; exact Hl).
      rewrite drop_app_length' by (symmetry; exact Hl).
      rewrite Hl, Nat.eqb_refl, digitsOnly_pad.
      replace (Z.abs y =? 0) with false by (symmetry; apply Z.eqb_neq; lia).
      replace (- Z.abs y) with y by lia. reflexivity.
    + change ((js "+" ++ pad 6 y) ++ rest) with (43%N :: pad 6 y ++ rest).
      unfold isoYear. change ((43 =? 43)%N) with true. cbv iota.
      rewrite digits_pad by (simpl; lia). reflexivity.
Qed.

Lemma isoField_written n rest :
  0 <= n < 100 ->
  isoField (js "-" ++ pad 2 n ++ rest) = Some (Some n, rest).
Proof.
  intros Hn. change (js "-" ++ pad 2 n ++ rest) with (45%N :: pad 2 n ++ rest).
  unfold isoField. change ((45 =? 45)%N) with true. cbv iota.
  rewrite digits_pad by (simpl; lia). reflexivity.
Qed.

Lemma daysInMonth_le y m : daysInMonth y m <= 31.
Proof.
  unfold daysInMonth.
  repeat match goal with
         | |- context [if ?b then _ else _] => destruct b
         end; lia.
Qed.

(** The date [toISOString] writes is read back. *)
Lemma isoDate_written y m d rest :
  Z.abs y < 1000000 -> 1 <= m <= 12 -> 1 <= d <= daysInMonth y m ->
  isoDate ((if (0 <=? y) && (y <=? 9999) then pad 4 y
            else (if y <? 0 then js "-" else js "+") ++ pad 6 y)
           ++ js "-" ++ pad 2 m ++ js "-" ++ pad 2 d ++ rest)
  = Some (daysFromCivil y m d, rest).
Proof.
  intros Hy Hm Hd. pose proof (daysInMonth_le y m) as H31.
  unfold isoDate. rewrite (isoYear_written y _ Hy).
  rewrite isoField_written by lia.
  replace ((1 <=? m) && (m <=? 12)) with true
    by (symmetry; rewrite andb_true_iff, !Z.leb_le; lia).
  rewrite isoField_written by lia. cbn [default]. unfold Datatypes.id.
  replace ((1 <=? d) && (d <=? daysInMonth y m)) with true
    by (symmetry; rewrite andb_true_iff, !Z.leb_le; lia).
  reflexivity.
Qed.

Lemma isoSeconds_written s ms rest :
  0 <= s < 60 -> 0 <= ms < 1000 ->
  isoSeconds (js ":" ++ pad 2 s ++ js "." ++ pad 3 ms ++ rest)
  = Some (s * 1000 + ms, rest).
Proof.
  intros Hs Hms.
  change (js ":" ++ pad 2 s ++ js "." ++ pad 3 ms ++ rest)
    with (58%N :: pad 2 s ++ 46%N :: pad 3 ms ++ rest).
  unfold isoSeconds. change ((58 =? 58)%N) with true. cbv iota.
  rewrite digits_pad by (simpl; lia).
  replace (s <=? 59) with true by (symmetry; apply Z.leb_le; lia).
  change ((46 =? 46)%N) with true. cbv iota.
  rewrite digits_pad by (simpl; lia). reflexivity.
Qed.

(** The text [toISOString] writes is read as an instance of the Date Time
    String Format, and as the instant written, whatever the host. *)
Lemma isoInstant_toISOString host t :
  Z.abs t <= maxTime -> isoInstant host (toISOString t) = Some (Some t).
Proof.
  intros Ht. unfold toISOString.
  destruct (civilFromDays (t / msPerDay)) as [[y m] d] eqn:Ec.
  destruct (civil_facts _ _ _ _ Ec) as (Hinv & Hm & Hd & Hy).
  assert (Hrest : 0 <= t mod msPerDay < msPerDay)
    by (apply Z.mod_pos_bound; reflexivity).
  assert (Hy6 : Z.abs y < 1000000).
  { unfold maxTime, msPerDay in *. Z.div_mod_to_equations. lia. }
  set (rest := t mod msPerDay) in *.
  unfold isoInstant. rewrite (isoDate_written y m d _ Hy6 Hm Hd).
  change (js "T" ++ ?x) with (84%N :: x).
  change ((84 =? 84)%N) with true. cbv iota.
  unfold msPerDay in Hrest.
  rewrite digits_pad by (simpl; Z.div_mod_to_equations; lia).
  change (after 58 (js ":" ++ ?x)) with (Some x). cbv iota.
  rewrite digits_pad by (simpl; Z.div_mod_to_equations; lia).
  rewrite isoSeconds_written by (Z.div_mod_to_equations; lia).
  change (isoOffset (js "Z")) with (Some (Some 0)). cbv iota.
  replace ((rest / 3600000 <=? 23) && (rest / 60000 mod 60 <=? 59))
    with true
    by (symmetry; rewrite andb_true_iff, !Z.leb_le;
        Z.div_mod_to_equations; lia).
  rewrite Hinv. unfold TimeClip.
  replace (t / msPerDay * msPerDay + rest / 3600000 * 3600000
           + rest / 60000 mod 60 * 60000
           + (rest / 1000 mod 60 * 1000 + rest mod 1000) - 0) with t
    by (subst rest; unfold msPerDay; Z.div_mod_to_equations; lia).
  destruct (Z.leb_spec (Z.abs t) maxTime); [reflexivity | lia].
Qed.

Lemma Date_parse_toISOString host t :
  Z.abs t <= maxTime -> Date_parse host (toISOString t) = Some t.
Proof.
  intros Ht. unfold Date_parse. now rewrite isoInstant_toISOString.
Qed.

Lemma dateOfString_toISOString host t :
  Z.abs t <= maxTime -> dateOfString host (toISOString t) = Some t.
Proof.
  intros Ht. unfold dateOfString. rewrite Date_parse_toISOString by exact Ht.
  unfold TimeClip. destruct (Z.leb_spec (Z.abs t) maxTime);
    [reflexivity | lia].
Qed.

Lemma newDate_toISOString host t :
  Z.abs t <= maxTime -> newDate host (VStr (toISOString t)) = Ok (Some t).
Proof.
  intros Ht. unfold newDate. now rewrite dateOfString_toISOString.
Qed.

End DateFacts.

(** ** The usage ledger (C3, C9) *)

Section LedgerFacts.

Import Usage UsageStorage.

Lemma fresh_is_stats limits now :
  isSessionStats (statsValue (freshStats limits now)) = true.
Proof. reflexivity. Qed.

Lemma zeroed_is_stats startAt resetAt :
  isSessionStats (statsValue (zeroed startAt resetAt)) = true.
Proof. reflexivity. Qed.


(** Adding hours through [getHours] and [setHours] adds them to the local
    time. *)
Lemma setHours_getHours host t h :
  setHours host (getHours host t + h) t
  = TimeClip (UTC host (LocalTime host t + h * msPerHour)).
Proof.
  unfold setHours, getHours, MakeDate, MakeTime, Day, HourFromTime,
    MinFromTime, SecFromTime, msFromTime, msPerDay, msPerHour.
  do 2 f_equal. generalize (LocalTime host t). intro x.
  Z.div_mod_to_equations. lia.
Qed.

(** Where the zone has at the new local time the offset it has at [t],
    the hours are added to [t]. *)
Lemma getSessionResetTime_same_offset host t h :
  offsetAtLocal host (LocalTime host t + h * msPerHour) = offsetAt host t ->
  Z.abs (t + h * msPerHour) <= maxTime ->
  UsageStorage.getSessionResetTime host t h
  = Ok (toISOString (t + h * msPerHour)).
Proof.
  intros Ho Hm. unfold UsageStorage.getSessionResetTime.
  rewrite setHours_getHours. unfold UTC. rewrite Ho. unfold LocalTime.
  replace (t + offsetAt host t + h * msPerHour - offsetAt host t)
    with (t + h * msPerHour) by lia.
  unfold TimeClip. destruct (Z.leb_spec (Z.abs (t + h * msPerHour)) maxTime);
    [reflexivity | lia].
Qed.

Lemma getSessionResetTime_plain t h :
  Z.abs (t + h * msPerHour) <= maxTime ->
  UsageStorage.getSessionResetTime plain t h
  = Ok (Usage.getSessionResetTime t h).
Proof. intros H. now apply getSessionResetTime_same_offset. Qed.

(** The ledger of [Usage] is that of [UsageStorage] in a browser of the
    [plain] host whose clock stands still, as long as the reset instant is
    in the range of [Date]. *)
Lemma getSessionStats_steady limits window now ls :
  Z.abs (now + sessionHours limits * msPerHour) <= maxTime ->
  UsageStorage.getSessionStats plain limits window (fun _ => now) ls
  = (Ok (Usage.getSessionStats limits window now ls).1,
     (Usage.getSessionStats limits window now ls).2).
Proof.
  intros H. unfold UsageStorage.getSessionStats, Usage.getSessionStats.
  rewrite (getSessionResetTime_plain _ _ H).
  change (statsValue (zeroed (toISOString now)
                        (Usage.getSessionResetTime now (sessionHours limits))))
    with (statsValue (freshStats limits now)).
  destruct window; [|reflexivity]. simpl negb. cbv iota.
  destruct (stats ls) as [[|c stored]|]; try reflexivity.
  destruct (Json.parse (c :: stored)) as [parsed|]; [|reflexivity].
  destruct (prop parsed (js "sessionResetAt")) as [resetAt|]; [|reflexivity].
  destruct (newDate plain resetAt) as [[r|]|e]; try reflexivity.
  destruct (r <=? now); reflexivity.
Qed.

Lemma updateSessionStats_steady limits window now updates ls :
  Z.abs (now + sessionHours limits * msPerHour) <= maxTime ->
  UsageStorage.updateSessionStats plain limits window (fun _ => now)
    updates ls
  = (Ok tt, Usage.updateSessionStats limits window now updates ls).
Proof.
  intros H.
  unfold UsageStorage.updateSessionStats, Usage.updateSessionStats.
  destruct window; [|reflexivity]. simpl negb. cbv iota.
  rewrite (getSessionStats_steady _ _ _ _ H).
  destruct (Usage.getSessionStats limits true now ls) as [v l].
  reflexivity.
Qed.

Lemma incrementSessionPrice_steady limits window now price ls :
  Z.abs (now + sessionHours limits * msPerHour) <= maxTime ->
  UsageStorage.incrementSessionPrice plain limits window (fun _ => now)
    price ls
  = (Ok tt, Usage.incrementSessionPrice limits window now price ls).
Proof.
  intros H.
  unfold UsageStorage.incrementSessionPrice, Usage.incrementSessionPrice.
  rewrite (getSessionStats_steady _ _ _ _ H).
  destruct (Usage.getSessionStats limits window now ls) as [v l].
  cbn [fst snd].
  change (later 4 (fun _ : nat => now)) with (fun _ : nat => now).
  now apply updateSessionStats_steady.
Qed.

Lemma incrementDocumentsUploaded_steady limits window now ls :
  Z.abs (now + sessionHours limits * msPerHour) <= maxTime ->
  UsageStorage.incrementDocumentsUploaded plain limits window
    (fun _ => now) ls
  = (Ok tt, Usage.incrementDocumentsUploaded limits window now ls).
Proof.
  intros H.
  unfold UsageStorage.incrementDocumentsUploaded,
    Usage.incrementDocumentsUploaded.
  rewrite (getSessionStats_steady _ _ _ _ H).
  destruct (Usage.getSessionStats limits window now ls) as [v l].
  cbn [fst snd].
  change (later 4 (fun _ : nat => now)) with (fun _ : nat => now).
  now apply updateSessionStats_steady.
Qed.

(** The read changes no other part of the store than the stats. *)
Lemma getSessionStats_others host limits window clock ls :
  let after := (UsageStorage.getSessionStats host limits window clock ls).2 in
  sessions after = sessions ls
  /\ depositions after = depositions ls
  /\ currentDeposition after = currentDeposition ls.
Proof.
  cbv zeta. unfold UsageStorage.getSessionStats.
  repeat match goal with
         | |- context [match ?x with _ => _ end] => destruct x
         end; repeat split; reflexivity.
Qed.

End LedgerFacts.

(** Two stored ledgers whose reset instant is not after the current time,
    and whose next read does not return what the sentence says.  With
    [DEMO_SESSION_HOURS=-1], the reset instant returned is before the
    stored one.  In New York on 2 November 2024 at 14:00, the day before
    the clocks go back, with the window of 24 hours, the reset instant
    returned is 25 hours after the time of the read. *)
Lemma rollover_not_later_or_not_window :
  (let ls := Scenario.withLedger (Scenario.ledger (Dec 2 (-2)) Scenario.t0) in
   let clock := Scenario.ticking (Scenario.t0 + 24 * Usage.msPerHour) in
   let out :=
     UsageStorage.getSessionStats plain Scenario.negativeHours true clock
       ls in
   (exists stored parsed,
      stats ls = Some stored /\ Json.parse stored = Some parsed
      /\ Usage.field parsed "sessionResetAt"
         = VStr (js "2024-11-02T18:00:00.000Z"))
   /\ toISOString (clock 2%nat) = js "2024-11-02T18:00:00.002Z"
   /\ out.1 = Ok (Usage.statsValue
                    (UsageStorage.zeroed (js "2024-11-02T18:00:00.002Z")
                       (js "2024-11-02T17:00:00.003Z"))))
  /\ (let ls :=
        Scenario.withLedger (Scenario.ledger (Dec 2 (-2)) Scenario.t0) in
      let clock := Scenario.ticking (Scenario.t0 + 24 * Usage.msPerHour) in
      let out :=
        UsageStorage.getSessionStats Scenario.newYork Scenario.defaults true
          clock ls in
      toISOString (clock 3%nat) = js "2024-11-02T18:00:00.003Z"
      /\ toISOString
           (clock 3%nat + sessionHours Scenario.defaults * Usage.msPerHour)
         = js "2024-11-03T18:00:00.003Z"
      /\ out.1 = Ok (Usage.statsValue
                       (UsageStorage.zeroed (js "2024-11-02T18:00:00.002Z")
                          (js "2024-11-03T19:00:00.003Z")))).
Proof.
  split.
  - cbv zeta. split; [|split].
    + eexists _, _. split; [reflexivity|]. split; vm_compute; reflexivity.
    + vm_compute. reflexivity.
    + vm_compute. reflexivity.
  - cbv zeta. repeat split; vm_compute; reflexivity.
Qed.

(** C3, amended.  When the blob stored under the stats key holds a reset
    instant that is not after the current time, the zone has at the new
    reset time the offset it has at the read, and the default and the new
    reset instants are in the range of dates, the read of the session stats
    returns the zeroed record ([sessionPrice = 0], [documentsUploaded = 0])
    that starts at the current time and whose [sessionResetAt] is the text
    of the time of the read plus the configured session window, which
    reads back as that instant; for a positive window and a clock that
    does not go back, that instant is strictly later than the stored one.  The read itself writes that record under the stats key
    before it returns, and writes nothing else. *)
Theorem rollover_on_read
    (host : Host) (limits : DemoLimits) (clock : nat -> Z)
    (ls : LocalStorage) (stored : jsstring) (parsed resetAt : value)
    (r : Z) (resetAt0 : jsstring) :
  UsageStorage.getSessionResetTime host (clock 1%nat) (sessionHours limits)
  = Ok resetAt0 ->
  stats ls = Some stored ->
  Json.parse stored = Some parsed ->
  prop parsed (js "sessionResetAt") = Some resetAt ->
  newDate host resetAt = Ok (Some r) ->
  r <= clock 2%nat ->
  let next := clock 3%nat + sessionHours limits * Usage.msPerHour in
  offsetAtLocal host
    (LocalTime host (clock 3%nat) + sessionHours limits * Usage.msPerHour)
  = offsetAt host (clock 3%nat) ->
  Z.abs next <= maxTime ->
  let out := UsageStorage.getSessionStats host limits true clock ls in
  let resetStats :=
    Usage.statsValue
      (UsageStorage.zeroed (toISOString (clock 2%nat)) (toISOString next)) in
  out = (Ok resetStats, setStats (stringify resetStats) ls)
  /\ Usage.field resetStats "sessionPrice" = VNum (Dec 0 0)
  /\ Usage.field resetStats "documentsUploaded" = VNum (Dec 0 0)
  /\ Usage.field resetStats "sessionResetAt" = VStr (toISOString next)
  /\ newDate host (Usage.field resetStats "sessionResetAt")
     = Ok (Some next)
  /\ (0 < sessionHours limits -> clock 2%nat <= clock 3%nat -> r < next)
  /\ stats out.2 = Some (stringify resetStats)
  /\ sessions out.2 = sessions ls
  /\ depositions out.2 = depositions ls
  /\ currentDeposition out.2 = currentDeposition ls.
Proof.
  intros H0 Hs Hp Hr Hd Hle next Ho Hm. cbv zeta.
  assert (E : UsageStorage.getSessionStats host limits true clock ls
              = (Ok (Usage.statsValue
                       (UsageStorage.zeroed (toISOString (clock 2%nat))
                          (toISOString next))),
                 setStats
                   (stringify
                      (Usage.statsValue
                         (UsageStorage.zeroed (toISOString (clock 2%nat))
                            (toISOString next)))) ls)).
  { unfold UsageStorage.getSessionStats. rewrite H0. simpl negb. cbv iota.
    rewrite Hs. destruct stored as [|c stored]; [discriminate Hp|].
    rewrite Hp, Hr, Hd.
    destruct (Z.leb_spec r (clock 2%nat)); [|lia].
    rewrite (getSessionResetTime_same_offset _ _ _ Ho Hm). reflexivity. }
  rewrite E. cbn [fst snd]. repeat split; try reflexivity.
  - apply (newDate_toISOString host next Hm).
  - intros Hpos Hmono. unfold next, Usage.msPerHour. nia.
Qed.

(** In New York on 4 November 2024, the day after the clocks went back,
    with a clock that advances between the readings. *)
Lemma rollover_on_read_witness :
  let ls := Scenario.withLedger (Scenario.ledger (Dec 2 (-2)) Scenario.t0) in
  let clock := Scenario.ticking (Scenario.t0 + 72 * Usage.msPerHour) in
  let out :=
    UsageStorage.getSessionStats Scenario.newYork Scenario.defaults true
      clock ls in
  out.1 = Ok (Usage.statsValue
                (UsageStorage.zeroed (js "2024-11-04T18:00:00.002Z")
                   (js "2024-11-05T18:00:00.003Z")))
  /\ stats out.2
     = Some (stringify
               (Usage.statsValue
                  (UsageStorage.zeroed (js "2024-11-04T18:00:00.002Z")
                     (js "2024-11-05T18:00:00.003Z")))).
Proof.
  cbv zeta.
  edestruct (rollover_on_read Scenario.newYork Scenario.defaults
               (Scenario.ticking (Scenario.t0 + 72 * Usage.msPerHour))
               (Scenario.withLedger (Scenario.ledger (Dec 2 (-2)) Scenario.t0)))
    as (E & _ & _ & _ & _ & _ & Hw & _).
  - vm_compute. reflexivity.
  - reflexivity.
  - vm_compute. reflexivity.
  - vm_compute. reflexivity.
  - vm_compute. reflexivity.
  - vm_compute. discriminate.
  - vm_compute. reflexivity.
  - vm_compute. discriminate.
  - rewrite Hw, E. cbn [fst]. split; vm_compute; reflexivity.
Defined.

(** Two reads of the session stats that do not do what the sentence says.
    The first returns a value that is not a stats record: the blob is JSON
    of another shape, here an empty object.  The second throws: with
    [DEMO_SESSION_HOURS=9999999999] the reset instant of the default
    record is out of the range of dates, and its [toISOString], which is
    called before the [try], throws a [RangeError]. *)
Lemma unvalidated_blob_returned :
  (let out :=
     UsageStorage.getSessionStats Scenario.newYork Scenario.defaults true
       (Scenario.ticking Scenario.t0) (Scenario.withLedger (js "{}")) in
   out.1 = Ok (VObj []) /\ Usage.isSessionStats (VObj []) = false)
  /\ (let ls := Scenario.withLedger (Scenario.ledger (Dec 0 0) Scenario.t0) in
      UsageStorage.getSessionStats Scenario.newYork Scenario.endlessHours
        true (Scenario.ticking Scenario.t0) ls
      = (Throw RangeError, ls)).
Proof.
  split; [split; vm_compute; reflexivity | vm_compute; reflexivity].
Qed.

(** C9, amended.  As long as the default record can be built (the reset
    instant of the default record is in the range of dates), the read of
    the session stats returns a value: the errors raised inside its [try]
    are caught.  It returns the default zeroed record on the server, when
    the key is missing or empty (and then writes it), when the blob is not
    JSON or is the JSON [null], when the stored reset instant cannot be
    converted to a date, and when the rolled-over record cannot be built;
    it returns a fresh zeroed record, and writes it, when the blob holds a
    reset instant that is not after the current time; otherwise, the reset
    instant being later or no date, it returns the parsed blob as it is,
    without validation and without writing, so the value returned is a
    well-formed stats record whenever the blob parses to one. *)
Theorem getSessionStats_total
    (host : Host) (limits : DemoLimits) (window : bool) (clock : nat -> Z)
    (ls : LocalStorage) (resetAt0 : jsstring) :
  UsageStorage.getSessionResetTime host (clock 1%nat) (sessionHours limits)
  = Ok resetAt0 ->
  let out := UsageStorage.getSessionStats host limits window clock ls in
  let defaultStats :=
    Usage.statsValue
      (UsageStorage.zeroed (toISOString (clock 0%nat)) resetAt0) in
  let resetStats resetAt1 :=
    Usage.statsValue
      (UsageStorage.zeroed (toISOString (clock 2%nat)) resetAt1) in
  let next :=
    UsageStorage.getSessionResetTime host (clock 3%nat)
      (sessionHours limits) in
  Usage.isSessionStats defaultStats = true
  /\ (forall resetAt1, Usage.isSessionStats (resetStats resetAt1) = true)
  /\ (exists returned, out.1 = Ok returned)
  /\ (window = false -> out = (Ok defaultStats, ls))
  /\ (window = true ->
      (stats ls = None \/ stats ls = Some [] ->
       out = (Ok defaultStats, setStats (stringify defaultStats) ls))
      /\ forall stored, stats ls = Some stored -> stored <> [] ->
         (Json.parse stored = None -> out = (Ok defaultStats, ls))
         /\ forall parsed, Json.parse stored = Some parsed ->
            (parsed = VNull -> out = (Ok defaultStats, ls))
            /\ forall resetAt,
               prop parsed (js "sessionResetAt") = Some resetAt ->
               (forall e, newDate host resetAt = Throw e ->
                  out = (Ok defaultStats, ls))
               /\ (newDate host resetAt = Ok None -> out = (Ok parsed, ls))
               /\ forall r, newDate host resetAt = Ok (Some r) ->
                  (clock 2%nat < r -> out = (Ok parsed, ls))
                  /\ (r <= clock 2%nat ->
                      (forall resetAt1, next = Ok resetAt1 ->
                         out = (Ok (resetStats resetAt1),
                                setStats (stringify (resetStats resetAt1))
                                  ls))
                      /\ (forall e, next = Throw e ->
                            out = (Ok defaultStats, ls))))
  /\ (forall stored parsed returned,
        stats ls = Some stored -> Json.parse stored = Some parsed ->
        Usage.isSessionStats parsed = true ->
        out.1 = Ok returned ->
        Usage.isSessionStats returned = true).
Proof.
  intros H0. cbv zeta.
  split; [reflexivity|]. split; [reflexivity|].
  unfold UsageStorage.getSessionStats. rewrite H0.
  destruct window; simpl negb; cbv iota.
  2:{ repeat split; eauto; try discriminate.
      intros stored parsed returned _ _ _ [= <-]. reflexivity. }
  split; [|split; [discriminate|split]].
  - repeat match goal with
           | |- context [match ?x with _ => _ end] => destruct x
           end; eauto.
  - intros _. split.
    + intros [-> | ->]; reflexivity.
    + intros stored -> Hne. destruct stored as [|c stored]; [congruence|].
      split; [intros ->; reflexivity|].
      intros parsed ->. split; [intros ->; reflexivity|].
      intros resetAt ->. split; [intros e ->; reflexivity|].
      split; [intros ->; reflexivity|].
      intros r ->. split.
      * intros Hlt. destruct (Z.leb_spec r (clock 2%nat)); [lia|reflexivity].
      * intros Hle. destruct (Z.leb_spec r (clock 2%nat)); [|lia].
        split; [intros d ->; reflexivity | intros e ->; reflexivity].
  - intros stored parsed returned -> Hp Hw.
    destruct stored as [|c stored]; [discriminate Hp|]. rewrite Hp.
    repeat match goal with
           | |- context [match ?x with _ => _ end] => destruct x
           end; intros [= <-]; auto.
Qed.

(** A ledger that is live, read in New York by a clock that advances. *)
Lemma getSessionStats_total_witness :
  let blob := Scenario.ledger (Dec 2 (-2)) Scenario.t0 in
  let out :=
    UsageStorage.getSessionStats Scenario.newYork Scenario.defaults true
      (Scenario.ticking (Scenario.t0 + 1000)) (Scenario.withLedger blob) in
  exists returned,
    out.1 = Ok returned /\ Json.parse blob = Some returned
    /\ Usage.isSessionStats returned = true.
Proof.
  cbv zeta.
  destruct (getSessionStats_total Scenario.newYork Scenario.defaults true
              (Scenario.ticking (Scenario.t0 + 1000))
              (Scenario.withLedger
                 (Scenario.ledger (Dec 2 (-2)) Scenario.t0))
              (js "2024-11-02T18:00:01.001Z"))
    as (_ & _ & (returned & E) & _ & _ & Hw).
  - vm_compute. reflexivity.
  - exists returned. split; [exact E|].
    assert (Hp : Json.parse (Scenario.ledger (Dec 2 (-2)) Scenario.t0)
                 = Some returned).
    { revert E. vm_compute. intros [= <-]. reflexivity. }
    split; [exact Hp|].
    refine (Hw _ _ returned eq_refl Hp _ E).
    revert E. vm_compute. intros [= <-]. reflexivity.
Defined.

(** ** Session reset (C4) *)

Section ResetFacts.



End ResetFacts.



(** C1, at the input where the sentence fails.  With
    [sessionPriceLimit = 0.01] and a ledger that records [0.02], a request
    for questions costs a positive amount, so that the recorded cost plus
    the cost exceeds the limit; yet the route answers 200 without
    [limitReached], and the component records the cost, stores the
    questions and moves to the questions step without raising the price
    limit.  It is so for every input: no response of the route carries
    [limitReached], the route does not read the price limit, and the
    component leaves its limit flag as it was. *)
Theorem price_limit_not_enforced :
  (let '(s, ls) :=
     Scenario.janeReady (Scenario.ledger (Dec 2 (-2)) Scenario.t0) in
   let limits := Scenario.oneCent in
   let now := Scenario.t0 + 1000 in
   let response :=
     GenerateQuestions.POST limits Scenario.prompt Scenario.remote
       (Scenario.ids "q") (Some (Testimony.requestOf s)) in
   let after :=
     Testimony.handleGenerateQuestions limits now Scenario.prompt
       Scenario.remote (Scenario.ids "q") (Scenario.testimonyAt s) ls in
   let recorded l :=
     Usage.field (Usage.getSessionStats limits true now l).1 "sessionPrice" in
   sessionPriceLimit limits = Dec 1 (-2)
   /\ recorded ls = VNum (Dec 2 (-2))
   /\ GenerateQuestions.r_cost (GenerateQuestions.data response)
      = Some (Dec 166 (-6))
   /\ Num.gtb (Num.add (Dec 2 (-2)) (Dec 166 (-6)))
              (sessionPriceLimit limits) = true
   /\ GenerateQuestions.status response = 200
   /\ GenerateQuestions.r_limitReached (GenerateQuestions.data response)
      = VUndefined
   /\ Testimony.limitReached after.1 = None
   /\ Testimony.currentStep after.1 = Testimony.questions
   /\ recorded after.2 = VNum (Dec 20166 (-6)))
  /\ (forall limits prompt chat uuidv4 request p,
        GenerateQuestions.r_limitReached
          (GenerateQuestions.data
             (GenerateQuestions.POST limits prompt chat uuidv4 request))
        = VUndefined
        /\ GenerateQuestions.POST (withPriceLimit p limits) prompt chat
             uuidv4 request
           = GenerateQuestions.POST limits prompt chat uuidv4 request)
  /\ (forall limits now prompt chat uuidv4 st ls,
        Testimony.limitReached
          (Testimony.handleGenerateQuestions limits now prompt chat uuidv4
             st ls).1
        = Testimony.limitReached st).
Proof.
  split; [vm_compute; repeat split; reflexivity|]. split.
  - intros. split; [apply POST_without_limitReached | reflexivity].
  - intros. apply handleGenerateQuestions_keeps_limit.
Qed.

(** ** Batches of files and the document limit (C2) *)

(** C2, at the input where the sentence fails.  With
    [maxDocumentsPerSession = 1] and a session without documents, a batch
    of two files leaves two documents in the session, in the deposition
    tool and in the testimony tool, and no message is shown: the loop tests
    the document count of the session the callback was created with. *)
Theorem batch_upload_exceeds_limit :
  (let '(s, ls) :=
     Scenario.janeDeposed (Scenario.ledger (Dec 0 0) Scenario.t0) in
   let after :=
     Deposition.handleFileUpload Scenario.oneDocument Scenario.t0
       (Scenario.ids "doc") (Some [Scenario.fileA; Scenario.fileB])
       (Scenario.depositionAt s) ls in
   maxDocumentsPerSession Scenario.oneDocument = 1
   /\ dep_documents s = []
   /\ (List.map d_name ∘ dep_documents <$> depositions after.2 !! dep_id s)
      = Some [js "a.txt"; js "b.txt"]
   /\ Deposition.shown after.1 = []
   /\ Deposition.limitReached after.1 = None)
  /\ (let '(s, ls) :=
        Scenario.jane (Scenario.ledger (Dec 0 0) Scenario.t0) in
      let after :=
        Testimony.handleFileUpload Scenario.oneDocument Scenario.t0
          (Scenario.ids "doc") (Some [Scenario.fileA; Scenario.fileB])
          (Scenario.testimonyAt s) ls in
      Types.documents s = []
      /\ (List.map name ∘ Types.documents
            <$> sessions after.2 !! sessionId s)
         = Some [js "a.txt"; js "b.txt"]
      /\ Testimony.shown after.1 = []
      /\ Testimony.limitReached after.1 = None).
Proof. vm_compute. repeat split; reflexivity. Qed.

(** ** The order of the upload checks (C6) *)

(** In the deposition tool, a file over the size limit offered to a session
    that has reached the document limit is refused with the message of the
    document limit, not with that of the file size. *)
Lemma document_limit_reported_before_size :
  let limits := Scenario.oneDocument in
  let '(s, ls) :=
    Scenario.janeDeposed (Scenario.ledger (Dec 0 0) Scenario.t0) in
  let '(st, ls) :=
    Deposition.handleFileUpload limits Scenario.t0 (Scenario.ids "doc")
      (Some [Scenario.fileA]) (Scenario.depositionAt s) ls in
  let after :=
    Deposition.handleFileUpload limits Scenario.t0 (Scenario.ids "more")
      (Some [Scenario.hugeFile]) st ls in
  (maxFileSize limits <? fileSize Scenario.hugeFile) = true
  /\ Deposition.shown after.1
     = [js "Demo limit: Maximum 1 documents per session"]
  /\ Deposition.limitReached after.1 = Some documentLimit
  /\ Deposition.error after.1
     <> Some (fileTooLarge limits Scenario.hugeFile).
Proof. vm_compute. repeat split; try reflexivity. discriminate. Qed.

Section UploadFacts.

Import OCRLimitService.

Lemma checkUploadAllowed_order limits usage cta size pages :
  let r := checkUploadAllowed limits usage cta size pages in
  (OCRLimitService.maxFileSize limits < size ->
   r = checkFileSizeAllowed limits cta size /\ allowed r = false)
  /\ (size <= OCRLimitService.maxFileSize limits ->
      OCRLimitService.maxDocumentsPerSession limits
        <= sessionDocuments usage ->
      r = checkDocumentUploadAllowed limits usage cta
      /\ allowed r = false)
  /\ (size <= OCRLimitService.maxFileSize limits ->
      sessionDocuments usage
        < OCRLimitService.maxDocumentsPerSession limits ->
      maxPagesPerDocument limits < pages
      \/ maxPagesPerDay limits < dailyPages usage + pages ->
      r = checkPagesAllowed limits usage cta pages /\ allowed r = false)
  /\ (size <= OCRLimitService.maxFileSize limits ->
      sessionDocuments usage
        < OCRLimitService.maxDocumentsPerSession limits ->
      pages <= maxPagesPerDocument limits ->
      dailyPages usage + pages <= maxPagesPerDay limits ->
      r = allow).
Proof.
  cbv zeta.
  unfold checkUploadAllowed, checkFileSizeAllowed,
    checkDocumentUploadAllowed, checkPagesAllowed.
  repeat split; intros;
    repeat match goal with
           | |- context [?a <? ?b] => destruct (Z.ltb_spec a b)
           | |- context [?a <=? ?b] => destruct (Z.leb_spec a b)
           end; cbn; try reflexivity; try lia.
Qed.

End UploadFacts.

(** C6, amended.  The upload handlers test the document count first and the
    file size second: a session at the document limit is refused whatever
    the files are (with the document-limit flag, and in the deposition tool
    the document-limit message), nothing being stored; below the limit, a
    file over the size limit is skipped with the file-size message, no
    identifier being drawn for it, and the loop goes on to the next file.
    The retired OCR limit service evaluates file size, then document count,
    then page count, and returns the result of the first check that
    fails. *)
Theorem upload_checks_order
    (limits : DemoLimits) (now : Z) (uuidv4 : nat -> jsstring)
    (files : list File) (file : File) :
  (forall st ls s, Deposition.session st = Some s ->
     (Deposition.atDocumentLimit limits s = true ->
      Deposition.handleFileUpload limits now uuidv4 (Some files) st ls
      = (Deposition.showError
           (js "Demo limit: Maximum " ++ Deposition.maximum limits
            ++ js " documents per session")
           (Deposition.setLimitReached (Some documentLimit) st), ls))
     /\ (Deposition.atDocumentLimit limits s = false ->
         maxFileSize limits < fileSize file ->
         forall i,
           Deposition.uploadLoop limits now uuidv4 s i (file :: files) st ls
           = Deposition.uploadLoop limits now uuidv4 s i files
               (Deposition.showError (fileTooLarge limits file) st) ls))
  /\ (forall st ls s, Testimony.session st = Some s ->
        (maxDocumentsPerSession limits
           <= Z.of_nat (length (Types.documents s)) ->
         Testimony.handleFileUpload limits now uuidv4 (Some files) st ls
         = (Testimony.setLimitReached (Some documentLimit) st, ls))
        /\ (maxFileSize limits < fileSize file ->
            forall i,
              Testimony.uploadLoop limits now uuidv4 s i (file :: files)
                st ls
              = Testimony.uploadLoop limits now uuidv4 s i files
                  (Testimony.showError (fileTooLarge limits file) st) ls))
  /\ (forall ocr usage cta size pages,
        let r := OCRLimitService.checkUploadAllowed ocr usage cta size pages in
        (OCRLimitService.maxFileSize ocr < size ->
         r = OCRLimitService.checkFileSizeAllowed ocr cta size
         /\ OCRLimitService.allowed r = false)
        /\ (size <= OCRLimitService.maxFileSize ocr ->
            OCRLimitService.maxDocumentsPerSession ocr
              <= OCRLimitService.sessionDocuments usage ->
            r = OCRLimitService.checkDocumentUploadAllowed ocr usage cta
            /\ OCRLimitService.allowed r = false)
        /\ (size <= OCRLimitService.maxFileSize ocr ->
            OCRLimitService.sessionDocuments usage
              < OCRLimitService.maxDocumentsPerSession ocr ->
            OCRLimitService.maxPagesPerDocument ocr < pages
            \/ OCRLimitService.maxPagesPerDay ocr
               < OCRLimitService.dailyPages usage + pages ->
            r = OCRLimitService.checkPagesAllowed ocr usage cta pages
            /\ OCRLimitService.allowed r = false)).
Proof.
  split; [|split].
  - intros st ls s Hs. split.
    + intros Hlim. unfold Deposition.handleFileUpload. now rewrite Hs, Hlim.
    + intros Hlim Hsize i. cbn [Deposition.uploadLoop]. rewrite Hlim.
      destruct (Z.ltb_spec (maxFileSize limits) (fileSize file));
        [reflexivity | lia].
  - intros st ls s Hs. split.
    + intros Hlim. unfold Testimony.handleFileUpload. rewrite Hs.
      destruct (Z.leb_spec (maxDocumentsPerSession limits)
                  (Z.of_nat (length (Types.documents s))));
        [reflexivity | lia].
    + intros Hsize i. cbn [Testimony.uploadLoop].
      destruct (Z.ltb_spec (maxFileSize limits) (fileSize file));
        [reflexivity | lia].
  - intros ocr usage cta size pages.
    destruct (checkUploadAllowed_order ocr usage cta size pages)
      as (H1 & H2 & H3 & _).
    cbv zeta. auto.
Qed.

(* ===================================================================== *)
(** * Further properties of the code                                      *)
(* ===================================================================== *)

(** ** The retired token and page limit services *)

Section TokenLimitFacts.

Import OCRLimitService TokenLimitService.

Lemma estimateTokens_gt text m :
  m < estimateTokens text <-> 4 * m < Z.of_nat (length text).
Proof.
  unfold estimateTokens. split; intros H.
  - apply Z.nle_gt. intros Hle.
    assert ((Z.of_nat (length text) + 3) / 4 < m + 1)
      by (apply Z.div_lt_upper_bound; lia).
    lia.
  - assert (m + 1 <= (Z.of_nat (length text) + 3) / 4)
      by (apply Z.div_le_lower_bound; lia).
    lia.
Qed.

Lemma truncationMark_length : length truncationMark = 34%nat.
Proof. reflexivity. Qed.

End TokenLimitFacts.

(** A request is allowed exactly when it is within the per-request limit
    and leaves the session and the day within theirs; the three checks are
    made in that order, and an allowed request fits in what the result
    reports as remaining. *)
Theorem checkRequestAllowed_iff
    (limits : TokenLimitService.TokenLimits)
    (usage : TokenLimitService.TokenUsage) (cta : jsstring)
    (toLocaleString : Z -> jsstring) (requestTokens : Z) :
  let result :=
    TokenLimitService.checkRequestAllowed limits usage cta toLocaleString
      requestTokens in
  (OCRLimitService.allowed result = true <->
     requestTokens <= TokenLimitService.perRequest limits
     /\ TokenLimitService.sessionTokens usage + requestTokens
        <= TokenLimitService.perSession limits
     /\ TokenLimitService.dailyTokens usage + requestTokens
        <= TokenLimitService.perDayPerUser limits)
  /\ (TokenLimitService.perRequest limits < requestTokens ->
        OCRLimitService.limit result
        = Some (TokenLimitService.perRequest limits)
        /\ OCRLimitService.currentUsage result = Some requestTokens)
  /\ (requestTokens <= TokenLimitService.perRequest limits ->
      TokenLimitService.perSession limits
        < TokenLimitService.sessionTokens usage + requestTokens ->
        OCRLimitService.limit result
        = Some (TokenLimitService.perSession limits))
  /\ (OCRLimitService.allowed result = true ->
        exists remaining,
          OCRLimitService.remainingUsage result = Some remaining
          /\ requestTokens <= remaining).
Proof.
  unfold TokenLimitService.checkRequestAllowed. cbv zeta.
  destruct (Z.ltb_spec (TokenLimitService.perRequest limits) requestTokens);
  [|destruct (Z.ltb_spec (TokenLimitService.perSession limits)
              (TokenLimitService.sessionTokens usage + requestTokens));
    [|destruct (Z.ltb_spec (TokenLimitService.perDayPerUser limits)
                (TokenLimitService.dailyTokens usage + requestTokens))]];
  cbn [OCRLimitService.allowed OCRLimitService.limit
       OCRLimitService.currentUsage OCRLimitService.remainingUsage];
  repeat split; intros; try discriminate; try lia; try reflexivity.
  eexists; split; [reflexivity | lia].
Qed.

(** A text within the limit is returned as it is.  A longer one is cut to
    its first [4 * maxTokens] characters and marked; the result is then
    estimated at [maxTokens + 9] tokens, over the limit it was cut for.
    Truncating twice is truncating once. *)
Theorem truncateToLimit_spec (text : jsstring) (maxTokens : Z) :
  0 <= maxTokens ->
  let result := TokenLimitService.truncateToLimit text maxTokens in
  (TokenLimitService.estimateTokens text <= maxTokens -> result = text)
  /\ (maxTokens < TokenLimitService.estimateTokens text ->
        result = take (Z.to_nat (4 * maxTokens)) text
                 ++ TokenLimitService.truncationMark
        /\ Z.of_nat (length result) = 4 * maxTokens + 34
        /\ TokenLimitService.estimateTokens result = maxTokens + 9)
  /\ TokenLimitService.truncateToLimit result maxTokens = result.
Proof.
  intros Hm result.
  assert (Hcut : maxTokens < TokenLimitService.estimateTokens text ->
            result = take (Z.to_nat (4 * maxTokens)) text
                     ++ TokenLimitService.truncationMark
            /\ Z.of_nat (length result) = 4 * maxTokens + 34).
  { intros Hlt. subst result. unfold TokenLimitService.truncateToLimit.
    cbv zeta. destruct (Z.leb_spec (TokenLimitService.estimateTokens text)
                          maxTokens); [lia|].
    unfold TokenLimitService.slice0.
    destruct (Z.ltb_spec (maxTokens * 4) 0); [lia|].
    replace (maxTokens * 4) with (4 * maxTokens) by lia.
    split; [reflexivity|].
    apply estimateTokens_gt in Hlt.
    rewrite length_app, length_take, truncationMark_length. lia. }
  assert (Hest : maxTokens < TokenLimitService.estimateTokens text ->
            TokenLimitService.estimateTokens result = maxTokens + 9).
  { intros Hlt. destruct (Hcut Hlt) as [_ Hlen].
    unfold TokenLimitService.estimateTokens. rewrite Hlen.
    replace (4 * maxTokens + 34 + 3) with (1 + (maxTokens + 9) * 4) by lia.
    rewrite Z.div_add by lia. reflexivity. }
  split; [|split].
  - intros Hle. subst result. unfold TokenLimitService.truncateToLimit.
    cbv zeta. destruct (Z.leb_spec (TokenLimitService.estimateTokens text)
                          maxTokens); [reflexivity | lia].
  - intros Hlt. destruct (Hcut Hlt). auto.
  - destruct (Z.le_gt_cases (TokenLimitService.estimateTokens text)
                maxTokens) as [Hle | Hlt].
    + assert (result = text) as ->.
      { subst result. unfold TokenLimitService.truncateToLimit. cbv zeta.
        destruct (Z.leb_spec (TokenLimitService.estimateTokens text)
                    maxTokens); [reflexivity | lia]. }
      unfold TokenLimitService.truncateToLimit. cbv zeta.
      destruct (Z.leb_spec (TokenLimitService.estimateTokens text)
                  maxTokens); [reflexivity | lia].
    + destruct (Hcut Hlt) as [Hres Hlen]. specialize (Hest Hlt).
      unfold TokenLimitService.truncateToLimit at 1. cbv zeta.
      destruct (Z.leb_spec (TokenLimitService.estimateTokens result)
                  maxTokens); [lia|].
      unfold TokenLimitService.slice0.
      destruct (Z.ltb_spec (maxTokens * 4) 0); [lia|].
      rewrite Hres at 2. f_equal.
      rewrite Hres. apply estimateTokens_gt in Hlt.
      replace (maxTokens * 4) with (4 * maxTokens) by lia.
      rewrite take_app_le by (rewrite length_take; lia).
      rewrite take_take. f_equal. lia.
Qed.

Lemma truncateToLimit_spec_witness :
  0 <= 1
  /\ TokenLimitService.truncateToLimit
       (TokenLimitService.truncateToLimit (js "abcdefgh") 1) 1
     = TokenLimitService.truncateToLimit (js "abcdefgh") 1.
Proof.
  split; [lia|].
  apply (truncateToLimit_spec (js "abcdefgh") 1). lia.
Defined.

(** [getMaxAllowedPages] is the largest page count [checkPagesAllowed]
    accepts: a document passes the page check exactly when its pages do
    not exceed it. *)
Theorem checkPagesAllowed_iff_max
    (limits : OCRLimitService.OcrLimits) (usage : OCRLimitService.OcrUsage)
    (cta : jsstring) (pageCount : Z) :
  OCRLimitService.allowed
    (OCRLimitService.checkPagesAllowed limits usage cta pageCount) = true
  <-> pageCount <= OCRPages.getMaxAllowedPages limits usage.
Proof.
  unfold OCRLimitService.checkPagesAllowed, OCRPages.getMaxAllowedPages.
  cbv zeta.
  destruct (Z.ltb_spec (OCRLimitService.maxPagesPerDocument limits)
              pageCount);
  [|destruct (Z.ltb_spec (OCRLimitService.maxPagesPerDay limits)
              (OCRLimitService.dailyPages usage + pageCount))];
  cbn [OCRLimitService.allowed]; split; intros; try discriminate;
  try reflexivity; lia.
Qed.

(** The estimate is at least one page, its pages of 100 KB hold the file,
    and, for a file of more than one page, one page less would not. *)
Theorem estimatePageCount_bounds (fileSize : Z) :
  let pages := OCRPages.estimatePageCount fileSize in
  1 <= pages
  /\ fileSize <= pages * 102400
  /\ (102400 < fileSize -> (pages - 1) * 102400 < fileSize).
Proof.
  unfold OCRPages.estimatePageCount. cbv zeta.
  change (100 * 1024) with 102400.
  pose proof (Z.div_mod (fileSize + 102400 - 1) 102400 ltac:(lia)) as Hdm.
  pose proof (Z.mod_pos_bound (fileSize + 102400 - 1) 102400 ltac:(lia)).
  repeat split; try lia.
Qed.

(** ** The practice step of the testimony tool *)

Section PracticeStepFacts.

Import Testimony TestimonyPractice.

(** Where the component stands after [k] calls of [nextQuestion] on a
    session of [len] questions. *)
Lemma nextQuestion_walk s times : forall st k,
  session st = Some s ->
  (k < length (Types.questions s))%nat ->
  currentStep st = practice ->
  currentQuestionIndex st = Z.of_nat k ->
  let final := fold_left (fun st t => nextQuestion t st) times st in
  let n := (k + length times)%nat in
  session final = Some s
  /\ (if (n <? length (Types.questions s))%nat
      then currentStep final = practice
           /\ currentQuestionIndex final = Z.of_nat n
      else currentStep final = review
           /\ currentQuestionIndex final
              = Z.of_nat (length (Types.questions s) - 1)).
Proof.
  set (len := length (Types.questions s)).
  assert (Hreview : forall times st,
            session st = Some s -> currentStep st = review ->
            currentQuestionIndex st = Z.of_nat (len - 1) ->
            let final := fold_left (fun st t => nextQuestion t st) times st in
            session final = Some s /\ currentStep final = review
            /\ currentQuestionIndex final = Z.of_nat (len - 1)).
  { clear times. induction times as [|t times IH]; intros st Hs Hst Hi;
      [cbn; auto|].
    cbn [fold_left]. apply IH.
    - unfold nextQuestion. rewrite Hs. fold len. rewrite Hi.
      destruct (Z.ltb_spec (Z.of_nat (len - 1)) (Z.of_nat len - 1));
        [lia | exact Hs].
    - unfold nextQuestion. rewrite Hs. fold len. rewrite Hi.
      destruct (Z.ltb_spec (Z.of_nat (len - 1)) (Z.of_nat len - 1));
        [lia | reflexivity].
    - unfold nextQuestion. rewrite Hs. fold len. rewrite Hi.
      destruct (Z.ltb_spec (Z.of_nat (len - 1)) (Z.of_nat len - 1));
        [lia | exact Hi]. }
  induction times as [|t times IH]; intros st k Hs Hk Hst Hi.
  - cbn [fold_left length]. rewrite Nat.add_0_r.
    destruct (Nat.ltb_spec k len); [auto | lia].
  - cbn [fold_left length]. cbv zeta.
    replace (k + S (length times))%nat with (S k + length times)%nat by lia.
    destruct (Nat.ltb_spec (S k) len) as [Hlt | Hge].
    + apply (IH (nextQuestion t st) (S k)); try assumption;
        unfold nextQuestion; rewrite Hs; fold len; rewrite Hi;
        (destruct (Z.ltb_spec (Z.of_nat k) (Z.of_nat len - 1)); [|lia]);
        cbn; [exact Hs | exact Hst | lia].
    + assert (Hlast : k = (len - 1)%nat) by lia.
      destruct (Nat.ltb_spec (S k + length times) len); [lia|].
      apply (Hreview times (nextQuestion t st));
        unfold nextQuestion; rewrite Hs; fold len; rewrite Hi;
        (destruct (Z.ltb_spec (Z.of_nat k) (Z.of_nat len - 1)); [lia|]);
        cbn; [exact Hs | reflexivity | rewrite Hi; lia].
Qed.

End PracticeStepFacts.

(** From [startPractice], each call of [nextQuestion] moves to the next
    question while there is one, and the call made on the last question
    opens the review: during practice the index always names a question
    of the session, and the review is reached after as many calls as there
    are questions. *)
Theorem practice_visits_every_question
    (st : Testimony.State) (s : PracticeSession) (start : Z)
    (times : list Z) :
  Testimony.session st = Some s ->
  Types.questions s <> [] ->
  let final :=
    fold_left (fun st t => TestimonyPractice.nextQuestion t st) times
      (TestimonyPractice.startPractice start st) in
  let k := length times in
  let len := length (Types.questions s) in
  ((k < len)%nat ->
     Testimony.currentStep final = Testimony.practice
     /\ Testimony.currentQuestionIndex final = Z.of_nat k
     /\ TestimonyPractice.currentQuestion final = Types.questions s !! k
     /\ is_Some (TestimonyPractice.currentQuestion final))
  /\ ((len <= k)%nat -> Testimony.currentStep final = Testimony.review).
Proof.
  intros Hs Hne final k len.
  assert (Hlen : (0 < len)%nat)
    by (subst len; destruct (Types.questions s); [congruence | simpl; lia]).
  pose proof (nextQuestion_walk s times
                (TestimonyPractice.startPractice start st) 0 Hs Hlen
                eq_refl eq_refl) as [Hses Hwalk].
  cbv zeta in Hwalk. cbn [Nat.add] in Hwalk. fold final k len in Hwalk, Hses.
  split.
  - intros Hk. destruct (Nat.ltb_spec k len); [|lia].
    destruct Hwalk as [Hstep Hidx]. split; [exact Hstep|].
    split; [exact Hidx|].
    assert (Hcur : TestimonyPractice.currentQuestion final
                   = Types.questions s !! k).
    { unfold TestimonyPractice.currentQuestion. rewrite Hses, Hidx.
      destruct (Z.ltb_spec (Z.of_nat k) 0); [lia|].
      now rewrite Nat2Z.id. }
    split; [exact Hcur|]. rewrite Hcur. apply lookup_lt_is_Some. exact Hk.
  - intros Hk. destruct (Nat.ltb_spec k len); [lia|]. apply Hwalk.
Qed.

Lemma practice_visits_every_question_witness :
  let s := {| sessionId := js "session-1"; witnessName := js "Jane Doe";
              caseName := js "Doe v. Roe";
              createdAt := toISOString Scenario.t0;
              documents := [Scenario.notes];
              questions :=
                GenerateQuestions.generateFallbackQuestions
                  Examples.letters 0 (js "Jane Doe")
                  (GenerateQuestions.documents Examples.body) |} in
  Testimony.currentStep
    (fold_left (fun st t => TestimonyPractice.nextQuestion t st)
       (repeat Scenario.t0 20)
       (TestimonyPractice.startPractice Scenario.t0
          (Scenario.testimonyAt s)))
  = Testimony.review.
Proof.
  intros s.
  apply (practice_visits_every_question (Scenario.testimonyAt s) s
           Scenario.t0 (repeat Scenario.t0 20)).
  - reflexivity.
  - discriminate.
  - simpl. lia.
Defined.

(** ** The deposition upload and the usage ledger *)

Section DepositionUploadFacts.

Import Deposition.

Lemma getSessionStats_value limits window now ls ls' :
  stats ls = stats ls' ->
  (Usage.getSessionStats limits window now ls).1
  = (Usage.getSessionStats limits window now ls').1.
Proof.
  intros E. unfold Usage.getSessionStats. rewrite <- E.
  repeat match goal with
         | |- context [match ?x with _ => _ end] => destruct x
         end; reflexivity.
Qed.

Lemma updateDepositionSession_stats id partial ls :
  stats (DepositionStorage.updateDepositionSession id partial ls).2
  = stats ls
  /\ sessions (DepositionStorage.updateDepositionSession id partial ls).2
     = sessions ls.
Proof.
  unfold DepositionStorage.updateDepositionSession.
  destruct (depositions ls !! id); split; reflexivity.
Qed.

Lemma uploadLoop_stats limits now uuidv4 captured files : forall i st ls,
  let after := uploadLoop limits now uuidv4 captured i files st ls in
  stats after.2 = stats ls /\ sessions after.2 = sessions ls.
Proof.
  induction files as [|file files IH]; intros i st ls; [split; reflexivity|].
  cbv zeta. cbn [uploadLoop].
  destruct (atDocumentLimit limits captured); [split; reflexivity|].
  destruct (maxFileSize limits <? fileSize file); [apply IH|].
  destruct (fileText file) as [text|message]; [|apply IH].
  unfold DepositionStorage.addDepositionDocument.
  match goal with
  | |- context [DepositionStorage.updateDepositionSession ?a ?b ?c] =>
      pose proof (updateDepositionSession_stats a b c) as [H1 H2];
      destruct (DepositionStorage.updateDepositionSession a b c)
        as [updated ls1]
  end.
  cbn [snd] in H1, H2.
  match goal with
  | |- context [uploadLoop _ _ _ _ ?j _ ?st' ls1] =>
      destruct (IH j st' ls1) as [H3 H4]
  end.
  split; congruence.
Qed.

End DepositionUploadFacts.

(** The upload of the deposition tool never writes to the usage ledger:
    the count of documents it shows lives in the component only, and a
    reset shows again what the ledger holds, as if nothing had been
    uploaded. *)
Theorem deposition_upload_leaves_ledger
    (limits : DemoLimits) (now : Z) (uuidv4 : nat -> jsstring)
    (files : option (list File)) (st : Deposition.State)
    (ls : LocalStorage) :
  let after := Deposition.handleFileUpload limits now uuidv4 files st ls in
  stats after.2 = stats ls
  /\ sessions after.2 = sessions ls
  /\ forall later,
       let reset := Deposition.resetToSetup limits later in
       Deposition.documentsUsed (reset after.1 after.2).1
       = Deposition.documentsUsed (reset st ls).1
       /\ Deposition.priceUsed (reset after.1 after.2).1
          = Deposition.priceUsed (reset st ls).1.
Proof.
  cbv zeta.
  assert (H : stats (Deposition.handleFileUpload limits now uuidv4 files
                       st ls).2 = stats ls
              /\ sessions (Deposition.handleFileUpload limits now uuidv4
                             files st ls).2 = sessions ls).
  { unfold Deposition.handleFileUpload.
    destruct files as [files|]; [|split; reflexivity].
    destruct (Deposition.session st) as [captured|]; [|split; reflexivity].
    destruct (Deposition.atDocumentLimit limits captured);
      [split; reflexivity|].
    match goal with
    | |- context [Deposition.uploadLoop ?a ?b ?c ?d ?e ?f ?g ?h] =>
        pose proof (uploadLoop_stats a b c d f e g h) as Hl;
        destruct (Deposition.uploadLoop a b c d e f g h) as [st1 ls1]
    end.
    exact Hl. }
  destruct H as [H1 H2]. split; [exact H1|]. split; [exact H2|].
  intros later. unfold Deposition.resetToSetup, Deposition.getSessionStats.
  pose proof (getSessionStats_value limits true later _ _ H1) as Hv.
  destruct (Usage.getSessionStats limits true later
              (Deposition.handleFileUpload limits now uuidv4 files st ls).2)
    as [v1 l1].
  destruct (Usage.getSessionStats limits true later ls) as [v2 l2].
  cbn [fst] in Hv. subst v2. split; reflexivity.
Qed.

(** ** The upload of the testimony tool *)

Section TestimonyUploadFacts.

Import Testimony.

Lemma markDocument_sessions sid docId change st ls :
  sessions (markDocument sid docId change st ls).2
  = match sessions ls !! sid with
    | Some cur =>
        <[sid := SessionStorage.withDocuments
                   (markDocuments docId change (Types.documents cur)) cur]>
          (sessions ls)
    | None => sessions ls
    end.
Proof.
  unfold markDocument, SessionStorage.getSession,
    SessionStorage.updateSession.
  destruct (sessions ls !! sid) as [cur|] eqn:E; reflexivity.
Qed.

Lemma markDocument_stats sid docId change st ls :
  stats (markDocument sid docId change st ls).2 = stats ls.
Proof.
  unfold markDocument, SessionStorage.getSession,
    SessionStorage.updateSession.
  destruct (sessions ls !! sid) as [cur|] eqn:E; reflexivity.
Qed.

(** How the [try] of one file ends: the document is marked ready on a
    store with the same sessions, or an error is thrown. *)
Lemma processAndStore_cases limits now sid docId file st ls :
  (exists text st' ls',
     processAndStore limits now sid docId file st ls
     = inl (markDocument sid docId (withContent text) st' ls')
     /\ sessions ls' = sessions ls)
  \/ exists message,
       processAndStore limits now sid docId file st ls = inr message.
Proof.
  unfold processAndStore.
  destruct (processDocument file) as [[text|message] pageCount];
    [|right; eauto].
  destruct (negb (Ocr.ok (Ocr.POST limits text pageCount)));
    [right; eauto|].
  left. destruct (Ocr.o_cost (Ocr.data (Ocr.POST limits text pageCount)))
    as [cost|]; [destruct (truthy (VNum cost))|];
    eexists _, _, _; (split; [reflexivity|]);
    try reflexivity.
  apply incrementSessionPrice_sessions.
Qed.

(** What one turn of the loop does to the stored sessions. *)
Lemma uploadFile_sessions limits now captured docId file st ls :
  let sid := sessionId captured in
  let after := uploadFile limits now captured docId file st ls in
  match sessions ls !! sid with
  | Some s =>
      exists change,
        (forall d, status (change d) <> processing)
        /\ sessions after.2
           = <[sid := SessionStorage.withDocuments
                        (markDocuments docId change
                           (Types.documents s
                            ++ [processingDocument now docId file])) s]>
               (sessions ls)
  | None => sessions after.2 = sessions ls
  end.
Proof.
  cbv zeta. unfold uploadFile.
  unfold SessionStorage.addDocument, SessionStorage.updateSession.
  fold (processingDocument now docId file).
  destruct (sessions ls !! sessionId captured) as [s|] eqn:Hs.
  - set (s1 := SessionStorage.withDocuments
                 (Types.documents s ++ [processingDocument now docId file]) s).
    set (ls1 := setSessions (<[sessionId captured := s1]> (sessions ls)) ls).
    assert (Hfinish : forall change st' ls',
              sessions ls' = sessions ls1 ->
              sessions (markDocument (sessionId captured) docId change
                          st' ls').2
              = <[sessionId captured :=
                    SessionStorage.withDocuments
                      (markDocuments docId change
                         (Types.documents s
                          ++ [processingDocument now docId file])) s]>
                  (sessions ls)).
    { intros change st' ls' E. rewrite markDocument_sessions, E.
      subst ls1. cbn [setSessions sessions].
      rewrite lookup_insert_eq, insert_insert_eq. reflexivity. }
    destruct (processAndStore_cases limits now (sessionId captured)
                docId file (adopt (Some s1) st) ls1)
      as [(text & st' & ls' & -> & E) | (message & ->)].
    + exists (withContent text). split; [discriminate|]. now apply Hfinish.
    + exists withError. split; [discriminate|]. now apply Hfinish.
  - destruct (processAndStore_cases limits now (sessionId captured)
                docId file (adopt None st) ls)
      as [(text & st' & ls' & -> & E) | (message & ->)];
      rewrite markDocument_sessions; [rewrite E|]; now rewrite Hs.
Qed.

Lemma mark_settled docId change docs doc :
  (forall d, status (change d) <> processing) ->
  id doc = docId ->
  Forall (fun d => status d <> processing) docs ->
  Forall (fun d => status d <> processing)
         (markDocuments docId change (docs ++ [doc])).
Proof.
  intros Hc Hid Hall. unfold markDocuments. rewrite map_app. apply Forall_app. split.
  - clear -Hall Hc. induction Hall as [|d l Hd Hl IH]; [constructor|].
    cbn [List.map]. constructor; [|exact IH].
    destruct (Str.eqb (id d) docId); [apply Hc | exact Hd].
  - cbn [List.map]. constructor; [|constructor].
    assert (Str.eqb (id doc) docId = true) as -> by now apply eqb_eq.
    apply Hc.
Qed.

(** The loop keeps the stored session settled, adds one document for
    each file within the size limit, and leaves the other sessions
    alone. *)
Lemma testimony_uploadLoop limits now uuidv4 captured files :
  forall i st ls,
  let sid := sessionId captured in
  let after := uploadLoop limits now uuidv4 captured i files st ls in
  (settled ls sid -> settled after.2 sid)
  /\ (forall other, other <> sid ->
        sessions after.2 !! other = sessions ls !! other)
  /\ (forall s, sessions ls !! sid = Some s ->
        exists s', sessions after.2 !! sid = Some s'
          /\ length (Types.documents s')
             = (length (Types.documents s)
                + length (accepted limits files))%nat).
Proof.
  induction files as [|file files IH]; intros i st ls; cbv zeta.
  - cbn [uploadLoop snd]. split; [auto|]. split; [auto|].
    intros s Hs. exists s. split; [exact Hs | simpl; lia].
  - cbn [uploadLoop].
    unfold accepted. cbn [List.filter]. fold (accepted limits files).
    destruct (maxFileSize limits <? fileSize file) eqn:Hsize.
    { cbn [negb]. apply IH. }
    pose proof (uploadFile_sessions limits now captured (uuidv4 i) file st ls)
      as Hone. cbv zeta in Hone.
    destruct (uploadFile limits now captured (uuidv4 i) file st ls)
      as [st1 ls1]. cbn [snd] in Hone.
    destruct (IH (S i) st1 ls1) as (Hset & Hother & Hcount).
    destruct (sessions ls !! sessionId captured) as [s|] eqn:Hs.
    + cbn [negb length]. destruct Hone as (change & Hc & Hone).
      split; [|split].
      * intros H. apply Hset. unfold settled. intros s1 Hs1.
        rewrite Hone, lookup_insert_eq in Hs1. injection Hs1 as <-.
        cbn [SessionStorage.withDocuments Types.documents].
        apply mark_settled; [exact Hc | reflexivity | now apply H].
      * intros other Ho. rewrite Hother by exact Ho. rewrite Hone.
        now rewrite lookup_insert_ne by congruence.
      * intros s0 [= <-].
        destruct (Hcount (SessionStorage.withDocuments
                    (markDocuments (uuidv4 i) change
                       (Types.documents s
                        ++ [processingDocument now (uuidv4 i) file])) s))
          as (s' & Hs' & Hl).
        { rewrite Hone. apply lookup_insert_eq. }
        exists s'. split; [exact Hs'|]. rewrite Hl.
        cbn [SessionStorage.withDocuments Types.documents].
        unfold markDocuments. rewrite length_map, length_app. simpl. lia.
    + split; [|split].
      * intros H. apply Hset. unfold settled in *. now rewrite Hone.
      * intros other Ho. rewrite Hother by exact Ho. now rewrite Hone.
      * intros s0 Hs0. discriminate Hs0.
Qed.

End TestimonyUploadFacts.

(** A batch upload in the testimony tool leaves no document of the
    session in the processing state (each one ends ready or failed),
    touches no other session, and, once the session has passed the check
    made before the loop, stores one document for each file within the
    size limit, however many that makes. *)
Theorem testimony_upload_settles
    (limits : DemoLimits) (now : Z) (uuidv4 : nat -> jsstring)
    (files : list File) (st : Testimony.State) (ls : LocalStorage)
    (captured : PracticeSession) :
  Testimony.session st = Some captured ->
  let sid := sessionId captured in
  let after :=
    Testimony.handleFileUpload limits now uuidv4 (Some files) st ls in
  (settled ls sid -> settled after.2 sid)
  /\ (forall other, other <> sid ->
        sessions after.2 !! other = sessions ls !! other)
  /\ (Z.of_nat (length (Types.documents captured))
      < maxDocumentsPerSession limits ->
      forall s, sessions ls !! sid = Some s ->
        exists s', sessions after.2 !! sid = Some s'
          /\ length (Types.documents s')
             = (length (Types.documents s)
                + length (accepted limits files))%nat).
Proof.
  intros Hs sid after. subst sid after.
  unfold Testimony.handleFileUpload. rewrite Hs.
  destruct (Z.leb_spec (maxDocumentsPerSession limits)
              (Z.of_nat (length (Types.documents captured)))) as [Hle|Hgt].
  { cbn [snd]. split; [auto|]. split; [auto|]. intros. lia. }
  pose proof (testimony_uploadLoop limits now uuidv4 captured files 0
                (Testimony.setError None
                   (Testimony.setIsUploadingDocument true st)) ls)
    as Hloop. cbv zeta in Hloop.
  destruct (Testimony.uploadLoop limits now uuidv4 captured 0 files _ ls)
    as [st1 ls1]. cbn [snd] in *.
  destruct Hloop as (H1 & H2 & H3). split; [exact H1|].
  split; [exact H2|]. intros _. exact H3.
Qed.

Lemma testimony_upload_settles_witness :
  let '(s, ls) := Scenario.jane (Scenario.ledger (Dec 0 0) Scenario.t0) in
  settled
    (Testimony.handleFileUpload Scenario.oneDocument Scenario.t0
       (Scenario.ids "doc") (Some [Scenario.fileA; Scenario.fileB])
       (Scenario.testimonyAt s) ls).2
    (sessionId s).
Proof.
  apply (testimony_upload_settles Scenario.oneDocument Scenario.t0
           (Scenario.ids "doc") [Scenario.fileA; Scenario.fileB]
           (Scenario.testimonyAt
              (Scenario.jane (Scenario.ledger (Dec 0 0) Scenario.t0)).1)
           (Scenario.jane (Scenario.ledger (Dec 0 0) Scenario.t0)).2
           (Scenario.jane (Scenario.ledger (Dec 0 0) Scenario.t0)).1).
  - reflexivity.
  - unfold settled. intros s Hs. vm_compute in Hs.
    injection Hs as <-. constructor.
Defined.

(** A file within the size limit whose text is empty (an empty text file,
    a PDF without pages) is refused by the route that prices it: the
    document stays in the session as failed, the message names the file,
    the usage ledger is not touched, and the loop goes on to the next
    file. *)
Theorem empty_text_fails
    (limits : DemoLimits) (now : Z) (uuidv4 : nat -> jsstring)
    (captured s : PracticeSession) (i : nat) (file : File) (pages : Z)
    (files : list File) (st : Testimony.State) (ls : LocalStorage) :
  fileSize file <= maxFileSize limits ->
  processDocument file = (ReadOk [], pages) ->
  sessions ls !! sessionId captured = Some s ->
  let after := Testimony.uploadFile limits now captured (uuidv4 i) file st ls in
  let message := fileName file ++ js ": No text provided" in
  Testimony.uploadLoop limits now uuidv4 captured i (file :: files) st ls
  = Testimony.uploadLoop limits now uuidv4 captured (S i) files
      after.1 after.2
  /\ Testimony.error after.1 = Some message
  /\ Testimony.shown after.1 = message :: Testimony.shown st
  /\ stats after.2 = stats ls
  /\ exists stored,
       sessions after.2 !! sessionId captured = Some stored
       /\ Types.documents stored
          = markDocuments (uuidv4 i) Testimony.withError
              (Types.documents s ++ [processingDocument now (uuidv4 i) file])
       /\ (status <$> last (Types.documents stored)) = Some failed.
Proof.
  intros Hsize Hread Hs. cbv zeta. split.
  { cbn [Testimony.uploadLoop].
    destruct (Z.ltb_spec (maxFileSize limits) (fileSize file)); [lia|].
    destruct (Testimony.uploadFile limits now captured (uuidv4 i) file st ls).
    reflexivity. }
  unfold Testimony.uploadFile.
  unfold SessionStorage.addDocument, SessionStorage.updateSession.
  rewrite Hs. unfold Testimony.processAndStore. rewrite Hread.
  change (Ocr.POST limits [] pages)
    with {| Ocr.status := 400;
            Ocr.data := {| Ocr.o_error := Some (js "No text provided");
                           Ocr.o_text := None; Ocr.o_pageCount := None;
                           Ocr.o_cost := None;
                           Ocr.o_charsProcessed := None |} |}.
  change (negb (Ocr.ok _)) with true. cbv iota.
  cbn [Ocr.data Ocr.o_error default].
  unfold Testimony.markDocument, SessionStorage.getSession,
    SessionStorage.updateSession.
  cbn [setSessions sessions]. rewrite lookup_insert_eq.
  cbn [setSessions sessions stats fst snd Testimony.adopt].
  split; [reflexivity|]. split; [reflexivity|]. split; [reflexivity|].
  rewrite lookup_insert_eq. eexists. split; [reflexivity|].
  cbn [SessionStorage.withDocuments Types.documents].
  split; [reflexivity|].
  unfold markDocuments. rewrite map_app, last_app. cbn [List.map last].
  assert (Str.eqb (uuidv4 i) (uuidv4 i) = true) as E by now apply eqb_eq.
  cbn [id processingDocument]. rewrite E. reflexivity.
Qed.

Lemma empty_text_fails_witness :
  let '(s, ls) := Scenario.jane (Scenario.ledger (Dec 0 0) Scenario.t0) in
  Testimony.error
    (Testimony.uploadFile Scenario.defaults Scenario.t0 s
       (Scenario.ids "doc" 0) (Scenario.textFile "empty.txt" EmptyString)
       (Scenario.testimonyAt s) ls).1
  = Some (js "empty.txt: No text provided").
Proof.
  apply (empty_text_fails Scenario.defaults Scenario.t0 (Scenario.ids "doc")
           (Scenario.jane (Scenario.ledger (Dec 0 0) Scenario.t0)).1
           (Scenario.jane (Scenario.ledger (Dec 0 0) Scenario.t0)).1
           0 (Scenario.textFile "empty.txt" EmptyString) 1 []
           (Scenario.testimonyAt
              (Scenario.jane (Scenario.ledger (Dec 0 0) Scenario.t0)).1)
           (Scenario.jane (Scenario.ledger (Dec 0 0) Scenario.t0)).2).
  - vm_compute. discriminate.
  - reflexivity.
  - vm_compute. reflexivity.
Defined.

(** ** What [JSON.parse] reads as an array *)

Section ArrayFacts.

Ltac bool_to_prop :=
  repeat match goal with
  | H : _ || _ = true |- _ => apply orb_true_iff in H
  | H : _ && _ = true |- _ => apply andb_true_iff in H
  | H : _ || _ = false |- _ => apply orb_false_iff in H
  | H : _ && _ = false |- _ => apply andb_false_iff in H
  | H : (_ =? _)%N = true |- _ => apply N.eqb_eq in H
  | H : (_ =? _)%N = false |- _ => apply N.eqb_neq in H
  | H : (_ <=? _)%N = true |- _ => apply N.leb_le in H
  | H : (_ <=? _)%N = false |- _ => apply N.leb_gt in H
  | H : (_ <? _)%N = true |- _ => apply N.ltb_lt in H
  | H : (_ <? _)%N = false |- _ => apply N.ltb_ge in H
  | H : _ /\ _ |- _ => destruct H
  | H : _ \/ _ |- _ => destruct H
  end.

Ltac split_ifs H :=
  repeat (match type of H with
          | context [if ?b then _ else _] => destruct b eqn:?
          end; try discriminate H).

(** The parser reads a prefix of the tokens; an array starts with an
    opening bracket and ends with a closing one. *)
Lemma parse_consumes f :
  (forall ts v rest, parse_value f ts = Some (v, rest) ->
     exists pre, ts = pre ++ rest
       /\ (isArray v = true ->
           (exists ts', ts = TLBrack :: ts')
           /\ exists pre', pre = pre' ++ [TRBrack]))
  /\ (forall acc ts v rest, parse_elements f acc ts = Some (v, rest) ->
        isArray v = true /\ exists pre, ts = pre ++ TRBrack :: rest)
  /\ (forall acc ts v rest, parse_members f acc ts = Some (v, rest) ->
        isArray v = false /\ exists pre, ts = pre ++ rest).
Proof.
  induction f as [|f (IHv & IHe & IHm)];
    [repeat split; intros; discriminate|].
  split; [|split].
  - intros ts v rest H. simpl in H.
    destruct ts as [|t ts]; [discriminate|].
    destruct t; try discriminate;
      try (injection H as <- <-; eexists [_]; split;
           [reflexivity | intros E; discriminate E]).
    + (* object *)
      destruct ts as [|t ts]; [destruct f; discriminate|].
      assert (Hcases :
        (t = TRBrace /\ v = VObj [] /\ rest = ts)
        \/ parse_members f [] (t :: ts) = Some (v, rest)).
      { destruct t; try (right; exact H).
        left. simpl in H. injection H as <- <-. auto. }
      destruct Hcases as [(-> & -> & ->) | He].
      * exists [TLBrace; TRBrace].
        split; [reflexivity | intros E; discriminate E].
      * destruct (IHm _ _ _ _ He) as [Hv [pre Hpre]].
        exists (TLBrace :: pre). split; [simpl; congruence|].
        rewrite Hv. discriminate.
    + (* array *)
      destruct ts as [|t ts]; [destruct f as [|[|f0]]; discriminate|].
      assert (Hcases :
        (t = TRBrack /\ v = VArr [] /\ rest = ts)
        \/ parse_elements f [] (t :: ts) = Some (v, rest)).
      { destruct t; try (right; exact H).
        left. simpl in H. injection H as <- <-. auto. }
      destruct Hcases as [(-> & -> & ->) | He].
      * exists [TLBrack; TRBrack]. split; [reflexivity|].
        intros _. split; [eauto | exists [TLBrack]; reflexivity].
      * destruct (IHe _ _ _ _ He) as [Hv [pre Hpre]].
        exists (TLBrack :: pre ++ [TRBrack]). split.
        { simpl. rewrite Hpre, <- app_assoc. reflexivity. }
        intros _. split; [eauto|].
        exists (TLBrack :: pre). reflexivity.
  - intros acc ts v rest H. simpl in H.
    destruct (parse_value f ts) as [[x r]|] eqn:Hv; [|discriminate].
    destruct (IHv _ _ _ Hv) as [pre [Hpre _]].
    destruct r as [|t r]; [discriminate|].
    destruct t; try discriminate.
    + injection H as <- <-. split; [reflexivity|]. eauto.
    + destruct (IHe _ _ _ _ H) as [Ha [pre' Hpre']]. split; [exact Ha|].
      exists (pre ++ TComma :: pre'). rewrite Hpre, Hpre', <- app_assoc.
      reflexivity.
  - intros acc ts v rest H. simpl in H.
    destruct ts as [|[] [|[] ts]]; try discriminate.
    destruct (parse_value f ts) as [[x r]|] eqn:Hv; [|discriminate].
    destruct (IHv _ _ _ Hv) as [pre [Hpre _]].
    destruct r as [|t r]; [discriminate|].
    destruct t; try discriminate.
    + injection H as <- <-. split; [reflexivity|].
      exists (TString s :: TColon :: pre ++ [TRBrace]).
      simpl. rewrite Hpre, <- app_assoc. reflexivity.
    + destruct (IHm _ _ _ _ H) as [Ha [pre' Hpre']]. split; [exact Ha|].
      exists (TString s :: TColon :: pre ++ TComma :: pre').
      simpl. rewrite Hpre, Hpre', <- app_assoc. reflexivity.
Qed.

(** The tokens of a text that parses as an array. *)
Lemma parse_array_tokens s items :
  Json.parse s = Some (VArr items) ->
  exists mid, lex s = Some (TLBrack :: mid ++ [TRBrack]).
Proof.
  unfold Json.parse. destruct (lex s) as [ts|]; [|discriminate].
  destruct (parse_value _ ts) as [[v [|? ?]]|] eqn:Hp; try discriminate.
  intros [= ->].
  destruct (parse_consumes (2 * length ts + 2)) as (Hv & _ & _).
  destruct (Hv _ _ _ Hp) as (pre & Hpre & Harr).
  destruct (Harr eq_refl) as [[ts' Hts] [pre' Hpre']].
  rewrite app_nil_r in Hpre. subst pre.
  destruct pre' as [|t pre']; [rewrite Hpre' in Hts; discriminate|].
  rewrite Hpre' in Hts. simpl in Hts. injection Hts as -> _.
  exists pre'. rewrite Hpre'. reflexivity.
Qed.

(** What the lexer has emitted stays, in its order. *)
Lemma lex_step_out st out c st' out' :
  lex_step st out c = Some (st', out') -> exists new, out' = new ++ out.
Proof.
  assert (Hd : forall o st1 o1, default_step o c = Some (st1, o1) ->
                exists new, o1 = new ++ o).
  { intros o st1 o1 H. unfold default_step in H. split_ifs H;
      injection H as <- <-;
      first [exists []; reflexivity | eexists [_]; reflexivity]. }
  intros H. destruct st; simpl in H.
  - eauto.
  - split_ifs H; injection H as <- <-;
      first [exists []; reflexivity | eexists [_]; reflexivity].
  - split_ifs H; injection H as <- <-; exists []; reflexivity.
  - destruct (hexVal c); [|discriminate].
    destruct hex as [|? [|? [|? [|? ?]]]]; injection H as <- <-;
      exists []; reflexivity.
  - destruct (isNumChar c); [injection H as <- <-; exists []; reflexivity|].
    destruct (ofLexeme (rev acc)); [|discriminate].
    destruct (Hd _ _ _ H) as [new ->]. eexists (new ++ [_]).
    rewrite <- app_assoc. reflexivity.
  - destruct (isLower c); [injection H as <- <-; exists []; reflexivity|].
    destruct (wordToken (rev acc)); [|discriminate].
    destruct (Hd _ _ _ H) as [new ->]. eexists (new ++ [_]).
    rewrite <- app_assoc. reflexivity.
Qed.

Lemma lex_run_out s : forall st out st' out',
  lex_run st out s = Some (st', out') -> exists new, out' = new ++ out.
Proof.
  induction s as [|c r IH]; simpl; intros st out st' out' H.
  - injection H as <- <-. exists []. reflexivity.
  - destruct (lex_step st out c) as [[st1 out1]|] eqn:Hs; [|discriminate].
    destruct (lex_step_out _ _ _ _ _ Hs) as [n1 ->].
    destruct (IH _ _ _ _ H) as [n2 ->]. exists (n2 ++ n1).
    rewrite <- app_assoc. reflexivity.
Qed.

Lemma lex_finish_out st out ts :
  lex_finish st out = Some ts -> exists new, ts = rev out ++ new.
Proof.
  destruct st; simpl; try discriminate.
  - intros [= <-]. exists []. now rewrite app_nil_r.
  - destruct (ofLexeme (rev acc)); [|discriminate]. intros [= <-].
    simpl. eauto.
  - destruct (wordToken (rev acc)); [|discriminate]. intros [= <-].
    simpl. eauto.
Qed.

(** The first token, once one has been emitted. *)
Lemma lex_from_first st t s ts :
  match lex_run st [t] s with
  | Some (st', out') => lex_finish st' out'
  | None => None
  end = Some ts ->
  exists rest, ts = t :: rest.
Proof.
  destruct (lex_run st [t] s) as [[st' out']|] eqn:Hr; [|discriminate].
  destruct (lex_run_out _ _ _ _ _ Hr) as [new ->]. intros Hf.
  destruct (lex_finish_out _ _ _ Hf) as [n2 ->].
  rewrite rev_app_distr. simpl. eauto.
Qed.

(** In the middle of a string, a number or a word, the first token is not
    an opening bracket. *)
Lemma lex_pending_first s : forall st ts,
  st <> LDefault ->
  match lex_run st [] s with
  | Some (st', out') => lex_finish st' out'
  | None => None
  end = Some ts ->
  exists t rest, ts = t :: rest /\ t <> TLBrack.
Proof.
  assert (Hd : forall t c st1 o1, t <> TLBrack ->
            default_step [t] c = Some (st1, o1) ->
            exists new, o1 = new ++ [t]).
  { intros t c st1 o1 _ H. unfold default_step in H. split_ifs H;
      injection H as <- <-;
      first [exists []; reflexivity | eexists [_]; reflexivity]. }
  assert (Hfrom : forall t st1 new r ts, t <> TLBrack ->
            match lex_run st1 (new ++ [t]) r with
            | Some (st', out') => lex_finish st' out'
            | None => None
            end = Some ts -> exists t' rest, ts = t' :: rest /\ t' <> TLBrack).
  { intros t st1 new r ts Ht H.
    destruct (lex_run st1 (new ++ [t]) r) as [[st' out']|] eqn:Hr;
      [|discriminate].
    destruct (lex_run_out _ _ _ _ _ Hr) as [n1 ->].
    destruct (lex_finish_out _ _ _ H) as [n2 ->].
    rewrite !rev_app_distr. simpl. eauto. }
  induction s as [|c r IH]; intros st ts Hst H.
  - simpl in H. destruct st; simpl in H; try discriminate; try congruence.
    + destruct (ofLexeme (rev acc)); [|discriminate].
      injection H as <-. simpl. eexists _, _. split; [reflexivity|].
      discriminate.
    + destruct (wordToken (rev acc)) as [t|] eqn:Hw; [|discriminate].
      injection H as <-. simpl. eexists _, _. split; [reflexivity|].
      unfold wordToken in Hw. split_ifs Hw; injection Hw as <-;
        discriminate.
  - simpl in H. destruct st; [congruence| | | | |]; simpl in H.
    + destruct (c =? 34)%N.
      { eapply (Hfrom (TString (rev acc)) LDefault []); [discriminate|].
        exact H. }
      destruct (c =? 92)%N; [apply (IH (LEsc acc)); [discriminate|exact H]|].
      destruct (c <? 32)%N; [discriminate|].
      apply (IH (LStr (c :: acc))); [discriminate | exact H].
    + repeat (destruct (_ || _) eqn:? in H ||
              destruct (_ =? _)%N eqn:? in H);
        try discriminate;
        first [ eapply (IH (LStr _)); [discriminate | exact H]
              | eapply (IH (LUni _ _)); [discriminate | exact H] ].
    + destruct (hexVal c); [|discriminate].
      destruct hex as [|? [|? [|? [|? ?]]]];
        first [ eapply (IH (LStr _)); [discriminate | exact H]
              | eapply (IH (LUni _ _)); [discriminate | exact H] ].
    + destruct (isNumChar c);
        [apply (IH (LNum (c :: acc))); [discriminate | exact H]|].
      destruct (ofLexeme (rev acc)) as [n|]; cbv iota in H;
        [|discriminate H].
      destruct (default_step [TNumber n] c) as [[st1 o1]|] eqn:Hs;
        cbv iota in H; [|discriminate H].
      destruct (Hd (TNumber n) _ _ _ ltac:(discriminate) Hs) as [new ->].
      eapply Hfrom; [|exact H]. discriminate.
    + destruct (isLower c);
        [apply (IH (LWord (c :: acc))); [discriminate | exact H]|].
      destruct (wordToken (rev acc)) as [t|] eqn:Hw; cbv iota in H;
        [|discriminate H].
      assert (t <> TLBrack) as Ht
        by (unfold wordToken in Hw; split_ifs Hw; injection Hw as <-;
            discriminate).
      destruct (default_step [t] c) as [[st1 o1]|] eqn:Hs; cbv iota in H;
        [|discriminate H].
      destruct (Hd _ _ _ _ Ht Hs) as [new ->].
      eapply Hfrom; [exact Ht | exact H].
Qed.

(** A text that parses as an array starts, after white space, with an
    opening bracket. *)
Lemma parse_array_first s items :
  Json.parse s = Some (VArr items) -> exists r, trimStart s = 91%N :: r.
Proof.
  intros Hp. destruct (parse_array_tokens _ _ Hp) as [mid Hl].
  apply lex_trimStart in Hl.
  destruct (trimStart s) as [|c r] eqn:Ht.
  { apply parse_not_blank in Hp. congruence. }
  assert (Hc : isSpace c = false).
  { unfold trimStart in Ht. clear -Ht.
    induction s as [|d s IH]; simpl in Ht; [discriminate|].
    destruct (isSpace d) eqn:E; [auto | congruence]. }
  destruct (N.eq_dec c 91%N) as [->|Hne]; [eauto|]. exfalso.
  unfold lex in Hl. simpl in Hl.
  destruct (default_step [] c) as [[st1 o1]|] eqn:Hs; [|discriminate].
  unfold default_step in Hs. split_ifs Hs; injection Hs as <- <-;
    try (apply lex_from_first in Hl as [? [= ?]]; discriminate);
    try (eapply lex_pending_first in Hl;
         [destruct Hl as (t & rest & [= <- _] & Ht'); congruence
         | discriminate]);
    bool_to_prop; try congruence.
  unfold isJsonSpace, isSpace in *. bool_to_prop; lia.
Qed.

Lemma trimEnd_last s r c : trimEnd s = r ++ [c] -> isSpace c = false.
Proof.
  unfold trimEnd. intros H. apply (f_equal (@rev N)) in H.
  rewrite rev_involutive, rev_app_distr in H. simpl in H.
  clear -H. induction (rev s) as [|d l IH]; simpl in H; [discriminate|].
  destruct (isSpace d) eqn:E; [auto | congruence].
Qed.

(** The character that makes the lexer emit a closing bracket. *)
Lemma lex_step_rbrack st out c o :
  isSpace c = false ->
  lex_step st out c = Some (LDefault, TRBrack :: o) -> c = 93%N.
Proof.
  intros Hc.
  assert (Hd : forall o1 o2, default_step o1 c = Some (LDefault, o2) ->
                o2 = o1 \/ c = 93%N \/ exists t, o2 = t :: o1 /\ t <> TRBrack).
  { intros o1 o2 H. unfold default_step in H. split_ifs H;
      injection H as <-; bool_to_prop; auto;
      right; right; eexists; split; try reflexivity; discriminate. }
  assert (Hsp : isJsonSpace c = false).
  { destruct (isJsonSpace c) eqn:E; [|reflexivity].
    unfold isJsonSpace, isSpace in *. bool_to_prop; lia. }
  intros H. destruct st; simpl in H.
  - unfold default_step in H. rewrite Hsp in H. split_ifs H;
      injection H as <-; bool_to_prop; congruence.
  - split_ifs H; try congruence.
  - split_ifs H; congruence.
  - destruct (hexVal c); [|discriminate].
    destruct hex as [|? [|? [|? [|? ?]]]]; congruence.
  - destruct (isNumChar c); [congruence|].
    destruct (ofLexeme (rev acc)); [|discriminate].
    unfold default_step in H. rewrite Hsp in H. split_ifs H;
      injection H as <-; bool_to_prop; congruence.
  - destruct (isLower c); [congruence|].
    destruct (wordToken (rev acc)) as [t|] eqn:Hw; [|discriminate].
    unfold default_step in H. rewrite Hsp in H. split_ifs H;
      injection H as <-; bool_to_prop; congruence.
Qed.

(** A text that parses as an array ends, before white space, with a
    closing bracket. *)
Lemma parse_array_last s items :
  Json.parse s = Some (VArr items) -> exists r, trimEnd s = r ++ [93%N].
Proof.
  intros Hp. destruct (parse_array_tokens _ _ Hp) as [mid Hl].
  apply lex_trimEnd in Hl.
  assert (Hne : trimEnd s <> []) by (intros E; now rewrite E in Hl).
  destruct (exists_last Hne) as (r & c & Ht). rewrite Ht in Hl.
  pose proof (trimEnd_last _ _ _ Ht) as Hc.
  exists r. rewrite Ht. enough (c = 93%N) as -> by reflexivity.
  unfold lex in Hl. rewrite lex_run_snoc in Hl.
  destruct (lex_run LDefault [] r) as [[st1 out1]|]; [|discriminate].
  destruct (lex_step st1 out1 c) as [[st2 out2]|] eqn:Hs; [|discriminate].
  assert (Hrev : forall o t, rev (t :: o) <> TLBrack :: mid ++ [TRBrack]
                             \/ t = TRBrack).
  { intros o t.
    assert (t = TRBrack \/ t <> TRBrack) as [|Hne']
      by (destruct t; auto; right; discriminate); [auto|left].
    intros E. apply (f_equal (@rev token)) in E.
    rewrite rev_involutive in E. simpl in E.
    rewrite rev_app_distr in E. simpl in E. congruence. }
  destruct st2; simpl in Hl; try discriminate.
  - injection Hl as Hl. destruct out2 as [|t o]; [discriminate|].
    destruct (Hrev o t) as [Hn | ->]; [exact (False_ind _ (Hn Hl))|].
    eapply lex_step_rbrack; eauto.
  - destruct (ofLexeme (rev acc)); [|discriminate]. injection Hl as Hl.
    destruct (Hrev out2 (TNumber n)) as [Hn | Hn];
      [exact (False_ind _ (Hn Hl)) | discriminate Hn].
  - destruct (wordToken (rev acc)) as [t|] eqn:Hw; [|discriminate].
    injection Hl as Hl.
    destruct (Hrev out2 t) as [Hn | ->]; [exact (False_ind _ (Hn Hl))|].
    unfold wordToken in Hw. split_ifs Hw; discriminate.
Qed.

End ArrayFacts.

(** ** The margins the parse strategies strip hold no bracket *)

Section WindowFacts.

Lemma blank_notin c w : isSpace c = false -> blank w = true -> ~ In c w.
Proof.
  intros Hc Hw Hin. unfold blank in Hw.
  rewrite forallb_forall in Hw. specialize (Hw _ Hin). congruence.
Qed.

Lemma trimStart_split s : exists w, blank w = true /\ s = w ++ trimStart s.
Proof.
  unfold trimStart. induction s as [|c r (w & Hw & IH)]; simpl.
  - exists []. auto.
  - destruct (isSpace c) eqn:E.
    + exists (c :: w). split; [simpl; now rewrite E, Hw|].
      simpl. congruence.
    + exists []. auto.
Qed.

Lemma trimEnd_split s : exists w, blank w = true /\ s = trimEnd s ++ w.
Proof.
  unfold trimEnd. destruct (trimStart_split (rev s)) as (w & Hw & E).
  exists (rev w). split; [now apply blank_rev|].
  unfold trimStart in E. rewrite <- rev_app_distr, <- E.
  now rewrite rev_involutive.
Qed.

Lemma startsWith_split p : forall s,
  startsWith p s = true -> s = p ++ drop (length p) s.
Proof.
  induction p as [|a p IH]; intros [|b s]; simpl; try discriminate;
    try reflexivity.
  intros [->%N.eqb_eq H]%andb_true_iff. f_equal. auto.
Qed.

(** A prefix without [c] of a text lies before the first [c]. *)
Lemma prefix_before (c : N) a : forall x p y,
  a ++ x = p ++ c :: y -> ~ In c a -> exists a2, p = a ++ a2.
Proof.
  induction a as [|d a IH]; intros x p y E Hc; [eauto|].
  destruct p as [|e p]; simpl in E.
  - injection E as -> _. exfalso. apply Hc. now left.
  - injection E as -> E. destruct (IH _ _ _ E) as [a2 ->].
    + intros Hin. apply Hc. now right.
    + eauto.
Qed.

(** A suffix without [c] of a text lies after the last [c]. *)
Lemma suffix_after (c : N) b x p y :
  x ++ b = p ++ c :: y -> ~ In c b -> exists b2, y = b2 ++ b.
Proof.
  intros E Hc. apply (f_equal (@rev N)) in E.
  rewrite !rev_app_distr in E. simpl in E. rewrite <- app_assoc in E.
  simpl in E.
  destruct (prefix_before c (rev b) _ _ _ E) as [a2 Ha2].
  - now rewrite <- in_rev.
  - exists (rev a2). apply (f_equal (@rev N)) in Ha2.
    now rewrite rev_involutive, rev_app_distr, rev_involutive in Ha2.
Qed.

Ltac not_in_literal :=
  let H := fresh in
  simpl; intros H;
  repeat (destruct H as [H | H]; [discriminate H|]);
  exact H.

Lemma stripOpeningFence_split s :
  exists p, s = p ++ GenerateQuestions.stripOpeningFence s /\ ~ In 91%N p.
Proof.
  unfold GenerateQuestions.stripOpeningFence.
  destruct (startsWith (js "```") s) eqn:Hs.
  2:{ exists []. split; [reflexivity | apply in_nil]. }
  apply startsWith_split in Hs. simpl length in Hs.
  set (r := drop 3 s) in *.
  assert (Htag : exists t, r = t ++ (if startsWithCI (js "json") r
                                    then drop 4 r else r) /\ ~ In 91%N t).
  { destruct (startsWithCI (js "json") r) eqn:Hci.
    - exists (take 4 r). split; [now rewrite take_drop|].
      unfold startsWithCI in Hci. simpl length in Hci.
      apply startsWith_split in Hci.
      assert (Hlen : (length (toLowerCase (take 4 r)) <= 4)%nat).
      { unfold toLowerCase. rewrite length_map, length_take. lia. }
      rewrite drop_ge in Hci by exact Hlen. rewrite app_nil_r in Hci.
      intros Hin.
      assert (In 91%N (toLowerCase (take 4 r))) as Hin'.
      { unfold toLowerCase. apply in_map_iff.
        exists 91%N. split; [reflexivity | exact Hin]. }
      rewrite Hci in Hin'. revert Hin'. not_in_literal.
    - exists []. split; [reflexivity | apply in_nil]. }
  destruct Htag as (t & Ht & Hnt).
  destruct (trimStart_split (if startsWithCI (js "json") r
                             then drop 4 r else r)) as (w & Hw & Hsplit).
  exists (js "```" ++ t ++ w). split.
  - rewrite Hs at 1. rewrite <- !app_assoc. f_equal. rewrite Ht at 1.
    f_equal. exact Hsplit.
  - rewrite !in_app_iff. intros [Hin | [Hin | Hin]].
    + revert Hin. not_in_literal.
    + auto.
    + revert Hin. apply blank_notin; [reflexivity | exact Hw].
Qed.

Lemma stripClosingFence_split s :
  exists q, s = GenerateQuestions.stripClosingFence s ++ q /\ ~ In 93%N q.
Proof.
  induction s as [|c r (q & Hq & Hn)].
  - exists []. split; [reflexivity | apply in_nil].
  - cbn [GenerateQuestions.stripClosingFence].
    destruct (GenerateQuestions.closingFenceHere (c :: r)) eqn:Hf.
    + exists (c :: r). split; [reflexivity|].
      unfold GenerateQuestions.closingFenceHere in Hf.
      apply orb_true_iff in Hf as [Hf | Hf];
        apply andb_true_iff in Hf as [Hf Hb];
        apply startsWith_split in Hf; rewrite Hf;
        rewrite in_app_iff; (intros [Hin | Hin];
          [ revert Hin; not_in_literal
          | revert Hin; apply blank_notin; [reflexivity | exact Hb] ]).
    + exists q. split; [simpl; congruence | exact Hn].
Qed.

Lemma stripBOM_split s :
  exists p, s = p ++ GenerateQuestions.stripBOM s /\ ~ In 91%N p.
Proof.
  unfold GenerateQuestions.stripBOM.
  destruct s as [|c r]; [exists []; split; [reflexivity | apply in_nil]|].
  destruct (N.eq_dec c 65279%N) as [->|Hne].
  - exists [65279%N]. split; [reflexivity|]. not_in_literal.
  - exists []. split; [|apply in_nil].
    destruct c as [|p]; [reflexivity|].
    repeat (destruct p as [p|p|]; try reflexivity). congruence.
Qed.

(** What strategy 2 parses is a part of the content, and what it left
    out before holds no opening bracket, what it left out after no closing
    one. *)
Lemma cleanAndParse_window content :
  exists a cleaned b,
    content = a ++ cleaned ++ b /\ ~ In 91%N a /\ ~ In 93%N b
    /\ GenerateQuestions.cleanAndParse content = Json.parse cleaned.
Proof.
  unfold GenerateQuestions.cleanAndParse. cbv zeta.
  set (s1 := trim content).
  set (s2 := GenerateQuestions.stripBOM s1).
  set (s3 := GenerateQuestions.stripOpeningFence s2).
  set (s4 := GenerateQuestions.stripClosingFence s3).
  destruct (trimStart_split content) as (w1 & Hw1 & E1).
  destruct (trimEnd_split (trimStart content)) as (w2 & Hw2 & E2).
  fold (trim content) in E2. fold s1 in E2.
  destruct (stripBOM_split s1) as (p1 & E3 & Hp1). fold s2 in E3.
  destruct (stripOpeningFence_split s2) as (p2 & E4 & Hp2). fold s3 in E4.
  destruct (stripClosingFence_split s3) as (q & E5 & Hq). fold s4 in E5.
  destruct (trimStart_split s4) as (w3 & Hw3 & E6).
  destruct (trimEnd_split (trimStart s4)) as (w4 & Hw4 & E7).
  fold (trim s4) in E7.
  exists (w1 ++ p1 ++ p2 ++ w3), (trim s4), (w4 ++ q ++ w2).
  split; [|split; [|split; [|reflexivity]]].
  - rewrite E1 at 1. rewrite E2 at 1. rewrite E3 at 1. rewrite E4 at 1.
    rewrite E5 at 1. rewrite E6 at 1. rewrite E7 at 1.
    rewrite <- !app_assoc. reflexivity.
  - rewrite !in_app_iff.
    intros [Hin | [Hin | [Hin | Hin]]]; try tauto;
      revert Hin; apply blank_notin; (reflexivity || assumption).
  - rewrite !in_app_iff.
    intros [Hin | [Hin | Hin]]; try tauto;
      revert Hin; apply blank_notin; (reflexivity || assumption).
Qed.

(** A part of the content that parses as an array, and whose margins
    hold no bracket, is the array [J], white space apart. *)
Lemma array_in_window pre J1 J0 post a X b xs :
  91%N :: J1 = J0 ++ [93%N] ->
  ~ In 91%N pre -> ~ In 93%N post ->
  pre ++ (91%N :: J1) ++ post = a ++ X ++ b ->
  ~ In 91%N a -> ~ In 93%N b ->
  Json.parse X = Some (VArr xs) ->
  Json.parse (91%N :: J1) = Some (VArr xs).
Proof.
  intros HJ Hpre Hpost E Ha Hb Hp.
  destruct (prefix_before 91 a (X ++ b) pre (J1 ++ post)) as [a2 Ea];
    [now rewrite <- E | exact Ha |].
  destruct (suffix_after 93 b (a ++ X) (pre ++ J0) post) as [b2 Eb];
    [|exact Hb|].
  { rewrite <- !app_assoc. rewrite <- E. rewrite HJ.
    rewrite <- !app_assoc. reflexivity. }
  subst pre post.
  assert (EX : X = a2 ++ (91%N :: J1) ++ b2).
  { rewrite <- !app_assoc in E. apply app_inv_head in E.
    rewrite !app_assoc in E. apply app_inv_tail in E.
    rewrite <- !app_assoc in E. congruence. }
  rewrite in_app_iff in Hpre. rewrite in_app_iff in Hpost.
  assert (Ha2 : ~ In 91%N a2) by tauto.
  assert (Hb2 : ~ In 93%N b2) by tauto.
  assert (Hba : blank a2 = true).
  { destruct (parse_array_first _ _ Hp) as [r Hr]. rewrite EX in Hr.
    unfold trimStart in Hr. clear -Hr Ha2. unfold blank.
    induction a2 as [|c a2 IH]; [reflexivity|]. simpl in *.
    destruct (isSpace c) eqn:Ec.
    - apply IH; [tauto | exact Hr].
    - injection Hr as -> _. exfalso. apply Ha2. now left. }
  assert (Hbb : blank b2 = true).
  { destruct (parse_array_last _ _ Hp) as [r Hr]. rewrite EX, HJ in Hr.
    unfold trimEnd in Hr. apply (f_equal (@rev N)) in Hr.
    rewrite rev_involutive, !rev_app_distr in Hr. simpl in Hr.
    rewrite <- !app_assoc in Hr. simpl in Hr.
    rewrite <- (rev_involutive b2). apply blank_rev.
    assert (Hn : ~ In 93%N (rev b2)) by now rewrite <- in_rev.
    clear -Hr Hn. unfold blank.
    induction (rev b2) as [|c l IH]; [reflexivity|].
    simpl in *. destruct (isSpace c) eqn:Ec.
    - apply IH; [exact Hr | tauto].
    - injection Hr as -> _. exfalso. apply Hn. now left. }
  apply parse_trim in Hp. rewrite EX in Hp.
  rewrite trim_blank_app in Hp by exact Hba.
  rewrite trim_app_blank in Hp by exact Hbb.
  assert (Ht : trim (91%N :: J1) = 91%N :: J1).
  { unfold trim, trimStart. simpl. rewrite HJ.
    apply trimEnd_snoc. reflexivity. }
  now rewrite Ht in Hp.
Qed.

End WindowFacts.

(** ** The parse strategies of the testimony route *)

Section StrategyFacts.

Import GenerateQuestions.

Lemma asArray_Some parsed items :
  asArray parsed = Some items <-> parsed = Some (VArr items).
Proof.
  unfold asArray. destruct parsed as [[]|]; split; congruence.
Qed.

Lemma arrayMatch_part s : forall m,
  arrayMatch s = Some m -> exists a b, s = a ++ m ++ b.
Proof.
  induction s as [|c r IH]; intros m H.
  - discriminate H.
  - cbn [arrayMatch] in H.
    destruct (arrayMatchHere (c :: r)) as [m'|] eqn:Hh.
    + injection H as <-. unfold arrayMatchHere in Hh.
      destruct (N.eq_dec c 91%N) as [->|Hne].
      2:{ destruct c as [|p]; [discriminate|].
          repeat (destruct p as [p|p|]; try discriminate). congruence. }
      destruct (dropWhile isSpace r) as [|d r2]; [discriminate|].
      destruct (N.eq_dec d 123%N) as [->|Hne].
      2:{ destruct d as [|p]; [discriminate|].
          repeat (destruct p as [p|p|]; try discriminate). congruence. }
      destruct (lastClose r2) as [n|]; [|discriminate].
      injection Hh as <-. exists [], (drop (length (91%N :: r) - length r2 + n) (91%N :: r)).
      simpl app. now rewrite take_drop.
    + destruct (IH _ H) as (a & b & ->). exists (c :: a), b. reflexivity.
Qed.

Lemma lastClose_none r : ~ In 93%N r -> lastClose r = None.
Proof.
  induction r as [|c r IH]; intros Hn; [reflexivity|].
  cbn [lastClose]. rewrite IH by (simpl in Hn; tauto).
  destruct (c =? 125)%N; [|reflexivity].
  destruct (dropWhile isSpace r) as [|d t] eqn:Hd; [reflexivity|].
  destruct (N.eq_dec d 93%N) as [->|Hne].
  - exfalso. apply Hn. right.
    destruct (trimStart_split r) as (w & _ & E). unfold trimStart in E.
    rewrite Hd in E. rewrite E. apply in_app_iff. right. now left.
  - destruct d as [|p]; [reflexivity|].
    repeat (destruct p as [p|p|]; try reflexivity). congruence.
Qed.

Lemma lastClose_blank w post :
  blank w = true -> ~ In 93%N post -> lastClose (w ++ 93%N :: post) = None.
Proof.
  intros Hw Hn. induction w as [|c w IH].
  - simpl app. cbn [lastClose]. now rewrite lastClose_none.
  - unfold blank in Hw. simpl in Hw.
    apply andb_true_iff in Hw as [Hc Hw]. simpl app. cbn [lastClose].
    rewrite IH by exact Hw.
    destruct (N.eqb_spec c 125) as [->|_]; [discriminate Hc | reflexivity].
Qed.

Lemma lastClose_app m : forall r n,
  lastClose r = Some n -> lastClose (m ++ r) = Some (length m + n)%nat.
Proof.
  induction m as [|c m IH]; intros r n H; [exact H|].
  simpl app. cbn [lastClose]. now rewrite (IH _ _ H).
Qed.

(** Strategy 3 finds the array of objects that bracket-free text
    surrounds. *)
Lemma arrayMatch_objectArray pre wsA mid wsB post :
  ~ In 91%N pre -> ~ In 93%N post ->
  blank wsA = true -> blank wsB = true ->
  arrayMatch (pre ++ objectArray wsA mid wsB ++ post)
  = Some (objectArray wsA mid wsB).
Proof.
  intros Hpre Hpost HA HB.
  assert (Hhere : arrayMatchHere (objectArray wsA mid wsB ++ post)
                  = Some (objectArray wsA mid wsB)).
  { unfold arrayMatchHere, objectArray. simpl app.
    rewrite <- app_assoc. rewrite dropWhile_blank_app by exact HA.
    simpl app. cbn [dropWhile]. change (isSpace 123) with false. cbv iota.
    assert (Hlast : lastClose ((mid ++ 125%N :: wsB ++ [93%N]) ++ post)
                    = Some (length mid + (length wsB + 2))%nat).
    { rewrite <- app_assoc. apply lastClose_app. simpl app.
      rewrite <- app_assoc. simpl app. cbn [lastClose].
      rewrite lastClose_blank by assumption. simpl N.eqb. cbv iota.
      rewrite dropWhile_blank_app by exact HB. cbn [dropWhile].
      simpl isSpace. cbv iota. f_equal. simpl length.
      rewrite !length_app. simpl length. lia. }
    rewrite Hlast. cbn [fmap option_fmap option_map]. f_equal.
    match goal with
    | |- take ?n ?l = _ =>
        replace n with (length (objectArray wsA mid wsB))
    end.
    - unfold objectArray.
      match goal with
      | |- take _ ?l = ?r => replace l with (r ++ post)
      end.
      + now rewrite take_app_length.
      + repeat (progress (simpl app; rewrite <- ?app_assoc)).
        reflexivity.
    - unfold objectArray. simpl length. rewrite !length_app. simpl length.
      rewrite !length_app. simpl length. rewrite !length_app.
      simpl length. lia. }
  assert (Hcons : forall c r, arrayMatch (c :: r)
                    = match arrayMatchHere (c :: r) with
                      | Some m => Some m
                      | None => arrayMatch r
                      end) by reflexivity.
  induction pre as [|c pre IH]; cbn [app].
  - unfold objectArray in *. simpl app in *. rewrite Hcons.
    now rewrite Hhere.
  - rewrite Hcons.
    assert (Hc : c <> 91%N) by (intros ->; apply Hpre; now left).
    assert (arrayMatchHere (c :: pre ++ objectArray wsA mid wsB ++ post)
            = None) as ->.
    { unfold arrayMatchHere. destruct c as [|p]; [reflexivity|].
      repeat (destruct p as [p|p|]; try reflexivity). congruence. }
    apply IH. simpl in Hpre. tauto.
Qed.

End StrategyFacts.

(** Whatever [parseJSONResponse] returns is what [JSON.parse] reads in a
    part of the content: no strategy repairs or invents an array. *)
Theorem parseJSONResponse_sound (content : jsstring) (items : list value) :
  GenerateQuestions.parseJSONResponse content = Some items ->
  exists a J b,
    content = a ++ J ++ b /\ Json.parse J = Some (VArr items).
Proof.
  unfold GenerateQuestions.parseJSONResponse.
  destruct (GenerateQuestions.asArray (Json.parse content)) as [x|] eqn:H1.
  { intros [= ->]. apply asArray_Some in H1.
    exists [], content, []. now rewrite app_nil_r. }
  destruct (GenerateQuestions.asArray
              (GenerateQuestions.cleanAndParse content)) as [x|] eqn:H2.
  { intros [= ->]. apply asArray_Some in H2.
    destruct (cleanAndParse_window content) as (a & X & b & E & _ & _ & Hc).
    exists a, X, b. split; [exact E | congruence]. }
  destruct (GenerateQuestions.asArray
              (GenerateQuestions.extractAndParse content)) as [x|] eqn:H3.
  { intros [= ->]. apply asArray_Some in H3.
    unfold GenerateQuestions.extractAndParse in H3.
    destruct (GenerateQuestions.arrayMatch content) as [m|] eqn:Hm;
      [|discriminate].
    destruct (arrayMatch_part _ _ Hm) as (a & b & E). eauto. }
  intros H4. apply asArray_Some in H4.
  unfold GenerateQuestions.sliceAndParse in H4.
  destruct (indexOf 91%N content) as [i|]; [|discriminate].
  destruct (lastIndexOf 93%N content) as [j|]; [|discriminate].
  destruct (i <? j)%nat; [|discriminate].
  unfold substring in H4.
  exists (take i content), (take (j + 1 - i) (drop i content)),
         (drop (j + 1 - i) (drop i content)).
  split; [|exact H4]. now rewrite !take_drop.
Qed.

Lemma parseJSONResponse_sound_witness :
  exists a J b,
    js "Here you are: [1, 2]. Good luck!" = a ++ J ++ b
    /\ Json.parse J = Some (VArr [VNum (Dec 1 0); VNum (Dec 2 0)]).
Proof.
  apply (parseJSONResponse_sound (js "Here you are: [1, 2]. Good luck!")).
  vm_compute. reflexivity.
Defined.

(** An array of objects that the answer shows between texts without an
    opening bracket before it and without a closing bracket after it is
    recovered as [JSON.parse] reads it. *)
Theorem array_in_prose_recovered
    (pre wsA mid wsB post : jsstring) (items : list value) :
  ~ In 91%N pre -> ~ In 93%N post ->
  blank wsA = true -> blank wsB = true ->
  Json.parse (objectArray wsA mid wsB) = Some (VArr items) ->
  GenerateQuestions.parseJSONResponse
    (pre ++ objectArray wsA mid wsB ++ post)
  = Some items.
Proof.
  intros Hpre Hpost HA HB Hp.
  assert (HJ : exists J1 J0, objectArray wsA mid wsB = 91%N :: J1
                             /\ 91%N :: J1 = J0 ++ [93%N]).
  { exists (wsA ++ 123%N :: mid ++ 125%N :: wsB ++ [93%N]),
           (91%N :: wsA ++ 123%N :: mid ++ 125%N :: wsB).
    split; [reflexivity|]. simpl. rewrite <- !app_assoc. simpl.
    rewrite <- !app_assoc. reflexivity. }
  destruct HJ as (J1 & J0 & EJ & HJ). rewrite EJ in Hp.
  assert (Hwin : forall a X b xs,
            pre ++ objectArray wsA mid wsB ++ post = a ++ X ++ b ->
            ~ In 91%N a -> ~ In 93%N b ->
            Json.parse X = Some (VArr xs) -> xs = items).
  { intros a X b xs E Ha Hb HX. rewrite EJ in E.
    pose proof (array_in_window _ _ _ _ _ _ _ _ HJ Hpre Hpost E Ha Hb HX).
    congruence. }
  unfold GenerateQuestions.parseJSONResponse.
  destruct (GenerateQuestions.asArray (Json.parse _)) as [x|] eqn:H1.
  { apply asArray_Some in H1. f_equal.
    apply (Hwin [] (pre ++ objectArray wsA mid wsB ++ post) [] x);
      [now rewrite app_nil_r | apply in_nil | apply in_nil | exact H1]. }
  destruct (GenerateQuestions.asArray
              (GenerateQuestions.cleanAndParse _)) as [x|] eqn:H2.
  { apply asArray_Some in H2. f_equal.
    destruct (cleanAndParse_window
                (pre ++ objectArray wsA mid wsB ++ post))
      as (a & X & b & E & Ha & Hb & Hc).
    apply (Hwin a X b x); try assumption. congruence. }
  unfold GenerateQuestions.extractAndParse.
  rewrite arrayMatch_objectArray by assumption.
  rewrite EJ, Hp. reflexivity.
Qed.

Lemma array_in_prose_recovered_witness :
  GenerateQuestions.parseJSONResponse
    (js "Sure! Here are the questions: "
     ++ objectArray [32%N] (js "}, {") [10%N]
     ++ js " Let me know if you need more.")
  = Some [VObj []; VObj []].
Proof.
  apply (array_in_prose_recovered
           (js "Sure! Here are the questions: ") [32%N] (js "}, {") [10%N]
           (js " Let me know if you need more.")).
  - simpl. intros H.
    repeat (destruct H as [H | H]; [discriminate H|]). exact H.
  - simpl. intros H.
    repeat (destruct H as [H | H]; [discriminate H|]). exact H.
  - reflexivity.
  - reflexivity.
  - vm_compute. reflexivity.
Defined.

(** ** The questions built from a parsed answer *)

Section MapFacts.

Import GenerateQuestions.

Lemma toQuestion_None i v :
  toQuestion i v = None <-> v = VNull \/ v = VUndefined.
Proof.
  unfold toQuestion, prop.
  destruct v; split; intros H; try discriminate; auto;
    destruct H; discriminate.
Qed.

Lemma mapQuestions_all uuidv4 vs : forall n,
  Forall (fun v => v <> VNull /\ v <> VUndefined) vs ->
  exists qs,
    mapQuestions uuidv4 n vs = ((n + length vs)%nat, Some qs)
    /\ length qs = length vs
    /\ List.map id qs = List.map uuidv4 (seq n (length vs))
    /\ forall i v, vs !! i = Some v ->
         exists q, qs !! i = Some q
                   /\ toQuestion (uuidv4 (n + i)%nat) v = Some q.
Proof.
  induction vs as [|v vs IH]; intros n Hall.
  - exists []. simpl. rewrite Nat.add_0_r. repeat split; auto.
    intros i v H. destruct i; discriminate H.
  - inversion Hall as [|? ? Hv Hvs]; subst.
    destruct (toQuestion (uuidv4 n) v) as [q|] eqn:Hq.
    2:{ apply toQuestion_None in Hq. tauto. }
    destruct (IH (S n) Hvs) as (qs & Hm & Hl & Hid & Hi).
    exists (q :: qs). cbn [mapQuestions]. rewrite Hq, Hm.
    cbn [fmap option_fmap option_map length].
    replace (n + S (length vs))%nat with (S n + length vs)%nat by lia.
    split; [reflexivity|]. split; [congruence|]. split.
    { cbn [List.map seq]. rewrite Hid. f_equal.
      unfold toQuestion in Hq. destruct (prop v (js "question"));
        [|discriminate]. injection Hq as <-. reflexivity. }
    intros [|i] w Hw; simpl in Hw.
    + injection Hw as <-. exists q. rewrite Nat.add_0_r. auto.
    + destruct (Hi _ _ Hw) as (q' & Hq' & Ht). exists q'.
      replace (n + S i)%nat with (S n + i)%nat by lia. auto.
Qed.


Lemma mapQuestions_Some_all uuidv4 vs : forall n m out,
  mapQuestions uuidv4 n vs = (m, Some out) ->
  Forall (fun v => v <> VNull /\ v <> VUndefined) vs.
Proof.
  induction vs as [|v vs IH]; intros n m out H; [constructor|].
  cbn [mapQuestions] in H.
  destruct (toQuestion (uuidv4 n) v) as [q|] eqn:Hq; [|discriminate H].
  destruct (mapQuestions uuidv4 (S n) vs) as [m' [rest|]] eqn:Hm;
    [|discriminate H].
  constructor; [|eapply IH; eauto].
  split; intros ->; discriminate Hq.
Qed.

Lemma fallback_ids uuidv4 n w docs :
  List.map id (generateFallbackQuestions uuidv4 n w docs)
  = List.map uuidv4 (List.map (fun i => (n + i)%nat) (seq 0 20)).
Proof. reflexivity. Qed.


End MapFacts.



(** When the generator of identifiers never repeats, the questions of a
    response carry pairwise distinct identifiers, whether they were built
    from the answer or are the static set. *)
Theorem returned_ids_distinct
    (limits : DemoLimits) (prompt : jsstring -> jsstring)
    (chat : jsstring -> jsstring -> GenerateQuestions.Completion)
    (uuidv4 : nat -> jsstring)
    (request : option GenerateQuestions.RequestBody)
    (qs : list GenerateQuestions.CrossExamQuestion) :
  (forall i j, uuidv4 i = uuidv4 j -> i = j) ->
  GenerateQuestions.r_questions
    (GenerateQuestions.data
       (GenerateQuestions.POST limits prompt chat uuidv4 request))
  = Some qs ->
  List.NoDup (List.map GenerateQuestions.id qs).
Proof.
  intros Hinj H.
  assert (Hmap : forall l, List.NoDup l -> List.NoDup (List.map uuidv4 l)).
  { intros l Hl. apply Finite.Injective_map_NoDup; [|exact Hl].
    intros i j. apply Hinj. }
  unfold GenerateQuestions.POST in H.
  destruct request as [body|]; [|discriminate H].
  destruct (_ || _); [discriminate H|].
  destruct (bool_decide (GenerateQuestions.documents body = []));
    [discriminate H|].
  destruct (GenerateQuestions.generate _ _ _ _ _)
    as [n [[[questions used] cost] chars]] eqn:Hg.
  destruct (bool_decide (questions = [])) eqn:Hq; simpl in H;
    injection H as <-.
  - rewrite fallback_ids. apply Hmap.
    apply Finite.Injective_map_NoDup; [|apply List.seq_NoDup].
    intros i j. lia.
  - unfold GenerateQuestions.generate in Hg.
    destruct (chat _ _) as [|content];
      [injection Hg as _ <- _ _ _; constructor|].
    destruct (bool_decide (content = []));
      [injection Hg as _ <- _ _ _; constructor|].
    destruct (GenerateQuestions.parseJSONResponse content) as [[|v vs]|];
      try (injection Hg as _ <- _ _ _; constructor).
    destruct (GenerateQuestions.mapQuestions uuidv4 0 (take 20 (v :: vs)))
      as [m [out|]] eqn:Hm;
      [|injection Hg as _ <- _ _ _; constructor].
    injection Hg as _ <- _ _ _.
    pose proof (mapQuestions_Some_all _ _ _ _ _ Hm) as Hall.
    destruct (mapQuestions_all uuidv4 _ 0 Hall) as (qs' & Hm' & _ & Hid & _).
    assert (out = qs') as -> by congruence.
    rewrite Hid. apply Hmap, List.seq_NoDup.
Qed.

Lemma returned_ids_distinct_witness :
  List.NoDup
    (List.map GenerateQuestions.id
       (GenerateQuestions.generateFallbackQuestions Examples.letters 0
          (js "Jane Doe") (GenerateQuestions.documents Examples.body))).
Proof.
  apply (returned_ids_distinct Scenario.defaults Scenario.prompt
           (fun _ _ => GenerateQuestions.Throws) Examples.letters
           (Some Examples.body)).
  - unfold Examples.letters. intros i j H.
    apply (f_equal (@length N)) in H. now rewrite !repeat_length in H.
  - reflexivity.
Defined.

(** ** The practice route *)

Section PracticeFacts.

Lemma indexOf_first c pre rest :
  ~ In c pre -> indexOf c (pre ++ c :: rest) = Some (length pre).
Proof.
  induction pre as [|d pre IH]; intros Hn; simpl.
  - now rewrite N.eqb_refl.
  - destruct (N.eqb_spec d c) as [->|_]; [exfalso; apply Hn; now left|].
    rewrite IH by (simpl in Hn; tauto). reflexivity.
Qed.

Lemma indexOf_none c s : ~ In c s -> indexOf c s = None.
Proof.
  induction s as [|d s IH]; intros Hn; simpl; [reflexivity|].
  destruct (N.eqb_spec d c) as [->|_]; [exfalso; apply Hn; now left|].
  rewrite IH by (simpl in Hn; tauto). reflexivity.
Qed.

Lemma lastIndexOf_none c s : ~ In c s -> lastIndexOf c s = None.
Proof.
  induction s as [|d s IH]; intros Hn; simpl; [reflexivity|].
  rewrite IH by (simpl in Hn; tauto).
  destruct (N.eqb_spec d c) as [->|_]; [exfalso; apply Hn; now left|].
  reflexivity.
Qed.

Lemma lastIndexOf_last c l post :
  ~ In c post -> lastIndexOf c (l ++ c :: post) = Some (length l).
Proof.
  intros Hn. induction l as [|d l IH]; simpl.
  - rewrite lastIndexOf_none by exact Hn. now rewrite N.eqb_refl.
  - now rewrite IH.
Qed.

(** The expression of the practice route matches the braced text that
    brace-free texts surround. *)
Lemma jsonMatch_braced pre mid post :
  ~ In 123%N pre -> ~ In 125%N post ->
  Practice.jsonMatch (pre ++ braced mid ++ post) = Some (braced mid).
Proof.
  intros Hpre Hpost. unfold Practice.jsonMatch, braced.
  cbn [app]. rewrite indexOf_first by exact Hpre.
  replace (pre ++ 123%N :: (mid ++ [125%N]) ++ post)
    with ((pre ++ 123%N :: mid) ++ 125%N :: post)
    by (rewrite <- !app_assoc; reflexivity).
  rewrite lastIndexOf_last by exact Hpost.
  rewrite length_app. cbn [length].
  destruct (Nat.ltb_spec (length pre) (length pre + S (length mid)));
    [|lia].
  f_equal. unfold substring. rewrite <- app_assoc.
  rewrite drop_app_length.
  replace (length pre + S (length mid) + 1 - length pre)%nat
    with (length (123%N :: mid ++ [125%N]))
    by (cbn [length]; rewrite length_app; simpl; lia).
  replace ((123%N :: mid) ++ 125%N :: post)
    with ((123%N :: mid ++ [125%N]) ++ post)
    by (cbn [app]; rewrite <- app_assoc; reflexivity).
  now rewrite take_app_length.
Qed.

Lemma practice_POST_valid limits P chat body :
  Practice.question body <> [] -> Practice.witnessResponse body <> [] ->
  Practice.POST limits P chat (Some body)
  = let userPrompt := Practice.userPromptOf body in
    let '(aiResponse, cost, charsProcessed) :=
      match chat P userPrompt with
      | GenerateQuestions.Throws => (Practice.defaultResponse, Dec 0 0, 0)
      | GenerateQuestions.Content content =>
          let charsProcessed :=
            Z.of_nat (length (P ++ userPrompt ++ content)) in
          let cost :=
            Num.mul (Num.div1000 (Num.ofZ charsProcessed))
                    (pricePerThousandChars limits) in
          (if bool_decide (content = []) then Practice.defaultResponse
           else Practice.readResponse content, cost, charsProcessed)
      end in
    {| Practice.status := 200;
       Practice.data :=
         {| Practice.r_error := None;
            Practice.r_aiResponse := Some aiResponse;
            Practice.r_cost := Some cost;
            Practice.r_charsProcessed := Some charsProcessed |} |}.
Proof.
  intros Hq Hw. unfold Practice.POST.
  rewrite !bool_decide_eq_false_2 by assumption. reflexivity.
Qed.

End PracticeFacts.

(** When the examiner's answer holds one braced text, between texts
    without an opening brace before it and without a closing brace after
    it, the practice route returns what [JSON.parse] reads in the braced
    text. *)
Theorem practice_object_in_prose
    (limits : DemoLimits) (P : jsstring)
    (chat : jsstring -> jsstring -> GenerateQuestions.Completion)
    (body : Practice.RequestBody) (pre mid post : jsstring) (v : value) :
  Practice.question body <> [] ->
  Practice.witnessResponse body <> [] ->
  chat P (Practice.userPromptOf body)
  = GenerateQuestions.Content (pre ++ braced mid ++ post) ->
  ~ In 123%N pre -> ~ In 125%N post ->
  Json.parse (braced mid) = Some v ->
  let r := Practice.POST limits P chat (Some body) in
  Practice.status r = 200
  /\ Practice.r_aiResponse (Practice.data r) = Some v.
Proof.
  intros Hq Hw Hchat Hpre Hpost Hp r. subst r.
  rewrite practice_POST_valid by assumption. cbv zeta. rewrite Hchat.
  rewrite bool_decide_eq_false_2
    by (unfold braced; destruct pre; discriminate).
  unfold Practice.readResponse. rewrite jsonMatch_braced by assumption.
  rewrite Hp. split; reflexivity.
Qed.

Lemma practice_object_in_prose_witness :
  Practice.r_aiResponse
    (Practice.data
       (Practice.POST Scenario.defaults (js "You are opposing counsel.")
          (Examples.answers
             (js "Here is my analysis: "
              ++ braced [] ++ js " Good luck."))
          (Some Examples.practiceBody)))
  = Some (VObj []).
Proof.
  apply (practice_object_in_prose Scenario.defaults
           (js "You are opposing counsel.")
           (Examples.answers
              (js "Here is my analysis: " ++ braced [] ++ js " Good luck."))
           Examples.practiceBody (js "Here is my analysis: ") []
           (js " Good luck.") (VObj [])).
  - discriminate.
  - discriminate.
  - reflexivity.
  - simpl. intros H.
    repeat (destruct H as [H | H]; [discriminate H|]). exact H.
  - simpl. intros H.
    repeat (destruct H as [H | H]; [discriminate H|]). exact H.
  - vm_compute. reflexivity.
Defined.

(** A practice request that names its question and the answer of the
    witness is always answered with status 200 and an [aiResponse].  When
    the remote call throws, or answers nothing, it is the default one and,
    in the first case, nothing is charged; when the answer holds no
    opening brace and is not JSON, the answer itself is the feedback. *)
Theorem practice_always_answers
    (limits : DemoLimits) (P : jsstring)
    (chat : jsstring -> jsstring -> GenerateQuestions.Completion)
    (body : Practice.RequestBody) :
  Practice.question body <> [] ->
  Practice.witnessResponse body <> [] ->
  let r := Practice.POST limits P chat (Some body) in
  let d := Practice.data r in
  let remote := chat P (Practice.userPromptOf body) in
  Practice.status r = 200
  /\ Practice.r_error d = None
  /\ is_Some (Practice.r_aiResponse d)
  /\ (remote = GenerateQuestions.Throws ->
        Practice.r_aiResponse d = Some Practice.defaultResponse
        /\ Practice.r_cost d = Some (Dec 0 0)
        /\ Practice.r_charsProcessed d = Some 0)
  /\ (forall content, remote = GenerateQuestions.Content content ->
        Practice.r_charsProcessed d
        = Some (Z.of_nat (length P
                          + length (Practice.userPromptOf body)
                          + length content))
        /\ (content = [] ->
            Practice.r_aiResponse d = Some Practice.defaultResponse)
        /\ (content <> [] -> ~ In 123%N content ->
            Json.parse content = None ->
            Practice.r_aiResponse d
            = Some (Practice.aiResponseOf
                      (js "Can you elaborate on that answer?") content))).
Proof.
  intros Hq Hw r d remote. subst d r remote.
  rewrite practice_POST_valid by assumption. cbv zeta.
  destruct (chat P (Practice.userPromptOf body)) as [|content] eqn:Hchat.
  - repeat split; try reflexivity; try discriminate. eexists; reflexivity.
  - cbn [Practice.status Practice.data Practice.r_error
         Practice.r_aiResponse Practice.r_cost Practice.r_charsProcessed].
    split; [reflexivity|]. split; [reflexivity|].
    split; [eexists; reflexivity|]. split; [discriminate|].
    intros c [= <-]. split.
    { rewrite !length_app. f_equal. lia. }
    split.
    + intros ->. reflexivity.
    + intros Hne Hno Hp. rewrite bool_decide_eq_false_2 by exact Hne.
      unfold Practice.readResponse, Practice.jsonMatch.
      rewrite indexOf_none by exact Hno. rewrite Hp. reflexivity.
Qed.

Lemma practice_always_answers_witness :
  Practice.status
    (Practice.POST Scenario.defaults (js "You are opposing counsel.")
       (fun _ _ => GenerateQuestions.Throws) (Some Examples.practiceBody))
  = 200.
Proof.
  apply (practice_always_answers Scenario.defaults
           (js "You are opposing counsel.")
           (fun _ _ => GenerateQuestions.Throws) Examples.practiceBody);
    discriminate.
Defined.

(* ===================================================================== *)
(** ** The usage ledger over time                                         *)
(* ===================================================================== *)

Section LedgerTimeFacts.

Variable host : Host.
Variable limits : DemoLimits.

Lemma stats_reset_prop s :
  prop (Usage.statsValue s) (js "sessionResetAt")
  = Some (VStr (Usage.sessionResetAt s)).
Proof. reflexivity. Qed.

(** Before the reset instant the read returns the stats written and
    leaves the store. *)
Lemma read_live clock s r ls :
  stats ls = Some (ledgerOf s) -> normalStats s = true ->
  Usage.sessionResetAt s = toISOString r -> Z.abs r <= maxTime ->
  findsLive host limits clock r ->
  UsageStorage.getSessionStats host limits true clock ls
  = (Ok (Usage.statsValue s), ls).
Proof.
  intros Hs Hn Hr Hmax [[d0 H0] Hlt].
  unfold UsageStorage.getSessionStats. rewrite H0. simpl negb. cbv iota.
  rewrite Hs. pose proof (ledgerOf_nonempty s Hn) as Hne.
  destruct (ledgerOf s) as [|c blob] eqn:E; [contradiction|].
  rewrite <- E, (parse_ledgerOf s Hn), stats_reset_prop, Hr.
  rewrite (newDate_toISOString host r Hmax).
  destruct (Z.leb_spec r (clock 2%nat)); [lia | reflexivity].
Qed.

(** From the reset instant on the read starts a new window. *)
Lemma read_expired clock s r ls resetAt1 :
  stats ls = Some (ledgerOf s) -> normalStats s = true ->
  Usage.sessionResetAt s = toISOString r -> Z.abs r <= maxTime ->
  defaultBuilt host limits (clock 1%nat) ->
  r <= clock 2%nat ->
  UsageStorage.getSessionResetTime host (clock 3%nat) (sessionHours limits)
  = Ok resetAt1 ->
  let resetStats :=
    UsageStorage.zeroed (toISOString (clock 2%nat)) resetAt1 in
  UsageStorage.getSessionStats host limits true clock ls
  = (Ok (Usage.statsValue resetStats), setStats (ledgerOf resetStats) ls).
Proof.
  intros Hs Hn Hr Hmax [d0 H0] Hle H1. cbv zeta.
  unfold UsageStorage.getSessionStats. rewrite H0. simpl negb. cbv iota.
  rewrite Hs. pose proof (ledgerOf_nonempty s Hn) as Hne.
  destruct (ledgerOf s) as [|c blob] eqn:E; [contradiction|].
  rewrite <- E, (parse_ledgerOf s Hn), stats_reset_prop, Hr.
  rewrite (newDate_toISOString host r Hmax).
  destruct (Z.leb_spec r (clock 2%nat)); [|lia].
  rewrite H1. reflexivity.
Qed.

Lemma setStats_same blob ls : stats ls = Some blob -> setStats blob ls = ls.
Proof. destruct ls. simpl. intros ->. reflexivity. Qed.


Lemma document_step clock s r ls :
  stats ls = Some (ledgerOf s) -> normalStats s = true ->
  Usage.sessionResetAt s = toISOString r -> Z.abs r <= maxTime ->
  findsLive host limits clock r ->
  findsLive host limits (UsageStorage.later 4 clock) r ->
  UsageStorage.incrementDocumentsUploaded host limits true clock ls
  = (Ok tt,
     setStats (ledgerOf (withDocumentsUploaded
                           (Num.add (Usage.documentsUploaded s) (Dec 1 0))
                           s)) ls).
Proof.
  intros Hs Hn Hr Hmax H1 H2. unfold UsageStorage.incrementDocumentsUploaded.
  rewrite (read_live clock s r ls) by assumption.
  unfold UsageStorage.updateSessionStats. simpl negb. cbv iota.
  rewrite (read_live (UsageStorage.later 4 clock) s r ls) by assumption.
  destruct s as [d u pr a b]. reflexivity.
Qed.

Lemma storage_step clock s r ls bytes :
  stats ls = Some (ledgerOf s) -> normalStats s = true ->
  Usage.sessionResetAt s = toISOString r -> Z.abs r <= maxTime ->
  findsLive host limits clock r ->
  UsageStorage.updateTotalStorageUsed host limits true clock bytes ls
  = (Ok tt, setStats (ledgerOf (withTotalStorageUsed bytes s)) ls).
Proof.
  intros Hs Hn Hr Hmax H1.
  unfold UsageStorage.updateTotalStorageUsed,
    UsageStorage.updateSessionStats.
  simpl negb. cbv iota.
  rewrite (read_live clock s r ls) by assumption.
  destruct s as [d u pr a b]. reflexivity.
Qed.


Lemma add_one k : Num.add (Num.ofZ k) (Dec 1 0) = Num.ofZ (k + 1).
Proof.
  unfold Num.ofZ. destruct (Z.eq_dec k 0) as [->|Hk]; [reflexivity|].
  destruct (strip_decompose k Hk) as (m & j & Hj & -> & Hm).
  rewrite mkDec_spec by assumption. unfold Num.add.
  rewrite Z.add_0_l, Z.min_r by lia.
  rewrite !Z.sub_0_r. reflexivity.
Qed.


Lemma withDocumentsUploaded_same s :
  withDocumentsUploaded (Usage.documentsUploaded s) s = s.
Proof. destruct s. reflexivity. Qed.

End LedgerTimeFacts.

(** A ledger written by the code is read back as it was written until its
    reset instant, and from that instant on the read replaces it by a
    zeroed record whose window starts at the read, whatever the time zone
    and the clock readings. *)
Theorem ledger_window_boundary
    (host : Host) (limits : DemoLimits) (clock : nat -> Z) (r : Z)
    (s : Usage.SessionStats) (ls : LocalStorage) :
  stats ls = Some (ledgerOf s) -> normalStats s = true ->
  Usage.sessionResetAt s = toISOString r -> Z.abs r <= maxTime ->
  defaultBuilt host limits (clock 1%nat) ->
  (clock 2%nat < r ->
   UsageStorage.getSessionStats host limits true clock ls
   = (Ok (Usage.statsValue s), ls))
  /\ (r <= clock 2%nat ->
      forall resetAt1,
        UsageStorage.getSessionResetTime host (clock 3%nat)
          (sessionHours limits) = Ok resetAt1 ->
        let resetStats :=
          UsageStorage.zeroed (toISOString (clock 2%nat)) resetAt1 in
        UsageStorage.getSessionStats host limits true clock ls
        = (Ok (Usage.statsValue resetStats),
           setStats (ledgerOf resetStats) ls)).
Proof.
  intros Hs Hn Hr Hmax Hb. split.
  - intros H. apply (read_live host limits clock s r ls Hs Hn Hr Hmax).
    split; assumption.
  - intros H d1 H1.
    exact (read_expired host limits clock s r ls d1 Hs Hn Hr Hmax Hb H H1).
Qed.

Lemma ledger_window_boundary_witness :
  let s :=
    UsageStorage.zeroed (toISOString Scenario.t0)
      (toISOString (Scenario.t0 + 24 * Usage.msPerHour)) in
  let ls := Scenario.withLedger (ledgerOf s) in
  UsageStorage.getSessionStats Scenario.newYork Scenario.defaults true
    (Scenario.ticking (Scenario.t0 + 1)) ls
  = (Ok (Usage.statsValue s), ls).
Proof.
  cbv zeta.
  apply (ledger_window_boundary Scenario.newYork Scenario.defaults
           (Scenario.ticking (Scenario.t0 + 1))
           (Scenario.t0 + 24 * Usage.msPerHour)
           (UsageStorage.zeroed (toISOString Scenario.t0)
              (toISOString (Scenario.t0 + 24 * Usage.msPerHour)))).
  - reflexivity.
  - reflexivity.
  - reflexivity.
  - vm_compute. discriminate.
  - eexists. vm_compute. reflexivity.
  - vm_compute. reflexivity.
Defined.

(** The session window runs from the first read to the reset instant that
    read computed: the first read, on a store without ledger, creates the
    zeroed record; every read before the reset instant returns that record
    and leaves the store as the first read left it; a read at the reset
    instant or later returns a zeroed record of its own instant. *)
Theorem session_window_exact
    (host : Host) (limits : DemoLimits) (clock0 : nat -> Z) (R : Z)
    (ls : LocalStorage) :
  stats ls = None ->
  setHours host (getHours host (clock0 1%nat) + sessionHours limits)
    (clock0 1%nat) = Some R ->
  let first := UsageStorage.getSessionStats host limits true clock0 ls in
  let created :=
    UsageStorage.zeroed (toISOString (clock0 0%nat)) (toISOString R) in
  first = (Ok (Usage.statsValue created), setStats (ledgerOf created) ls)
  /\ forall clock1,
       defaultBuilt host limits (clock1 1%nat) ->
       (clock1 2%nat < R ->
        UsageStorage.getSessionStats host limits true clock1 first.2
        = first)
       /\ (R <= clock1 2%nat ->
           forall resetAt1,
             UsageStorage.getSessionResetTime host (clock1 3%nat)
               (sessionHours limits) = Ok resetAt1 ->
             (UsageStorage.getSessionStats host limits true clock1
                first.2).1
             = Ok (Usage.statsValue
                     (UsageStorage.zeroed (toISOString (clock1 2%nat))
                        resetAt1))).
Proof.
  intros Hs HR. cbv zeta.
  assert (Hmax : Z.abs R <= maxTime).
  { unfold setHours, TimeClip in HR.
    match type of HR with
    | (if ?a <=? ?b then _ else _) = _ =>
        destruct (Z.leb_spec a b) as [Hle|]; [|discriminate HR]
    end.
    injection HR as <-. exact Hle. }
  assert (E : UsageStorage.getSessionStats host limits true clock0 ls
              = (Ok (Usage.statsValue
                       (UsageStorage.zeroed (toISOString (clock0 0%nat))
                          (toISOString R))),
                 setStats
                   (ledgerOf
                      (UsageStorage.zeroed (toISOString (clock0 0%nat))
                         (toISOString R))) ls)).
  { unfold UsageStorage.getSessionStats, UsageStorage.getSessionResetTime.
    rewrite HR. simpl negb. cbv iota. rewrite Hs. reflexivity. }
  rewrite E. cbn [fst snd]. split; [reflexivity|]. intros clock1 Hb.
  split.
  - intros H.
    apply (read_live host limits clock1
             (UsageStorage.zeroed (toISOString (clock0 0%nat))
                (toISOString R)) R);
      try reflexivity; try assumption. split; assumption.
  - intros H d1 H1.
    rewrite (read_expired host limits clock1
               (UsageStorage.zeroed (toISOString (clock0 0%nat))
                  (toISOString R)) R _ d1);
      try reflexivity; assumption.
Qed.

Lemma session_window_exact_witness :
  let first :=
    UsageStorage.getSessionStats Scenario.newYork Scenario.defaults true
      (Scenario.ticking (Scenario.t0 + 24 * Usage.msPerHour))
      Scenario.emptyStorage in
  first.1
  = Ok (Usage.statsValue
          (UsageStorage.zeroed (js "2024-11-02T18:00:00.000Z")
             (js "2024-11-03T19:00:00.001Z"))).
Proof.
  cbv zeta.
  destruct (session_window_exact Scenario.newYork Scenario.defaults
              (Scenario.ticking (Scenario.t0 + 24 * Usage.msPerHour))
              (Scenario.t0 + 49 * Usage.msPerHour + 1)
              Scenario.emptyStorage) as [E _].
  - reflexivity.
  - vm_compute. reflexivity.
  - rewrite E. cbn [fst]. vm_compute. reflexivity.
Defined.



(** Calls of [incrementDocumentsUploaded] made before the reset instant
    count: after [n] calls on a ledger whose count is the integer [k], none
    has thrown and the count is [k + n] (the integers being of those that
    doubles count exactly); the price, the storage total and the window
    are as they were. *)
Theorem documents_counted
    (host : Host) (limits : DemoLimits) (r k : Z) (s : Usage.SessionStats)
    (ls : LocalStorage) (clocks : list (nat -> Z)) :
  stats ls = Some (ledgerOf s) -> normalStats s = true ->
  Usage.sessionResetAt s = toISOString r -> Z.abs r <= maxTime ->
  Usage.documentsUploaded s = Num.ofZ k ->
  Z.abs k + Z.of_nat (length clocks) <= 2 ^ 53 ->
  Forall (fun c => findsLive host limits c r
                   /\ findsLive host limits (UsageStorage.later 4 c) r)
         clocks ->
  sequence
    (fun c => UsageStorage.incrementDocumentsUploaded host limits true c)
    clocks ls
  = (Ok tt,
     setStats
       (ledgerOf (withDocumentsUploaded
                    (Num.ofZ (k + Z.of_nat (length clocks))) s)) ls).
Proof.
  intros Hs Hn Hr Hmax Hk _ Ht. revert s ls k Hs Hn Hr Hk.
  induction Ht as [|t ts [H1 H2] _ IH]; intros s ls k Hs Hn Hr Hk.
  - simpl. rewrite Z.add_0_r, <- Hk, withDocumentsUploaded_same. f_equal.
    symmetry. apply setStats_same. exact Hs.
  - cbn [sequence length].
    rewrite (document_step host limits t s r ls) by assumption.
    rewrite Hk, add_one.
    replace (k + Z.of_nat (S (length ts)))
      with (k + 1 + Z.of_nat (length ts)) by lia.
    rewrite (IH (withDocumentsUploaded (Num.ofZ (k + 1)) s) _ (k + 1));
      [ destruct s; reflexivity
      | reflexivity | | destruct s; exact Hr | destruct s; reflexivity].
    destruct s as [d u pr a b]. unfold normalStats in *.
    cbn [Usage.documentsUploaded Usage.totalStorageUsed Usage.sessionPrice
         withDocumentsUploaded] in *.
    apply andb_true_iff in Hn as [Hn Hpr]. apply andb_true_iff in Hn as [_ Hu].
    rewrite Hu, Hpr. unfold Num.ofZ. rewrite mkDec_normal. reflexivity.
Qed.

Lemma documents_counted_witness :
  let s :=
    UsageStorage.zeroed (toISOString Scenario.t0)
      (toISOString (Scenario.t0 + 24 * Usage.msPerHour)) in
  let ls := Scenario.withLedger (ledgerOf s) in
  let clocks := [Scenario.ticking (Scenario.t0 + 1);
                 Scenario.ticking (Scenario.t0 + 20);
                 Scenario.ticking (Scenario.t0 + 300)] in
  sequence
    (fun c =>
       UsageStorage.incrementDocumentsUploaded Scenario.newYork
         Scenario.defaults true c) clocks ls
  = (Ok tt, setStats (ledgerOf (withDocumentsUploaded (Dec 3 0) s)) ls).
Proof.
  cbv zeta.
  apply (documents_counted Scenario.newYork Scenario.defaults
           (Scenario.t0 + 24 * Usage.msPerHour) 0
           (UsageStorage.zeroed (toISOString Scenario.t0)
              (toISOString (Scenario.t0 + 24 * Usage.msPerHour)))
           (Scenario.withLedger
              (ledgerOf
                 (UsageStorage.zeroed (toISOString Scenario.t0)
                    (toISOString (Scenario.t0 + 24 * Usage.msPerHour)))))
           [Scenario.ticking (Scenario.t0 + 1);
            Scenario.ticking (Scenario.t0 + 20);
            Scenario.ticking (Scenario.t0 + 300)]).
  - reflexivity.
  - reflexivity.
  - reflexivity.
  - vm_compute. discriminate.
  - reflexivity.
  - vm_compute. discriminate.
  - repeat constructor; try (eexists; vm_compute; reflexivity).
Defined.

(** [updateTotalStorageUsed] replaces the storage total, it does not add
    to it: before the reset instant the ledger becomes the one written
    with the new total, the count, the price and the window are as they
    were, and the next read returns that record. *)
Theorem storage_total_replaced
    (host : Host) (limits : DemoLimits) (clock clock' : nat -> Z) (r : Z)
    (s : Usage.SessionStats) (ls : LocalStorage) (bytes : number) :
  stats ls = Some (ledgerOf s) -> normalStats s = true ->
  Usage.sessionResetAt s = toISOString r -> Z.abs r <= maxTime ->
  normal bytes = true ->
  findsLive host limits clock r -> findsLive host limits clock' r ->
  let after :=
    setStats (ledgerOf (withTotalStorageUsed bytes s)) ls in
  UsageStorage.updateTotalStorageUsed host limits true clock bytes ls
  = (Ok tt, after)
  /\ UsageStorage.getSessionStats host limits true clock' after
     = (Ok (Usage.statsValue (withTotalStorageUsed bytes s)), after).
Proof.
  intros Hs Hn Hr Hmax Hb Hl Hl'. cbv zeta.
  rewrite (storage_step host limits clock s r ls bytes) by assumption.
  split; [reflexivity|].
  apply (read_live host limits clock' (withTotalStorageUsed bytes s) r);
    [reflexivity | | destruct s; exact Hr | assumption | assumption].
  destruct s as [d u pr a b]. unfold normalStats in *.
  cbn [Usage.documentsUploaded Usage.totalStorageUsed Usage.sessionPrice
       withTotalStorageUsed] in *.
  apply andb_true_iff in Hn as [Hn Hpr]. apply andb_true_iff in Hn as [Hd _].
  rewrite Hd, Hb, Hpr. reflexivity.
Qed.

Lemma storage_total_replaced_witness :
  let s :=
    UsageStorage.zeroed (toISOString Scenario.t0)
      (toISOString (Scenario.t0 + 24 * Usage.msPerHour)) in
  let ls := Scenario.withLedger (ledgerOf s) in
  UsageStorage.updateTotalStorageUsed Scenario.newYork Scenario.defaults
    true (Scenario.ticking (Scenario.t0 + 1)) (Dec 2048 0) ls
  = (Ok tt, setStats (ledgerOf (withTotalStorageUsed (Dec 2048 0) s)) ls).
Proof.
  cbv zeta.
  apply (storage_total_replaced Scenario.newYork Scenario.defaults
           (Scenario.ticking (Scenario.t0 + 1))
           (Scenario.ticking (Scenario.t0 + 2))
           (Scenario.t0 + 24 * Usage.msPerHour)
           (UsageStorage.zeroed (toISOString Scenario.t0)
              (toISOString (Scenario.t0 + 24 * Usage.msPerHour)))).
  - reflexivity.
  - reflexivity.
  - reflexivity.
  - vm_compute. discriminate.
  - reflexivity.
  - split; [eexists|]; vm_compute; reflexivity.
  - split; [eexists|]; vm_compute; reflexivity.
Defined.

(** [calculateTimeRemaining] of a reset instant written by [toISOString]
    shows [0h 0m] once the instant is reached; before it, it shows the
    whole hours and the whole minutes below sixty of the time left,
    rounded down to the minute (the time left being of those that doubles
    count exactly). *)
Theorem time_remaining_shown (host : Host) (now r : Z) :
  Z.abs r <= maxTime -> r - now < 2 ^ 53 ->
  (r <= now ->
   UsageDisplay.calculateTimeRemaining host now (toISOString r)
   = js "0h 0m")
  /\ (now < r ->
      exists h mi,
        UsageDisplay.calculateTimeRemaining host now (toISOString r)
        = Num.toString (Num.ofZ h) ++ js "h "
          ++ Num.toString (Num.ofZ mi) ++ js "m"
        /\ 0 <= h /\ 0 <= mi < 60
        /\ (60 * h + mi) * 60000 <= r - now < (60 * h + mi + 1) * 60000).
Proof.
  intros Hmax _. unfold UsageDisplay.calculateTimeRemaining.
  rewrite (dateOfString_toISOString host r Hmax). cbv zeta.
  split; intros H.
  - destruct (Z.leb_spec (r - now) 0); [reflexivity | lia].
  - destruct (Z.leb_spec (r - now) 0); [lia|].
    exists ((r - now) / (1000 * 60 * 60)),
           (Z.rem (r - now) (1000 * 60 * 60) / (1000 * 60)).
    split; [reflexivity|].
    rewrite Z.rem_mod_nonneg by lia.
    change (1000 * 60 * 60) with 3600000. change (1000 * 60) with 60000.
    Z.div_mod_to_equations. lia.
Qed.

Lemma time_remaining_shown_witness :
  UsageDisplay.calculateTimeRemaining Scenario.newYork
    (Scenario.t0 + 24 * Usage.msPerHour)
    (toISOString (Scenario.t0 + 24 * Usage.msPerHour))
  = js "0h 0m".
Proof.
  apply (time_remaining_shown Scenario.newYork
           (Scenario.t0 + 24 * Usage.msPerHour)
           (Scenario.t0 + 24 * Usage.msPerHour)).
  - vm_compute. discriminate.
  - vm_compute. reflexivity.
  - lia.
Defined.

(** A session that has just been created shows its whole window, where
    the zone keeps its offset until the reset: the time remaining at the
    instant of creation is the session hours and no minutes. *)
Theorem fresh_session_shows_window
    (host : Host) (limits : DemoLimits) (now : Z) :
  0 < sessionHours limits ->
  sessionHours limits * Usage.msPerHour < 2 ^ 53 ->
  offsetAtLocal host
    (LocalTime host now + sessionHours limits * Usage.msPerHour)
  = offsetAt host now ->
  Z.abs (now + sessionHours limits * Usage.msPerHour) <= maxTime ->
  exists resetAt,
    UsageStorage.getSessionResetTime host now (sessionHours limits)
    = Ok resetAt
    /\ UsageDisplay.calculateTimeRemaining host now resetAt
       = Num.toString (Num.ofZ (sessionHours limits)) ++ js "h 0m".
Proof.
  intros Hh _ Ho Hmax. eexists. split.
  { apply getSessionResetTime_same_offset; assumption. }
  unfold UsageDisplay.calculateTimeRemaining.
  rewrite (dateOfString_toISOString host _ Hmax). cbv zeta.
  unfold Usage.msPerHour in *.
  replace (now + sessionHours limits * 3600000 - now)
    with (sessionHours limits * 3600000) by lia.
  destruct (Z.leb_spec (sessionHours limits * 3600000) 0); [lia|].
  change (1000 * 60 * 60) with 3600000. change (1000 * 60) with 60000.
  rewrite Z.div_mul by lia.
  rewrite Z.rem_mul by lia. reflexivity.
Qed.

Lemma fresh_session_shows_window_witness :
  exists resetAt,
    UsageStorage.getSessionResetTime Scenario.newYork Scenario.t0
      (sessionHours Scenario.defaults) = Ok resetAt
    /\ UsageDisplay.calculateTimeRemaining Scenario.newYork Scenario.t0
         resetAt
       = js "24h 0m".
Proof.
  apply (fresh_session_shows_window Scenario.newYork Scenario.defaults
           Scenario.t0).
  - reflexivity.
  - reflexivity.
  - vm_compute. reflexivity.
  - vm_compute. discriminate.
Defined.

Section IdentityFacts.





End IdentityFacts.


(** [clearAllUsage] removes the ledger and nothing else, so the next read
    starts a new window with zeroed counters, whatever the ledger held. *)
Theorem clear_starts_over
    (host : Host) (limits : DemoLimits) (clock : nat -> Z)
    (ls : LocalStorage) (resetAt0 : jsstring) :
  UsageStorage.getSessionResetTime host (clock 1%nat) (sessionHours limits)
  = Ok resetAt0 ->
  let cleared := UsageDisplay.clearAllUsage true ls in
  let defaultStats :=
    UsageStorage.zeroed (toISOString (clock 0%nat)) resetAt0 in
  stats cleared = None
  /\ sessions cleared = sessions ls
  /\ depositions cleared = depositions ls
  /\ currentDeposition cleared = currentDeposition ls
  /\ UsageStorage.getSessionStats host limits true clock cleared
     = (Ok (Usage.statsValue defaultStats),
        setStats (ledgerOf defaultStats) ls)
  /\ UsageDisplay.clearAllUsage false ls = ls.
Proof.
  intros H0. cbv zeta. repeat split; try reflexivity.
  unfold UsageStorage.getSessionStats. rewrite H0. reflexivity.
Qed.

Lemma clear_starts_over_witness :
  stats (UsageDisplay.clearAllUsage true
           (Scenario.withLedger (Scenario.ledger (Dec 2 (-2)) Scenario.t0)))
  = None.
Proof.
  apply (clear_starts_over Scenario.newYork Scenario.defaults
           (Scenario.ticking Scenario.t0)
           (Scenario.withLedger (Scenario.ledger (Dec 2 (-2)) Scenario.t0))
           (js "2024-11-02T18:00:00.001Z")).
  vm_compute. reflexivity.
Defined.

(* ===================================================================== *)
(** ** What is written is read back                                       *)
(* ===================================================================== *)

(** The text [Number::toString] gives for a number is a number of the JSON
    grammar, and denotes that number. *)
Theorem number_text_round_trip (m e : Z) :
  normal (Dec m e) = true ->
  Num.ofLexeme (Num.toString (Dec m e)) = Some (Dec m e).
Proof. apply ofLexeme_toString. Qed.

Lemma number_text_round_trip_witness :
  Num.ofLexeme (js "0.020166") = Some (Dec 20166 (-6)).
Proof. apply (number_text_round_trip 20166 (-6)). reflexivity. Defined.

(** [JSON.parse] reads the text [JSON.stringify] gives for session stats
    as the stats written, whatever their two strings are. *)
Theorem stats_text_round_trip (s : Usage.SessionStats) :
  normalStats s = true ->
  stringify (Usage.statsValue s) <> []
  /\ Json.parse (stringify (Usage.statsValue s))
     = Some (Usage.statsValue s)
  /\ Usage.isSessionStats (Usage.statsValue s) = true.
Proof.
  intros H. split; [exact (ledgerOf_nonempty s H)|].
  split; [exact (parse_ledgerOf s H) | reflexivity].
Qed.

Lemma stats_text_round_trip_witness :
  Json.parse (Scenario.ledger (Dec 2 (-2)) Scenario.t0)
  = Some (Usage.statsValue
            {| Usage.documentsUploaded := Dec 0 0;
               Usage.totalStorageUsed := Dec 0 0;
               Usage.sessionPrice := Dec 2 (-2);
               Usage.sessionStartAt := toISOString Scenario.t0;
               Usage.sessionResetAt :=
                 toISOString (Scenario.t0 + 24 * Usage.msPerHour) |}).
Proof.
  apply (stats_text_round_trip
           {| Usage.documentsUploaded := Dec 0 0;
              Usage.totalStorageUsed := Dec 0 0;
              Usage.sessionPrice := Dec 2 (-2);
              Usage.sessionStartAt := toISOString Scenario.t0;
              Usage.sessionResetAt :=
                toISOString (Scenario.t0 + 24 * Usage.msPerHour) |}).
  reflexivity.
Defined.

(** [Date.parse] and [new Date] read the text [toISOString] writes as the
    instant written, for every instant a date can hold, in every time zone
    and whatever other formats the engine reads. *)
Theorem date_text_round_trip (host : Host) (t : Z) :
  Z.abs t <= maxTime ->
  Date_parse host (toISOString t) = Some t
  /\ newDate host (VStr (toISOString t)) = Ok (Some t).
Proof.
  intros H. split;
    [apply Date_parse_toISOString | apply newDate_toISOString]; exact H.
Qed.

Lemma date_text_round_trip_witness :
  Date_parse Scenario.newYork (js "2024-11-01T18:00:00.000Z")
  = Some Scenario.t0.
Proof.
  apply (date_text_round_trip Scenario.newYork Scenario.t0).
  vm_compute. discriminate.
Defined.

(* ===================================================================== *)
(** ** The ledger of the components                                       *)
(* ===================================================================== *)

(** In a browser of the [plain] host whose clock stands still, and as long
    as the reset instant is in the range of dates, no function of the
    ledger throws, and each does what its counterpart in [Usage] does. *)
Theorem steady_ledger
    (limits : DemoLimits) (window : bool) (now : Z) (ls : LocalStorage) :
  Z.abs (now + sessionHours limits * Usage.msPerHour) <= maxTime ->
  UsageStorage.getSessionStats plain limits window (fun _ => now) ls
  = (Ok (Usage.getSessionStats limits window now ls).1,
     (Usage.getSessionStats limits window now ls).2)
  /\ (forall price,
        UsageStorage.incrementSessionPrice plain limits window
          (fun _ => now) price ls
        = (Ok tt, Usage.incrementSessionPrice limits window now price ls))
  /\ UsageStorage.incrementDocumentsUploaded plain limits window
       (fun _ => now) ls
     = (Ok tt, Usage.incrementDocumentsUploaded limits window now ls)
  /\ (forall updates,
        UsageStorage.updateSessionStats plain limits window (fun _ => now)
          updates ls
        = (Ok tt, Usage.updateSessionStats limits window now updates ls)).
Proof.
  intros H. split; [now apply getSessionStats_steady|].
  split; [intros price; now apply incrementSessionPrice_steady|].
  split; [now apply incrementDocumentsUploaded_steady|].
  intros updates. now apply updateSessionStats_steady.
Qed.

Lemma steady_ledger_witness :
  UsageStorage.getSessionStats plain Scenario.defaults true
    (fun _ => Scenario.t0) Scenario.emptyStorage
  = (Ok (Usage.getSessionStats Scenario.defaults true Scenario.t0
           Scenario.emptyStorage).1,
     (Usage.getSessionStats Scenario.defaults true Scenario.t0
        Scenario.emptyStorage).2).
Proof.
  apply (steady_ledger Scenario.defaults true Scenario.t0
           Scenario.emptyStorage).
  vm_compute. discriminate.
Defined.

(* ===================================================================== *)
(** ** The size limit in the messages                                     *)
(* ===================================================================== *)

(** The size limit as the file-size messages print it: [10] by default,
    and the digits of the double for a limit that is not a whole number of
    megabytes. *)
Theorem size_limit_printed :
  let sized n :=
    DEMO_LIMITS {| DEMO_SESSION_HOURS := None;
                   DEMO_SESSION_PRICE_LIMIT := None;
                   DEMO_MAX_DOCUMENTS_PER_SESSION := None;
                   DEMO_MAX_FILE_SIZE := Some n |} in
  megabytes Scenario.defaults = js "10"
  /\ megabytes (sized 1234567) = js "1.1773748397827148"
  /\ megabytes (sized 1572864) = js "1.5"
  /\ megabytes (sized 1000000) = js "0.95367431640625"
  /\ megabytes (sized 1) = js "9.5367431640625e-7"
  /\ megabytes (sized 0) = js "0"
  /\ megabytes (sized (-524288)) = js "-0.5".
Proof. cbv zeta. repeat split; vm_compute; reflexivity. Qed.
